(** * Pre-merge quality checks: a shallow embedding of [quality-checks/]

    The Python package [quality-checks] runs five validators (security,
    architecture, test coverage, performance, breaking changes) over a
    changeset and aggregates their findings in [quality_orchestrator.py].

    Conventions of the embedding:
    - a Python [str] is a [string]; characters are taken in the ASCII
      range, so [\s], [\w], [\d], [str.lower], [re.IGNORECASE] and
      friends are the ASCII restrictions of their Python meaning;
    - a Python [int] is a [Z];
    - a [Dict[str, V]] is an association list in insertion order
      ([odict V]), because the validators iterate over dictionaries;
    - a Python [set] of strings is a list, iterated in the order chosen by
      the runtime ([set_iter], a field of [PythonRuntime]);
    - code that can raise returns [result A]; [try ... except SyntaxError]
      is [catch_SyntaxError];
    - the [re] module is embedded as a backtracking matcher ([Module Re])
      that reads the source's pattern strings;
    - [ast.parse] followed by [ast.walk] is a field of [PythonRuntime];
    - the recursion limit of the interpreter is a parameter of the
      definitions named [_within]; the definitions without it are the
      runs that stay within the limit. *)

From Stdlib Require Import String Ascii List ZArith Lia Bool Arith PeanoNat Sorted.
From Stdlib Require Import Permutation DecimalString.
Import ListNotations.

Local Open Scope string_scope.
Local Open Scope list_scope.

Set Implicit Arguments.
Set Warnings "-register-all".

(** String concatenation, kept apart from list append. *)
Infix "+++" := String.append (at level 60, right associativity).

(** ** Exceptions and the error monad *)

Inductive exn : Type :=
| KeyError (key : string)
| AttributeError (msg : string)
| TypeError (msg : string)
| SyntaxError
| ValueError (msg : string)
| IndexError
| RecursionError.

Inductive result (A : Type) : Type :=
| Ok (a : A)
| Raise (e : exn).

Arguments Ok {A} a.
Arguments Raise {A} e.

Definition bind {A B : Type} (m : result A) (f : A -> result B) : result B :=
  match m with
  | Ok a => f a
  | Raise e => Raise e
  end.

Notation "x <- m ;; k" := (bind m (fun x => k))
  (at level 61, m at next level, right associativity).

Definition is_ok {A : Type} (m : result A) : bool :=
  match m with Ok _ => true | Raise _ => false end.

(** [try: body except SyntaxError: handler] *)
Definition catch_SyntaxError {A : Type} (body : result A) (handler : result A)
  : result A :=
  match body with
  | Raise SyntaxError => handler
  | other => other
  end.

(** [for x in xs: acc = step acc x], where a step may raise. *)
Fixpoint for_each {A S : Type} (xs : list A) (step : S -> A -> result S)
  (acc : S) : result S :=
  match xs with
  | [] => Ok acc
  | x :: xs' => acc' <- step acc x ;; for_each xs' step acc'
  end.

(** ** Python strings *)

Module Py.

Definition dq : string := String "034"%char EmptyString.
Definition newline : ascii := "010"%char.
Definition nl : string := String newline EmptyString.

Definition code (c : ascii) : nat := nat_of_ascii c.

Definition in_range (lo hi : nat) (c : ascii) : bool :=
  Nat.leb lo (code c) && Nat.leb (code c) hi.

Definition is_upper (c : ascii) : bool := in_range 65 90 c.
Definition is_lower (c : ascii) : bool := in_range 97 122 c.
Definition is_alpha (c : ascii) : bool := is_upper c || is_lower c.
Definition is_digit (c : ascii) : bool := in_range 48 57 c.
(** [\w] *)
Definition is_word (c : ascii) : bool :=
  is_alpha c || is_digit c || Ascii.eqb c "_"%char.
(** [str.isspace] and [\s]: TAB LF VT FF CR, FS GS RS US, SPACE *)
Definition is_space (c : ascii) : bool :=
  in_range 9 13 c || in_range 28 31 c || Nat.eqb (code c) 32.

Definition lower_char (c : ascii) : ascii :=
  if is_upper c then ascii_of_nat (code c + 32) else c.
Definition upper_char (c : ascii) : ascii :=
  if is_lower c then ascii_of_nat (code c - 32) else c.

Fixpoint map_chars (f : ascii -> ascii) (s : string) : string :=
  match s with
  | EmptyString => EmptyString
  | String c s' => String (f c) (map_chars f s')
  end.

(** [s.lower()] *)
Definition lower (s : string) : string := map_chars lower_char s.
(** [s.upper()] *)
Definition upper (s : string) : string := map_chars upper_char s.

(** [s.title()] *)
Fixpoint title_aux (prev_cased : bool) (s : string) : string :=
  match s with
  | EmptyString => EmptyString
  | String c s' =>
      String (if prev_cased then lower_char c else upper_char c)
             (title_aux (is_alpha c) s')
  end.
Definition title (s : string) : string := title_aux false s.

(** [s.startswith(p)] *)
Fixpoint startswith (s p : string) : bool :=
  match p, s with
  | EmptyString, _ => true
  | String a p', String b s' => Ascii.eqb a b && startswith s' p'
  | String _ _, EmptyString => false
  end.

(** [sub in s] *)
Fixpoint contains (sub s : string) : bool :=
  startswith s sub ||
  match s with
  | EmptyString => false
  | String _ s' => contains sub s'
  end.

Fixpoint rev_string_aux (s acc : string) : string :=
  match s with
  | EmptyString => acc
  | String c s' => rev_string_aux s' (String c acc)
  end.
Definition rev_string (s : string) : string := rev_string_aux s EmptyString.

(** [s.endswith(p)] *)
Definition endswith (s p : string) : bool :=
  startswith (rev_string s) (rev_string p).

(** [s.lstrip()], [s.rstrip()], [s.strip()] *)
Fixpoint lstrip_by (f : ascii -> bool) (s : string) : string :=
  match s with
  | EmptyString => EmptyString
  | String c s' => if f c then lstrip_by f s' else s
  end.
Definition rstrip_by (f : ascii -> bool) (s : string) : string :=
  rev_string (lstrip_by f (rev_string s)).
Definition strip_by (f : ascii -> bool) (s : string) : string :=
  rstrip_by f (lstrip_by f s).
Definition lstrip (s : string) : string := lstrip_by is_space s.
Definition strip (s : string) : string := strip_by is_space s.
(** [s.strip(chars)] *)
Definition strip_chars (chars s : string) : string :=
  strip_by (fun c => existsb (Ascii.eqb c) (list_ascii_of_string chars)) s.

(** [s.split(sep)] for a one-character separator *)
Fixpoint split_aux (sep : ascii) (s : string) (cur : string) : list string :=
  match s with
  | EmptyString => [rev_string cur]
  | String c s' =>
      if Ascii.eqb c sep then rev_string cur :: split_aux sep s' EmptyString
      else split_aux sep s' (String c cur)
  end.
Definition split (sep : ascii) (s : string) : list string :=
  split_aux sep s EmptyString.

(** [content.split('\n')] *)
Definition split_lines (s : string) : list string := split newline s.

(** [s.count(c)] for a one-character argument *)
Fixpoint count_char (c : ascii) (s : string) : nat :=
  match s with
  | EmptyString => 0
  | String a s' => (if Ascii.eqb a c then 1 else 0) + count_char c s'
  end.

(** [s.replace(old, new)] for a non-empty [old]: occurrences are replaced
    from the left and do not overlap; [skip] counts the characters of the
    occurrence that is being dropped. *)
Fixpoint replace_aux (old new : string) (s : string) (skip : nat) : string :=
  match s with
  | EmptyString => EmptyString
  | String c s' =>
      match skip with
      | S k => replace_aux old new s' k
      | O =>
          if startswith s old
          then new ++ replace_aux old new s' (String.length old - 1)
          else String c (replace_aux old new s' 0)
      end
  end.
Definition replace (old new s : string) : string := replace_aux old new s 0.

(** [sep.join(parts)] *)
Definition join (sep : string) (parts : list string) : string :=
  String.concat sep parts.

(** [str(n)] for an [int] *)
Definition str_of_Z (n : Z) : string := NilZero.string_of_int (Z.to_int n).
Definition str_of_nat (n : nat) : string := str_of_Z (Z.of_nat n).

(** [enumerate(xs, start)] *)
Fixpoint enumerate {A : Type} (start : Z) (xs : list A) : list (Z * A) :=
  match xs with
  | [] => []
  | x :: xs' => (start, x) :: enumerate (start + 1) xs'
  end.

(** [x in xs] for a list or tuple of strings *)
Definition mem (x : string) (xs : list string) : bool :=
  existsb (String.eqb x) xs.

(** [os.path.basename(p)] (posixpath) *)
Definition basename (p : string) : string := last (split "/"%char p) EmptyString.

(** *** [pathlib.PurePosixPath] *)

(** The root of a path: ["/"], or ["//"] for exactly two leading slashes. *)
Definition path_root (p : string) : string :=
  match p with
  | String "/" (String "/" (String "/" _)) => "/"
  | String "/" (String "/" _) => "//"
  | String "/" _ => "/"
  | _ => EmptyString
  end.

(** The components after the root: empty and ["."] components are
    dropped. *)
Definition path_names (p : string) : list string :=
  filter (fun x => negb (String.eqb x EmptyString || String.eqb x "."))
         (split "/"%char p).

(** [Path(p).parts] *)
Definition path_parts (p : string) : list string :=
  match path_root p with
  | EmptyString => path_names p
  | r => r :: path_names p
  end.

(** [Path(p).name] *)
Definition path_name (p : string) : string := last (path_names p) EmptyString.

(** [str(Path(p))] from a root and the components *)
Definition path_str (root : string) (names : list string) : string :=
  match root, names with
  | EmptyString, [] => "."
  | _, _ => root ++ join "/" names
  end.

(** [str(Path(p).parent)] *)
Definition path_parent (p : string) : string :=
  path_str (path_root p) (removelast (path_names p)).

(** [Path(p).parent.name] *)
Definition path_parent_name (p : string) : string :=
  last (removelast (path_names p)) EmptyString.

End Py.

(** ** The [re] module

    Patterns are kept as the source writes them (raw strings) and parsed
    by [compile].  The matcher is a backtracking matcher in
    continuation-passing style with Python's priorities: alternatives are
    tried from the left, quantifiers are greedy.  The package only
    quantifies single characters and character classes, which is what
    [ROpt], [RStar] and [RPlus] carry. *)

Module Re.

Inductive category : Type :=
| CatSpace | CatNotSpace | CatWord | CatNotWord | CatDigit | CatNotDigit.

Inductive citem : Type :=
| ILit (c : ascii)
| IRange (lo hi : ascii)
| ICat (k : category).

Inductive atom : Type :=
| AChar (c : ascii)
| AAny
| ASet (neg : bool) (items : list citem).

Inductive regex : Type :=
| REmpty
| RAtom (a : atom)
| ROpt (a : atom)
| RStar (a : atom)
| RPlus (a : atom)
| RBol
| REol
| RWordB
| RSeq (r1 r2 : regex)
| RAlt (r1 r2 : regex)
| RGroup (n : nat) (r : regex).

(** *** Matching one character *)

Definition category_has (k : category) (c : ascii) : bool :=
  match k with
  | CatSpace => Py.is_space c
  | CatNotSpace => negb (Py.is_space c)
  | CatWord => Py.is_word c
  | CatNotWord => negb (Py.is_word c)
  | CatDigit => Py.is_digit c
  | CatNotDigit => negb (Py.is_digit c)
  end.

Definition citem_has (i : citem) (c : ascii) : bool :=
  match i with
  | ILit x => Ascii.eqb x c
  | IRange lo hi => Nat.leb (Py.code lo) (Py.code c) && Nat.leb (Py.code c) (Py.code hi)
  | ICat k => category_has k c
  end.

Definition items_have (items : list citem) (c : ascii) : bool :=
  existsb (fun i => citem_has i c) items.

(** [ic] is [re.IGNORECASE]. *)
Definition atom_match (ic : bool) (a : atom) (c : ascii) : bool :=
  match a with
  | AChar x =>
      if ic then Ascii.eqb (Py.lower_char x) (Py.lower_char c) else Ascii.eqb x c
  | AAny => negb (Ascii.eqb c Py.newline)
  | ASet neg items =>
      xorb neg
        (if ic
         then items_have items (Py.lower_char c) || items_have items (Py.upper_char c)
         else items_have items c)
  end.

(** *** Matcher *)

Record mstate : Type := MState {
  rest : list ascii;          (* input not yet consumed *)
  prev : option ascii;        (* the character before [rest] *)
  pos : nat;                  (* offset of [rest] in the subject *)
  caps : list (nat * string)  (* groups closed so far, latest first *)
}.

Definition at_word (c : option ascii) : bool :=
  match c with Some x => Py.is_word x | None => false end.

Definition step_char (st : mstate) (c : ascii) (tl : list ascii) : mstate :=
  MState tl (Some c) (S (pos st)) (caps st).

Section Matcher.
Variable ic : bool.
Variable R : Type.

(** Greedy repetition of one atom: the longest run first, then shorter
    ones, down to the state it started in. *)
Fixpoint star (a : atom) (s : list ascii) (p : option ascii) (n : nat)
  (cs : list (nat * string)) (k : mstate -> option R) : option R :=
  match s with
  | c :: tl =>
      if atom_match ic a c then
        match star a tl (Some c) (S n) cs k with
        | Some r => Some r
        | None => k (MState s p n cs)
        end
      else k (MState s p n cs)
  | [] => k (MState s p n cs)
  end.

Fixpoint run (r : regex) (st : mstate) (k : mstate -> option R) : option R :=
  match r with
  | REmpty => k st
  | RAtom a =>
      match rest st with
      | c :: tl => if atom_match ic a c then k (step_char st c tl) else None
      | [] => None
      end
  | ROpt a =>
      match rest st with
      | c :: tl =>
          if atom_match ic a c then
            match k (step_char st c tl) with
            | Some r => Some r
            | None => k st
            end
          else k st
      | [] => k st
      end
  | RStar a => star a (rest st) (prev st) (pos st) (caps st) k
  | RPlus a =>
      match rest st with
      | c :: tl =>
          if atom_match ic a c
          then star a tl (Some c) (S (pos st)) (caps st) k
          else None
      | [] => None
      end
  | RBol => if Nat.eqb (pos st) 0 then k st else None
  | REol =>
      match rest st with
      | [] => k st
      | [c] => if Ascii.eqb c Py.newline then k st else None
      | _ => None
      end
  | RWordB =>
      if xorb (at_word (prev st)) (at_word (hd_error (rest st))) then k st else None
  | RSeq r1 r2 => run r1 st (fun st' => run r2 st' k)
  | RAlt r1 r2 =>
      match run r1 st k with
      | Some x => Some x
      | None => run r2 st k
      end
  | RGroup n r1 =>
      run r1 st (fun st' =>
        k (MState (rest st') (prev st') (pos st')
             ((n, string_of_list_ascii (firstn (pos st' - pos st) (rest st)))
              :: caps st')))
  end.

End Matcher.

(** A match object: [m.start()], [m.end()], [m.group()] and the groups
    that took part in the match. *)
Record rmatch : Type := RMatch {
  m_start : nat;
  m_end : nat;
  m_text : string;
  m_groups : list (nat * string)
}.

(** [m.group(n)]; [None] when the group took no part in the match. *)
Fixpoint assoc_nat (n : nat) (l : list (nat * string)) : option string :=
  match l with
  | [] => None
  | (i, v) :: l' => if Nat.eqb i n then Some v else assoc_nat n l'
  end.
Definition group (m : rmatch) (n : nat) : option string :=
  match n with
  | O => Some (m_text m)
  | _ => assoc_nat n (m_groups m)
  end.

Definition match_at (ic : bool) (r : regex) (s : list ascii) (p : option ascii)
  (n : nat) : option rmatch :=
  match run ic r (MState s p n []) (fun st => Some st) with
  | Some st =>
      Some (RMatch n (pos st) (string_of_list_ascii (firstn (pos st - n) s)) (caps st))
  | None => None
  end.

(** The leftmost match at or after the current position. *)
Fixpoint search_from (ic : bool) (r : regex) (s : list ascii) (p : option ascii)
  (n : nat) : option rmatch :=
  match match_at ic r s p n with
  | Some m => Some m
  | None =>
      match s with
      | [] => None
      | c :: tl => search_from ic r tl (Some c) (S n)
      end
  end.

(** The non-overlapping matches from the left; [skip] counts the
    characters of the last match still to be passed.  An empty match is
    reported and the scan moves one character on. *)
Fixpoint finditer_from (ic : bool) (r : regex) (s : list ascii) (p : option ascii)
  (n : nat) (skip : nat) : list rmatch :=
  match skip with
  | S k =>
      match s with
      | [] => []
      | c :: tl => finditer_from ic r tl (Some c) (S n) k
      end
  | O =>
      match match_at ic r s p n with
      | Some m =>
          m :: match s with
               | [] => []
               | c :: tl => finditer_from ic r tl (Some c) (S n) (m_end m - n - 1)
               end
      | None =>
          match s with
          | [] => []
          | c :: tl => finditer_from ic r tl (Some c) (S n) 0
          end
      end
  end.

(** *** Parsing pattern strings *)

Definition escape_category (c : ascii) : option category :=
  if Ascii.eqb c "s" then Some CatSpace
  else if Ascii.eqb c "S" then Some CatNotSpace
  else if Ascii.eqb c "w" then Some CatWord
  else if Ascii.eqb c "W" then Some CatNotWord
  else if Ascii.eqb c "d" then Some CatDigit
  else if Ascii.eqb c "D" then Some CatNotDigit
  else None.

(** After a backslash: a category, or an escaped punctuation character.
    Letter and digit escapes other than the categories are not used by
    the package and are refused. *)
Definition escape_item (c : ascii) : option citem :=
  match escape_category c with
  | Some k => Some (ICat k)
  | None => if Py.is_alpha c || Py.is_digit c then None else Some (ILit c)
  end.

Definition is_special (c : ascii) : bool :=
  existsb (Ascii.eqb c) (list_ascii_of_string ".^$*+?{}[]()|\").

(** The items of a character class, up to the closing bracket. *)
Fixpoint parse_set (fuel : nat) (s : list ascii) : option (list citem * list ascii) :=
  match fuel with
  | O => None
  | S f =>
      match s with
      | [] => None
      | "]"%char :: tl => Some ([], tl)
      | "\"%char :: c :: tl =>
          match escape_item c, parse_set f tl with
          | Some i, Some (its, tl') => Some (i :: its, tl')
          | _, _ => None
          end
      | lo :: "-"%char :: hi :: tl =>
          if Ascii.eqb hi "]" then
            match parse_set f ("-"%char :: hi :: tl) with
            | Some (its, tl') => Some (ILit lo :: its, tl')
            | None => None
            end
          else if Ascii.eqb hi "\" then None
          else
            match parse_set f tl with
            | Some (its, tl') => Some (IRange lo hi :: its, tl')
            | None => None
            end
      | c :: tl =>
          match parse_set f tl with
          | Some (its, tl') => Some (ILit c :: its, tl')
          | None => None
          end
      end
  end.

(** One atom: a class, a dot, an escape or a literal character. *)
Definition parse_atom (s : list ascii) : option (atom * list ascii) :=
  match s with
  | [] => None
  | "["%char :: "^"%char :: tl =>
      match parse_set (S (length tl)) tl with
      | Some (its, tl') => Some (ASet true its, tl')
      | None => None
      end
  | "["%char :: tl =>
      match parse_set (S (length tl)) tl with
      | Some (its, tl') => Some (ASet false its, tl')
      | None => None
      end
  | "."%char :: tl => Some (AAny, tl)
  | "\"%char :: c :: tl =>
      match escape_item c with
      | Some (ILit x) => Some (AChar x, tl)
      | Some i => Some (ASet false [i], tl)
      | None => None
      end
  | c :: tl => if is_special c then None else Some (AChar c, tl)
  end.

Definition is_quantifier (c : ascii) : bool :=
  existsb (Ascii.eqb c) (list_ascii_of_string "*+?{").

(** Neither a lazy or possessive suffix nor a quantified group is used by
    the package; both are refused. *)
Definition no_quantifier (s : list ascii) : bool :=
  match s with
  | c :: _ => negb (is_quantifier c)
  | [] => true
  end.

Definition quantified (a : atom) (s : list ascii) : option (regex * list ascii) :=
  match s with
  | "?"%char :: tl => if no_quantifier tl then Some (ROpt a, tl) else None
  | "*"%char :: tl => if no_quantifier tl then Some (RStar a, tl) else None
  | "+"%char :: tl => if no_quantifier tl then Some (RPlus a, tl) else None
  | "{"%char :: _ => None
  | _ => Some (RAtom a, s)
  end.

(** [gn] is the number of the next capturing group. *)
Fixpoint parse_alt (fuel : nat) (gn : nat) (s : list ascii)
  : option (regex * nat * list ascii) :=
  match fuel with
  | O => None
  | S f =>
      match parse_seq f gn s with
      | Some (r1, gn1, "|"%char :: tl) =>
          match parse_alt f gn1 tl with
          | Some (r2, gn2, tl') => Some (RAlt r1 r2, gn2, tl')
          | None => None
          end
      | other => other
      end
  end
with parse_seq (fuel : nat) (gn : nat) (s : list ascii)
  : option (regex * nat * list ascii) :=
  match fuel with
  | O => None
  | S f =>
      match s with
      | [] => Some (REmpty, gn, s)
      | c :: _ =>
          if Ascii.eqb c ")" || Ascii.eqb c "|" then Some (REmpty, gn, s)
          else
            match parse_item f gn s with
            | Some (r1, gn1, tl) =>
                match parse_seq f gn1 tl with
                | Some (REmpty, gn2, tl') => Some (r1, gn2, tl')
                | Some (r2, gn2, tl') => Some (RSeq r1 r2, gn2, tl')
                | None => None
                end
            | None => None
            end
      end
  end
with parse_item (fuel : nat) (gn : nat) (s : list ascii)
  : option (regex * nat * list ascii) :=
  match fuel with
  | O => None
  | S f =>
      match s with
      | "("%char :: "?"%char :: ":"%char :: tl =>
          match parse_alt f gn tl with
          | Some (r, gn1, ")"%char :: tl') =>
              if no_quantifier tl' then Some (r, gn1, tl') else None
          | _ => None
          end
      | "("%char :: "?"%char :: _ => None
      | "("%char :: tl =>
          match parse_alt f (S gn) tl with
          | Some (r, gn1, ")"%char :: tl') =>
              if no_quantifier tl' then Some (RGroup gn r, gn1, tl') else None
          | _ => None
          end
      | "^"%char :: tl => if no_quantifier tl then Some (RBol, gn, tl) else None
      | "$"%char :: tl => if no_quantifier tl then Some (REol, gn, tl) else None
      | "\"%char :: "b"%char :: tl =>
          if no_quantifier tl then Some (RWordB, gn, tl) else None
      | _ =>
          match parse_atom s with
          | Some (a, tl) =>
              match quantified a tl with
              | Some (r, tl') => Some (r, gn, tl')
              | None => None
              end
          | None => None
          end
      end
  end.

(** [re.compile(pattern)]; [None] for a pattern outside the fragment. *)
Definition compile (pattern : string) : option regex :=
  let s := list_ascii_of_string pattern in
  match parse_alt (3 * length s + 3) 1 s with
  | Some (r, _, []) => Some r
  | _ => None
  end.

(** *** The functions of the module

    A pattern that does not compile matches nothing; every pattern of
    the package compiles (see [patterns_compile] below). *)

(** [re.search(pattern, s, flags)] *)
Definition search_rx (ic : bool) (r : regex) (s : string) : option rmatch :=
  search_from ic r (list_ascii_of_string s) None 0.
Definition search_m (ic : bool) (pattern s : string) : option rmatch :=
  match compile pattern with
  | Some r => search_rx ic r s
  | None => None
  end.
Definition is_some {A : Type} (o : option A) : bool :=
  match o with Some _ => true | None => false end.
(** [bool(re.search(pattern, s))] *)
Definition search (pattern s : string) : bool := is_some (search_m false pattern s).
(** [bool(re.search(pattern, s, re.IGNORECASE))] *)
Definition search_i (pattern s : string) : bool := is_some (search_m true pattern s).

(** [re.match(pattern, s)] *)
Definition match_m (pattern s : string) : option rmatch :=
  match compile pattern with
  | Some r => match_at false r (list_ascii_of_string s) None 0
  | None => None
  end.
Definition match_ (pattern s : string) : bool := is_some (match_m pattern s).

(** [re.finditer(pattern, s, flags)] *)
Definition finditer (ic : bool) (pattern s : string) : list rmatch :=
  match compile pattern with
  | Some r => finditer_from ic r (list_ascii_of_string s) None 0 0
  | None => []
  end.

(** [re.findall(pattern, s)]: only its length is used. *)
Definition findall_count (pattern s : string) : nat :=
  List.length (finditer false pattern s).

End Re.

(** ** Dictionaries in insertion order *)

Definition odict (V : Type) : Type := list (string * V).

Fixpoint od_get {V : Type} (d : odict V) (k : string) : option V :=
  match d with
  | [] => None
  | (k', v) :: d' => if String.eqb k' k then Some v else od_get d' k
  end.

(** [d[k] = v]: an existing key keeps its place, a new key goes last. *)
Fixpoint od_set {V : Type} (d : odict V) (k : string) (v : V) : odict V :=
  match d with
  | [] => [(k, v)]
  | (k', v') :: d' =>
      if String.eqb k' k then (k', v) :: d' else (k', v') :: od_set d' k v
  end.

Definition od_keys {V : Type} (d : odict V) : list string := map fst d.
Definition od_values {V : Type} (d : odict V) : list V := map snd d.

(** [for findings in results.values(): out.extend(findings)] *)
Definition od_flatten {V : Type} (d : odict (list V)) : list V :=
  concat (od_values d).

(** [if k not in d: d[k] = []] followed by [d[k].append(x)] *)
Definition dict_append {V : Type} (d : odict (list V)) (k : string) (x : V)
  : odict (list V) :=
  match od_get d k with
  | Some xs => od_set d k (xs ++ [x])
  | None => od_set d k [x]
  end.

(** [sorted(xs, key=...)]: the sort is stable; [le] compares the keys of
    two elements. *)
Fixpoint insert_sorted {A : Type} (le : A -> A -> bool) (x : A) (l : list A) : list A :=
  match l with
  | [] => [x]
  | y :: l' => if le x y then x :: l else y :: insert_sorted le x l'
  end.
Definition sorted_by {A : Type} (le : A -> A -> bool) (l : list A) : list A :=
  fold_right (insert_sorted le) [] l.

(** ** [security_checks.py] *)

Inductive Severity : Type := CRITICAL | HIGH | MEDIUM | LOW.

(** [Severity.value] *)
Definition Severity_value (s : Severity) : string :=
  match s with
  | CRITICAL => "critical"
  | HIGH => "high"
  | MEDIUM => "medium"
  | LOW => "low"
  end.

Definition Severity_eqb (a b : Severity) : bool :=
  match a, b with
  | CRITICAL, CRITICAL | HIGH, HIGH | MEDIUM, MEDIUM | LOW, LOW => true
  | _, _ => false
  end.

Record SecurityFinding : Type := mkSecurityFinding {
  sf_check_name : string;
  sf_severity : Severity;
  sf_file_path : string;
  sf_line_number : Z;
  sf_line_content : string;
  sf_message : string;
  sf_pattern_matched : string;
  sf_suggested_fix : string
}.

(** The quote classes that the credential patterns share:
    [QUOTE] is the pattern text of a class of the two quote characters,
    [NOT_QUOTES] the text of one or more characters other than them. *)
Definition QUOTE : string := "[" +++ Py.dq +++ "\']".
Definition NOT_QUOTES : string := "[^" +++ Py.dq +++ "\']+".
Definition QUOTED : string := QUOTE +++ NOT_QUOTES +++ QUOTE.

Definition CREDENTIAL_PATTERNS : list (string * string) :=
  [ ("api[_-]?key\s*[=:]\s*" +++ QUOTED, "API key");
    ("apikey\s*[=:]\s*" +++ QUOTED, "API key");
    ("aws[_-]?access[_-]?key[_-]?id\s*[=:]\s*" +++ QUOTED, "AWS access key");
    ("aws[_-]?secret[_-]?access[_-]?key\s*[=:]\s*" +++ QUOTED, "AWS secret key");
    ("password\s*[=:]\s*" +++ QUOTED, "Password");
    ("passwd\s*[=:]\s*" +++ QUOTED, "Password");
    ("pwd\s*[=:]\s*" +++ QUOTED, "Password");
    ("token\s*[=:]\s*" +++ QUOTED, "Token");
    ("auth[_-]?token\s*[=:]\s*" +++ QUOTED, "Auth token");
    ("bearer\s*[=:]\s*" +++ QUOTED, "Bearer token");
    ("-----BEGIN (RSA|DSA|EC|OPENSSH) PRIVATE KEY-----", "Private key");
    ("db[_-]?password\s*[=:]\s*" +++ QUOTED, "Database password");
    ("database[_-]?url\s*[=:]\s*" +++ QUOTE +++ ".*:[^@]+@.*" +++ QUOTE,
     "Database connection string");
    ("client[_-]?secret\s*[=:]\s*" +++ QUOTED, "Client secret");
    ("jwt[_-]?secret\s*[=:]\s*" +++ QUOTED, "JWT secret") ].

Definition EXCLUDE_PATTERNS : list string :=
  [ "test[_-]?"; "example"; "sample"; "demo"; "fake"; "mock"; "placeholder";
    "xxx+"; "<[^>]+>" ].

(** [HardcodedCredentialsCheck._is_excluded] *)
Definition HardcodedCredentialsCheck__is_excluded (matched_text : string) : bool :=
  existsb (fun exclude_pattern => Re.search_i exclude_pattern matched_text)
          EXCLUDE_PATTERNS.

Definition credential_finding (file_path : string) (line_num : Z) (line : string)
  (pattern cred_type : string) : SecurityFinding :=
  mkSecurityFinding "hardcoded_credentials" CRITICAL file_path line_num
    (Py.strip line)
    ("Hardcoded " +++ cred_type
       +++ " detected. Use environment variables or AWS Secrets Manager.")
    pattern
    "Use: value = os.getenv('VARIABLE_NAME')".

(** The findings of one pattern on one line: one per match that is not
    excluded (the innermost loop of [check]). *)
Definition credential_matches (file_path : string) (line_num : Z) (line : string)
  (entry : string * string) : list SecurityFinding :=
  let '(pattern, cred_type) := entry in
  flat_map (fun m =>
              if HardcodedCredentialsCheck__is_excluded (Re.m_text m) then []
              else [credential_finding file_path line_num line pattern cred_type])
           (Re.finditer true pattern line).

Definition is_comment_line (line : string) : bool :=
  Py.startswith (Py.strip line) "#" || Py.startswith (Py.strip line) "//".

(** [HardcodedCredentialsCheck.check] *)
Definition HardcodedCredentialsCheck_check (file_path content : string)
  : list SecurityFinding :=
  flat_map (fun '(line_num, line) =>
              if is_comment_line line then []
              else flat_map (credential_matches file_path line_num line)
                            CREDENTIAL_PATTERNS)
           (Py.enumerate 1 (Py.split_lines content)).

Definition SQL_INJECTION_PATTERNS : list (string * string) :=
  [ ("execute\s*\(\s*" +++ QUOTE +++ ".*\{\}.*" +++ QUOTE +++ ".*\.format",
     "String formatting in SQL query");
    ("execute\s*\(\s*f" +++ QUOTE +++ ".*\{.*\}.*" +++ QUOTE, "F-string in SQL query");
    ("execute\s*\(\s*" +++ QUOTE +++ ".*%s.*" +++ QUOTE +++ ".*%\s*[^(]",
     "Old-style string formatting in SQL");
    ("raw\s*\(\s*f" +++ QUOTE, "F-string in raw SQL");
    ("cursor\.execute\s*\(\s*f" +++ QUOTE, "F-string in cursor.execute");
    ("(SELECT|INSERT|UPDATE|DELETE).*\+\s*\w+", "String concatenation in SQL") ].

(** [SQLInjectionCheck.check] *)
Definition SQLInjectionCheck_check (file_path content : string)
  : list SecurityFinding :=
  flat_map (fun '(line_num, line) =>
    flat_map (fun '(pattern, vuln_type) =>
      if Re.search_i pattern line then
        [mkSecurityFinding "sql_injection" CRITICAL file_path line_num
           (Py.strip line)
           ("Potential SQL injection: " +++ vuln_type +++ ". Use parameterized queries.")
           pattern
           "Use: cursor.execute('SELECT * FROM users WHERE id = %s', (user_id,))"]
      else [])
      SQL_INJECTION_PATTERNS)
    (Py.enumerate 1 (Py.split_lines content)).

Definition SENSITIVE_PATTERNS : list (string * string * Severity) :=
  [ ("log.*password", "password", HIGH);
    ("log.*token", "authentication token", HIGH);
    ("log.*secret", "secret", HIGH);
    ("log.*api[_-]?key", "API key", HIGH);
    ("log.*ssn", "SSN", CRITICAL);
    ("log.*social[_-]?security", "social security number", CRITICAL);
    ("log.*credit[_-]?card", "credit card", CRITICAL);
    ("log.*cvv", "CVV", CRITICAL);
    ("log.*driver[_-]?license", "driver's license", HIGH);
    ("log.*auth", "authentication data", MEDIUM);
    ("log.*session", "session data", MEDIUM) ].

(** [SensitiveDataLoggingCheck.check] *)
Definition SensitiveDataLoggingCheck_check (file_path content : string)
  : list SecurityFinding :=
  flat_map (fun '(line_num, line) =>
    flat_map (fun '(pattern, data_type, severity) =>
      if Re.search_i pattern line then
        [mkSecurityFinding "sensitive_data_logging" severity file_path line_num
           (Py.strip line)
           ("Potential logging of " +++ data_type
              +++ ". Redact sensitive fields before logging.")
           pattern
           ("Redact " +++ data_type
              +++ " or use structured logging with field exclusion")]
      else [])
      SENSITIVE_PATTERNS)
    (Py.enumerate 1 (Py.split_lines content)).

Definition UNSAFE_PATTERNS : list (string * string * string) :=
  [ ("pickle\.loads?\s*\(", "pickle.load", "Use json.loads or safe serialization");
    ("yaml\.load\s*\([^,)]*\)", "yaml.load without Loader", "Use yaml.safe_load");
    ("eval\s*\(", "eval()", "Avoid eval; use ast.literal_eval for literals");
    ("exec\s*\(", "exec()", "Redesign to avoid dynamic code execution");
    ("__import__\s*\(", "__import__()", "Use importlib.import_module with validation") ].

(** [UnsafeDeserializationCheck.check] *)
Definition UnsafeDeserializationCheck_check (file_path content : string)
  : list SecurityFinding :=
  flat_map (fun '(line_num, line) =>
    flat_map (fun '(pattern, unsafe_func, suggested_fix) =>
      if Re.search pattern line then
        [mkSecurityFinding "unsafe_deserialization" CRITICAL file_path line_num
           (Py.strip line)
           ("Unsafe deserialization: " +++ unsafe_func
              +++ ". This allows arbitrary code execution.")
           pattern
           suggested_fix]
      else [])
      UNSAFE_PATTERNS)
    (Py.enumerate 1 (Py.split_lines content)).

(** [SecurityValidator.checks], in registration order *)
Definition SecurityValidator_checks : list (string -> string -> list SecurityFinding) :=
  [ HardcodedCredentialsCheck_check; SQLInjectionCheck_check;
    SensitiveDataLoggingCheck_check; UnsafeDeserializationCheck_check ].

(** [SecurityValidator.validate_file] *)
Definition SecurityValidator_validate_file (file_path content : string)
  : list SecurityFinding :=
  flat_map (fun check => check file_path content) SecurityValidator_checks.

(** [if findings: results[file_path] = findings] *)
Definition record_findings {F : Type} (results : odict (list F)) (file_path : string)
  (findings : list F) : odict (list F) :=
  match findings with
  | [] => results
  | _ => od_set results file_path findings
  end.

(** [SecurityValidator.validate_pr_changes] *)
Definition SecurityValidator_validate_pr_changes (changed_files : odict string)
  : odict (list SecurityFinding) :=
  fold_left (fun results '(file_path, content) =>
               record_findings results file_path
                 (SecurityValidator_validate_file file_path content))
            changed_files [].

(** [SecurityValidator.format_findings_report].  The keys of a
    dictionary are distinct, so [sorted(findings.items())] orders the
    entries by their key. *)
Definition SecurityValidator_format_findings_report
  (findings : odict (list SecurityFinding)) : string :=
  match findings with
  | [] => "âœ… No security issues detected."
  | _ =>
      let total_critical :=
        list_sum (map (fun file_findings =>
                         length (filter (fun f => Severity_eqb (sf_severity f) CRITICAL)
                                        file_findings))
                      (od_values findings)) in
      let total_high :=
        list_sum (map (fun file_findings =>
                         length (filter (fun f => Severity_eqb (sf_severity f) HIGH)
                                        file_findings))
                      (od_values findings)) in
      Py.join Py.nl
        ([ "## ðŸ”’ Security Check Results" +++ Py.nl;
           "**" +++ Py.str_of_nat total_critical +++ " CRITICAL** | **"
             +++ Py.str_of_nat total_high +++ " HIGH** severity issues found" +++ Py.nl ]
         ++ flat_map (fun '(file_path, file_findings) =>
              (Py.nl +++ "### ðŸ“„ " +++ file_path +++ Py.nl)
              :: flat_map (fun finding =>
                   let emoji :=
                     if Severity_eqb (sf_severity finding) CRITICAL
                     then "ðŸ”´" else "ðŸŸ¡" in
                   [ emoji +++ " **Line " +++ Py.str_of_Z (sf_line_number finding)
                       +++ "**: " +++ sf_message finding;
                     "   ```";
                     "   " +++ sf_line_content finding;
                     "   ```";
                     "   ðŸ’¡ **Fix**: " +++ sf_suggested_fix finding +++ Py.nl ])
                   (sorted_by (fun a b => String.leb (Severity_value (sf_severity a))
                                                     (Severity_value (sf_severity b)))
                              file_findings))
              (sorted_by (fun a b => String.leb (fst a) (fst b)) findings))
  end.

(** ** The Python runtime the checks rely on

    [ast_nodes content] stands for [list(ast.walk(ast.parse(content)))]:
    the nodes of the syntax tree in the order [ast.walk] yields them, with
    the attributes the checks read.  It raises [SyntaxError] on text that
    does not parse.  Annotations are kept as [ast.unparse] prints them. *)

Record ast_arg : Type := mk_arg {
  arg_name : string;
  arg_annotation : option string
}.

Inductive ast_node : Type :=
| Import (names : list string) (lineno : Z)
| ImportFrom (module : option string) (lineno : Z)
| FunctionDef (name : string) (args : list ast_arg) (returns : option string)
    (lineno : Z) (end_lineno : option Z)
| AsyncFunctionDef (name : string) (args : list ast_arg) (returns : option string)
    (lineno : Z) (end_lineno : option Z)
| ClassDef (name : string)
| OtherNode.

Class PythonRuntime : Type := {
  ast_nodes : string -> result (list ast_node);
  (** the iteration order of a [set] that received the given elements *)
  set_iter : list string -> list string;
  set_iter_perm : forall l, Permutation (set_iter l) (nodup string_dec l)
}.

(** [repr] of a list of plain strings, as an f-string prints it *)
Definition repr_str_list (l : list string) : string :=
  "[" +++ Py.join ", " (map (fun s => "'" +++ s +++ "'") l) +++ "]".

(** ** [architecture_checks.py] *)

Record ArchitectureFinding : Type := mkArchitectureFinding {
  af_check_name : string;
  af_severity : string;
  af_file_path : string;
  af_line_number : Z;
  af_message : string;
  af_violated_rule : string;
  af_suggested_fix : string
}.

Record layer_config : Type := mk_layer {
  paths : list string;
  allowed_dependencies : list string;
  prohibited_dependencies : list string
}.

(** [LayerSeparationCheck.LAYERS] *)
Definition LAYERS : odict layer_config :=
  [ ("controller", mk_layer ["api/"; "controllers/"] ["service"; "model"] ["repository"]);
    ("service", mk_layer ["services/"; "business/"] ["repository"; "model"]
                  ["controller"; "api"]);
    ("repository", mk_layer ["repositories/"; "data/"] ["model"]
                     ["controller"; "api"; "service"]);
    ("model", mk_layer ["models/"; "entities/"] []
                ["controller"; "api"; "service"; "repository"]) ].

(** [d[k]] *)
Definition od_index {V : Type} (d : odict V) (k : string) : result V :=
  match od_get d k with
  | Some v => Ok v
  | None => Raise (KeyError k)
  end.

(** The dictionaries that [_extract_imports] builds. *)
Record import_stmt : Type := mk_import {
  imp_type : string;
  imp_module : string;
  imp_line : Z
}.

(** [LayerSeparationCheck._identify_layer] *)
Definition LayerSeparationCheck__identify_layer (file_path : string) : option string :=
  option_map fst
    (find (fun '(layer, config) =>
             existsb (fun path_pattern => Py.contains path_pattern file_path)
                     (paths config))
          LAYERS).

Definition imports_of_node (node : ast_node) : list import_stmt :=
  match node with
  | Import names lineno => map (fun alias => mk_import "import" alias lineno) names
  | ImportFrom module lineno =>
      [mk_import "from" (match module with Some m => m | None => "" end) lineno]
  | _ => []
  end.

(** The regex fallback of [_extract_imports]. *)
Definition imports_by_regex (content : string) : list import_stmt :=
  flat_map (fun '(line_num, line) =>
              match Re.search_m false "(?:from|import)\s+([\w.]+)" line with
              | Some m =>
                  match Re.group m 1 with
                  | Some g => [mk_import "import" g line_num]
                  | None => []
                  end
              | None => []
              end)
           (Py.enumerate 1 (Py.split_lines content)).

Section Architecture.
Context {rt : PythonRuntime}.

(** [LayerSeparationCheck._extract_imports] *)
Definition LayerSeparationCheck__extract_imports (content : string)
  : result (list import_stmt) :=
  catch_SyntaxError
    (nodes <- ast_nodes content ;; Ok (flat_map imports_of_node nodes))
    (Ok (imports_by_regex content)).

(** [LayerSeparationCheck._import_references_layer] *)
Definition LayerSeparationCheck__import_references_layer (stmt : import_stmt)
  (layer : string) : result bool :=
  let module := Py.lower (imp_module stmt) in
  config <- od_index LAYERS layer ;;
  Ok (existsb (fun indicator => Py.contains (Py.strip_chars "/" indicator) module)
              (paths config)).

Definition layer_finding (file_path current_layer prohibited_layer : string)
  (allowed : list string) (stmt : import_stmt) : ArchitectureFinding :=
  mkArchitectureFinding "layer_separation" "medium" file_path (imp_line stmt)
    (Py.title current_layer +++ " layer must not depend on " +++ prohibited_layer
       +++ " layer")
    (current_layer +++ " → " +++ prohibited_layer +++ " (prohibited)")
    ("Use dependency injection to invert the dependency or refactor to use "
       +++ repr_str_list allowed).

(** [LayerSeparationCheck.check] *)
Definition LayerSeparationCheck_check (file_path content : string)
  : result (list ArchitectureFinding) :=
  match LayerSeparationCheck__identify_layer file_path with
  | None => Ok []
  | Some EmptyString => Ok []
  | Some current_layer =>
      imports <- LayerSeparationCheck__extract_imports content ;;
      config <- od_index LAYERS current_layer ;;
      for_each imports (fun findings stmt =>
        for_each (prohibited_dependencies config) (fun findings prohibited_layer =>
          b <- LayerSeparationCheck__import_references_layer stmt prohibited_layer ;;
          Ok (if b
              then findings ++ [layer_finding file_path current_layer prohibited_layer
                                  (allowed_dependencies config) stmt]
              else findings))
          findings)
        []
  end.

Definition ROUTE_PATTERNS : list string :=
  [ "@app\.(get|post|put|delete|patch)"; "@router\.(get|post|put|delete|patch)" ].

Definition di_finding (file_path : string) (line_num : Z) : ArchitectureFinding :=
  mkArchitectureFinding "dependency_injection" "medium" file_path line_num
    "Use FastAPI Depends() for dependency injection in API routes"
    "Missing dependency injection pattern"
    ("from fastapi import Depends" +++ Py.nl +++ Py.nl
       +++ "def get_service() -> MyService:" +++ Py.nl
       +++ "    return MyService()" +++ Py.nl +++ Py.nl
       +++ "@app.get('/endpoint')" +++ Py.nl
       +++ "def endpoint(service: MyService = Depends(get_service)):").

(** [DependencyInjectionCheck.check] *)
Definition DependencyInjectionCheck_check (file_path content : string)
  : list ArchitectureFinding :=
  if negb (Py.contains "api/" file_path || Py.contains "controllers/" file_path)
  then []
  else
    let has_depends := Re.search "from\s+fastapi\s+import.*Depends" content in
    let has_depends_usage := Re.search "Depends\s*\(" content in
    if negb has_depends || negb has_depends_usage then
      let has_routes := existsb (fun pattern => Re.search pattern content) ROUTE_PATTERNS in
      if has_routes then
        match find (fun '(line_num, line) => Re.search "@(app|router)\.\w+" line)
                   (Py.enumerate 1 (Py.split_lines content)) with
        | Some (line_num, _) => [di_finding file_path line_num]
        | None => []
        end
      else []
    else [].

Record sync_library : Type := mk_sync {
  lib_pattern : string;
  lib_alternative : string;
  lib_message : string
}.

(** [AsyncPatternsCheck.SYNC_LIBRARIES] *)
Definition SYNC_LIBRARIES : odict sync_library :=
  [ ("requests", mk_sync "requests\.(get|post|put|delete|patch|head|options)"
                   "httpx.AsyncClient"
                   "Use httpx.AsyncClient instead of requests in async functions");
    ("psycopg2", mk_sync "import\s+psycopg2" "asyncpg"
                   "Use asyncpg instead of psycopg2 in async functions");
    ("pymongo", mk_sync "import\s+pymongo" "motor"
                  "Use motor (async MongoDB driver) instead of pymongo in async functions");
    ("redis", mk_sync "import\s+redis\b" "aioredis"
                "Use aioredis instead of redis in async functions") ].

(** [node.end_lineno or node.lineno] *)
Definition end_or_start (end_lineno : option Z) (lineno : Z) : Z :=
  match end_lineno with
  | Some e => if Z.eqb e 0 then lineno else e
  | None => lineno
  end.

Definition async_of_node (node : ast_node) : list (Z * Z * string) :=
  match node with
  | AsyncFunctionDef name _ _ lineno end_lineno =>
      [(lineno, end_or_start end_lineno lineno, name)]
  | _ => []
  end.

(** [AsyncPatternsCheck._find_async_functions] *)
Definition AsyncPatternsCheck__find_async_functions (content : string)
  : result (list (Z * Z * string)) :=
  catch_SyntaxError
    (nodes <- ast_nodes content ;; Ok (flat_map async_of_node nodes))
    (Ok (flat_map (fun '(i, line) =>
                     if Re.match_ "async\s+def\s+(\w+)" line
                     then [(i, (i + 20)%Z, "unknown")] else [])
                  (Py.enumerate 1 (Py.split_lines content)))).

(** [AsyncPatternsCheck._is_in_async_function] *)
Definition AsyncPatternsCheck__is_in_async_function (line_num : Z)
  (async_functions : list (Z * Z * string)) : bool :=
  existsb (fun '(start, end_, _) => (start <=? line_num)%Z && (line_num <=? end_)%Z)
          async_functions.

(** [content[:n].count('\n') + 1] *)
Definition line_of_offset (content : string) (n : nat) : Z :=
  Z.of_nat (Py.count_char Py.newline (String.substring 0 n content)) + 1.

(** [AsyncPatternsCheck.check] *)
Definition AsyncPatternsCheck_check (file_path content : string)
  : result (list ArchitectureFinding) :=
  async_functions <- AsyncPatternsCheck__find_async_functions content ;;
  match async_functions with
  | [] => Ok []
  | _ =>
      Ok (flat_map (fun '(lib_name, lib_config) =>
            flat_map (fun m =>
              let line_num := line_of_offset content (Re.m_start m) in
              if AsyncPatternsCheck__is_in_async_function line_num async_functions
              then [mkArchitectureFinding "async_patterns" "medium" file_path line_num
                      (lib_message lib_config)
                      ("Sync library '" +++ lib_name +++ "' in async context")
                      ("Use " +++ lib_alternative lib_config
                         +++ " for async I/O operations")]
              else [])
              (Re.finditer false (lib_pattern lib_config) content))
            SYNC_LIBRARIES)
  end.

End Architecture.

(** *** [CircularDependencyCheck] *)

(** [CircularDependencyCheck._path_to_module] *)
Definition CircularDependencyCheck__path_to_module (file_path : string) : string :=
  Py.replace ".py" "" (Py.replace "/" "." file_path).

(** [x or y] on optional strings: [None] and the empty string are falsy. *)
Definition or_else (x y : option string) : option string :=
  match x with
  | Some EmptyString => y
  | Some _ => x
  | None => y
  end.

Definition truthy (x : option string) : bool :=
  match x with
  | Some EmptyString => false
  | Some _ => true
  | None => false
  end.

(** A set is kept as the sequence of the elements added to it. *)
Definition pyset : Type := list string.

Definition set_of (d : odict pyset) (k : string) : pyset :=
  match od_get d k with Some s => s | None => [] end.

Definition IMPORT_PATTERN : string := "from\s+([\w.]+)\s+import|import\s+([\w.]+)".

(** The body of the inner loop of [_build_dependency_graph]. *)
Definition add_import (module_name : string) (graph : odict pyset) (m : Re.rmatch)
  : odict pyset :=
  let imported := or_else (Re.group m 1) (Re.group m 2) in
  match imported with
  | Some i =>
      if truthy imported
      then od_set graph module_name
             (set_of graph module_name ++ [hd EmptyString (Py.split "."%char i)])
      else graph
  | None => graph
  end.

(** [CircularDependencyCheck._build_dependency_graph] *)
Definition CircularDependencyCheck__build_dependency_graph
  (file_contents : odict string) : odict pyset :=
  fold_left (fun graph '(file_path, content) =>
               let module_name := CircularDependencyCheck__path_to_module file_path in
               fold_left (add_import module_name)
                         (Re.finditer false IMPORT_PATTERN content)
                         (od_set graph module_name []))
            file_contents [].

(** The state that the nested [dfs] closes over. *)
Record dfs_state : Type := mk_dfs {
  visited : list string;
  rec_stack : list string;
  cycles : list (list string)
}.

(** [rec_stack[rec_stack.index(x):]] for an [x] on the stack *)
Fixpoint slice_from (x : string) (stack : list string) : list string :=
  match stack with
  | [] => []
  | y :: stack' => if String.eqb y x then stack else slice_from x stack'
  end.

(** [for x in xs: st = step st x], where a step may run out of fuel. *)
Fixpoint fold_opt {A S : Type} (step : S -> A -> option S) (xs : list A) (st : S)
  : option S :=
  match xs with
  | [] => Some st
  | x :: xs' =>
      match step st x with
      | Some st' => fold_opt step xs' st'
      | None => None
      end
  end.

(** The body of the loop over the neighbours in [dfs]; [recur] is the
    recursive call. *)
Definition visit_neighbor (recur : string -> dfs_state -> option dfs_state)
  (st : dfs_state) (neighbor : string) : option dfs_state :=
  if negb (Py.mem neighbor (visited st)) then recur neighbor st
  else if Py.mem neighbor (rec_stack st)
  then Some (mk_dfs (visited st) (rec_stack st)
               (cycles st ++ [slice_from neighbor (rec_stack st)]))
  else Some st.

Section Cycles.
Context {rt : PythonRuntime}.
Variable graph : odict pyset.

(** The nested function [dfs] of [_find_cycles].  [fuel] is the number of
    nested calls that the interpreter still allows; [None] is the
    [RecursionError] of a call beyond it. *)
Fixpoint dfs (fuel : nat) (node : string) (st : dfs_state) : option dfs_state :=
  match fuel with
  | O => None
  | S f =>
      let st1 := mk_dfs (node :: visited st) (rec_stack st ++ [node]) (cycles st) in
      let st2 :=
        match od_get graph node with
        | Some neighbors => fold_opt (visit_neighbor (dfs f)) (set_iter neighbors) st1
        | None => Some st1
        end in
      match st2 with
      | Some st3 => Some (mk_dfs (visited st3) (removelast (rec_stack st3)) (cycles st3))
      | None => None
      end
  end.

(** Every node that can be visited: the keys and their neighbours. *)
Definition graph_nodes : list string :=
  od_keys graph ++ concat (od_values graph).

(** A depth that no search reaches: each call of [dfs] marks a fresh
    node, so the calls nest no deeper than the number of nodes. *)
Definition dfs_fuel : nat := S (length (nodup string_dec graph_nodes)).

(** [CircularDependencyCheck._find_cycles], on an interpreter whose
    recursion limit leaves room for [dfs_fuel] nested calls;
    [CircularDependencyCheck__find_cycles_within] below takes the room as
    a parameter. *)
Definition CircularDependencyCheck__find_cycles : option (list (list string)) :=
  option_map cycles
    (fold_opt (fun st node =>
                 if negb (Py.mem node (visited st)) then dfs dfs_fuel node st
                 else Some st)
              (od_keys graph) (mk_dfs [] [] [])).

End Cycles.

Section ArchitectureProject.
Context {rt : PythonRuntime}.

Definition cycle_finding (cycle : list string) : ArchitectureFinding :=
  let cycle_str := Py.join " → " (cycle ++ [hd EmptyString cycle]) in
  mkArchitectureFinding "circular_dependency" "high" (hd EmptyString cycle) 1
    ("Circular dependency detected: " +++ cycle_str)
    "No circular dependencies allowed"
    "Refactor to use dependency inversion or extract shared dependencies to a common module".

(** [CircularDependencyCheck.check_project] *)
Definition CircularDependencyCheck_check_project (file_contents : odict string)
  : result (list ArchitectureFinding) :=
  let dependency_graph := CircularDependencyCheck__build_dependency_graph file_contents in
  match CircularDependencyCheck__find_cycles dependency_graph with
  | Some cycles => Ok (map cycle_finding cycles)
  | None => Raise RecursionError
  end.

(** [ArchitectureValidator.checks], in registration order *)
Definition ArchitectureValidator_checks
  : list (string -> string -> result (list ArchitectureFinding)) :=
  [ LayerSeparationCheck_check;
    (fun file_path content => Ok (DependencyInjectionCheck_check file_path content));
    AsyncPatternsCheck_check ].

(** [ArchitectureValidator.validate_file] *)
Definition ArchitectureValidator_validate_file (file_path content : string)
  : result (list ArchitectureFinding) :=
  for_each ArchitectureValidator_checks
    (fun all_findings check =>
       findings <- check file_path content ;; Ok (all_findings ++ findings))
    [].

(** [results[finding.file_path].append(finding)], creating the entry *)
Definition append_finding (results : odict (list ArchitectureFinding))
  (finding : ArchitectureFinding) : odict (list ArchitectureFinding) :=
  match od_get results (af_file_path finding) with
  | Some fs => od_set results (af_file_path finding) (fs ++ [finding])
  | None => od_set results (af_file_path finding) [finding]
  end.

(** [ArchitectureValidator.validate_project] *)
Definition ArchitectureValidator_validate_project (file_contents : odict string)
  : result (odict (list ArchitectureFinding)) :=
  results <- for_each file_contents
               (fun results '(file_path, content) =>
                  findings <- ArchitectureValidator_validate_file file_path content ;;
                  Ok (record_findings results file_path findings))
               [] ;;
  circular_findings <- CircularDependencyCheck_check_project file_contents ;;
  Ok (fold_left append_finding circular_findings results).

End ArchitectureProject.

(** ** [test_coverage_checks.py] *)

Record TestCoverageFinding : Type := mkTestCoverageFinding {
  tf_check_name : string;
  tf_severity : string;
  tf_file_path : string;
  tf_function_name : string;
  tf_line_number : Z;
  tf_message : string;
  tf_suggested_fix : string
}.

Definition SKIP_PATTERNS : list string :=
  [ "test_"; "__init__.py"; "migrations/"; "scripts/"; "config/"; ".example" ].

(** [NewFunctionsHaveTestsCheck._should_skip_file] *)
Definition NewFunctionsHaveTestsCheck__should_skip_file (file_path : string) : bool :=
  existsb (fun pattern => Py.contains pattern file_path) SKIP_PATTERNS.

Definition function_of_node (node : ast_node) : list (string * Z) :=
  match node with
  | FunctionDef name _ _ lineno _ | AsyncFunctionDef name _ _ lineno _ =>
      if negb (Py.startswith name "_") then [(name, lineno)] else []
  | _ => []
  end.

(** The regex fallback of [_extract_functions]. *)
Definition functions_by_regex (content : string) : list (string * Z) :=
  flat_map (fun '(line_num, line) =>
              match Re.match_m "^def\s+([a-zA-Z_][a-zA-Z0-9_]*)\s*\(" (Py.strip line) with
              | Some m =>
                  match Re.group m 1 with
                  | Some g => if negb (Py.startswith g "_") then [(g, line_num)] else []
                  | None => []
                  end
              | None => []
              end)
           (Py.enumerate 1 (Py.split_lines content)).

(** [NewFunctionsHaveTestsCheck._find_test_file] *)
Definition NewFunctionsHaveTestsCheck__find_test_file (source_path : string)
  (test_files : odict string) : option string :=
  let filename := Py.path_name source_path in
  let test_patterns :=
    [ "tests/test_" +++ filename;
      "tests/" +++ Py.path_parent_name source_path +++ "/test_" +++ filename;
      "test_" +++ filename;
      Py.path_parent source_path +++ "/test_" +++ filename ] in
  hd_error
    (flat_map (fun pattern =>
                 filter (fun test_path => Py.contains pattern test_path)
                        (od_keys test_files))
              test_patterns).

(** [NewFunctionsHaveTestsCheck._suggest_test_file_path] *)
Definition NewFunctionsHaveTestsCheck__suggest_test_file_path (source_path : string)
  : string :=
  "tests/" +++ Py.path_parent_name source_path +++ "/test_" +++ Py.path_name source_path.

(** The characters of a name, matched as they are. *)
Fixpoint regex_of_literal (s : string) : Re.regex :=
  match s with
  | EmptyString => Re.REmpty
  | String c s' => Re.RSeq (Re.RAtom (Re.AChar c)) (regex_of_literal s')
  end.

(** [NewFunctionsHaveTestsCheck._has_test_for_function]: the pattern
    [rf'def\s+test_{func_name}\s*\('].  [func_name] is an identifier (it
    comes from the syntax tree or from the fallback's identifier class),
    so its characters stand for themselves in the pattern. *)
Definition NewFunctionsHaveTestsCheck__has_test_for_function
  (func_name test_content : string) : bool :=
  match Re.compile "def\s+test_", Re.compile "\s*\(" with
  | Some before, Some after =>
      Re.is_some (Re.search_rx false
                    (Re.RSeq before (Re.RSeq (regex_of_literal func_name) after))
                    test_content)
  | _, _ => false
  end.

Definition BUG_FIX_PATTERNS : list string :=
  [ "^fix"; "^bug"; "\bfix\b"; "\bbug\b"; "\bregression\b" ].

(** [BugFixRegressionTestCheck._is_bug_fix_pr] *)
Definition BugFixRegressionTestCheck__is_bug_fix_pr (title description : string) : bool :=
  let combined := Py.lower (title +++ " " +++ description) in
  existsb (fun pattern => Re.search_i pattern combined) BUG_FIX_PATTERNS.

(** [BugFixRegressionTestCheck._has_new_or_modified_tests] *)
Definition BugFixRegressionTestCheck__has_new_or_modified_tests
  (changed_files : odict string) : bool :=
  existsb (fun file_path =>
             existsb (fun pattern => Py.contains pattern file_path)
                     ["test_"; "/tests/"; "_test.py"])
          (od_keys changed_files).

(** [BugFixRegressionTestCheck.check] *)
Definition BugFixRegressionTestCheck_check (pr_title pr_description : string)
  (changed_files : odict string) : list TestCoverageFinding :=
  if negb (BugFixRegressionTestCheck__is_bug_fix_pr pr_title pr_description) then []
  else if negb (BugFixRegressionTestCheck__has_new_or_modified_tests changed_files)
  then [mkTestCoverageFinding "bug_fix_regression_tests" "high" "(pull request)" "N/A" 0
          "Bug fix PR should include regression tests to prevent reoccurrence"
          "Add test cases that reproduce the bug and verify the fix"]
  else [].

(** [TestQualityCheck._has_assertions] *)
Definition TestQualityCheck__has_assertions (content : string) : bool :=
  existsb (fun pattern => Re.search pattern content)
          ["\bassert\s+"; "\.assert"; "self\.assertEqual"; "self\.assertTrue"].

(** [TestQualityCheck._has_fixtures_or_setup] *)
Definition TestQualityCheck__has_fixtures_or_setup (content : string) : bool :=
  existsb (fun pattern => Re.search pattern content)
          ["@pytest\.fixture"; "def\s+setUp\s*\("; "def\s+tearDown\s*\("; "@conftest"].

(** [TestQualityCheck.check] *)
Definition TestQualityCheck_check (test_files : odict string) : list TestCoverageFinding :=
  flat_map (fun '(file_path, content) =>
    (if negb (TestQualityCheck__has_assertions content)
     then [mkTestCoverageFinding "test_quality" "high" file_path "N/A" 1
             "Test file has no assertions. Tests should include assert statements."
             "Add assert statements to verify expected behavior"]
     else [])
    ++
    (if negb (TestQualityCheck__has_fixtures_or_setup content) then
       let test_count := Re.findall_count "def\s+test_" content in
       if Nat.ltb 5 test_count
       then [mkTestCoverageFinding "test_quality" "low" file_path "N/A" 1
               ("Test file with " +++ Py.str_of_nat test_count
                  +++ " tests should use fixtures/setup for shared test data")
               "Use pytest fixtures or setUp/tearDown methods for test initialization"]
       else []
     else []))
    test_files.

Section TestCoverage.
Context {rt : PythonRuntime}.

(** [NewFunctionsHaveTestsCheck._extract_functions] *)
Definition NewFunctionsHaveTestsCheck__extract_functions (content : string)
  : result (list (string * Z)) :=
  catch_SyntaxError
    (nodes <- ast_nodes content ;; Ok (flat_map function_of_node nodes))
    (Ok (functions_by_regex content)).

(** The findings of [NewFunctionsHaveTestsCheck.check] for one file. *)
Definition new_functions_file (test_files : odict string) (file_path content : string)
  : result (list TestCoverageFinding) :=
  if NewFunctionsHaveTestsCheck__should_skip_file file_path then Ok []
  else
    new_functions <- NewFunctionsHaveTestsCheck__extract_functions content ;;
    let test_file_path := NewFunctionsHaveTestsCheck__find_test_file file_path test_files in
    if negb (truthy test_file_path) then
      match new_functions with
      | [] => Ok []
      | _ =>
          Ok [mkTestCoverageFinding "new_functions_have_tests" "medium" file_path
                "(all functions)" 1
                ("No test file found for " +++ file_path
                   +++ ". Create tests for new functions.")
                ("Create "
                   +++ NewFunctionsHaveTestsCheck__suggest_test_file_path file_path)]
      end
    else
      let path := match test_file_path with Some p => p | None => EmptyString end in
      test_content <- od_index test_files path ;;
      Ok (flat_map (fun '(func_name, line_num) =>
            if negb (NewFunctionsHaveTestsCheck__has_test_for_function func_name
                       test_content)
            then [mkTestCoverageFinding "new_functions_have_tests" "medium" file_path
                    func_name line_num
                    ("Function '" +++ func_name +++ "' has no corresponding test")
                    ("Add test_" +++ func_name +++ " in " +++ path)]
            else [])
            new_functions).

(** [NewFunctionsHaveTestsCheck.check] *)
Definition NewFunctionsHaveTestsCheck_check (changed_files test_files : odict string)
  : result (list TestCoverageFinding) :=
  for_each changed_files
    (fun findings '(file_path, content) =>
       fs <- new_functions_file test_files file_path content ;;
       Ok (findings ++ fs))
    [].

(** The split of [TestCoverageValidator.validate_pr] into test files and
    source files. *)
Definition is_test_path (file_path : string) : bool :=
  Py.contains "test_" file_path || Py.contains "/tests/" file_path.

Definition split_files (changed_files : odict string) : odict string * odict string :=
  fold_left (fun '(source_files, test_files) '(file_path, content) =>
               if is_test_path file_path
               then (source_files, od_set test_files file_path content)
               else if Py.endswith file_path ".py"
               then (od_set source_files file_path content, test_files)
               else (source_files, test_files))
            changed_files ([], []).

(** [TestCoverageValidator.validate_pr] *)
Definition TestCoverageValidator_validate_pr (pr_title pr_description : string)
  (changed_files : odict string) : result (list TestCoverageFinding) :=
  let '(source_files, test_files) := split_files changed_files in
  new_func_findings <- NewFunctionsHaveTestsCheck_check source_files test_files ;;
  let bug_fix_findings :=
    BugFixRegressionTestCheck_check pr_title pr_description changed_files in
  let quality_findings := TestQualityCheck_check test_files in
  Ok (new_func_findings ++ bug_fix_findings ++ quality_findings).

End TestCoverage.

(** [TestCoverageValidator.format_findings_report] *)
Definition TestCoverageValidator_format_findings_report
  (findings : list TestCoverageFinding) : string :=
  match findings with
  | [] => "âœ… All test coverage requirements met."
  | _ =>
      let count level :=
        length (filter (fun f => String.eqb (tf_severity f) level) findings) in
      let by_check :=
        fold_left (fun by_check finding =>
                     dict_append by_check (tf_check_name finding) finding)
                  findings [] in
      Py.join Py.nl
        ([ "## ğŸ§ª Test Coverage Check Results" +++ Py.nl;
           "**" +++ Py.str_of_nat (count "high") +++ " HIGH** | **"
             +++ Py.str_of_nat (count "medium") +++ " MEDIUM** | **"
             +++ Py.str_of_nat (count "low") +++ " LOW** severity issues" +++ Py.nl ]
         ++ flat_map (fun '(check_name, check_findings) =>
              (Py.nl +++ "### " +++ Py.title (Py.replace "_" " " check_name) +++ Py.nl)
              :: flat_map (fun finding =>
                   let emoji :=
                     if String.eqb (tf_severity finding) "high" then "ğŸ”´"
                     else if String.eqb (tf_severity finding) "medium" then "ğŸŸ¡"
                     else "â„¹ï¸" in
                   [ emoji +++ " **" +++ tf_file_path finding +++ "**" ]
                   ++ (if negb (String.eqb (tf_function_name finding) "N/A")
                       then [ "   Function: `" +++ tf_function_name finding
                                +++ "` (line " +++ Py.str_of_Z (tf_line_number finding)
                                +++ ")" ]
                       else [])
                   ++ [ "   " +++ tf_message finding ]
                   ++ (if negb (String.eqb (tf_suggested_fix finding) "")
                       then [ "   ğŸ’¡ **Fix**: " +++ tf_suggested_fix finding ]
                       else [])
                   ++ [ "" ])
                   check_findings)
              by_check)
  end.

(** ** [performance_checks.py] *)

Record PerformanceFinding : Type := mkPerformanceFinding {
  pf_check_name : string;
  pf_severity : string;
  pf_file_path : string;
  pf_line_number : Z;
  pf_line_content : string;
  pf_message : string;
  pf_impact : string;
  pf_suggested_fix : string
}.

Definition QUERY_PATTERNS : list string :=
  [ "\.(get|filter|query|select|find)\s*\("; "\.get_object_or_404\s*\("; "\.objects\." ].

Definition LOOP_PATTERNS : list string :=
  [ "for\s+\w+\s+in\s+"; "\[.*for\s+.*in\s+.*\]" ].

Definition n_plus_one_finding (file_path : string) (line_num : Z) (line : string)
  : PerformanceFinding :=
  mkPerformanceFinding "n_plus_one_queries" "high" file_path line_num (Py.strip line)
    "Potential N+1 query detected: database query inside loop"
    "O(n) database queries - severe performance degradation with large datasets"
    "Use eager loading: SQLAlchemy joinedload()/selectinload(), Django select_related()/prefetch_related()".

(** The loop of [NPlusOneQueryCheck.check] over the lines: for a loop
    line at index [i], the lines [i + 1 .. i + look_ahead - 1] with
    [look_ahead = min(20, len(lines) - i)] are the next nineteen at most;
    the first query among them gives the loop's one finding. *)
Fixpoint n_plus_one_scan (file_path : string) (line_num : Z) (lines : list string)
  : list PerformanceFinding :=
  match lines with
  | [] => []
  | line :: following =>
      (if existsb (fun pattern => Re.search pattern line) LOOP_PATTERNS
       then
         if existsb (fun next_line =>
                       existsb (fun pattern => Re.search pattern next_line) QUERY_PATTERNS)
                    (firstn 19 following)
         then [n_plus_one_finding file_path line_num line]
         else []
       else [])
      ++ n_plus_one_scan file_path (line_num + 1) following
  end.

(** [NPlusOneQueryCheck.check] *)
Definition NPlusOneQueryCheck_check (file_path content : string)
  : list PerformanceFinding :=
  let lines := Py.split_lines content in
  let has_orm :=
    existsb (fun pattern => Py.contains pattern content)
            ["sqlalchemy"; "django.db"; "peewee"; "tortoise"] in
  if negb has_orm then [] else n_plus_one_scan file_path 1 lines.

Definition FOREIGN_KEY_PATTERNS : list (string * string * string) :=
  [ ("ForeignKey\s*\([^)]*\)", "index=True|db_index=True", "ForeignKey");
    ("relationship\s*\([^)]*\)", "index=True", "Relationship") ].

(** [xs[a:b]] for non-negative bounds *)
Definition py_slice {A : Type} (a b : nat) (xs : list A) : list A :=
  firstn (b - a) (skipn a xs).

(** [DatabaseIndexCheck.check] *)
Definition DatabaseIndexCheck_check (file_path content : string)
  : list PerformanceFinding :=
  if negb (Py.contains "models/" file_path || Py.contains "model.py" file_path) then []
  else
    let lines := Py.split_lines content in
    flat_map (fun '(line_num, line) =>
      flat_map (fun '(fk_pattern, index_pattern, fk_type) =>
        if Re.search fk_pattern line then
          let context_start := Z.to_nat (Z.max 0 (line_num - 2)) in
          let context_end := Z.to_nat (Z.min (Z.of_nat (length lines)) (line_num + 2)) in
          let context := Py.join Py.nl (py_slice context_start context_end lines) in
          if negb (Re.search index_pattern context)
          then [mkPerformanceFinding "missing_database_indexes" "medium" file_path
                  line_num (Py.strip line)
                  (fk_type +++ " without database index")
                  "Slow query performance on joins and lookups"
                  ("Add index=True or db_index=True to the " +++ fk_type
                     +++ " definition")]
          else []
        else [])
        FOREIGN_KEY_PATTERNS)
      (Py.enumerate 1 lines).

Definition FOR_LOOP : string := "\s*for\s+\w+\s+in\s+".

(** [len(line) - len(line.lstrip())] *)
Definition indent_of (line : string) : nat :=
  String.length line - String.length (Py.lstrip line).

(** [while indent_stack and indent_stack[-1][1] >= indent: pop()];
    the top of the stack is the head of the list. *)
Fixpoint pop_dedented (indent : nat) (indent_stack : list (Z * nat)) : list (Z * nat) :=
  match indent_stack with
  | (_, top) :: below =>
      if Nat.leb indent top then pop_dedented indent below else indent_stack
  | [] => []
  end.

(** [AlgorithmComplexityCheck._check_nested_loops] *)
Definition AlgorithmComplexityCheck__check_nested_loops (file_path : string)
  (lines : list string) : list PerformanceFinding :=
  snd (fold_left (fun '(indent_stack, findings) '(line_num, line) =>
         let indent := indent_of line in
         if Re.match_ FOR_LOOP line then
           let stack := pop_dedented indent indent_stack in
           ((line_num, indent) :: stack,
            match stack with
            | [] => findings
            | _ =>
                findings ++
                [mkPerformanceFinding "algorithm_complexity" "medium" file_path line_num
                   (Py.strip line)
                   "Nested loops detected - potential O(nÂ²) complexity"
                   "Performance degrades quadratically with input size"
                   "Consider using more efficient algorithms or data structures (dict, set for lookups)"]
            end)
         else (indent_stack, findings))
       (Py.enumerate 1 lines) ([], [])).

Definition INEFFICIENT_PATTERNS : list (string * string) :=
  [ ("(\w+)\s*in\s*range\(len\((\w+)\)\)", "Use enumerate() instead of range(len())");
    ("(\w+)\.append\(.*\)\s*#.*loop", "Consider list comprehension for better performance") ].

(** [AlgorithmComplexityCheck._check_inefficient_list_ops] *)
Definition AlgorithmComplexityCheck__check_inefficient_list_ops (file_path : string)
  (lines : list string) : list PerformanceFinding :=
  flat_map (fun '(line_num, line) =>
    flat_map (fun '(pattern, suggestion) =>
      if Re.search pattern line
      then [mkPerformanceFinding "algorithm_complexity" "low" file_path line_num
              (Py.strip line) "Inefficient list operation" "Minor performance overhead"
              suggestion]
      else [])
      INEFFICIENT_PATTERNS)
    (Py.enumerate 1 lines).

(** [not line.strip() or not line[0].isspace()] *)
Definition leaves_loop (line : string) : bool :=
  match Py.strip line with
  | EmptyString => true
  | _ => match line with
         | String c _ => negb (Py.is_space c)
         | EmptyString => true
         end
  end.

(** [AlgorithmComplexityCheck._check_loop_invariants] *)
Definition AlgorithmComplexityCheck__check_loop_invariants (file_path : string)
  (lines : list string) : list PerformanceFinding :=
  snd (fold_left (fun '(in_loop, findings) '(line_num, line) =>
         let in_loop' :=
           if Re.match_ FOR_LOOP line then true
           else if in_loop && leaves_loop line then false
           else in_loop in
         (in_loop',
          if in_loop' && Re.search "len\(\w+\)" line
          then findings ++
               [mkPerformanceFinding "algorithm_complexity" "low" file_path line_num
                  (Py.strip line)
                  "len() called inside loop - consider moving outside if list doesn't change"
                  "Repeated function calls add overhead"
                  "Store len() result before loop if the collection size is invariant"]
          else findings))
       (Py.enumerate 1 lines) (false, [])).

(** [AlgorithmComplexityCheck.check] *)
Definition AlgorithmComplexityCheck_check (file_path content : string)
  : list PerformanceFinding :=
  if Py.contains "test_" file_path || Py.contains "/tests/" file_path then []
  else
    let lines := Py.split_lines content in
    AlgorithmComplexityCheck__check_nested_loops file_path lines
    ++ AlgorithmComplexityCheck__check_inefficient_list_ops file_path lines
    ++ AlgorithmComplexityCheck__check_loop_invariants file_path lines.

Definition LEAK_PATTERNS : list (string * string) :=
  [ ("global\s+\w+\s*=\s*\[\]", "Global mutable collection can grow unbounded");
    ("cache\s*=\s*\{\}", "Unbounded cache can cause memory issues");
    ("\.append\(.*\)\s*#.*never.*clear", "Append without clear can accumulate memory") ].

(** [MemoryLeakCheck.check] *)
Definition MemoryLeakCheck_check (file_path content : string) : list PerformanceFinding :=
  flat_map (fun '(line_num, line) =>
    flat_map (fun '(pattern, issue) =>
      if Re.search_i pattern line
      then [mkPerformanceFinding "memory_leak" "medium" file_path line_num (Py.strip line)
              ("Potential memory leak: " +++ issue)
              "Memory usage grows over time, causing OOM errors"
              "Use LRU cache, implement size limits, or periodic cleanup"]
      else [])
      LEAK_PATTERNS)
    (Py.enumerate 1 (Py.split_lines content)).

(** [PerformanceValidator.checks], in registration order *)
Definition PerformanceValidator_checks
  : list (string -> string -> list PerformanceFinding) :=
  [ NPlusOneQueryCheck_check; DatabaseIndexCheck_check;
    AlgorithmComplexityCheck_check; MemoryLeakCheck_check ].

(** [PerformanceValidator.validate_file] *)
Definition PerformanceValidator_validate_file (file_path content : string)
  : list PerformanceFinding :=
  flat_map (fun check => check file_path content) PerformanceValidator_checks.

(** [PerformanceValidator.validate_pr] *)
Definition PerformanceValidator_validate_pr (changed_files : odict string)
  : odict (list PerformanceFinding) :=
  fold_left (fun results '(file_path, content) =>
               record_findings results file_path
                 (PerformanceValidator_validate_file file_path content))
            changed_files [].

(** [PerformanceValidator.format_findings_report]:
    [severity_counts[finding.severity] += 1] raises [KeyError] for a
    severity that is not a key of the dictionary. *)
Definition PerformanceValidator_format_findings_report
  (findings : odict (list PerformanceFinding)) : result string :=
  match findings with
  | [] => Ok "âœ… No performance issues detected."
  | _ =>
      severity_counts <-
        for_each (od_flatten findings)
          (fun severity_counts finding =>
             n <- od_index severity_counts (pf_severity finding) ;;
             Ok (od_set severity_counts (pf_severity finding) (n + 1)%Z))
          [("high", 0%Z); ("medium", 0%Z); ("low", 0%Z)] ;;
      high <- od_index severity_counts "high" ;;
      medium <- od_index severity_counts "medium" ;;
      low <- od_index severity_counts "low" ;;
      Ok (Py.join Py.nl
            ([ "## âš¡ Performance Check Results" +++ Py.nl;
               "**" +++ Py.str_of_Z high +++ " HIGH** | **"
                 +++ Py.str_of_Z medium +++ " MEDIUM** | **"
                 +++ Py.str_of_Z low +++ " LOW** severity issues" +++ Py.nl ]
             ++ flat_map (fun '(file_path, file_findings) =>
                  (Py.nl +++ "### ğŸ“„ " +++ file_path +++ Py.nl)
                  :: flat_map (fun finding =>
                       let emoji :=
                         if String.eqb (pf_severity finding) "high" then "ğŸ”´"
                         else if String.eqb (pf_severity finding) "medium"
                         then "ğŸŸ¡"
                         else "â„¹ï¸" in
                       [ emoji +++ " **Line " +++ Py.str_of_Z (pf_line_number finding)
                           +++ "**: " +++ pf_message finding;
                         "   ```python";
                         "   " +++ pf_line_content finding;
                         "   ```";
                         "   ğŸ“Š **Impact**: " +++ pf_impact finding ]
                       ++ (if negb (String.eqb (pf_suggested_fix finding) "")
                           then [ "   ğŸ’¡ **Fix**: " +++ pf_suggested_fix finding ]
                           else [])
                       ++ [ "" ])
                       (sorted_by (fun a b => Z.leb (pf_line_number a) (pf_line_number b))
                                  file_findings))
                  (sorted_by (fun a b => String.leb (fst a) (fst b)) findings)))
  end.

(** ** [breaking_changes_checks.py] *)

Record BreakingChangeFinding : Type := mkBreakingChangeFinding {
  bf_check_name : string;
  bf_severity : string;
  bf_file_path : string;
  bf_line_number : Z;
  bf_change_type : string;
  bf_element_name : string;
  bf_message : string;
  bf_requires_changelog : bool;
  bf_suggested_changelog_entry : string
}.

(** The value stored for a function by [_extract_signatures]. *)
Record signature : Type := mk_signature {
  sig_signature : string;
  sig_line : Z;
  sig_params : list string;
  sig_return_type : string
}.

Definition list_string_eqb (a b : list string) : bool :=
  if list_eq_dec string_dec a b then true else false.

(** [old_sig == new_sig] on the stored dictionaries *)
Definition signature_eqb (a b : signature) : bool :=
  String.eqb (sig_signature a) (sig_signature b)
  && Z.eqb (sig_line a) (sig_line b)
  && list_string_eqb (sig_params a) (sig_params b)
  && String.eqb (sig_return_type a) (sig_return_type b).

(** A parameter with its annotation, if any. *)
Definition param_str (a : ast_arg) : string :=
  match arg_annotation a with
  | Some ann => arg_name a +++ ": " +++ ann
  | None => arg_name a
  end.

Definition signature_of (args : list ast_arg) (returns : option string) (lineno : Z)
  : signature :=
  let params := map param_str args in
  let return_type := match returns with Some r => " -> " +++ r | None => "" end in
  mk_signature ("(" +++ Py.join ", " params +++ ")" +++ return_type)
               lineno params return_type.

(** The body of the loop of [_extract_signatures]: public functions are
    stored under their name, a later definition replacing an earlier one. *)
Definition add_signature (signatures : odict signature) (node : ast_node)
  : odict signature :=
  match node with
  | FunctionDef name args returns lineno _
  | AsyncFunctionDef name args returns lineno _ =>
      if negb (Py.startswith name "_")
      then od_set signatures name (signature_of args returns lineno)
      else signatures
  | _ => signatures
  end.

(** [set(a) - set(b)], as the elements it is made of *)
Definition set_diff (a b : list string) : pyset :=
  filter (fun x => negb (Py.mem x b)) a.

Definition api_modified_finding (file_path func_name : string) (old_sig new_sig : signature)
  : BreakingChangeFinding :=
  mkBreakingChangeFinding "api_signature_changes" "high" file_path (sig_line new_sig)
    "modified" func_name
    ("API signature changed for '" +++ func_name +++ "'")
    true
    ("- **CHANGED**: `" +++ func_name +++ "` signature modified. Old: "
       +++ sig_signature old_sig +++ ", New: " +++ sig_signature new_sig).

Definition api_deleted_finding (file_path func_name : string) : BreakingChangeFinding :=
  mkBreakingChangeFinding "api_signature_changes" "critical" file_path 1
    "deleted" func_name
    ("Public API function '" +++ func_name +++ "' was removed")
    true
    ("- **REMOVED**: `" +++ func_name +++ "` (BREAKING CHANGE)").

(** The public classes and functions found by [_extract_public_elements]. *)
Record public_elements : Type := mk_elements {
  classes : pyset;
  functions : pyset
}.

(** [node.name[0].isupper() and not node.name.startswith('_')] *)
Definition is_public_class (name : string) : result bool :=
  match name with
  | EmptyString => Raise IndexError
  | String c _ => Ok (Py.is_upper c && negb (Py.startswith name "_"))
  end.

Definition add_element (elements : public_elements) (node : ast_node)
  : result public_elements :=
  match node with
  | ClassDef name =>
      b <- is_public_class name ;;
      Ok (if b then mk_elements (classes elements ++ [name]) (functions elements)
          else elements)
  | FunctionDef name _ _ _ _ | AsyncFunctionDef name _ _ _ _ =>
      Ok (if negb (Py.startswith name "_")
          then mk_elements (classes elements) (functions elements ++ [name])
          else elements)
  | _ => Ok elements
  end.

Definition removed_finding (file_path change_type element_name message entry : string)
  : BreakingChangeFinding :=
  mkBreakingChangeFinding "removed_public_methods" "critical" file_path 1
    change_type element_name message true entry.

(** [len(s)] of a set *)
Definition set_len (s : pyset) : nat := length (nodup string_dec s).

(** An optional string is truthy when present and not empty. *)
Definition nonempty (x : option string) : bool := truthy x.

Definition SCHEMA_CHANGE_PATTERNS : list (string * string * string) :=
  [ ("Column\([^)]*nullable=False", "non_nullable_column",
     "Adding non-nullable column requires default value or migration");
    ("drop_column|remove_column", "removed_column", "Removing column is a breaking change");
    ("alter_column.*type", "changed_column_type",
     "Changing column type may break existing code");
    ("drop_table|remove_table", "removed_table", "Removing table is a breaking change") ].

(** [DatabaseSchemaChangeCheck.check] *)
Definition DatabaseSchemaChangeCheck_check (file_path content : string)
  : list BreakingChangeFinding :=
  let path_parts := Py.path_parts file_path in
  if negb (Py.mem "migrations" path_parts || Py.mem "models" path_parts) then []
  else
    flat_map (fun '(line_num, line) =>
      flat_map (fun '(pattern, change_type, message) =>
        if Re.search_i pattern line
        then [mkBreakingChangeFinding "database_schema_changes" "high" file_path line_num
                change_type change_type message true
                ("- **BREAKING CHANGE**: " +++ message)]
        else [])
        SCHEMA_CHANGE_PATTERNS)
      (Py.enumerate 1 (Py.split_lines content)).

(** [ChangelogRequirementCheck._has_proper_changelog_format] *)
Definition ChangelogRequirementCheck__has_proper_changelog_format (content : string) : bool :=
  Re.search "## \[(Unreleased|\d+\.\d+\.\d+)\]" content.

(** [ChangelogRequirementCheck._generate_changelog_template] *)
Definition ChangelogRequirementCheck__generate_changelog_template
  (breaking_changes : list BreakingChangeFinding) : string :=
  Py.join Py.nl
    (["## [Unreleased]"; ""; "### BREAKING CHANGES"; ""]
       ++ filter (fun e => negb (String.eqb e EmptyString))
                 (map bf_suggested_changelog_entry breaking_changes)).

Definition is_changelog (path : string) : bool :=
  String.eqb (Py.basename path) "CHANGELOG.md".

(** [ChangelogRequirementCheck.check] *)
Definition ChangelogRequirementCheck_check (changed_files : odict string)
  (breaking_changes : list BreakingChangeFinding) : list BreakingChangeFinding :=
  match breaking_changes with
  | [] => []
  | _ =>
      let has_changelog := existsb is_changelog (od_keys changed_files) in
      if negb has_changelog then
        [mkBreakingChangeFinding "changelog_required" "critical" "CHANGELOG.md" 1
           "missing_changelog" "CHANGELOG.md"
           ("Breaking changes detected ("
              +++ Py.str_of_nat (length breaking_changes)
              +++ " issues) but CHANGELOG.md not updated")
           true
           (ChangelogRequirementCheck__generate_changelog_template breaking_changes)]
      else
        let changelog_content :=
          option_map snd (find (fun '(path, _) => is_changelog path) changed_files) in
        match changelog_content with
        | Some content =>
            if nonempty changelog_content
               && negb (ChangelogRequirementCheck__has_proper_changelog_format content)
            then [mkBreakingChangeFinding "changelog_format" "medium" "CHANGELOG.md" 1
                    "invalid_format" "CHANGELOG.md"
                    "CHANGELOG.md does not follow proper format (should have ## [Unreleased] or ## [version] sections)"
                    true
                    "Add section: ## [Unreleased] or ## [X.Y.Z] with ### BREAKING CHANGES subsection"]
            else []
        | None => []
        end
  end.

(** [old_files.get(file_path)] for a [Dict[str, Optional[str]]] *)
Definition dict_get (old_files : odict (option string)) (file_path : string)
  : option string :=
  match od_get old_files file_path with
  | Some v => v
  | None => None
  end.

Section BreakingChanges.
Context {rt : PythonRuntime}.

(** [APISignatureChangeCheck._extract_signatures] *)
Definition APISignatureChangeCheck__extract_signatures (content : string)
  : result (odict signature) :=
  catch_SyntaxError
    (nodes <- ast_nodes content ;; Ok (fold_left add_signature nodes []))
    (Ok []).

(** [APISignatureChangeCheck.check] *)
Definition APISignatureChangeCheck_check (file_path : string)
  (old_content : option string) (new_content : string)
  : result (list BreakingChangeFinding) :=
  let path_parts := Py.path_parts file_path in
  if negb (Py.mem "api" path_parts || Py.mem "controllers" path_parts) then Ok []
  else
    match old_content with
    | None => Ok []
    | Some old =>
        old_signatures <- APISignatureChangeCheck__extract_signatures old ;;
        new_signatures <- APISignatureChangeCheck__extract_signatures new_content ;;
        let modified :=
          flat_map (fun '(func_name, old_sig) =>
                      match od_get new_signatures func_name with
                      | Some new_sig =>
                          if negb (signature_eqb old_sig new_sig)
                          then [api_modified_finding file_path func_name old_sig new_sig]
                          else []
                      | None => []
                      end)
                   old_signatures in
        let removed_functions :=
          set_diff (od_keys old_signatures) (od_keys new_signatures) in
        Ok (modified
              ++ map (api_deleted_finding file_path) (set_iter removed_functions))
    end.

(** [RemovedPublicMethodsCheck._extract_public_elements] *)
Definition RemovedPublicMethodsCheck__extract_public_elements (content : string)
  : result public_elements :=
  catch_SyntaxError
    (nodes <- ast_nodes content ;; for_each nodes add_element (mk_elements [] []))
    (Ok (mk_elements [] [])).

(** [RemovedPublicMethodsCheck.check] *)
Definition RemovedPublicMethodsCheck_check (file_path : string)
  (old_content new_content : option string) : result (list BreakingChangeFinding) :=
  match old_content, new_content with
  | Some old, None =>
      if nonempty old_content then
        elements <- RemovedPublicMethodsCheck__extract_public_elements old ;;
        match classes elements, functions elements with
        | [], [] => Ok []
        | _, _ =>
            Ok [removed_finding file_path "deleted_file" file_path
                  ("File with " +++ Py.str_of_nat (set_len (classes elements))
                     +++ " public classes and "
                     +++ Py.str_of_nat (set_len (functions elements))
                     +++ " public functions was deleted")
                  ("- **BREAKING CHANGE**: Removed " +++ file_path
                     +++ " with public APIs")]
        end
      else Ok []
  | None, _ => Ok []
  | Some old, Some new =>
      old_elements <- RemovedPublicMethodsCheck__extract_public_elements old ;;
      new_elements <- RemovedPublicMethodsCheck__extract_public_elements new ;;
      let removed_classes := set_diff (classes old_elements) (classes new_elements) in
      let removed_functions :=
        set_diff (functions old_elements) (functions new_elements) in
      Ok (map (fun class_name =>
                 removed_finding file_path "deleted_class" class_name
                   ("Public class '" +++ class_name +++ "' was removed")
                   ("- **BREAKING CHANGE**: Removed class `" +++ class_name +++ "`"))
              (set_iter removed_classes)
          ++ map (fun func_name =>
                    removed_finding file_path "deleted_function" func_name
                      ("Public function '" +++ func_name +++ "' was removed")
                      ("- **BREAKING CHANGE**: Removed function `" +++ func_name +++ "`"))
                 (set_iter removed_functions))
  end.

(** The three per-file checks of [BreakingChangesValidator.validate_pr]. *)
Definition breaking_file (old_files : odict (option string)) (file_path new_content : string)
  : result (list BreakingChangeFinding) :=
  let old_content := dict_get old_files file_path in
  sig_findings <- APISignatureChangeCheck_check file_path old_content new_content ;;
  removal_findings <-
    RemovedPublicMethodsCheck_check file_path old_content (Some new_content) ;;
  let schema_findings := DatabaseSchemaChangeCheck_check file_path new_content in
  Ok (sig_findings ++ removal_findings ++ schema_findings).

(** [BreakingChangesValidator.validate_pr] *)
Definition BreakingChangesValidator_validate_pr (changed_files : odict string)
  (old_files : odict (option string)) : result (list BreakingChangeFinding) :=
  all_findings <- for_each changed_files
                    (fun all_findings '(file_path, new_content) =>
                       fs <- breaking_file old_files file_path new_content ;;
                       Ok (all_findings ++ fs))
                    [] ;;
  let changelog_findings := ChangelogRequirementCheck_check changed_files all_findings in
  Ok (all_findings ++ changelog_findings).

End BreakingChanges.

(** [BreakingChangesValidator.format_findings_report] *)
Definition BreakingChangesValidator_format_findings_report
  (findings : list BreakingChangeFinding) : string :=
  match findings with
  | [] => "‚úÖ No breaking changes detected."
  | _ =>
      let critical_count :=
        length (filter (fun f => String.eqb (bf_severity f) "critical") findings) in
      let high_count :=
        length (filter (fun f => String.eqb (bf_severity f) "high") findings) in
      let by_type :=
        fold_left (fun by_type finding =>
                     dict_append by_type (bf_change_type finding) finding)
                  findings [] in
      Py.join Py.nl
        ([ "## üí• Breaking Changes Check Results" +++ Py.nl;
           "**" +++ Py.str_of_nat critical_count +++ " CRITICAL** | **"
             +++ Py.str_of_nat high_count +++ " HIGH** severity issues" +++ Py.nl;
           "‚ö†Ô∏è  **All breaking changes must be documented in CHANGELOG.md**" +++ Py.nl ]
         ++ flat_map (fun '(change_type, type_findings) =>
              (Py.nl +++ "### " +++ Py.title (Py.replace "_" " " change_type) +++ Py.nl)
              :: flat_map (fun finding =>
                   let emoji :=
                     if String.eqb (bf_severity finding) "critical"
                     then "üî¥" else "üü°" in
                   [ emoji +++ " **" +++ bf_file_path finding +++ "** - "
                       +++ bf_element_name finding;
                     "   " +++ bf_message finding ]
                   ++ (if negb (String.eqb (bf_suggested_changelog_entry finding) "")
                       then [ "   ```markdown";
                              "   " +++ bf_suggested_changelog_entry finding;
                              "   ```" ]
                       else [])
                   ++ [ "" ])
                   type_findings)
              by_type)
  end.

(** ** [quality_orchestrator.py] *)

Record QualityCheckResult : Type := mkQualityCheckResult {
  passed : bool;
  total_issues : Z;
  critical_issues : Z;
  high_issues : Z;
  medium_issues : Z;
  low_issues : Z;
  security_findings : list SecurityFinding;
  architecture_findings : list ArchitectureFinding;
  test_coverage_findings : list TestCoverageFinding;
  performance_findings : list PerformanceFinding;
  breaking_changes_findings : list BreakingChangeFinding;
  mode : string;
  override_used : bool;
  override_justification : option string
}.

(** The elements of [all_findings], a list of the five finding classes. *)
Inductive any_finding : Type :=
| OfSecurity (f : SecurityFinding)
| OfArchitecture (f : ArchitectureFinding)
| OfTestCoverage (f : TestCoverageFinding)
| OfPerformance (f : PerformanceFinding)
| OfBreakingChange (f : BreakingChangeFinding).

(** The [severity] attribute: a [Severity] member for security findings,
    a [str] for the other four classes. *)
Inductive severity_attr : Type :=
| EnumAttr (s : Severity)
| StrAttr (s : string).

(** [getattr(finding, 'severity', 'medium')]: every class has the field. *)
Definition getattr_severity (finding : any_finding) : severity_attr :=
  match finding with
  | OfSecurity f => EnumAttr (sf_severity f)
  | OfArchitecture f => StrAttr (af_severity f)
  | OfTestCoverage f => StrAttr (tf_severity f)
  | OfPerformance f => StrAttr (pf_severity f)
  | OfBreakingChange f => StrAttr (bf_severity f)
  end.

(** [x.lower()]: a method of [str]; an [Enum] member has no such attribute. *)
Definition attr_lower (x : severity_attr) : result string :=
  match x with
  | StrAttr s => Ok (Py.lower s)
  | EnumAttr _ => Raise (AttributeError "'Severity' object has no attribute 'lower'")
  end.

Definition zero_counts : odict Z :=
  [("critical", 0%Z); ("high", 0%Z); ("medium", 0%Z); ("low", 0%Z)].

(** The body of the loop of [_count_severities]. *)
Definition count_step (counts : odict Z) (finding : any_finding) : result (odict Z) :=
  severity <- attr_lower (getattr_severity finding) ;;
  Ok (match od_get counts severity with
      | Some n => od_set counts severity (n + 1)%Z
      | None => counts
      end).

(** [QualityCheckOrchestrator._count_severities] *)
Definition QualityCheckOrchestrator__count_severities (findings : list any_finding)
  : result (odict Z) :=
  for_each findings count_step zero_counts.

(** [QualityCheckOrchestrator._determine_pass_status] *)
Definition QualityCheckOrchestrator__determine_pass_status (self_mode : string)
  (severity_counts : odict Z) : result bool :=
  if String.eqb self_mode "error" then
    critical <- od_index severity_counts "critical" ;;
    if Z.eqb critical 0
    then high <- od_index severity_counts "high" ;; Ok (Z.eqb high 0)
    else Ok false
  else Ok true.

Section Orchestrator.
Context {rt : PythonRuntime}.

(** [QualityCheckOrchestrator.validate_pr]; [self_mode] is [self.mode]. *)
Definition QualityCheckOrchestrator_validate_pr (self_mode : string)
  (pr_title pr_description : string) (changed_files : odict string)
  (old_files : option (odict (option string))) : result QualityCheckResult :=
  let old_files := match old_files with Some d => d | None => [] end in
  let security_results := SecurityValidator_validate_pr_changes changed_files in
  let security_findings := od_flatten security_results in
  architecture_results <- ArchitectureValidator_validate_project changed_files ;;
  let architecture_findings := od_flatten architecture_results in
  test_coverage_findings <-
    TestCoverageValidator_validate_pr pr_title pr_description changed_files ;;
  let performance_results := PerformanceValidator_validate_pr changed_files in
  let performance_findings := od_flatten performance_results in
  breaking_changes_findings <-
    BreakingChangesValidator_validate_pr changed_files old_files ;;
  let all_findings :=
    map OfSecurity security_findings
    ++ map OfArchitecture architecture_findings
    ++ map OfTestCoverage test_coverage_findings
    ++ map OfPerformance performance_findings
    ++ map OfBreakingChange breaking_changes_findings in
  severity_counts <- QualityCheckOrchestrator__count_severities all_findings ;;
  passed <- QualityCheckOrchestrator__determine_pass_status self_mode severity_counts ;;
  critical <- od_index severity_counts "critical" ;;
  high <- od_index severity_counts "high" ;;
  medium <- od_index severity_counts "medium" ;;
  low <- od_index severity_counts "low" ;;
  Ok (mkQualityCheckResult passed (Z.of_nat (length all_findings))
        critical high medium low
        security_findings architecture_findings test_coverage_findings
        performance_findings breaking_changes_findings
        self_mode false None).

End Orchestrator.

(** *** The recursion limit

    CPython bounds the depth of the call stack, and [dfs] calls itself
    once per module along a chain of imports.  [limit] is the number of
    nested calls of [dfs] that the interpreter still allows when
    [_find_cycles] starts.  A search that needs more raises
    [RecursionError], and nothing catches it on the way out of
    [validate_pr].  The definitions above are these runs with a limit
    that the search does not reach. *)

Section RecursionLimit.
Context {rt : PythonRuntime}.
Variable limit : nat.

(** [CircularDependencyCheck._find_cycles] *)
Definition CircularDependencyCheck__find_cycles_within (graph : odict pyset)
  : option (list (list string)) :=
  option_map cycles
    (fold_opt (fun st node =>
                 if negb (Py.mem node (visited st)) then dfs graph limit node st
                 else Some st)
              (od_keys graph) (mk_dfs [] [] [])).

(** [CircularDependencyCheck.check_project] *)
Definition CircularDependencyCheck_check_project_within (file_contents : odict string)
  : result (list ArchitectureFinding) :=
  let dependency_graph := CircularDependencyCheck__build_dependency_graph file_contents in
  match CircularDependencyCheck__find_cycles_within dependency_graph with
  | Some cycles => Ok (map cycle_finding cycles)
  | None => Raise RecursionError
  end.

(** [ArchitectureValidator.validate_project] *)
Definition ArchitectureValidator_validate_project_within (file_contents : odict string)
  : result (odict (list ArchitectureFinding)) :=
  results <- for_each file_contents
               (fun results '(file_path, content) =>
                  findings <- ArchitectureValidator_validate_file file_path content ;;
                  Ok (record_findings results file_path findings))
               [] ;;
  circular_findings <- CircularDependencyCheck_check_project_within file_contents ;;
  Ok (fold_left append_finding circular_findings results).

(** [QualityCheckOrchestrator.validate_pr] *)
Definition QualityCheckOrchestrator_validate_pr_within (self_mode : string)
  (pr_title pr_description : string) (changed_files : odict string)
  (old_files : option (odict (option string))) : result QualityCheckResult :=
  let old_files := match old_files with Some d => d | None => [] end in
  let security_results := SecurityValidator_validate_pr_changes changed_files in
  let security_findings := od_flatten security_results in
  architecture_results <- ArchitectureValidator_validate_project_within changed_files ;;
  let architecture_findings := od_flatten architecture_results in
  test_coverage_findings <-
    TestCoverageValidator_validate_pr pr_title pr_description changed_files ;;
  let performance_results := PerformanceValidator_validate_pr changed_files in
  let performance_findings := od_flatten performance_results in
  breaking_changes_findings <-
    BreakingChangesValidator_validate_pr changed_files old_files ;;
  let all_findings :=
    map OfSecurity security_findings
    ++ map OfArchitecture architecture_findings
    ++ map OfTestCoverage test_coverage_findings
    ++ map OfPerformance performance_findings
    ++ map OfBreakingChange breaking_changes_findings in
  severity_counts <- QualityCheckOrchestrator__count_severities all_findings ;;
  passed <- QualityCheckOrchestrator__determine_pass_status self_mode severity_counts ;;
  critical <- od_index severity_counts "critical" ;;
  high <- od_index severity_counts "high" ;;
  medium <- od_index severity_counts "medium" ;;
  low <- od_index severity_counts "low" ;;
  Ok (mkQualityCheckResult passed (Z.of_nat (length all_findings))
        critical high medium low
        security_findings architecture_findings test_coverage_findings
        performance_findings breaking_changes_findings
        self_mode false None).

End RecursionLimit.

(** *** Reports *)

(** [QualityCheckOrchestrator._group_findings_by_file]; [file_path] reads
    the attribute of that name, which every finding class has. *)
Definition QualityCheckOrchestrator__group_findings_by_file {F : Type}
  (file_path : F -> string) (findings : list F) : odict (list F) :=
  fold_left (fun grouped finding => dict_append grouped (file_path finding) finding)
            findings [].

(** [QualityCheckOrchestrator._format_architecture_findings] *)
Definition QualityCheckOrchestrator__format_architecture_findings
  (findings : list ArchitectureFinding) : string :=
  let count level :=
    length (filter (fun f => String.eqb (af_severity f) level) findings) in
  let by_file := QualityCheckOrchestrator__group_findings_by_file af_file_path findings in
  Py.join Py.nl
    ([ "## 🏗️  Architecture Check Results" +++ Py.nl;
       "**" +++ Py.str_of_nat (count "high") +++ " HIGH** | **"
         +++ Py.str_of_nat (count "medium") +++ " MEDIUM** | **"
         +++ Py.str_of_nat (count "low") +++ " LOW** severity issues" +++ Py.nl ]
     ++ flat_map (fun '(file_path, file_findings) =>
          (Py.nl +++ "### 📄 " +++ file_path +++ Py.nl)
          :: flat_map (fun finding =>
               let emoji :=
                 if String.eqb (af_severity finding) "high" then "🔴"
                 else if String.eqb (af_severity finding) "medium" then "🟡"
                 else "ℹ️" in
               [ emoji +++ " **Line " +++ Py.str_of_Z (af_line_number finding)
                   +++ "**: " +++ af_message finding;
                 "   **Rule**: " +++ af_violated_rule finding ]
               ++ (if negb (String.eqb (af_suggested_fix finding) "")
                   then [ "   💡 **Fix**: " +++ af_suggested_fix finding ]
                   else [])
               ++ [ "" ])
               file_findings)
          (sorted_by (fun a b => String.leb (fst a) (fst b)) by_file)).

(** The separator between the sections of the report *)
Definition SECTION_RULE : string := Py.nl +++ "---" +++ Py.nl.

(** [QualityCheckOrchestrator.generate_report]; the one part that can
    raise is the performance report. *)
Definition QualityCheckOrchestrator_generate_report (r : QualityCheckResult)
  : result string :=
  let status_emoji := if passed r then "✅" else "❌" in
  let status_text := if passed r then "PASSED" else "FAILED" in
  let summary :=
    [ "# 🔍 CodeRabbit Quality Check Results" +++ Py.nl;
      status_emoji +++ " **Status**: " +++ status_text;
      "**Mode**: " +++ Py.upper (mode r) +++ Py.nl;
      "## 📊 Summary" +++ Py.nl;
      "- **Total Issues**: " +++ Py.str_of_Z (total_issues r);
      "- **Critical**: " +++ Py.str_of_Z (critical_issues r);
      "- **High**: " +++ Py.str_of_Z (high_issues r);
      "- **Medium**: " +++ Py.str_of_Z (medium_issues r);
      "- **Low**: " +++ Py.str_of_Z (low_issues r) +++ Py.nl;
      if String.eqb (mode r) "warning" then "ℹ️  **Warning Mode**: Issues reported but PR can be merged. Move to error mode after team training." +++ Py.nl else "🚫 **Error Mode**: Critical and high severity issues block merge." +++ Py.nl ] in
  let security :=
    match security_findings r with
    | [] => []
    | fs => [ SECTION_RULE;
              SecurityValidator_format_findings_report
                (QualityCheckOrchestrator__group_findings_by_file sf_file_path fs) ]
    end in
  let architecture :=
    match architecture_findings r with
    | [] => []
    | fs => [ SECTION_RULE; QualityCheckOrchestrator__format_architecture_findings fs ]
    end in
  let test_coverage :=
    match test_coverage_findings r with
    | [] => []
    | fs => [ SECTION_RULE; TestCoverageValidator_format_findings_report fs ]
    end in
  performance <-
    match performance_findings r with
    | [] => Ok []
    | fs =>
        performance_report <-
          PerformanceValidator_format_findings_report
            (QualityCheckOrchestrator__group_findings_by_file pf_file_path fs) ;;
        Ok [ SECTION_RULE; performance_report ]
    end ;;
  let breaking_changes :=
    match breaking_changes_findings r with
    | [] => []
    | fs => [ SECTION_RULE; BreakingChangesValidator_format_findings_report fs ]
    end in
  let override :=
    if override_used r
    then [ SECTION_RULE;
           "## ⚠️  Override Applied" +++ Py.nl;
           "**Justification**: "
             +++ match override_justification r with Some s => s | None => "None" end
             +++ Py.nl ]
    else [] in
  let next_steps :=
    [ SECTION_RULE; "## 📝 Next Steps" +++ Py.nl ]
    ++ (if negb (passed r)
        then [ "1. Review and fix critical and high severity issues above";
               "2. Update code and push new commits";
               "3. Quality checks will re-run automatically";
               Py.nl +++ "**OR**" +++ Py.nl;
               "Use override command if issues are false positives:";
               "```";
               "@coderabbitai ignore <check-name> --reason " +++ Py.dq +++ "Detailed justification (min 50 chars)" +++ Py.dq;
               "```" ]
        else (if (0 <? total_issues r)%Z then [ "- Address warnings before merging (optional but recommended)" ] else [])
             ++ [ "- All quality gates passed ✅";
                  "- PR is ready for review and merge" ]) in
  Ok (Py.join Py.nl
        (summary ++ security ++ architecture ++ test_coverage ++ performance
           ++ breaking_changes ++ override ++ next_steps)).

(** *** JSON export

    A Python value as [json.dumps] sees it.  A JSON document is
    represented by the value it denotes ([json_doc]), so that
    [json.loads] is the reading of that value; [json.dumps] fails with
    [TypeError] on an object that has no JSON form, such as an [Enum]
    member. *)

Inductive pyvalue : Type :=
| VNone
| VBool (b : bool)
| VInt (n : Z)
| VStr (s : string)
| VList (l : list pyvalue)
| VDict (d : list (string * pyvalue))
| VEnum (s : Severity).

Inductive json_doc : Type :=
| JNull
| JBool (b : bool)
| JInt (n : Z)
| JStr (s : string)
| JList (l : list json_doc)
| JDict (d : list (string * json_doc)).

(** [out = [f(x) for x in xs]], where [f] may raise *)
Definition mapM {A B : Type} (f : A -> result B) : list A -> result (list B) :=
  fix go (xs : list A) : result (list B) :=
    match xs with
    | [] => Ok []
    | x :: xs' => y <- f x ;; ys <- go xs' ;; Ok (y :: ys)
    end.

(** [json.dumps(v, indent=2)] *)
Fixpoint json_dumps (v : pyvalue) : result json_doc :=
  match v with
  | VNone => Ok JNull
  | VBool b => Ok (JBool b)
  | VInt n => Ok (JInt n)
  | VStr s => Ok (JStr s)
  | VList l => js <- mapM json_dumps l ;; Ok (JList js)
  | VDict d =>
      js <- mapM (fun kv => j <- json_dumps (snd kv) ;; Ok (fst kv, j)) d ;;
      Ok (JDict js)
  | VEnum _ => Raise (TypeError "Object of type Severity is not JSON serializable")
  end.

(** [json.loads(text)][key] for a document that is an object *)
Definition json_field (doc : json_doc) (key : string) : option json_doc :=
  match doc with
  | JDict d => od_get d key
  | _ => None
  end.

(** [dataclasses.asdict] on the five finding classes: field by field,
    values copied as they are. *)
Definition asdict_security (f : SecurityFinding) : pyvalue :=
  VDict [ ("check_name", VStr (sf_check_name f));
          ("severity", VEnum (sf_severity f));
          ("file_path", VStr (sf_file_path f));
          ("line_number", VInt (sf_line_number f));
          ("line_content", VStr (sf_line_content f));
          ("message", VStr (sf_message f));
          ("pattern_matched", VStr (sf_pattern_matched f));
          ("suggested_fix", VStr (sf_suggested_fix f)) ].

Definition asdict_architecture (f : ArchitectureFinding) : pyvalue :=
  VDict [ ("check_name", VStr (af_check_name f));
          ("severity", VStr (af_severity f));
          ("file_path", VStr (af_file_path f));
          ("line_number", VInt (af_line_number f));
          ("message", VStr (af_message f));
          ("violated_rule", VStr (af_violated_rule f));
          ("suggested_fix", VStr (af_suggested_fix f)) ].

Definition asdict_test_coverage (f : TestCoverageFinding) : pyvalue :=
  VDict [ ("check_name", VStr (tf_check_name f));
          ("severity", VStr (tf_severity f));
          ("file_path", VStr (tf_file_path f));
          ("function_name", VStr (tf_function_name f));
          ("line_number", VInt (tf_line_number f));
          ("message", VStr (tf_message f));
          ("suggested_fix", VStr (tf_suggested_fix f)) ].

Definition asdict_performance (f : PerformanceFinding) : pyvalue :=
  VDict [ ("check_name", VStr (pf_check_name f));
          ("severity", VStr (pf_severity f));
          ("file_path", VStr (pf_file_path f));
          ("line_number", VInt (pf_line_number f));
          ("line_content", VStr (pf_line_content f));
          ("message", VStr (pf_message f));
          ("impact", VStr (pf_impact f));
          ("suggested_fix", VStr (pf_suggested_fix f)) ].

Definition asdict_breaking_change (f : BreakingChangeFinding) : pyvalue :=
  VDict [ ("check_name", VStr (bf_check_name f));
          ("severity", VStr (bf_severity f));
          ("file_path", VStr (bf_file_path f));
          ("line_number", VInt (bf_line_number f));
          ("change_type", VStr (bf_change_type f));
          ("element_name", VStr (bf_element_name f));
          ("message", VStr (bf_message f));
          ("requires_changelog", VBool (bf_requires_changelog f));
          ("suggested_changelog_entry", VStr (bf_suggested_changelog_entry f)) ].

(** The dictionary [result_dict] of [export_results_json]. *)
Definition result_dict (r : QualityCheckResult) : pyvalue :=
  VDict [ ("passed", VBool (passed r));
          ("total_issues", VInt (total_issues r));
          ("severity_counts",
           VDict [ ("critical", VInt (critical_issues r));
                   ("high", VInt (high_issues r));
                   ("medium", VInt (medium_issues r));
                   ("low", VInt (low_issues r)) ]);
          ("mode", VStr (mode r));
          ("override_used", VBool (override_used r));
          ("override_justification",
           match override_justification r with Some s => VStr s | None => VNone end);
          ("findings",
           VDict [ ("security", VList (map asdict_security (security_findings r)));
                   ("architecture",
                    VList (map asdict_architecture (architecture_findings r)));
                   ("test_coverage",
                    VList (map asdict_test_coverage (test_coverage_findings r)));
                   ("performance",
                    VList (map asdict_performance (performance_findings r)));
                   ("breaking_changes",
                    VList (map asdict_breaking_change (breaking_changes_findings r))) ]) ].

(** [QualityCheckOrchestrator.export_results_json] *)
Definition QualityCheckOrchestrator_export_results_json (r : QualityCheckResult)
  : result json_doc :=
  json_dumps (result_dict r).

(** * Vocabulary of the properties

    The predicates and the sample inputs that the statements below use. *)

(** ** Findings *)

(** The closed set of severities, as the string-typed findings spell it. *)
Definition SEVERITIES : list string := ["critical"; "high"; "medium"; "low"].

(** The [check_name] of the findings that are about a whole file. *)
Definition FILE_LEVEL_CHECKS : list string :=
  ["removed_public_methods"; "changelog_required"; "changelog_format"].

(** The [lineno] of a node, for the nodes whose line the checks read. *)
Definition node_line (node : ast_node) : option Z :=
  match node with
  | Import _ l | ImportFrom _ l
  | FunctionDef _ _ _ l _ | AsyncFunctionDef _ _ _ l _ => Some l
  | _ => None
  end.

(** Performance findings: a severity of the closed set and a line of the
    file. *)
Definition perf_inv (f : PerformanceFinding) : Prop :=
  In (pf_severity f) SEVERITIES /\ (1 <= pf_line_number f)%Z.

Section Vocabulary.
Context {rt : PythonRuntime}.

(** Where a line number can come from: a line of the text, counted from
    one, or the [lineno] of a node of a syntax tree. *)
Definition ast_line (l : Z) : Prop :=
  exists content nodes node,
    ast_nodes content = Ok nodes /\ In node nodes /\ node_line node = Some l.

Definition line_from (l : Z) : Prop := (1 <= l)%Z \/ ast_line l.

(** Python numbers the lines of a syntax tree from one. *)
Definition linenos_positive : Prop :=
  forall content nodes node l,
    ast_nodes content = Ok nodes -> In node nodes -> node_line node = Some l ->
    (1 <= l)%Z.

(** Architecture findings. *)
Definition arch_inv (f : ArchitectureFinding) : Prop :=
  In (af_severity f) SEVERITIES
  /\ line_from (af_line_number f)
  /\ (af_check_name f = "circular_dependency" -> af_line_number f = 1%Z).

(** Test-coverage findings: the bug-fix finding is about the pull request
    and carries line 0. *)
Definition test_inv (f : TestCoverageFinding) : Prop :=
  In (tf_severity f) SEVERITIES
  /\ ((tf_check_name f = "bug_fix_regression_tests" /\ tf_line_number f = 0%Z)
      \/ (tf_check_name f <> "bug_fix_regression_tests" /\ line_from (tf_line_number f)))
  /\ (tf_check_name f = "test_quality" -> tf_line_number f = 1%Z).

(** Breaking-change findings of the validator.  It only visits files of
    the new mapping, so it never reports a deleted file. *)
Definition break_inv (f : BreakingChangeFinding) : Prop :=
  In (bf_severity f) SEVERITIES
  /\ line_from (bf_line_number f)
  /\ (In (bf_check_name f) FILE_LEVEL_CHECKS -> bf_line_number f = 1%Z)
  /\ bf_change_type f <> "deleted_file".

End Vocabulary.

(** The schema findings of a changeset, file by file. *)
Definition schema_findings (changed_files : odict string) : list BreakingChangeFinding :=
  flat_map (fun '(file_path, content) => DatabaseSchemaChangeCheck_check file_path content)
           changed_files.

(** ** Counting *)

Definition count_where {A : Type} (p : A -> bool) (l : list A) : Z :=
  Z.of_nat (length (filter p l)).

(** The number of findings of a level across the five lists of a result. *)
Definition findings_with_severity (level : Severity) (r : QualityCheckResult) : Z :=
  (count_where (fun f => Severity_eqb (sf_severity f) level) (security_findings r)
   + count_where (fun f => String.eqb (af_severity f) (Severity_value level))
       (architecture_findings r)
   + count_where (fun f => String.eqb (tf_severity f) (Severity_value level))
       (test_coverage_findings r)
   + count_where (fun f => String.eqb (pf_severity f) (Severity_value level))
       (performance_findings r)
   + count_where (fun f => String.eqb (bf_severity f) (Severity_value level))
       (breaking_changes_findings r))%Z.

(** The sum of the lengths of the five lists. *)
Definition findings_total (r : QualityCheckResult) : Z :=
  Z.of_nat (length (security_findings r) + length (architecture_findings r)
            + length (test_coverage_findings r) + length (performance_findings r)
            + length (breaking_changes_findings r)).

(** Does a finding read as [level] in [_count_severities]? *)
Definition str_severity_is (level : string) (f : any_finding) : bool :=
  match getattr_severity f with
  | StrAttr s => String.eqb s level
  | EnumAttr _ => false
  end.

(** A string severity is one of the closed set. *)
Definition str_severity_ok (f : any_finding) : Prop :=
  match getattr_severity f with
  | StrAttr s => In s SEVERITIES
  | EnumAttr _ => True
  end.

(** The severity is a string, not an [Enum] member. *)
Definition has_str_severity (f : any_finding) : Prop :=
  match getattr_severity f with
  | StrAttr _ => True
  | EnumAttr _ => False
  end.

(** The dictionary of [_count_severities] with the given counters. *)
Definition counts_of (a b c d : Z) : odict Z :=
  [("critical", a); ("high", b); ("medium", c); ("low", d)].

(** The gate of [_determine_pass_status], as its docstring words it. *)
Definition gate (self_mode : string) (critical high : Z) : bool :=
  if String.eqb self_mode "error" then Z.eqb critical 0 && Z.eqb high 0 else true.

(** ** Credentials *)

Fixpoint distinct (l : list string) : bool :=
  match l with
  | [] => true
  | x :: l' => negb (Py.mem x l') && distinct l'
  end.

(** A finding names a credential type when its message contains it. *)
Definition names_type (cred_type : string) (f : SecurityFinding) : bool :=
  Py.contains cred_type (sf_message f).

(** The claim as the specification states it: on a one-line file whose
    line is not a comment and matches a pattern of the table exactly once
    outside the exclusions, the check returns exactly one critical
    finding naming the pattern's credential type. *)
Definition one_finding_per_matching_line : Prop :=
  forall (file_path line : string) (entry : string * string) (m : Re.rmatch),
    In entry CREDENTIAL_PATTERNS ->
    is_comment_line line = false ->
    Re.finditer true (fst entry) line = [m] ->
    HardcodedCredentialsCheck__is_excluded (Re.m_text m) = false ->
    length (filter (fun f => Severity_eqb (sf_severity f) CRITICAL
                             && names_type (snd entry) f)
                   (HardcodedCredentialsCheck_check file_path line)) = 1.

(** ** The depth-first search *)

Section DfsVocabulary.
Context {rt : PythonRuntime}.
Variable graph : odict pyset.

(** The nodes of a graph, each once. *)
Definition universe : list string := nodup string_dec (graph_nodes graph).

(** The number of nodes of the graph that are not yet visited. *)
Definition unvisited (seen : list string) : nat :=
  length (filter (fun x => negb (Py.mem x seen)) universe).

End DfsVocabulary.

(** ** Sample inputs

    The nodes that [ast.walk(ast.parse(text))] yields for the texts used
    below: the module first, then breadth first. *)

(** [import os] *)
Definition import_os_nodes : list ast_node :=
  [ OtherNode; Import ["os"] 1; OtherNode ].
(** [x = 1] *)
Definition assignment_nodes : list ast_node :=
  [ OtherNode; OtherNode; OtherNode; OtherNode; OtherNode ].
(** [def get_user(user_id): pass] *)
Definition get_user_nodes : list ast_node :=
  [ OtherNode; FunctionDef "get_user" [mk_arg "user_id" None] None 1 (Some 1%Z);
    OtherNode; OtherNode; OtherNode ].
(** [def f(a): pass] *)
Definition f_required : list ast_node :=
  [ OtherNode; FunctionDef "f" [mk_arg "a" None] None 1 (Some 1%Z);
    OtherNode; OtherNode; OtherNode ].
(** [def f(a, b): pass] *)
Definition f_two_required : list ast_node :=
  [ OtherNode; FunctionDef "f" [mk_arg "a" None; mk_arg "b" None] None 1 (Some 1%Z);
    OtherNode; OtherNode; OtherNode; OtherNode ].
(** [def f(a, b=False): pass]: the default is a node of its own, the
    parameter list is the same. *)
Definition f_optional : list ast_node :=
  [ OtherNode; FunctionDef "f" [mk_arg "a" None; mk_arg "b" None] None 1 (Some 1%Z);
    OtherNode; OtherNode; OtherNode; OtherNode; OtherNode ].

(** A runtime for concrete runs: it knows the texts above, any other
    text is taken not to parse; a set is iterated in insertion order. *)
Definition demo_trees : odict (list ast_node) :=
  [ ("def get_user(user_id): pass", get_user_nodes);
    ("x = 1", assignment_nodes);
    ("import os", import_os_nodes);
    ("def f(a): pass", f_required);
    ("def f(a, b): pass", f_two_required);
    ("def f(a, b=False): pass", f_optional) ].

Definition demo_runtime : PythonRuntime :=
  {| ast_nodes := fun content =>
       match od_get demo_trees content with
       | Some nodes => Ok nodes
       | None => Raise SyntaxError
       end;
     set_iter := nodup string_dec;
     set_iter_perm := fun l => Permutation_refl (nodup string_dec l) |}.

(** A changeset that drops the only public function of an API file. *)
Definition demo_changed : odict string := [("api/users.py", "x = 1")].
Definition demo_old : odict (option string) :=
  [("api/users.py", Some "def get_user(user_id): pass")].

(** A changeset with one new migration file. *)
Definition demo_migration : odict string :=
  [("migrations/0002_drop.py", "op.drop_column('users', 'nickname')")].

(** The changeset of the orchestrator's own test on error mode, with its
    hard-coded key. *)
Definition leaked_key : odict string :=
  [("src/security_issue.py",
    "API_KEY = " +++ Py.dq +++ "sk_live_1234567890abcdef" +++ Py.dq)].

(** A result holding one critical security finding. *)
Definition leaked_key_result : QualityCheckResult :=
  mkQualityCheckResult false 1 1 0 0 0
    [credential_finding "src/security_issue.py" 1
       ("API_KEY = " +++ Py.dq +++ "sk_live_1234567890abcdef" +++ Py.dq)
       ("api[_-]?key\s*[=:]\s*" +++ QUOTED) "API key"]
    [] [] [] [] "error" false None.

(** The error of [json.dumps] on a [Severity] member. *)
Definition JSON_TYPE_ERROR : exn :=
  TypeError "Object of type Severity is not JSON serializable".

(** The finding for [f] whose signature went from [(a)] to [(a, b)]. *)
Definition modified_f : BreakingChangeFinding :=
  mkBreakingChangeFinding "api_signature_changes" "high" "api/x.py" 1 "modified" "f"
    "API signature changed for 'f'" true
    "- **CHANGED**: `f` signature modified. Old: (a), New: (a, b)".

(** A line that two patterns of the credential table match. *)
Definition apikey_line : string := "apikey = " +++ Py.dq +++ "abcd1234" +++ Py.dq.

(** A pull request titled as a bug fix, without a test file. *)
Definition bug_fix_changeset : odict string := [("src/login.py", "x = 1")].

(** An API file whose route has no injected dependency. *)
Definition demo_route : string :=
  "x = 1" +++ Py.nl +++ "@app.get('/users')" +++ Py.nl +++ "def users(): pass".

(** The two service modules of the package's own test, which import each
    other. *)
Definition user_service_py : string :=
  Py.nl +++ "from services.order_service import OrderService" +++ Py.nl +++ Py.nl
    +++ "class UserService:" +++ Py.nl +++ "    pass" +++ Py.nl.
Definition order_service_py : string :=
  Py.nl +++ "from services.user_service import UserService" +++ Py.nl +++ Py.nl
    +++ "class OrderService:" +++ Py.nl +++ "    pass" +++ Py.nl.
Definition package_cycle : odict string :=
  [ ("services/user_service.py", user_service_py);
    ("services/order_service.py", order_service_py) ].

(** Two top-level modules that import each other, and a linear chain. *)
Definition flat_cycle : odict string := [("a.py", "import b"); ("b.py", "import a")].
Definition linear_chain : odict string :=
  [("a.py", "import b"); ("b.py", "import c"); ("c.py", "import d"); ("d.py", "x = 1")].

(** ** Vocabulary of the further properties *)

(** *** Per-file validators *)

(** The entries that a per-file validator records: the files with
    findings, in the order of the changeset, each with its findings. *)
Definition files_with_findings {F : Type} (validate_file : string -> string -> list F)
  (changed_files : odict string) : odict (list F) :=
  flat_map (fun '(file_path, content) =>
              match validate_file file_path content with
              | [] => []
              | findings => [(file_path, findings)]
              end)
           changed_files.

(** The error of [.lower()] on a [Severity] member in [_count_severities]. *)
Definition ATTRIBUTE_ERROR : exn :=
  AttributeError "'Severity' object has no attribute 'lower'".

(** [content.split('\n')[n - 1]], the line that carries number [n] *)
Definition line_numbered (content : string) (n : Z) : option string :=
  if (1 <=? n)%Z then nth_error (Py.split_lines content) (Z.to_nat (n - 1)) else None.

(** The severities that [PerformanceValidator.format_findings_report] counts. *)
Definition REPORTED_SEVERITIES : list string := ["high"; "medium"; "low"].

(** A performance finding about a line of [content] in [file_path]. *)
Definition perf_located (file_path content : string) (f : PerformanceFinding) : Prop :=
  pf_file_path f = file_path
  /\ In (pf_severity f) REPORTED_SEVERITIES
  /\ exists line,
       line_numbered content (pf_line_number f) = Some line
       /\ pf_line_content f = Py.strip line.

(** A line that starts a loop, with its number and indentation. *)
Definition for_line (lines : list string) (entry : Z * nat) : Prop :=
  exists j line,
    nth_error lines j = Some line /\ fst entry = (Z.of_nat j + 1)%Z
    /\ Re.match_ FOR_LOOP line = true /\ indent_of line = snd entry.

(** *** Graphs *)

(** [b] is in the set that the graph holds for [a]. *)
Definition edge (graph : odict pyset) (a b : string) : Prop :=
  exists neighbors, od_get graph a = Some neighbors /\ In b neighbors.

(** Each element has an edge to the next one. *)
Fixpoint chain (graph : odict pyset) (l : list string) : Prop :=
  match l with
  | [] => True
  | a :: tl =>
      match tl with
      | [] => True
      | b :: _ => edge graph a b /\ chain graph tl
      end
  end.

(** A cycle as [_find_cycles] lists it: distinct nodes, each with an edge
    to the next and the last with an edge to the first. *)
Definition simple_cycle (graph : odict pyset) (c : list string) : Prop :=
  c <> [] /\ NoDup c /\ chain graph c
  /\ edge graph (last c EmptyString) (hd EmptyString c).

(** A walk of one edge or more. *)
Inductive walk (graph : odict pyset) : string -> string -> Prop :=
| walk_edge (a b : string) : edge graph a b -> walk graph a b
| walk_step (a b c : string) : edge graph a b -> walk graph b c -> walk graph a c.

(** The graph has a cycle: some node reaches itself. *)
Definition has_cycle (graph : odict pyset) : Prop := exists x, walk graph x x.

(** A node whose call of [dfs] has returned. *)
Definition finished (st : dfs_state) (x : string) : Prop :=
  In x (visited st) /\ ~ In x (rec_stack st).

Section SearchInvariants.
Variable graph : odict pyset.

(** The recursion stack is a path of distinct visited nodes, and every
    recorded cycle is one of the graph. *)
Definition dfs_inv (st : dfs_state) : Prop :=
  NoDup (rec_stack st) /\ chain graph (rec_stack st)
  /\ incl (rec_stack st) (visited st)
  /\ Forall (simple_cycle graph) (cycles st).

(** As long as no cycle is recorded, the finished nodes are closed under
    the edges and none of them lies on a cycle. *)
Definition dfs_good (st : dfs_state) : Prop :=
  (forall x y, finished st x -> edge graph x y -> finished st y)
  /\ (forall x, finished st x -> ~ walk graph x x).

End SearchInvariants.

(** [c in s] for a character *)
Definition has_char (c : ascii) (s : string) : bool :=
  Py.contains (String c EmptyString) s.

(** A module name without a dot. *)
Definition undotted (x : string) : Prop := has_char "." x = false.

(** *** Breaking changes and layers *)

(** The findings about the removal of the element [name]. *)
Definition reports_removal (change_type name : string) (f : BreakingChangeFinding) : bool :=
  String.eqb (bf_change_type f) change_type && String.eqb (bf_element_name f) name.

(** Does the module of an import name the repository layer? *)
Definition names_repository (stmt : import_stmt) : bool :=
  Py.contains "repositories" (Py.lower (imp_module stmt))
  || Py.contains "data" (Py.lower (imp_module stmt)).

Section RuntimeAssumptions.
Context {rt : PythonRuntime}.

(** On this text [ast.parse] returns a tree or raises [SyntaxError]; it
    does not raise anything else (as [ValueError] on a null byte in some
    versions, or [RecursionError] and [MemoryError] on deeply nested
    code). *)
Definition parses_or_SyntaxError (content : string) : Prop :=
  (exists nodes, ast_nodes content = Ok nodes) \/ ast_nodes content = Raise SyntaxError.

(** The texts of a changeset and of its old versions are such texts. *)
Definition texts_parse_or_SyntaxError (changed_files : odict string)
  (old_files : odict (option string)) : Prop :=
  Forall (fun file => parses_or_SyntaxError (snd file)) changed_files
  /\ forall file_path old,
       dict_get old_files file_path = Some old -> parses_or_SyntaxError old.

(** The name of a class is an identifier, so it is not empty. *)
Definition class_names_nonempty : Prop :=
  forall content nodes, ast_nodes content = Ok nodes -> ~ In (ClassDef "") nodes.

(** A file of the service, repository or model layer that imports something. *)
Definition imports_below_controller (file : string * string) : Prop :=
  exists layer imports,
    LayerSeparationCheck__identify_layer (fst file) = Some layer
    /\ layer <> "controller"
    /\ LayerSeparationCheck__extract_imports (snd file) = Ok imports
    /\ imports <> [].

End RuntimeAssumptions.

(** *** Test coverage *)

(** A source file for the test-coverage checks: not a test file, and a
    Python file. *)
Definition is_source_path (file_path : string) : bool :=
  negb (is_test_path file_path) && Py.endswith file_path ".py".

(** *** Exclusions *)

(** The keywords of [EXCLUDE_PATTERNS]: the patterns that are a plain
    word, and the words that [test[_-]?] and [xxx+] start with. *)
Definition EXCLUDE_KEYWORDS : list string :=
  [ "test"; "example"; "sample"; "demo"; "fake"; "mock"; "placeholder"; "xxx" ].

(** The characters [w], one after the other, then [r]. *)
Definition literal_then (w : list ascii) (r : Re.regex) : Re.regex :=
  fold_right (fun c acc => Re.RSeq (Re.RAtom (Re.AChar c)) acc) r w.

(** The state of the matcher after the characters [w]. *)
Definition after_chars (st : Re.mstate) (w tl : list ascii) : Re.mstate :=
  Re.MState tl (last (map Some w) (Re.prev st)) (length w + Re.pos st) (Re.caps st).

(** *** Reports *)

(** The findings of the file [k], in the order of the list. *)
Definition findings_of {F : Type} (file_path : F -> string) (k : string)
  (findings : list F) : list F :=
  filter (fun f => String.eqb (file_path f) k) findings.

(** The loop that counts the severities in the performance report. *)
Definition count_reported (findings : list PerformanceFinding) (counts : odict Z)
  : result (odict Z) :=
  for_each findings
    (fun severity_counts finding =>
       n <- od_index severity_counts (pf_severity finding) ;;
       Ok (od_set severity_counts (pf_severity finding) (n + 1)%Z))
    counts.

(** *** Further sample inputs *)

(** A changeset of a clean file and a file with a hard-coded key. *)
Definition two_files : odict string :=
  [ ("src/clean.py", "x = 1");
    ("src/security_issue.py",
     "API_KEY = " +++ Py.dq +++ "sk_live_1234567890abcdef" +++ Py.dq) ].

(** The text and the changeset of the orchestrator's own test on warning
    mode. *)
Definition warning_mode_py : string :=
  Py.nl +++ "API_KEY = " +++ Py.dq +++ "hardcoded_secret" +++ Py.dq
    +++ "  # Security issue!" +++ Py.nl.
Definition warning_mode_changeset : odict string := [("src/bad.py", warning_mode_py)].

(** A loop over users with a query in its body, in a file that names an
    ORM. *)
Definition query_in_loop_py : string :=
  "import sqlalchemy" +++ Py.nl +++ "for user in users:" +++ Py.nl
    +++ "    orders = session.query(Order).filter(Order.user_id == user.id)".

(** Two loops, one inside the other. *)
Definition nested_loops_py : string :=
  "for a in xs:" +++ Py.nl +++ "    for b in ys:" +++ Py.nl +++ "        pass".

(** [from repositories.user import UserRepository] *)
Definition import_repository_nodes : list ast_node :=
  [ OtherNode; ImportFrom (Some "repositories.user") 1; OtherNode ].

(** [def f(a): pass] after an empty line. *)
Definition moved_f_py : string := Py.nl +++ "def f(a): pass".
Definition moved_f_nodes : list ast_node :=
  [ OtherNode; FunctionDef "f" [mk_arg "a" None] None 2 (Some 2%Z);
    OtherNode; OtherNode; OtherNode ].

(** An asynchronous function that calls [requests.get]. *)
Definition async_fetch_py : string :=
  "async def fetch(url):" +++ Py.nl +++ "    return requests.get(url)".
Definition async_fetch_nodes : list ast_node :=
  [ OtherNode; AsyncFunctionDef "fetch" [mk_arg "url" None] None 1 (Some 2%Z);
    OtherNode; OtherNode; OtherNode; OtherNode; OtherNode; OtherNode; OtherNode;
    OtherNode; OtherNode; OtherNode ].

(** The runtime of the samples, with the texts above added to the ones it
    knows. *)
Definition sample_trees : odict (list ast_node) :=
  demo_trees
  ++ [ ("from repositories.user import UserRepository", import_repository_nodes);
       (moved_f_py, moved_f_nodes);
       (async_fetch_py, async_fetch_nodes);
       (warning_mode_py, assignment_nodes);
       ("API_KEY = " +++ Py.dq +++ "sk_live_1234567890abcdef" +++ Py.dq,
        assignment_nodes);
       ("import b", [ OtherNode; Import ["b"] 1; OtherNode ]);
       ("import c", [ OtherNode; Import ["c"] 1; OtherNode ]);
       ("import d", [ OtherNode; Import ["d"] 1; OtherNode ]) ].

Definition sample_runtime : PythonRuntime :=
  {| ast_nodes := fun content =>
       match od_get sample_trees content with
       | Some nodes => Ok nodes
       | None => Raise SyntaxError
       end;
     set_iter := nodup string_dec;
     set_iter_perm := fun l => Permutation_refl (nodup string_dec l) |}.


(** An API file with a start-up hook before its route. *)
Definition startup_hook_py : string :=
  "@app.on_event('startup')" +++ Py.nl +++ "def boot(): pass" +++ Py.nl
    +++ "@app.get('/users')" +++ Py.nl +++ "def users(): pass".

(** A file inside a package whose module name has no dot, and a module
    that imports it. *)
Definition pyb_cycle : odict string := [("a/pyb.py", "import x"); ("x.py", "import ab")].

(** A key whose name says [test], with a value that looks live. *)
Definition test_named_key : string :=
  "test_api_key = " +++ Py.dq +++ "sk_live_abc123" +++ Py.dq.

(** A file that does not parse: an asynchronous function with a broken
    parameter list, followed by an ordinary function. *)
Definition broken_async_py : string :=
  "async def a(:" +++ Py.nl +++ "    pass" +++ Py.nl +++ "def b():" +++ Py.nl
    +++ "    return requests.get(u)".

(** A result built by hand, with a performance finding whose severity the
    performance checks never use. *)
Definition critical_performance_result : QualityCheckResult :=
  mkQualityCheckResult false 1 1 0 0 0 [] [] []
    [mkPerformanceFinding "custom" "critical" "app/x.py" 1 "x = 1" "custom finding"
       "unknown" "none"]
    [] "error" false None.

(** A changeset of a source file, its test file and a text file. *)
Definition mixed_changeset : odict string :=
  [ ("src/users.py", "def get_user(user_id): pass");
    ("tests/test_users.py", "def test_other(): pass");
    ("README.md", "users") ].

(** * Properties *)

(** ** Sample runs of the embedding *)

Example py_split_ex :
  Py.split_lines ("a" ++ Py.nl ++ Py.nl ++ "b") = ["a"; ""; "b"].
Proof. reflexivity. Qed.
Example py_title_ex : Py.title "controller" = "Controller".
Proof. reflexivity. Qed.
Example py_replace_ex :
  Py.replace ".py" "" (Py.replace "/" "." "pkg/a.py") = "pkg.a".
Proof. reflexivity. Qed.
Example py_strip_ex : Py.strip "  x y  " = "x y".
Proof. reflexivity. Qed.
Example py_parts_ex : Py.path_parts "/src//api/./v1.py" = ["/"; "src"; "api"; "v1.py"].
Proof. reflexivity. Qed.
Example py_parent_ex :
  (Py.path_parent "src/services/user.py", Py.path_parent_name "src/services/user.py",
   Py.path_name "src/services/user.py", Py.path_parent "user.py")
  = ("src/services", "services", "user.py", ".").
Proof. reflexivity. Qed.
Example py_str_ex : (Py.str_of_Z 0, Py.str_of_Z 12, Py.str_of_Z (-3)) = ("0", "12", "-3").
Proof. reflexivity. Qed.

Example re_ex1 :
  Re.compile "a[_-]?b\s*(x|yz)+?" = None.
Proof. reflexivity. Qed.
Example re_ex2 :
  Re.compile "ab?|[^a-c]" =
  Some (Re.RAlt (Re.RSeq (Re.RAtom (Re.AChar "a")) (Re.ROpt (Re.AChar "b")))
                (Re.RAtom (Re.ASet true [Re.IRange "a" "c"]))).
Proof. reflexivity. Qed.
Example re_ex3 :
  option_map Re.m_text (Re.search_m true "pass(word|wd)\s*=\s*.*x" "my PASSWORD =  axbxc")
  = Some "PASSWORD =  axbx".
Proof. reflexivity. Qed.
Example re_ex4 :
  map Re.m_text (Re.finditer false "\bfo+\b" "fo foo xfoo fooo,fo") = ["fo"; "foo"; "fooo"; "fo"].
Proof. reflexivity. Qed.
Example re_ex5 :
  match Re.search_m false "from\s+([\w.]+)\s+import|import\s+([\w.]+)" "x; import a.b" with
  | Some m => (Re.group m 1, Re.group m 2)
  | None => (None, None)
  end = (None, Some "a.b").
Proof. reflexivity. Qed.

Example credentials_ex1 :
  map sf_message (HardcodedCredentialsCheck_check "src/bad.py"
        ("API_KEY = " +++ Py.dq +++ "sk_live_1234" +++ Py.dq))
  = ["Hardcoded API key detected. Use environment variables or AWS Secrets Manager."].
Proof. vm_compute. reflexivity. Qed.
Example credentials_ex2 :
  HardcodedCredentialsCheck_check "src/bad.py"
        ("test_api_key = " +++ Py.dq +++ "test_key_12345" +++ Py.dq) = [].
Proof. vm_compute. reflexivity. Qed.
(** Every pattern of the package is in the fragment that [Re.compile]
    reads. *)
Example patterns_compile :
  forallb (fun p => Re.is_some (Re.compile p))
    (map fst CREDENTIAL_PATTERNS ++ EXCLUDE_PATTERNS ++ map fst SQL_INJECTION_PATTERNS
       ++ map (fun x => fst (fst x)) SENSITIVE_PATTERNS
       ++ map (fun x => fst (fst x)) UNSAFE_PATTERNS
       ++ ROUTE_PATTERNS ++ map (fun x => lib_pattern (snd x)) SYNC_LIBRARIES
       ++ [ IMPORT_PATTERN; "(?:from|import)\s+([\w.]+)";
            "from\s+fastapi\s+import.*Depends"; "Depends\s*\("; "@(app|router)\.\w+";
            "async\s+def\s+(\w+)"; "^def\s+([a-zA-Z_][a-zA-Z0-9_]*)\s*\(";
            "def\s+test_"; "\s*\("; "\bassert\s+"; "\.assert"; "self\.assertEqual";
            "self\.assertTrue"; "@pytest\.fixture"; "def\s+setUp\s*\(";
            "def\s+tearDown\s*\("; "@conftest"; FOR_LOOP; "len\(\w+\)";
            "## \[(Unreleased|\d+\.\d+\.\d+)\]" ]
       ++ BUG_FIX_PATTERNS ++ QUERY_PATTERNS ++ LOOP_PATTERNS
       ++ map (fun x => fst (fst x)) FOREIGN_KEY_PATTERNS
       ++ map (fun x => snd (fst x)) FOREIGN_KEY_PATTERNS
       ++ map fst INEFFICIENT_PATTERNS ++ map fst LEAK_PATTERNS
       ++ map (fun x => fst (fst x)) SCHEMA_CHANGE_PATTERNS) = true.
Proof. vm_compute. reflexivity. Qed.

(** ** Loops and dictionaries *)

Lemma enumerate_ge (A : Type) (xs : list A) :
  forall (s n : Z) (x : A), In (n, x) (Py.enumerate s xs) -> (s <= n)%Z.
Proof.
  induction xs as [|y ys IH]; intros s n x Hin; simpl in Hin.
  - contradiction.
  - destruct Hin as [Heq | Hin].
    + inversion Heq; lia.
    + apply IH in Hin; lia.
Qed.

Lemma for_each_inv (A S : Type) (P : S -> Prop) (step : S -> A -> result S) :
  forall (xs : list A) (acc r : S),
    P acc ->
    (forall a x a', P a -> In x xs -> step a x = Ok a' -> P a') ->
    for_each xs step acc = Ok r -> P r.
Proof.
  induction xs as [|x xs IH]; intros acc r Hacc Hstep Hrun; simpl in Hrun.
  - inversion Hrun; subst; exact Hacc.
  - destruct (step acc x) as [acc'|e] eqn:Hs; simpl in Hrun; [|discriminate].
    apply (IH acc' r).
    + apply (Hstep acc x acc'); [exact Hacc | left; reflexivity | exact Hs].
    + intros a y a' Ha Hy; apply Hstep; [exact Ha | right; exact Hy].
    + exact Hrun.
Qed.

Lemma fold_left_inv (A S : Type) (P : S -> Prop) (f : S -> A -> S) :
  forall (xs : list A) (acc : S),
    P acc -> (forall a x, P a -> In x xs -> P (f a x)) -> P (fold_left f xs acc).
Proof.
  induction xs as [|x xs IH]; intros acc Hacc Hstep; simpl.
  - exact Hacc.
  - apply IH.
    + apply Hstep; [exact Hacc | left; reflexivity].
    + intros a y Ha Hy; apply Hstep; [exact Ha | right; exact Hy].
Qed.

Lemma bind_ok (A B : Type) (m : result A) (f : A -> result B) (b : B) :
  bind m f = Ok b -> exists a, m = Ok a /\ f a = Ok b.
Proof.
  destruct m as [a|e]; simpl; intros H; [exists a; auto | discriminate].
Qed.

Lemma Ok_inj (A : Type) (a b : A) : Ok a = Ok b -> a = b.
Proof. intros H; injection H; auto. Qed.

Lemma catch_ok (A : Type) (body handler : result A) (a : A) :
  catch_SyntaxError body handler = Ok a ->
  body = Ok a \/ (body = Raise SyntaxError /\ handler = Ok a).
Proof.
  destruct body as [x|[]]; simpl; intros H; auto; discriminate.
Qed.

Lemma od_set_values (V : Type) (P : V -> Prop) (d : odict V) (k : string) (v : V) :
  Forall P (od_values d) -> P v -> Forall P (od_values (od_set d k v)).
Proof.
  unfold od_values.
  induction d as [|[k' v'] d IH]; intros Hd Hv; simpl.
  - constructor; [exact Hv | constructor].
  - inversion Hd; subst.
    destruct (String.eqb k' k); simpl; constructor; auto.
Qed.

Lemma od_get_values (V : Type) (P : V -> Prop) (d : odict V) (k : string) (v : V) :
  Forall P (od_values d) -> od_get d k = Some v -> P v.
Proof.
  unfold od_values.
  induction d as [|[k' v'] d IH]; intros Hd Hg; simpl in *.
  - discriminate.
  - inversion Hd; subst.
    destruct (String.eqb k' k); [inversion Hg; subst; assumption | auto].
Qed.

Lemma od_flatten_Forall (F : Type) (P : F -> Prop) (d : odict (list F)) :
  Forall P (od_flatten d) <-> Forall (Forall P) (od_values d).
Proof. unfold od_flatten. apply Forall_concat. Qed.

Lemma record_findings_Forall (F : Type) (P : F -> Prop) (d : odict (list F))
  (k : string) (fs : list F) :
  Forall (Forall P) (od_values d) -> Forall P fs ->
  Forall (Forall P) (od_values (record_findings d k fs)).
Proof.
  intros Hd Hfs. destruct fs as [|f fs]; simpl; [exact Hd|].
  apply od_set_values; assumption.
Qed.

(** What a pure per-file validator puts in its result dictionary. *)
Lemma validate_files_Forall (F : Type) (P : F -> Prop)
  (validate_file : string -> string -> list F) (files : odict string) :
  (forall file_path content, Forall P (validate_file file_path content)) ->
  Forall P (od_flatten
              (fold_left (fun results '(file_path, content) =>
                            record_findings results file_path
                              (validate_file file_path content))
                         files [])).
Proof.
  intros Hfile. apply od_flatten_Forall.
  apply fold_left_inv.
  - constructor.
  - intros a [file_path content] Ha _. apply record_findings_Forall; auto.
Qed.

(** ** Shape of the findings *)

Ltac one_finding H :=
  match type of H with
  | In _ (if ?c then _ else _) => destruct c; one_finding H
  | In _ [] => destruct H
  | In _ [_] => destruct H as [H|[]]; subst
  | In _ (match ?x with _ => _ end) => destruct x; one_finding H
  end.

Lemma HardcodedCredentialsCheck_lines file_path content :
  Forall (fun f => (1 <= sf_line_number f)%Z)
         (HardcodedCredentialsCheck_check file_path content).
Proof.
  apply Forall_forall. intros f Hin. unfold HardcodedCredentialsCheck_check in Hin.
  apply in_flat_map in Hin as [[n line] [Hn Hin]].
  destruct (is_comment_line line); [destruct Hin|].
  apply in_flat_map in Hin as [[pattern cred_type] [Hp Hin]].
  unfold credential_matches in Hin.
  apply in_flat_map in Hin as [m [Hm Hin]].
  one_finding Hin. simpl. eapply enumerate_ge; eassumption.
Qed.

Lemma SecurityValidator_validate_file_lines file_path content :
  Forall (fun f => (1 <= sf_line_number f)%Z)
         (SecurityValidator_validate_file file_path content).
Proof.
  unfold SecurityValidator_validate_file, SecurityValidator_checks. simpl.
  repeat (apply Forall_app; split); try constructor.
  - apply HardcodedCredentialsCheck_lines.
  - apply Forall_forall. intros f Hin. unfold SQLInjectionCheck_check in Hin.
    apply in_flat_map in Hin as [[n line] [Hn Hin]].
    apply in_flat_map in Hin as [[pattern vuln] [Hp Hin]].
    one_finding Hin. simpl. eapply enumerate_ge; eassumption.
  - apply Forall_forall. intros f Hin. unfold SensitiveDataLoggingCheck_check in Hin.
    apply in_flat_map in Hin as [[n line] [Hn Hin]].
    apply in_flat_map in Hin as [[[pattern data_type] severity] [Hp Hin]].
    one_finding Hin. simpl. eapply enumerate_ge; eassumption.
  - apply Forall_forall. intros f Hin. unfold UnsafeDeserializationCheck_check in Hin.
    apply in_flat_map in Hin as [[n line] [Hn Hin]].
    apply in_flat_map in Hin as [[[pattern unsafe_func] fix_] [Hp Hin]].
    one_finding Hin. simpl. eapply enumerate_ge; eassumption.
Qed.

Ltac sev_in := simpl; unfold SEVERITIES; simpl; tauto.

Ltac case_if :=
  match goal with
  | |- context [if ?c then _ else _] => destruct c
  end.

Lemma n_plus_one_scan_inv file_path lines :
  forall line_num, (1 <= line_num)%Z ->
    Forall perf_inv (n_plus_one_scan file_path line_num lines).
Proof.
  induction lines as [|line following IH]; intros line_num Hpos; simpl.
  - constructor.
  - apply Forall_app; split.
    + case_if; [|constructor].
      case_if; constructor; [|constructor].
      split; [sev_in | exact Hpos].
    + apply IH; lia.
Qed.

Lemma nested_loops_inv file_path lines :
  Forall perf_inv (AlgorithmComplexityCheck__check_nested_loops file_path lines).
Proof.
  unfold AlgorithmComplexityCheck__check_nested_loops.
  apply (fold_left_inv
           (fun st : list (Z * nat) * list PerformanceFinding => Forall perf_inv (snd st))).
  - constructor.
  - intros [stack findings] [n line] Ha Hin; simpl in *.
    destruct (Re.match_ FOR_LOOP line); simpl; [|exact Ha].
    destruct (pop_dedented (indent_of line) stack); simpl; [exact Ha|].
    apply Forall_app; split; [exact Ha|].
    constructor; [|constructor].
    split; [sev_in | simpl; eapply enumerate_ge; eassumption].
Qed.

Lemma loop_invariants_inv file_path lines :
  Forall perf_inv (AlgorithmComplexityCheck__check_loop_invariants file_path lines).
Proof.
  unfold AlgorithmComplexityCheck__check_loop_invariants.
  apply (fold_left_inv
           (fun st : bool * list PerformanceFinding => Forall perf_inv (snd st))).
  - constructor.
  - intros [in_loop findings] [n line] Ha Hin; simpl in *.
    match goal with |- Forall _ (if ?c then _ else _) => destruct c end; [|exact Ha].
    apply Forall_app; split; [exact Ha|].
    constructor; [|constructor].
    split; [sev_in | simpl; eapply enumerate_ge; eassumption].
Qed.

Lemma PerformanceValidator_validate_file_inv file_path content :
  Forall perf_inv (PerformanceValidator_validate_file file_path content).
Proof.
  unfold PerformanceValidator_validate_file, PerformanceValidator_checks. simpl.
  repeat (apply Forall_app; split); try constructor.
  - unfold NPlusOneQueryCheck_check.
    destruct (negb _); [constructor | apply n_plus_one_scan_inv; lia].
  - unfold DatabaseIndexCheck_check.
    destruct (negb _); [constructor|].
    apply Forall_forall. intros f Hin.
    apply in_flat_map in Hin as [[n line] [Hn Hin]].
    apply in_flat_map in Hin as [[[fk_pattern index_pattern] fk_type] [Hp Hin]].
    one_finding Hin.
    split; [sev_in | simpl; eapply enumerate_ge; eassumption].
  - unfold AlgorithmComplexityCheck_check.
    destruct (_ || _); [constructor|].
    repeat (apply Forall_app; split).
    + apply nested_loops_inv.
    + apply Forall_forall. intros f Hin.
      unfold AlgorithmComplexityCheck__check_inefficient_list_ops in Hin.
      apply in_flat_map in Hin as [[n line] [Hn Hin]].
      apply in_flat_map in Hin as [[pattern suggestion] [Hp Hin]].
      one_finding Hin.
      split; [sev_in | simpl; eapply enumerate_ge; eassumption].
    + apply loop_invariants_inv.
  - apply Forall_forall. intros f Hin. unfold MemoryLeakCheck_check in Hin.
    apply in_flat_map in Hin as [[n line] [Hn Hin]].
    apply in_flat_map in Hin as [[pattern issue] [Hp Hin]].
    one_finding Hin.
    split; [sev_in | simpl; eapply enumerate_ge; eassumption].
Qed.

Section Shapes.
Context {rt : PythonRuntime}.

Lemma extract_imports_lines content imports :
  LayerSeparationCheck__extract_imports content = Ok imports ->
  Forall (fun stmt => line_from (imp_line stmt)) imports.
Proof.
  unfold LayerSeparationCheck__extract_imports. intros H.
  apply catch_ok in H as [H | [_ H]].
  - apply bind_ok in H as [nodes [Hnodes H]]. inversion H; subst; clear H.
    apply Forall_forall. intros stmt Hin.
    apply in_flat_map in Hin as [node [Hnode Hin]].
    right. exists content, nodes, node. split; [exact Hnodes|]. split; [exact Hnode|].
    destruct node; simpl in Hin; try contradiction.
    + apply in_map_iff in Hin as [alias [<- _]]. reflexivity.
    + destruct Hin as [<-|[]]. reflexivity.
  - inversion H; subst; clear H.
    apply Forall_forall. intros stmt Hin. unfold imports_by_regex in Hin.
    apply in_flat_map in Hin as [[n line] [Hn Hin]].
    left. one_finding Hin. simpl. eapply enumerate_ge; eassumption.
Qed.

Lemma LayerSeparationCheck_check_inv file_path content fs :
  LayerSeparationCheck_check file_path content = Ok fs -> Forall arch_inv fs.
Proof.
  unfold LayerSeparationCheck_check. intros H.
  destruct (LayerSeparationCheck__identify_layer file_path) as [[|c layer]|];
    try (inversion H; constructor).
  apply bind_ok in H as [imports [Himports H]].
  apply bind_ok in H as [config [_ H]].
  apply extract_imports_lines in Himports.
  revert H. apply for_each_inv; [constructor|].
  intros acc stmt acc' Hacc Hstmt. apply for_each_inv; [exact Hacc|].
  intros a prohibited a' Ha _ Hstep.
  apply bind_ok in Hstep as [b [_ Hstep]]. inversion Hstep; subst; clear Hstep.
  destruct b; [|exact Ha].
  apply Forall_app; split; [exact Ha|]. constructor; [|constructor].
  split; [sev_in|]. split.
  - simpl. rewrite Forall_forall in Himports. apply Himports. exact Hstmt.
  - simpl. discriminate.
Qed.

Lemma DependencyInjectionCheck_check_inv file_path content :
  Forall arch_inv (DependencyInjectionCheck_check file_path content).
Proof.
  unfold DependencyInjectionCheck_check.
  repeat (case_if; try constructor).
  destruct (find _ _) as [[n line]|] eqn:Hfind; constructor; [|constructor].
  apply find_some in Hfind as [Hin _].
  split; [sev_in|]. split.
  - left. simpl. eapply enumerate_ge; eassumption.
  - simpl. discriminate.
Qed.

Lemma line_of_offset_pos content n : (1 <= line_of_offset content n)%Z.
Proof. unfold line_of_offset. lia. Qed.

Lemma AsyncPatternsCheck_check_inv file_path content fs :
  AsyncPatternsCheck_check file_path content = Ok fs -> Forall arch_inv fs.
Proof.
  unfold AsyncPatternsCheck_check. intros H.
  apply bind_ok in H as [async_functions [_ H]].
  destruct async_functions as [|a l]; apply Ok_inj in H; subst fs; [constructor|].
  apply Forall_forall. intros f Hin.
  apply in_flat_map in Hin as [[lib_name lib_config] [Hlib Hin]].
  apply in_flat_map in Hin as [m [Hm Hin]].
  one_finding Hin.
  split; [sev_in|]. split.
  - left. apply line_of_offset_pos.
  - simpl. discriminate.
Qed.

Lemma ArchitectureValidator_validate_file_inv file_path content fs :
  ArchitectureValidator_validate_file file_path content = Ok fs -> Forall arch_inv fs.
Proof.
  unfold ArchitectureValidator_validate_file, ArchitectureValidator_checks.
  apply for_each_inv; [constructor|].
  intros acc check acc' Hacc Hcheck Hstep.
  apply bind_ok in Hstep as [findings [Hf Hstep]]. inversion Hstep; subst; clear Hstep.
  apply Forall_app; split; [exact Hacc|].
  destruct Hcheck as [<-|[<-|[<-|[]]]].
  - eapply LayerSeparationCheck_check_inv; eassumption.
  - inversion Hf; subst. apply DependencyInjectionCheck_check_inv.
  - eapply AsyncPatternsCheck_check_inv; eassumption.
Qed.

Lemma cycle_finding_inv cycle : arch_inv (cycle_finding cycle).
Proof.
  split; [sev_in|]. split; [left; simpl; lia | reflexivity].
Qed.

Lemma append_finding_Forall (P : ArchitectureFinding -> Prop) results finding :
  Forall (Forall P) (od_values results) -> P finding ->
  Forall (Forall P) (od_values (append_finding results finding)).
Proof.
  intros Hres Hf. unfold append_finding.
  destruct (od_get results (af_file_path finding)) as [fs|] eqn:Hget.
  - apply od_set_values; [exact Hres|].
    apply Forall_app; split.
    + exact (od_get_values _ _ Hres Hget).
    + constructor; [exact Hf | constructor].
  - apply od_set_values; [exact Hres|]. constructor; [exact Hf | constructor].
Qed.

Lemma ArchitectureValidator_validate_project_inv file_contents results :
  ArchitectureValidator_validate_project file_contents = Ok results ->
  Forall arch_inv (od_flatten results).
Proof.
  unfold ArchitectureValidator_validate_project. intros H.
  apply bind_ok in H as [per_file [Hper H]].
  apply bind_ok in H as [circular [Hcirc H]]. inversion H; subst; clear H.
  apply od_flatten_Forall.
  assert (Hfiles : Forall (Forall arch_inv) (od_values per_file)).
  { revert Hper.
    apply (for_each_inv (fun d => Forall (Forall arch_inv) (od_values d)));
      [constructor|].
    intros acc [file_path content] acc' Hacc _ Hstep.
    apply bind_ok in Hstep as [findings [Hf Hstep]]. inversion Hstep; subst; clear Hstep.
    apply record_findings_Forall; [exact Hacc|].
    eapply ArchitectureValidator_validate_file_inv; eassumption. }
  assert (Hcycles : Forall arch_inv circular).
  { unfold CircularDependencyCheck_check_project in Hcirc.
    destruct (CircularDependencyCheck__find_cycles _) as [cycles|]; [|discriminate].
    inversion Hcirc; subst. apply Forall_map.
    apply Forall_forall. intros c _. apply cycle_finding_inv. }
  apply fold_left_inv; [exact Hfiles|].
  intros acc finding Hacc Hin. apply append_finding_Forall; [exact Hacc|].
  rewrite Forall_forall in Hcycles. apply Hcycles. exact Hin.
Qed.

Lemma extract_functions_lines content functions :
  NewFunctionsHaveTestsCheck__extract_functions content = Ok functions ->
  Forall (fun fn => line_from (snd fn)) functions.
Proof.
  unfold NewFunctionsHaveTestsCheck__extract_functions. intros H.
  apply catch_ok in H as [H | [_ H]].
  - apply bind_ok in H as [nodes [Hnodes H]]. apply Ok_inj in H. subst functions.
    apply Forall_forall. intros fn Hin.
    apply in_flat_map in Hin as [node [Hnode Hin]].
    right. exists content, nodes, node. split; [exact Hnodes|]. split; [exact Hnode|].
    destruct node; simpl in Hin; try contradiction;
      (destruct (negb _); [destruct Hin as [<-|[]]; reflexivity | contradiction]).
  - apply Ok_inj in H. subst functions.
    apply Forall_forall. intros fn Hin. unfold functions_by_regex in Hin.
    apply in_flat_map in Hin as [[n line] [Hn Hin]].
    left. one_finding Hin. simpl. eapply enumerate_ge; eassumption.
Qed.

Lemma new_functions_file_inv test_files file_path content fs :
  new_functions_file test_files file_path content = Ok fs -> Forall test_inv fs.
Proof.
  unfold new_functions_file. intros H.
  destruct (NewFunctionsHaveTestsCheck__should_skip_file file_path).
  { apply Ok_inj in H; subst; constructor. }
  apply bind_ok in H as [new_functions [Hfun H]].
  apply extract_functions_lines in Hfun.
  destruct (negb _).
  - destruct new_functions; apply Ok_inj in H; subst fs; constructor; [|constructor].
    split; [sev_in|]. split; [|simpl; discriminate].
    right. split; [simpl; discriminate | left; simpl; lia].
  - apply bind_ok in H as [test_content [_ H]]. apply Ok_inj in H. subst fs.
    apply Forall_forall. intros f Hin.
    apply in_flat_map in Hin as [[func_name line_num] [Hfn Hin]].
    one_finding Hin.
    split; [sev_in|]. split; [|simpl; discriminate].
    right. split; [simpl; discriminate|].
    rewrite Forall_forall in Hfun. exact (Hfun _ Hfn).
Qed.

Lemma BugFixRegressionTestCheck_check_inv pr_title pr_description changed_files :
  Forall test_inv (BugFixRegressionTestCheck_check pr_title pr_description changed_files).
Proof.
  unfold BugFixRegressionTestCheck_check.
  repeat case_if; try solve [constructor].
  constructor; [|constructor].
  split; [sev_in|]. split; [left; split; reflexivity | simpl; discriminate].
Qed.

Lemma TestQualityCheck_check_inv test_files :
  Forall test_inv (TestQualityCheck_check test_files).
Proof.
  unfold TestQualityCheck_check.
  apply Forall_forall. intros f Hin.
  apply in_flat_map in Hin as [[file_path content] [Hfile Hin]].
  apply in_app_or in Hin as [Hin|Hin]; one_finding Hin;
    (split; [sev_in|]; split; [|reflexivity];
     right; split; [simpl; discriminate | left; simpl; lia]).
Qed.

Lemma TestCoverageValidator_validate_pr_inv pr_title pr_description changed_files fs :
  TestCoverageValidator_validate_pr pr_title pr_description changed_files = Ok fs ->
  Forall test_inv fs.
Proof.
  unfold TestCoverageValidator_validate_pr.
  destruct (split_files changed_files) as [source_files test_files]. intros H.
  apply bind_ok in H as [new_func [Hnew H]]. apply Ok_inj in H. subst fs.
  repeat (apply Forall_app; split).
  - revert Hnew. unfold NewFunctionsHaveTestsCheck_check.
    apply for_each_inv; [constructor|].
    intros acc [file_path content] acc' Hacc _ Hstep.
    apply bind_ok in Hstep as [found [Hf Hstep]]. apply Ok_inj in Hstep. subst acc'.
    apply Forall_app; split; [exact Hacc|].
    eapply new_functions_file_inv; eassumption.
  - apply BugFixRegressionTestCheck_check_inv.
  - apply TestQualityCheck_check_inv.
Qed.

Lemma extract_signatures_lines content signatures :
  APISignatureChangeCheck__extract_signatures content = Ok signatures ->
  Forall (fun sig => ast_line (sig_line sig)) (od_values signatures).
Proof.
  unfold APISignatureChangeCheck__extract_signatures. intros H.
  apply catch_ok in H as [H | [_ H]].
  - apply bind_ok in H as [nodes [Hnodes H]]. apply Ok_inj in H. subst signatures.
    apply fold_left_inv; [constructor|].
    intros acc node Hacc Hnode.
    assert (Hline : forall l, node_line node = Some l -> ast_line l).
    { intros l Hl. exists content, nodes, node. auto. }
    destruct node; simpl; try exact Hacc;
      (destruct (negb _); [|exact Hacc]; apply od_set_values; [exact Hacc|];
       apply Hline; reflexivity).
  - apply Ok_inj in H. subst signatures. constructor.
Qed.

Ltac not_file_level :=
  let H := fresh in
  intros H; simpl in H; unfold FILE_LEVEL_CHECKS in H; simpl in H;
  repeat destruct H as [H|H]; try discriminate H; try contradiction.

Lemma APISignatureChangeCheck_check_inv file_path old new fs :
  APISignatureChangeCheck_check file_path old new = Ok fs -> Forall break_inv fs.
Proof.
  unfold APISignatureChangeCheck_check. intros H.
  destruct (negb _). { apply Ok_inj in H; subst; constructor. }
  destruct old as [old|]; [|apply Ok_inj in H; subst; constructor].
  apply bind_ok in H as [old_sigs [_ H]].
  apply bind_ok in H as [new_sigs [Hnew H]]. apply Ok_inj in H. subst fs.
  apply extract_signatures_lines in Hnew.
  apply Forall_app; split.
  - apply Forall_forall. intros f Hin.
    apply in_flat_map in Hin as [[func_name old_sig] [Hold Hin]].
    destruct (od_get new_sigs func_name) as [new_sig|] eqn:Hget; [|destruct Hin].
    one_finding Hin.
    split; [sev_in|]. split; [|split; [not_file_level | simpl; discriminate]].
    right. simpl. exact (od_get_values _ _ Hnew Hget).
  - apply Forall_map. apply Forall_forall. intros func_name _.
    split; [sev_in|]. split; [left; simpl; lia|].
    split; [not_file_level | simpl; discriminate].
Qed.

Lemma RemovedPublicMethodsCheck_check_inv file_path old new fs :
  RemovedPublicMethodsCheck_check file_path old (Some new) = Ok fs -> Forall break_inv fs.
Proof.
  unfold RemovedPublicMethodsCheck_check. intros H.
  destruct old as [old|]; [|apply Ok_inj in H; subst; constructor].
  apply bind_ok in H as [old_elements [_ H]].
  apply bind_ok in H as [new_elements [_ H]]. apply Ok_inj in H. subst fs.
  apply Forall_app; split; apply Forall_map; apply Forall_forall; intros name _;
    (split; [sev_in|]; split; [left; simpl; lia|];
     split; [reflexivity | simpl; discriminate]).
Qed.

Lemma DatabaseSchemaChangeCheck_check_inv file_path content :
  Forall break_inv (DatabaseSchemaChangeCheck_check file_path content).
Proof.
  unfold DatabaseSchemaChangeCheck_check.
  case_if; [constructor|].
  apply Forall_forall. intros f Hin.
  apply in_flat_map in Hin as [[n line] [Hn Hin]].
  apply in_flat_map in Hin as [[[pattern change_type] message] [Hp Hin]].
  one_finding Hin.
  split; [sev_in|]. split; [left; simpl; eapply enumerate_ge; eassumption|].
  split; [not_file_level|].
  simpl. unfold SCHEMA_CHANGE_PATTERNS in Hp. simpl in Hp.
  repeat destruct Hp as [Hp|Hp]; try (inversion Hp; subst; discriminate).
Qed.

Lemma ChangelogRequirementCheck_check_inv changed_files breaking_changes :
  Forall break_inv (ChangelogRequirementCheck_check changed_files breaking_changes).
Proof.
  unfold ChangelogRequirementCheck_check.
  destruct breaking_changes as [|b bs]; [constructor|].
  case_if.
  - constructor; [|constructor].
    split; [sev_in|]. split; [left; simpl; lia|].
    split; [reflexivity | simpl; discriminate].
  - destruct (option_map _ _) as [content|]; [|constructor].
    case_if; constructor; [|constructor].
    split; [sev_in|]. split; [left; simpl; lia|].
    split; [reflexivity | simpl; discriminate].
Qed.

Lemma breaking_file_inv old_files file_path new_content fs :
  breaking_file old_files file_path new_content = Ok fs -> Forall break_inv fs.
Proof.
  unfold breaking_file. intros H.
  apply bind_ok in H as [sig_findings [Hsig H]].
  apply bind_ok in H as [removal_findings [Hrem H]]. apply Ok_inj in H. subst fs.
  repeat (apply Forall_app; split).
  - eapply APISignatureChangeCheck_check_inv; eassumption.
  - eapply RemovedPublicMethodsCheck_check_inv; eassumption.
  - apply DatabaseSchemaChangeCheck_check_inv.
Qed.

Lemma BreakingChangesValidator_validate_pr_inv changed_files old_files fs :
  BreakingChangesValidator_validate_pr changed_files old_files = Ok fs ->
  Forall break_inv fs.
Proof.
  unfold BreakingChangesValidator_validate_pr. intros H.
  apply bind_ok in H as [all_findings [Hall H]]. apply Ok_inj in H. subst fs.
  apply Forall_app; split.
  - revert Hall. apply for_each_inv; [constructor|].
    intros acc [file_path new_content] acc' Hacc _ Hstep.
    apply bind_ok in Hstep as [found [Hf Hstep]]. apply Ok_inj in Hstep. subst acc'.
    apply Forall_app; split; [exact Hacc|].
    eapply breaking_file_inv; eassumption.
  - apply ChangelogRequirementCheck_check_inv.
Qed.

End Shapes.

(** ** Counting severities *)

Lemma count_where_app (A : Type) (p : A -> bool) (l1 l2 : list A) :
  count_where p (l1 ++ l2) = (count_where p l1 + count_where p l2)%Z.
Proof.
  unfold count_where. rewrite filter_app, length_app. lia.
Qed.

Lemma count_where_map (A B : Type) (g : A -> B) (p : B -> bool) (l : list A) :
  count_where p (map g l) = count_where (fun x => p (g x)) l.
Proof.
  unfold count_where. induction l as [|x l IH]; simpl; [reflexivity|].
  destruct (p (g x)); simpl; lia.
Qed.

Lemma count_where_cons (A : Type) (p : A -> bool) (x : A) (l : list A) :
  count_where p (x :: l) = ((if p x then 1 else 0) + count_where p l)%Z.
Proof.
  unfold count_where. cbn [filter]. destruct (p x); [|lia].
  cbn [length]. rewrite Nat2Z.inj_succ. lia.
Qed.

Lemma counts_of_eq (a b c d a' b' c' d' : Z) :
  a = a' -> b = b' -> c = c' -> d = d' -> counts_of a b c d = counts_of a' b' c' d'.
Proof. intros; subst; reflexivity. Qed.

(** The loop of [_count_severities] on findings whose severities are in
    the closed set: it returns only if every severity is a string, and
    then each counter has grown by the number of findings of its level. *)
Lemma count_severities_loop (findings : list any_finding) :
  Forall str_severity_ok findings ->
  forall a b c d counts,
    for_each findings count_step (counts_of a b c d) = Ok counts ->
    Forall has_str_severity findings
    /\ counts = counts_of (a + count_where (str_severity_is "critical") findings)
                          (b + count_where (str_severity_is "high") findings)
                          (c + count_where (str_severity_is "medium") findings)
                          (d + count_where (str_severity_is "low") findings).
Proof.
  induction 1 as [|f findings Hf Hrest IH]; intros a b c d counts Hrun.
  - simpl in Hrun. apply Ok_inj in Hrun. subst counts. split; [constructor|].
    unfold count_where; simpl. rewrite !Z.add_0_r. reflexivity.
  - simpl in Hrun. unfold count_step at 1 in Hrun.
    unfold str_severity_ok in Hf.
    rewrite !count_where_cons. unfold str_severity_is at 1 3 5 7.
    unfold has_str_severity.
    destruct (getattr_severity f) as [e|s] eqn:Hattr; [discriminate Hrun|].
    unfold SEVERITIES in Hf. simpl in Hf.
    destruct Hf as [<-|[<-|[<-|[<-|[]]]]]; simpl in Hrun;
      apply IH in Hrun as [Hstr ->];
      (split; [constructor; [rewrite Hattr; exact I | exact Hstr]|]);
      apply counts_of_eq;
      repeat match goal with
        | |- context [String.eqb ?x ?y] =>
            let v := eval vm_compute in (String.eqb x y) in
            change (String.eqb x y) with v
        end;
      cbv beta iota; lia.
Qed.

Lemma count_severities_ok (findings : list any_finding) (counts : odict Z) :
  Forall str_severity_ok findings ->
  QualityCheckOrchestrator__count_severities findings = Ok counts ->
  Forall has_str_severity findings
  /\ counts = counts_of (count_where (str_severity_is "critical") findings)
                        (count_where (str_severity_is "high") findings)
                        (count_where (str_severity_is "medium") findings)
                        (count_where (str_severity_is "low") findings).
Proof.
  intros Hok Hrun.
  destruct (@count_severities_loop findings Hok 0%Z 0%Z 0%Z 0%Z counts Hrun) as [Hstr ->].
  split; [exact Hstr | reflexivity].
Qed.

(** ** The result of the orchestrator *)

Section OrchestratorFacts.
Context {rt : PythonRuntime}.

Lemma determine_pass_status_counts self_mode a b c d :
  QualityCheckOrchestrator__determine_pass_status self_mode (counts_of a b c d)
  = Ok (gate self_mode a b).
Proof.
  unfold QualityCheckOrchestrator__determine_pass_status, gate.
  destruct (String.eqb self_mode "error"); [|reflexivity].
  simpl. destruct (Z.eqb a 0); reflexivity.
Qed.

Lemma all_findings_severities sec arch test perf brk :
  Forall arch_inv arch -> Forall test_inv test -> Forall perf_inv perf ->
  Forall break_inv brk ->
  Forall str_severity_ok
    (map OfSecurity sec ++ map OfArchitecture arch ++ map OfTestCoverage test
       ++ map OfPerformance perf ++ map OfBreakingChange brk).
Proof.
  intros Harch Htest Hperf Hbrk.
  repeat (apply Forall_app; split); apply Forall_map.
  - apply Forall_forall. intros f _. exact I.
  - eapply Forall_impl; [|exact Harch]. intros f H. apply H.
  - eapply Forall_impl; [|exact Htest]. intros f H. apply H.
  - eapply Forall_impl; [|exact Hperf]. intros f H. apply H.
  - eapply Forall_impl; [|exact Hbrk]. intros f H. apply H.
Qed.

Lemma no_enum_severity sec rest :
  Forall has_str_severity (map OfSecurity sec ++ rest) -> sec = [].
Proof.
  destruct sec as [|f sec]; [reflexivity|].
  simpl. intros H. inversion H as [|x l Hf _]; subst. contradiction.
Qed.

(** What [validate_pr] returns, when it returns: the findings of the
    five validators, no security finding among them, the counters of
    [_count_severities], the gate of [_determine_pass_status]. *)
Lemma validate_pr_returns self_mode pr_title pr_description changed_files old_files r :
  QualityCheckOrchestrator_validate_pr self_mode pr_title pr_description
    changed_files old_files = Ok r ->
  exists arch test brk,
    ArchitectureValidator_validate_project changed_files = Ok arch
    /\ TestCoverageValidator_validate_pr pr_title pr_description changed_files = Ok test
    /\ BreakingChangesValidator_validate_pr changed_files
         (match old_files with Some d => d | None => [] end) = Ok brk
    /\ od_flatten (SecurityValidator_validate_pr_changes changed_files) = []
    /\ security_findings r = []
    /\ architecture_findings r = od_flatten arch
    /\ test_coverage_findings r = test
    /\ performance_findings r = od_flatten (PerformanceValidator_validate_pr changed_files)
    /\ breaking_changes_findings r = brk
    /\ mode r = self_mode
    /\ passed r = gate self_mode (critical_issues r) (high_issues r)
    /\ total_issues r = findings_total r
    /\ critical_issues r = findings_with_severity CRITICAL r
    /\ high_issues r = findings_with_severity HIGH r
    /\ medium_issues r = findings_with_severity MEDIUM r
    /\ low_issues r = findings_with_severity LOW r.
Proof.
  unfold QualityCheckOrchestrator_validate_pr. intros H.
  apply bind_ok in H as [arch [Harch H]].
  apply bind_ok in H as [test [Htest H]].
  apply bind_ok in H as [brk [Hbrk H]].
  apply bind_ok in H as [counts [Hcounts H]].
  exists arch, test, brk.
  pose proof (ArchitectureValidator_validate_project_inv _ Harch) as Iarch.
  pose proof (TestCoverageValidator_validate_pr_inv _ _ _ Htest) as Itest.
  pose proof (BreakingChangesValidator_validate_pr_inv _ _ Hbrk) as Ibrk.
  assert (Iperf : Forall perf_inv
                    (od_flatten (PerformanceValidator_validate_pr changed_files))).
  { apply validate_files_Forall. apply PerformanceValidator_validate_file_inv. }
  set (sec := od_flatten (SecurityValidator_validate_pr_changes changed_files)) in *.
  set (perf := od_flatten (PerformanceValidator_validate_pr changed_files)) in *.
  apply count_severities_ok in Hcounts as [Hstr ->];
    [|apply all_findings_severities; assumption].
  apply no_enum_severity in Hstr as Hsec.
  rewrite determine_pass_status_counts in H. simpl in H.
  apply Ok_inj in H. subst r. cbn [security_findings architecture_findings
    test_coverage_findings performance_findings breaking_changes_findings mode passed
    total_issues critical_issues high_issues medium_issues low_issues].
  repeat (split; [first [assumption | reflexivity]|]).
  rewrite Hsec. cbn [map app].
  unfold findings_total, findings_with_severity.
  cbn [security_findings architecture_findings test_coverage_findings
       performance_findings breaking_changes_findings length Nat.add Severity_value].
  rewrite !count_where_app, !count_where_map, !length_app, !length_map.
  unfold str_severity_is. cbn [getattr_severity count_where filter length Z.of_nat].
  repeat split; lia.
Qed.

(** Whether [validate_pr] returns does not depend on the mode. *)
Lemma validate_pr_any_mode mode1 mode2 pr_title pr_description changed_files old_files r1 :
  QualityCheckOrchestrator_validate_pr mode1 pr_title pr_description
    changed_files old_files = Ok r1 ->
  exists r2,
    QualityCheckOrchestrator_validate_pr mode2 pr_title pr_description
      changed_files old_files = Ok r2.
Proof.
  unfold QualityCheckOrchestrator_validate_pr. intros H.
  apply bind_ok in H as [arch [Harch H]].
  apply bind_ok in H as [test [Htest H]].
  apply bind_ok in H as [brk [Hbrk H]].
  apply bind_ok in H as [counts [Hcounts _]].
  rewrite Harch, Htest, Hbrk. cbn [bind]. rewrite Hcounts. cbn [bind].
  pose proof (ArchitectureValidator_validate_project_inv _ Harch) as Iarch.
  pose proof (TestCoverageValidator_validate_pr_inv _ _ _ Htest) as Itest.
  pose proof (BreakingChangesValidator_validate_pr_inv _ _ Hbrk) as Ibrk.
  assert (Iperf : Forall perf_inv
                    (od_flatten (PerformanceValidator_validate_pr changed_files))).
  { apply validate_files_Forall. apply PerformanceValidator_validate_file_inv. }
  apply count_severities_ok in Hcounts as [_ ->];
    [|apply all_findings_severities; assumption].
  rewrite determine_pass_status_counts. eexists. reflexivity.
Qed.

End OrchestratorFacts.

(** ** Claims about the orchestrator *)

Section OrchestratorClaims.
Context {rt : PythonRuntime}.

(** C1. For every result returned by [QualityCheckOrchestrator.validate_pr],
    each field of the severity histogram ([critical_issues], [high_issues],
    [medium_issues], [low_issues]) equals the number of findings of that
    severity across the five finding lists of the result. *)
Theorem C1_severity_histogram
  (self_mode pr_title pr_description : string) (changed_files : odict string)
  (old_files : option (odict (option string))) (r : QualityCheckResult) :
  QualityCheckOrchestrator_validate_pr self_mode pr_title pr_description
    changed_files old_files = Ok r ->
  critical_issues r = findings_with_severity CRITICAL r
  /\ high_issues r = findings_with_severity HIGH r
  /\ medium_issues r = findings_with_severity MEDIUM r
  /\ low_issues r = findings_with_severity LOW r.
Proof.
  intros Hrun.
  destruct (validate_pr_returns _ _ _ _ _ Hrun)
    as (arch & test & brk & _ & _ & _ & _ & _ & _ & _ & _ & _ & _ & _ & _ & Hc & Hh & Hm & Hl).
  auto.
Qed.

(** C3 (fails on the code). The gating holds for the runs that return:
    in "error" mode a returned result has [passed] exactly when its
    critical and high counts are both zero, in "warning" mode [passed] is
    true, and [total_issues] is the same under both modes.  But not every
    run returns: a changeset with a security finding gives no result in
    either mode, so in "warning" mode [passed] is not true regardless of
    findings.  The changeset of the orchestrator's own test on warning
    mode is such a changeset. *)
Theorem C3_gating
  (pr_title pr_description : string) (changed_files : odict string)
  (old_files : option (odict (option string))) :
  (od_flatten (SecurityValidator_validate_pr_changes changed_files) <> [] ->
   forall self_mode,
     is_ok (QualityCheckOrchestrator_validate_pr self_mode pr_title pr_description
              changed_files old_files) = false)
  /\ (forall self_mode,
         is_ok (QualityCheckOrchestrator_validate_pr self_mode pr_title pr_description
                  warning_mode_changeset None) = false)
  /\ (forall r,
      QualityCheckOrchestrator_validate_pr "error" pr_title pr_description
        changed_files old_files = Ok r ->
      (passed r = true <-> critical_issues r = 0%Z /\ high_issues r = 0%Z)
      /\ (passed r = true <->
          findings_with_severity CRITICAL r = 0%Z /\ findings_with_severity HIGH r = 0%Z))
  /\ (forall r,
         QualityCheckOrchestrator_validate_pr "warning" pr_title pr_description
           changed_files old_files = Ok r ->
         passed r = true)
  /\ (forall r1 r2,
         QualityCheckOrchestrator_validate_pr "error" pr_title pr_description
           changed_files old_files = Ok r1 ->
         QualityCheckOrchestrator_validate_pr "warning" pr_title pr_description
           changed_files old_files = Ok r2 ->
         total_issues r1 = total_issues r2)
  /\ ((exists r1,
          QualityCheckOrchestrator_validate_pr "error" pr_title pr_description
            changed_files old_files = Ok r1)
      <-> (exists r2,
             QualityCheckOrchestrator_validate_pr "warning" pr_title pr_description
               changed_files old_files = Ok r2)).
Proof.
  assert (Hnone : forall files old,
             od_flatten (SecurityValidator_validate_pr_changes files) <> [] ->
             forall self_mode,
               is_ok (QualityCheckOrchestrator_validate_pr self_mode pr_title
                        pr_description files old) = false).
  { intros files old Hsec self_mode.
    destruct (QualityCheckOrchestrator_validate_pr self_mode pr_title pr_description
                files old) as [r|e] eqn:Hrun; [|reflexivity].
    destruct (validate_pr_returns _ _ _ _ _ Hrun) as (arch & test & brk & _ & _ & _ & H & _).
    contradiction. }
  split; [apply Hnone|].
  split; [apply Hnone; vm_compute; discriminate|].
  split; [|split; [|split]].
  - intros r Hrun.
    destruct (validate_pr_returns _ _ _ _ _ Hrun)
      as (arch & test & brk & _ & _ & _ & _ & _ & _ & _ & _ & _ & _ & Hp & _ & Hc & Hh & _).
    rewrite <- Hc, <- Hh.
    assert (Hgate : passed r = true <-> critical_issues r = 0%Z /\ high_issues r = 0%Z).
    { rewrite Hp. unfold gate. simpl.
      rewrite andb_true_iff, !Z.eqb_eq. tauto. }
    split; exact Hgate.
  - intros r Hrun.
    destruct (validate_pr_returns _ _ _ _ _ Hrun)
      as (arch & test & brk & _ & _ & _ & _ & _ & _ & _ & _ & _ & _ & Hp & _).
    rewrite Hp. reflexivity.
  - intros r1 r2 Hrun1 Hrun2.
    destruct (validate_pr_returns _ _ _ _ _ Hrun1)
      as (arch1 & test1 & brk1 & Ha1 & Ht1 & Hb1 & _ & Hs1 & Hra1 & Hrt1 & Hrp1 & Hrb1
          & _ & _ & Htot1 & _).
    destruct (validate_pr_returns _ _ _ _ _ Hrun2)
      as (arch2 & test2 & brk2 & Ha2 & Ht2 & Hb2 & _ & Hs2 & Hra2 & Hrt2 & Hrp2 & Hrb2
          & _ & _ & Htot2 & _).
    rewrite Htot1, Htot2. unfold findings_total.
    rewrite Hs1, Hs2, Hra1, Hra2, Hrt1, Hrt2, Hrp1, Hrp2, Hrb1, Hrb2.
    rewrite Ha1 in Ha2. rewrite Ht1 in Ht2. rewrite Hb1 in Hb2.
    apply Ok_inj in Ha2. apply Ok_inj in Ht2. apply Ok_inj in Hb2. subst.
    reflexivity.
  - split; intros [r Hrun].
    + exact (@validate_pr_any_mode rt "error" "warning" _ _ _ _ r Hrun).
    + exact (@validate_pr_any_mode rt "warning" "error" _ _ _ _ r Hrun).
Qed.

Lemma validate_pr_security_finding_raises
  (self_mode pr_title pr_description : string) :
  is_ok (QualityCheckOrchestrator_validate_pr self_mode pr_title pr_description
           leaked_key None) = false.
Proof.
  unfold QualityCheckOrchestrator_validate_pr.
  assert (Hsec : exists f, od_flatten (SecurityValidator_validate_pr_changes leaked_key)
                           = [f]).
  { eexists. vm_compute. reflexivity. }
  destruct Hsec as [f ->].
  destruct (ArchitectureValidator_validate_project leaked_key); [|reflexivity].
  destruct (TestCoverageValidator_validate_pr _ _ _); [|reflexivity].
  destruct (BreakingChangesValidator_validate_pr _ _); reflexivity.
Qed.

Lemma LayerSeparationCheck_check_KeyError :
  ast_nodes "import os" = Ok import_os_nodes ->
  LayerSeparationCheck_check "services/user.py" "import os" = Raise (KeyError "api").
Proof.
  intros Hparse.
  unfold LayerSeparationCheck_check, LayerSeparationCheck__extract_imports.
  rewrite Hparse. vm_compute. reflexivity.
Qed.

(** C2 (fails on the code). [validate_pr] raises on well-formed
    changesets.  The changeset of the orchestrator's own test, with one
    hard-coded key, never gives a result: [_count_severities] calls
    [.lower()] on the [Severity] member of the security finding.  A
    service-layer file with one import raises [KeyError]: the hierarchy
    lists "api" as a prohibited layer of "service", and [LAYERS] has no
    such key. *)
Theorem C2_validate_pr_raises (self_mode pr_title pr_description : string) :
  is_ok (QualityCheckOrchestrator_validate_pr self_mode pr_title pr_description
           leaked_key None) = false
  /\ (ast_nodes "import os" = Ok import_os_nodes ->
      QualityCheckOrchestrator_validate_pr self_mode pr_title pr_description
        [("services/user.py", "import os")] None = Raise (KeyError "api")).
Proof.
  split; [apply validate_pr_security_finding_raises|].
  intros Hparse.
  unfold QualityCheckOrchestrator_validate_pr, ArchitectureValidator_validate_project,
    ArchitectureValidator_validate_file, ArchitectureValidator_checks.
  cbn [for_each bind].
  rewrite (LayerSeparationCheck_check_KeyError Hparse). reflexivity.
Qed.

End OrchestratorClaims.

Lemma C1_severity_histogram_witness :
  exists r,
    @QualityCheckOrchestrator_validate_pr demo_runtime "error" "feat: users" ""
      demo_changed (Some demo_old) = Ok r
    /\ critical_issues r = 3%Z
    /\ critical_issues r = findings_with_severity CRITICAL r
    /\ high_issues r = findings_with_severity HIGH r
    /\ medium_issues r = findings_with_severity MEDIUM r
    /\ low_issues r = findings_with_severity LOW r.
Proof.
  eexists. split; [vm_compute; reflexivity|].
  split; [reflexivity|].
  apply (@C1_severity_histogram demo_runtime "error" "feat: users" ""
           demo_changed (Some demo_old)).
  vm_compute. reflexivity.
Defined.

Lemma C3_gating_witness :
  (exists r1 r2,
      @QualityCheckOrchestrator_validate_pr demo_runtime "error" "feat: users" ""
        demo_changed (Some demo_old) = Ok r1
      /\ @QualityCheckOrchestrator_validate_pr demo_runtime "warning" "feat: users" ""
           demo_changed (Some demo_old) = Ok r2
      /\ passed r1 = false
      /\ (passed r1 = true <-> critical_issues r1 = 0%Z /\ high_issues r1 = 0%Z)
      /\ passed r2 = true
      /\ total_issues r1 = total_issues r2)
  /\ od_flatten (SecurityValidator_validate_pr_changes warning_mode_changeset) <> []
  /\ @QualityCheckOrchestrator_validate_pr sample_runtime "warning" "fix bug" "Short"
       warning_mode_changeset None
     = Raise (AttributeError "'Severity' object has no attribute 'lower'")
  /\ is_ok (@QualityCheckOrchestrator_validate_pr sample_runtime "warning" "fix bug"
              "Short" warning_mode_changeset None) = false
  /\ is_ok (@QualityCheckOrchestrator_validate_pr sample_runtime "error" "fix bug"
              "Short" warning_mode_changeset None) = false.
Proof.
  destruct (@C3_gating demo_runtime "feat: users" "" demo_changed (Some demo_old))
    as [_ [_ [Herror [Hwarning [Htotal _]]]]].
  destruct (@C3_gating sample_runtime "fix bug" "Short" warning_mode_changeset None)
    as [Hraises _].
  assert (Hsec : od_flatten (SecurityValidator_validate_pr_changes warning_mode_changeset)
                 <> []).
  { vm_compute. discriminate. }
  split; [|split; [exact Hsec|split; [vm_compute; reflexivity|split]]].
  - eexists. eexists.
    split; [vm_compute; reflexivity|].
    split; [vm_compute; reflexivity|].
    split; [reflexivity|].
    split; [apply Herror; vm_compute; reflexivity|].
    split; [apply Hwarning; vm_compute; reflexivity|].
    apply Htotal; vm_compute; reflexivity.
  - exact (Hraises Hsec "warning").
  - exact (Hraises Hsec "error").
Defined.

Lemma C2_validate_pr_raises_witness :
  @ast_nodes demo_runtime "import os" = Ok import_os_nodes
  /\ @QualityCheckOrchestrator_validate_pr demo_runtime "warning" "feat: users" ""
       [("services/user.py", "import os")] None = Raise (KeyError "api")
  /\ @QualityCheckOrchestrator_validate_pr demo_runtime "warning" "feat: users" ""
       leaked_key None
     = Raise (AttributeError "'Severity' object has no attribute 'lower'").
Proof.
  split; [reflexivity|]. split; [|vm_compute; reflexivity].
  apply (@C2_validate_pr_raises demo_runtime). reflexivity.
Defined.

(** ** Claims about the breaking-changes validator *)

Section BreakingClaims.
Context {rt : PythonRuntime}.

(** C4 (fails on the code). From [f(a)] to [f(a, b)] the check reports one
    high "modified" finding for [f]; from [f(a)] to [f(a, b=False)] it
    reports the very same finding, not zero: [_extract_signatures] reads
    [node.args.args] only, where a parameter with a default looks like
    one without. *)
Theorem C4_signature_change :
  ast_nodes "def f(a): pass" = Ok f_required ->
  ast_nodes "def f(a, b): pass" = Ok f_two_required ->
  ast_nodes "def f(a, b=False): pass" = Ok f_optional ->
  APISignatureChangeCheck_check "api/x.py" (Some "def f(a): pass") "def f(a, b): pass"
  = Ok [modified_f]
  /\ APISignatureChangeCheck_check "api/x.py" (Some "def f(a): pass")
       "def f(a, b=False): pass"
     = Ok [modified_f]
  /\ bf_severity modified_f = "high".
Proof.
  intros Hold Hnew Hopt.
  assert (Hnone : set_iter [] = []).
  { apply Permutation_nil. apply Permutation_sym. exact (set_iter_perm []). }
  unfold APISignatureChangeCheck_check, APISignatureChangeCheck__extract_signatures.
  rewrite Hold, Hnew, Hopt.
  cbn -[set_iter]. rewrite Hnone. repeat split.
Qed.

(** C9 (fails on the code). The validator visits the files of the new
    mapping only: on a changeset whose one file was deleted it returns
    no finding, and no run of it ever reports [deleted_file], although
    [RemovedPublicMethodsCheck.check] reports it when it is given
    [None] as new content. *)
Theorem C9_deleted_file_not_reported :
  BreakingChangesValidator_validate_pr []
    [("api/users.py", Some "def get_user(user_id): pass")] = Ok []
  /\ (forall changed_files old_files fs,
         BreakingChangesValidator_validate_pr changed_files old_files = Ok fs ->
         forall f, In f fs -> bf_change_type f <> "deleted_file")
  /\ (ast_nodes "def get_user(user_id): pass"
      = Ok get_user_nodes ->
      exists f,
        RemovedPublicMethodsCheck_check "api/users.py"
          (Some "def get_user(user_id): pass") None = Ok [f]
        /\ bf_change_type f = "deleted_file" /\ bf_severity f = "critical"
        /\ bf_line_number f = 1%Z).
Proof.
  split; [reflexivity|]. split.
  - intros changed_files old_files fs Hrun f Hin.
    apply BreakingChangesValidator_validate_pr_inv in Hrun.
    rewrite Forall_forall in Hrun. apply (Hrun f Hin).
  - intros Hparse.
    unfold RemovedPublicMethodsCheck_check,
      RemovedPublicMethodsCheck__extract_public_elements.
    rewrite Hparse. eexists. split; [vm_compute; reflexivity|]. repeat split.
Qed.

Lemma new_file_checks_silent file_path new_content :
  APISignatureChangeCheck_check file_path None new_content = Ok []
  /\ forall new, RemovedPublicMethodsCheck_check file_path None new = Ok [].
Proof.
  split.
  - unfold APISignatureChangeCheck_check. destruct (negb _); reflexivity.
  - intros [new|]; reflexivity.
Qed.

Lemma new_files_loop old_files changed_files :
  (forall file_path, In file_path (od_keys changed_files) ->
                     dict_get old_files file_path = None) ->
  forall acc,
    for_each changed_files
      (fun all_findings '(file_path, new_content) =>
         fs <- breaking_file old_files file_path new_content ;;
         Ok (all_findings ++ fs))
      acc
    = Ok (acc ++ schema_findings changed_files).
Proof.
  induction changed_files as [|[file_path content] files IH]; intros Hnew acc.
  - simpl. rewrite app_nil_r. reflexivity.
  - cbn [for_each]. unfold breaking_file at 1.
    rewrite (Hnew file_path) by (left; reflexivity).
    destruct (new_file_checks_silent file_path content) as [-> Hrem].
    rewrite Hrem. cbn [bind app].
    rewrite IH by (intros p Hp; apply Hnew; right; exact Hp).
    unfold schema_findings. cbn [flat_map]. rewrite <- app_assoc. reflexivity.
Qed.

(** C10. A file without an entry in the prior-content mapping gets no
    finding from the API-signature check nor from the removed-methods
    check; for a changeset of such files only, the validator returns the
    schema findings followed by the changelog findings about them, so
    every finding bears the name of one of these two checks. *)
Theorem C10_new_files
  (changed_files : odict string) (old_files : odict (option string)) :
  (forall file_path new_content,
      dict_get old_files file_path = None ->
      APISignatureChangeCheck_check file_path (dict_get old_files file_path) new_content
      = Ok []
      /\ RemovedPublicMethodsCheck_check file_path (dict_get old_files file_path)
           (Some new_content) = Ok [])
  /\ ((forall file_path, In file_path (od_keys changed_files) ->
                         dict_get old_files file_path = None) ->
      BreakingChangesValidator_validate_pr changed_files old_files
      = Ok (schema_findings changed_files
              ++ ChangelogRequirementCheck_check changed_files
                   (schema_findings changed_files))
      /\ forall fs f,
           BreakingChangesValidator_validate_pr changed_files old_files = Ok fs ->
           In f fs ->
           In (bf_check_name f)
              ["database_schema_changes"; "changelog_required"; "changelog_format"]).
Proof.
  split.
  - intros file_path new_content ->.
    destruct (new_file_checks_silent file_path new_content) as [Hapi Hrem].
    split; [exact Hapi | apply Hrem].
  - intros Hnew.
    assert (Hrun : BreakingChangesValidator_validate_pr changed_files old_files
                   = Ok (schema_findings changed_files
                           ++ ChangelogRequirementCheck_check changed_files
                                (schema_findings changed_files))).
    { unfold BreakingChangesValidator_validate_pr.
      rewrite (new_files_loop old_files changed_files Hnew []). reflexivity. }
    split; [exact Hrun|].
    intros fs f Hfs Hin. rewrite Hrun in Hfs. apply Ok_inj in Hfs. subst fs.
    apply in_app_or in Hin as [Hin|Hin].
    + unfold schema_findings in Hin.
      apply in_flat_map in Hin as [[file_path content] [_ Hin]].
      unfold DatabaseSchemaChangeCheck_check in Hin.
      destruct (negb _); [destruct Hin|].
      apply in_flat_map in Hin as [[n line] [_ Hin]].
      apply in_flat_map in Hin as [[[pattern change_type] message] [_ Hin]].
      one_finding Hin. simpl. auto.
    + unfold ChangelogRequirementCheck_check in Hin.
      destruct (schema_findings changed_files); [destruct Hin|].
      destruct (negb _).
      * destruct Hin as [<-|[]]. simpl. auto.
      * destruct (option_map _ _); [|destruct Hin].
        one_finding Hin. simpl. auto.
Qed.

End BreakingClaims.

Lemma C4_signature_change_witness :
  @ast_nodes demo_runtime "def f(a): pass" = Ok f_required
  /\ @ast_nodes demo_runtime "def f(a, b): pass" = Ok f_two_required
  /\ @ast_nodes demo_runtime "def f(a, b=False): pass" = Ok f_optional
  /\ @APISignatureChangeCheck_check demo_runtime "api/x.py" (Some "def f(a): pass")
       "def f(a, b=False): pass" = Ok [modified_f].
Proof.
  repeat (split; [reflexivity|]).
  apply (@C4_signature_change demo_runtime); reflexivity.
Defined.

Lemma C9_deleted_file_not_reported_witness :
  exists fs,
    @BreakingChangesValidator_validate_pr demo_runtime demo_changed demo_old = Ok fs
    /\ length fs = 3
    /\ Forall (fun f => bf_change_type f <> "deleted_file") fs
    /\ exists f,
         @RemovedPublicMethodsCheck_check demo_runtime "api/users.py"
           (Some "def get_user(user_id): pass") None = Ok [f]
         /\ bf_change_type f = "deleted_file".
Proof.
  destruct (@C9_deleted_file_not_reported demo_runtime) as [_ [Hnever Hcheck]].
  eexists. split; [vm_compute; reflexivity|]. split; [reflexivity|]. split.
  - apply Forall_forall.
    apply Hnever with (changed_files := demo_changed) (old_files := demo_old).
    vm_compute. reflexivity.
  - destruct (Hcheck eq_refl) as [f [Hf [Hty _]]]. exists f. split; assumption.
Defined.

Lemma C10_new_files_witness :
  (forall file_path, In file_path (od_keys demo_migration) ->
                     dict_get [] file_path = None)
  /\ exists f1 f2,
       @BreakingChangesValidator_validate_pr demo_runtime demo_migration [] = Ok [f1; f2]
       /\ bf_check_name f1 = "database_schema_changes"
       /\ bf_check_name f2 = "changelog_required".
Proof.
  assert (Hnew : forall file_path, In file_path (od_keys demo_migration) ->
                                   dict_get [] file_path = None).
  { intros file_path _. reflexivity. }
  split; [exact Hnew|].
  destruct (@C10_new_files demo_runtime demo_migration []) as [_ Hrun].
  destruct (Hrun Hnew) as [Heq _].
  rewrite Heq. eexists. eexists. split; [vm_compute; reflexivity|].
  split; reflexivity.
Defined.

(** ** The JSON export *)

Lemma mapM_ok (A B : Type) (f : A -> result B) (xs : list A) :
  Forall (fun x => exists y, f x = Ok y) xs -> exists ys, mapM f xs = Ok ys.
Proof.
  induction 1 as [|x xs [y Hy] _ [ys Hys]].
  - exists []. reflexivity.
  - exists (y :: ys). cbn [mapM]. rewrite Hy. cbn [bind]. rewrite Hys.
    reflexivity.
Qed.

Lemma dumps_findings (F : Type) (asdict : F -> pyvalue) (fs : list F) :
  (forall f, exists j, json_dumps (asdict f) = Ok j) ->
  exists js, mapM json_dumps (map asdict fs) = Ok js.
Proof.
  intros Hone. apply mapM_ok. apply Forall_map.
  apply Forall_forall. intros f _. apply Hone.
Qed.

(** C6 (fails on the code). The export gives back [passed],
    [total_issues] and [mode] for a result without security findings;
    for a result with a security finding [json.dumps] raises [TypeError],
    since [asdict] leaves the [Severity] member in the dictionary. *)
Theorem C6_export_json (r : QualityCheckResult) :
  (security_findings r = [] ->
   exists doc,
     QualityCheckOrchestrator_export_results_json r = Ok doc
     /\ json_field doc "passed" = Some (JBool (passed r))
     /\ json_field doc "total_issues" = Some (JInt (total_issues r))
     /\ json_field doc "mode" = Some (JStr (mode r)))
  /\ (security_findings r <> [] ->
      QualityCheckOrchestrator_export_results_json r = Raise JSON_TYPE_ERROR).
Proof.
  destruct r as [p t c h m l sec arch test perf brk md ou oj].
  unfold QualityCheckOrchestrator_export_results_json, result_dict.
  cbn [security_findings architecture_findings test_coverage_findings
       performance_findings breaking_changes_findings passed total_issues
       critical_issues high_issues medium_issues low_issues mode override_used
       override_justification].
  split.
  - intros ->.
    destruct (dumps_findings asdict_architecture arch) as [ja Ha].
    { intros f. eexists. reflexivity. }
    destruct (dumps_findings asdict_test_coverage test) as [jt Ht].
    { intros f. eexists. reflexivity. }
    destruct (dumps_findings asdict_performance perf) as [jp Hp].
    { intros f. eexists. reflexivity. }
    destruct (dumps_findings asdict_breaking_change brk) as [jb Hb].
    { intros f. eexists. reflexivity. }
    cbn [json_dumps mapM bind fst snd map].
    rewrite Ha, Ht, Hp, Hb.
    destruct oj as [s|]; cbn [json_dumps bind]; eexists; (split; [reflexivity|]);
      repeat split.
  - intros Hsec. destruct sec as [|f sec]; [contradiction|].
    destruct oj as [s|]; reflexivity.
Qed.

Lemma C6_export_json_witness :
  security_findings leaked_key_result <> []
  /\ QualityCheckOrchestrator_export_results_json leaked_key_result
     = Raise JSON_TYPE_ERROR.
Proof.
  assert (Hsec : security_findings leaked_key_result <> []) by discriminate.
  split; [exact Hsec|].
  apply (C6_export_json leaked_key_result). exact Hsec.
Defined.

(** ** Claims about the credential check *)

Lemma mem_false_not_In (x : string) (l : list string) :
  Py.mem x l = false -> ~ In x l.
Proof.
  unfold Py.mem. intros Hmem Hin.
  assert (Hex : existsb (String.eqb x) l = true).
  { apply existsb_exists. exists x. split; [exact Hin | apply String.eqb_refl]. }
  rewrite Hex in Hmem. discriminate.
Qed.

Lemma distinct_NoDup (l : list string) : distinct l = true -> NoDup l.
Proof.
  induction l as [|x l IH]; simpl; intros H; constructor.
  - apply andb_true_iff in H as [H _]. apply mem_false_not_In.
    destruct (Py.mem x l); [discriminate | reflexivity].
  - apply andb_true_iff in H as [_ H]. auto.
Qed.

Lemma CREDENTIAL_PATTERNS_distinct : NoDup (map fst CREDENTIAL_PATTERNS).
Proof. apply distinct_NoDup. vm_compute. reflexivity. Qed.

(** The line [apikey = "abcd1234"] matches the second pattern of the
    table once, and the first one as well: two findings name "API key". *)
Lemma C7_two_findings_for_apikey : ~ one_finding_per_matching_line.
Proof.
  intros Hclaim.
  specialize (Hclaim "src/config.py" apikey_line
                (nth 1 CREDENTIAL_PATTERNS (EmptyString, EmptyString))
                (Re.RMatch 0 19 apikey_line [])).
  assert (Hlen : length (filter (fun f => Severity_eqb (sf_severity f) CRITICAL
                                          && names_type "API key" f)
                          (HardcodedCredentialsCheck_check "src/config.py" apikey_line))
                 = 2).
  { vm_compute. reflexivity. }
  cbn [nth CREDENTIAL_PATTERNS snd] in Hclaim.
  rewrite Hlen in Hclaim.
  assert (Habs : 2 = 1); [|discriminate Habs].
  apply Hclaim.
  - right. left. reflexivity.
  - vm_compute. reflexivity.
  - vm_compute. reflexivity.
  - vm_compute. reflexivity.
Qed.

(** Findings of [check] carry the number of their line. *)
Lemma credential_line_findings file_path k line f :
  In f (if is_comment_line line then []
        else flat_map (credential_matches file_path k line) CREDENTIAL_PATTERNS) ->
  sf_line_number f = k.
Proof.
  destruct (is_comment_line line); [intros []|]. intros Hin.
  apply in_flat_map in Hin as [[pattern cred_type] [_ Hin]].
  unfold credential_matches in Hin.
  apply in_flat_map in Hin as [m [_ Hin]].
  one_finding Hin. reflexivity.
Qed.

Lemma filter_none (A : Type) (p : A -> bool) (l : list A) :
  (forall x, In x l -> p x = false) -> filter p l = [].
Proof.
  induction l as [|x l IH]; intros H; simpl; [reflexivity|].
  rewrite (H x) by (left; reflexivity). apply IH. intros y Hy. apply H. right. exact Hy.
Qed.

Lemma filter_all (A : Type) (p : A -> bool) (l : list A) :
  (forall x, In x l -> p x = true) -> filter p l = l.
Proof.
  induction l as [|x l IH]; intros H; simpl; [reflexivity|].
  rewrite (H x) by (left; reflexivity). f_equal. apply IH.
  intros y Hy. apply H. right. exact Hy.
Qed.

(** Selecting, in the findings of a line-by-line scan, those of line
    [start + n] that satisfy [q]. *)
Lemma filter_line (G : Z * string -> list SecurityFinding)
  (q : SecurityFinding -> bool) :
  (forall k line f, In f (G (k, line)) -> sf_line_number f = k) ->
  forall (lines : list string) (start : Z) (n : nat) (line : string),
    nth_error lines n = Some line ->
    filter (fun f => Z.eqb (sf_line_number f) (start + Z.of_nat n) && q f)
           (flat_map G (Py.enumerate start lines))
    = filter q (G ((start + Z.of_nat n)%Z, line)).
Proof.
  intros HG. induction lines as [|l0 lines IH]; intros start n line Hnth.
  - destruct n; discriminate.
  - cbn [Py.enumerate flat_map]. rewrite filter_app. destruct n as [|n].
    + simpl in Hnth. injection Hnth as ->. rewrite Z.add_0_r.
      rewrite (@filter_none _ _ (flat_map G (Py.enumerate (start + 1) lines))).
      * rewrite app_nil_r. apply filter_ext_in. intros f Hf.
        rewrite (HG _ _ _ Hf), Z.eqb_refl. reflexivity.
      * intros f Hf. apply in_flat_map in Hf as [[k l] [Hk Hf]].
        apply enumerate_ge in Hk. rewrite (HG _ _ _ Hf).
        replace (k =? start)%Z with false; [reflexivity|].
        symmetry. apply Z.eqb_neq. lia.
    + simpl in Hnth.
      rewrite (@filter_none _ _ (G (start, l0))).
      * cbn [app].
        replace (start + Z.of_nat (S n))%Z with (start + 1 + Z.of_nat n)%Z by lia.
        apply IH. exact Hnth.
      * intros f Hf. rewrite (HG _ _ _ Hf).
        replace (start =? start + Z.of_nat (S n))%Z with false; [reflexivity|].
        symmetry. apply Z.eqb_neq. lia.
Qed.

(** Selecting the findings of one pattern of a table without repeated
    patterns. *)
Lemma filter_pattern (H : string * string -> list SecurityFinding) :
  (forall e f, In f (H e) -> sf_pattern_matched f = fst e) ->
  forall (table : list (string * string)) (e0 : string * string),
    NoDup (map fst table) -> In e0 table ->
    filter (fun f => String.eqb (sf_pattern_matched f) (fst e0)) (flat_map H table)
    = H e0.
Proof.
  intros HH. induction table as [|e table IH]; intros e0 Hnodup Hin.
  - destruct Hin.
  - cbn [flat_map]. rewrite filter_app. simpl in Hnodup.
    inversion Hnodup as [|x l Hnotin Hrest]; subst.
    destruct Hin as [->|Hin].
    + rewrite filter_all.
      * rewrite filter_none; [apply app_nil_r|].
        intros f Hf. apply in_flat_map in Hf as [e [He Hf]].
        rewrite (HH _ _ Hf). apply String.eqb_neq. intros Heq.
        apply Hnotin. rewrite <- Heq. apply in_map. exact He.
      * intros f Hf. rewrite (HH _ _ Hf). apply String.eqb_refl.
    + rewrite filter_none.
      * cbn [app]. apply IH; assumption.
      * intros f Hf. rewrite (HH _ _ Hf). apply String.eqb_neq. intros Heq.
        apply Hnotin. rewrite Heq. apply in_map. exact Hin.
Qed.

Lemma credential_matches_pattern file_path k line e f :
  In f (credential_matches file_path k line e) -> sf_pattern_matched f = fst e.
Proof.
  destruct e as [pattern cred_type]. unfold credential_matches. intros Hin.
  apply in_flat_map in Hin as [m [_ Hin]]. one_finding Hin. reflexivity.
Qed.

(** C7 (amended). For a line that is not a comment and a pattern of the
    table that matches it exactly once, the findings of the check for
    that line and that pattern are: none when an exclusion pattern occurs
    in the matched text, and otherwise exactly one, which is critical and
    names the pattern's credential type.  Other patterns of the table
    that match the line add their own findings. *)
Theorem C7_credentials_per_pattern
  (file_path content : string) (n : nat) (line : string) (entry : string * string)
  (m : Re.rmatch) :
  nth_error (Py.split_lines content) n = Some line ->
  is_comment_line line = false ->
  In entry CREDENTIAL_PATTERNS ->
  Re.finditer true (fst entry) line = [m] ->
  let found := credential_finding file_path (Z.of_nat n + 1) line (fst entry) (snd entry) in
  filter (fun f => Z.eqb (sf_line_number f) (Z.of_nat n + 1)
                   && String.eqb (sf_pattern_matched f) (fst entry))
         (HardcodedCredentialsCheck_check file_path content)
  = (if HardcodedCredentialsCheck__is_excluded (Re.m_text m) then [] else [found])
  /\ sf_severity found = CRITICAL
  /\ names_type (snd entry) found = true.
Proof.
  intros Hnth Hcomment Hentry Hmatch found. split; [|split].
  - unfold HardcodedCredentialsCheck_check.
    replace (Z.of_nat n + 1)%Z with (1 + Z.of_nat n)%Z by lia.
    rewrite (@filter_line
               (fun '(line_num, line) =>
                  if is_comment_line line then []
                  else flat_map (credential_matches file_path line_num line)
                                CREDENTIAL_PATTERNS)
               (fun f => String.eqb (sf_pattern_matched f) (fst entry))
               (fun k l f => @credential_line_findings file_path k l f)
               (Py.split_lines content) 1%Z n line Hnth).
    rewrite Hcomment.
    rewrite (@filter_pattern (credential_matches file_path (1 + Z.of_nat n) line)
               (@credential_matches_pattern file_path (1 + Z.of_nat n) line)
               CREDENTIAL_PATTERNS entry CREDENTIAL_PATTERNS_distinct Hentry).
    destruct entry as [pattern cred_type]. unfold credential_matches.
    cbn [fst snd] in *. rewrite Hmatch. cbn [flat_map].
    rewrite app_nil_r. subst found.
    replace (1 + Z.of_nat n)%Z with (Z.of_nat n + 1)%Z by lia. reflexivity.
  - reflexivity.
  - subst found. unfold names_type, credential_finding. cbn [sf_message].
    unfold CREDENTIAL_PATTERNS in Hentry. cbn [In] in Hentry.
    repeat (destruct Hentry as [<-|Hentry]; [vm_compute; reflexivity|]).
    destruct Hentry.
Qed.

Lemma C7_credentials_per_pattern_witness :
  nth_error (Py.split_lines apikey_line) 0 = Some apikey_line
  /\ is_comment_line apikey_line = false
  /\ Re.finditer true ("apikey\s*[=:]\s*" +++ QUOTED) apikey_line
     = [Re.RMatch 0 19 apikey_line []]
  /\ filter (fun f => Z.eqb (sf_line_number f) 1
                      && String.eqb (sf_pattern_matched f) ("apikey\s*[=:]\s*" +++ QUOTED))
            (HardcodedCredentialsCheck_check "src/config.py" apikey_line)
     = [credential_finding "src/config.py" 1 apikey_line
          ("apikey\s*[=:]\s*" +++ QUOTED) "API key"].
Proof.
  split; [reflexivity|]. split; [vm_compute; reflexivity|].
  split; [vm_compute; reflexivity|].
  apply (@C7_credentials_per_pattern "src/config.py" apikey_line 0 apikey_line
           ("apikey\s*[=:]\s*" +++ QUOTED, "API key")
           (Re.RMatch 0 19 apikey_line [])).
  - reflexivity.
  - vm_compute. reflexivity.
  - right. left. reflexivity.
  - vm_compute. reflexivity.
Defined.

(** ** Claims about line numbers *)

Lemma find_enumerate_first (A : Type) (p : Z * A -> bool) (xs : list A) :
  forall (start k : Z) (x : A),
    find p (Py.enumerate start xs) = Some (k, x) ->
    In (k, x) (Py.enumerate start xs) /\ p (k, x) = true
    /\ forall k' x', In (k', x') (Py.enumerate start xs) -> (k' < k)%Z ->
                     p (k', x') = false.
Proof.
  induction xs as [|y ys IH]; intros start k x Hfind; simpl in Hfind.
  - discriminate.
  - destruct (p (start, y)) eqn:Hp.
    + injection Hfind as <- <-. split; [left; reflexivity|]. split; [exact Hp|].
      intros k' x' [Heq|Hin] Hlt.
      * injection Heq as <- <-. lia.
      * apply enumerate_ge in Hin. lia.
    + destruct (IH _ _ _ Hfind) as [Hin [Hpk Hfirst]].
      split; [right; exact Hin|]. split; [exact Hpk|].
      intros k' x' [Heq|Hin'] Hlt.
      * injection Heq as <- <-. exact Hp.
      * apply Hfirst; assumption.
Qed.

(** The one finding of [DependencyInjectionCheck] sits on the first line
    that matches the decorator pattern. *)
Lemma dependency_injection_first_route file_path content f :
  In f (DependencyInjectionCheck_check file_path content) ->
  DependencyInjectionCheck_check file_path content = [f]
  /\ exists line,
       In (af_line_number f, line) (Py.enumerate 1 (Py.split_lines content))
       /\ Re.search "@(app|router)\.\w+" line = true
       /\ forall k' line',
            In (k', line') (Py.enumerate 1 (Py.split_lines content)) ->
            (k' < af_line_number f)%Z ->
            Re.search "@(app|router)\.\w+" line' = false.
Proof.
  unfold DependencyInjectionCheck_check.
  repeat match goal with
    | |- In _ (if ?c then _ else _) -> _ => destruct c; try (intros []; fail)
    end.
  destruct (find _ _) as [[k line]|] eqn:Hfind; [|intros []].
  intros [<-|[]]. split; [reflexivity|].
  destruct (find_enumerate_first _ _ _ Hfind) as (Hin & Hp & Hfirst).
  exists line. split; [exact Hin|]. split; [exact Hp|].
  intros k' line' Hin' Hlt. exact (Hfirst k' line' Hin' Hlt).
Qed.

(** A start-up hook ahead of the first route takes the finding. *)
Example dependency_injection_on_startup_hook :
  exists f,
    DependencyInjectionCheck_check "api/users.py" startup_hook_py = [f]
    /\ af_line_number f = 1%Z
    /\ line_numbered startup_hook_py 1 = Some "@app.on_event('startup')".
Proof.
  eexists. split; [vm_compute; reflexivity|]. split; reflexivity.
Qed.

(** The finding of [BugFixRegressionTestCheck] carries line number 0. *)
Lemma C8_bug_fix_finding_has_line_zero :
  exists f,
    In f (BugFixRegressionTestCheck_check "fix: login bug" "" bug_fix_changeset)
    /\ tf_line_number f = 0%Z /\ ~ (1 <= tf_line_number f)%Z.
Proof.
  eexists. split; [vm_compute; left; reflexivity|]. split; [reflexivity|].
  simpl. lia.
Qed.

Section LineClaims.
Context {rt : PythonRuntime}.

Lemma line_from_positive (l : Z) : linenos_positive -> line_from l -> (1 <= l)%Z.
Proof.
  intros Hpos [Hl | (content & nodes & node & Hparse & Hin & Hline)].
  - exact Hl.
  - exact (Hpos _ _ _ _ Hparse Hin Hline).
Qed.

(** C8 (amended). Every finding of the five validators carries a line
    number of at least 1, except the bug-fix regression finding, which
    is about the pull request and carries 0.  The findings about a whole
    file or project (circular dependency, test quality, removed public
    elements, changelog) carry 1; the dependency-injection finding, one
    per file, carries the number of the first line in which the pattern
    [@(app|router)\.\w+] is found, which need not be a route decorator
    (a line with [@app.on_event] counts). *)
Theorem C8_line_numbers
  (pr_title pr_description : string) (changed_files : odict string)
  (old_files : odict (option string)) :
  linenos_positive ->
  Forall (fun f => (1 <= sf_line_number f)%Z)
         (od_flatten (SecurityValidator_validate_pr_changes changed_files))
  /\ (forall results,
         ArchitectureValidator_validate_project changed_files = Ok results ->
         Forall (fun f => (1 <= af_line_number f)%Z
                          /\ (af_check_name f = "circular_dependency" ->
                              af_line_number f = 1%Z))
                (od_flatten results))
  /\ (forall fs,
         TestCoverageValidator_validate_pr pr_title pr_description changed_files = Ok fs ->
         Forall (fun f => ((tf_check_name f = "bug_fix_regression_tests"
                            /\ tf_line_number f = 0%Z)
                           \/ (tf_check_name f <> "bug_fix_regression_tests"
                               /\ (1 <= tf_line_number f)%Z))
                          /\ (tf_check_name f = "test_quality" -> tf_line_number f = 1%Z))
                fs)
  /\ Forall (fun f => (1 <= pf_line_number f)%Z)
            (od_flatten (PerformanceValidator_validate_pr changed_files))
  /\ (forall fs,
         BreakingChangesValidator_validate_pr changed_files old_files = Ok fs ->
         Forall (fun f => (1 <= bf_line_number f)%Z
                          /\ (In (bf_check_name f) FILE_LEVEL_CHECKS ->
                              bf_line_number f = 1%Z))
                fs)
  /\ (forall file_path content f,
         In f (DependencyInjectionCheck_check file_path content) ->
         DependencyInjectionCheck_check file_path content = [f]
         /\ exists line,
              In (af_line_number f, line) (Py.enumerate 1 (Py.split_lines content))
              /\ Re.search "@(app|router)\.\w+" line = true
              /\ forall k' line',
                   In (k', line') (Py.enumerate 1 (Py.split_lines content)) ->
                   (k' < af_line_number f)%Z ->
                   Re.search "@(app|router)\.\w+" line' = false).
Proof.
  intros Hpos. split; [|split; [|split; [|split; [|split]]]].
  - apply validate_files_Forall. apply SecurityValidator_validate_file_lines.
  - intros results Hrun. apply ArchitectureValidator_validate_project_inv in Hrun.
    eapply Forall_impl; [|exact Hrun].
    intros f (_ & Hline & Hcycle). split; [|exact Hcycle].
    apply line_from_positive; assumption.
  - intros fs Hrun. apply TestCoverageValidator_validate_pr_inv in Hrun.
    eapply Forall_impl; [|exact Hrun].
    intros f (_ & Hline & Hquality). split; [|exact Hquality].
    destruct Hline as [Hbug | [Hother Hline]]; [left; exact Hbug|].
    right. split; [exact Hother | apply line_from_positive; assumption].
  - eapply Forall_impl; [|apply validate_files_Forall;
                           apply PerformanceValidator_validate_file_inv].
    intros f [_ Hline]. exact Hline.
  - intros fs Hrun. apply BreakingChangesValidator_validate_pr_inv in Hrun.
    eapply Forall_impl; [|exact Hrun].
    intros f (_ & Hline & Hfile & _). split; [|exact Hfile].
    apply line_from_positive; assumption.
  - intros file_path content f Hin. apply dependency_injection_first_route. exact Hin.
Qed.

End LineClaims.

Lemma demo_linenos_positive : @linenos_positive demo_runtime.
Proof.
  intros content nodes node l Hparse Hin Hline.
  cbv [ast_nodes demo_runtime] in Hparse.
  destruct (od_get demo_trees content) as [found|] eqn:Hget; [|discriminate].
  apply Ok_inj in Hparse. subst found.
  assert (Hall : Forall (Forall (fun node => forall l, node_line node = Some l ->
                                                       (1 <= l)%Z))
                        (od_values demo_trees)).
  { repeat constructor; intros k Hk; simpl in Hk; try discriminate;
      injection Hk as <-; lia. }
  pose proof (od_get_values _ _ Hall Hget) as Hnodes.
  rewrite Forall_forall in Hnodes. exact (Hnodes node Hin l Hline).
Qed.

Lemma C8_line_numbers_witness :
  @linenos_positive demo_runtime
  /\ (exists f,
        @TestCoverageValidator_validate_pr demo_runtime "fix: login bug" ""
          bug_fix_changeset = Ok [f]
        /\ tf_check_name f = "bug_fix_regression_tests" /\ tf_line_number f = 0%Z)
  /\ (exists f,
        DependencyInjectionCheck_check "api/users.py" demo_route = [f]
        /\ af_line_number f = 2%Z)
  /\ Forall (fun f => (1 <= bf_line_number f)%Z
                      /\ (In (bf_check_name f) FILE_LEVEL_CHECKS ->
                          bf_line_number f = 1%Z))
       (match @BreakingChangesValidator_validate_pr demo_runtime demo_changed demo_old with
        | Ok fs => fs
        | Raise _ => []
        end).
Proof.
  split; [exact demo_linenos_positive|].
  split; [eexists; split; [vm_compute; reflexivity | split; reflexivity]|].
  split; [eexists; split; [vm_compute; reflexivity | reflexivity]|].
  destruct (@C8_line_numbers demo_runtime "fix: login bug" "" demo_changed demo_old
              demo_linenos_positive) as (_ & _ & _ & _ & Hbreaking & _).
  apply Hbreaking. vm_compute. reflexivity.
Defined.

(** ** Claims about the cycle detector *)

Section CycleClaims.
Context {rt : PythonRuntime}.

Lemma set_iter_singleton (x : string) : set_iter [x] = [x].
Proof.
  apply Permutation_length_1_inv. apply Permutation_sym. exact (set_iter_perm [x]).
Qed.

Lemma set_iter_empty : set_iter [] = [].
Proof.
  apply Permutation_nil. apply Permutation_sym. exact (set_iter_perm []).
Qed.

(** C5 (fails on the code). On the two service modules that import each
    other the detector returns no finding: the graph keeps the first
    component of an imported name ("services") while its nodes are full
    module paths ("services.user_service").  Two top-level modules that
    import each other are reported, with both names in the message, and a
    linear chain gives no finding. *)
Theorem C5_cycle_detection :
  CircularDependencyCheck__build_dependency_graph package_cycle
  = [("services.user_service", ["services"]); ("services.order_service", ["services"])]
  /\ CircularDependencyCheck_check_project package_cycle = Ok []
  /\ (exists f,
        CircularDependencyCheck_check_project flat_cycle = Ok [f]
        /\ af_message f = "Circular dependency detected: a → b → a")
  /\ CircularDependencyCheck_check_project linear_chain = Ok [].
Proof.
  split; [vm_compute; reflexivity|]. split; [|split].
  - unfold CircularDependencyCheck_check_project.
    replace (CircularDependencyCheck__build_dependency_graph package_cycle)
      with [("services.user_service", ["services"]);
            ("services.order_service", ["services"])]
      by (vm_compute; reflexivity).
    unfold CircularDependencyCheck__find_cycles, dfs_fuel.
    cbn -[set_iter]. rewrite !set_iter_singleton. cbn -[set_iter].
    reflexivity.
  - unfold CircularDependencyCheck_check_project.
    replace (CircularDependencyCheck__build_dependency_graph flat_cycle)
      with [("a", ["b"]); ("b", ["a"])] by (vm_compute; reflexivity).
    unfold CircularDependencyCheck__find_cycles, dfs_fuel.
    cbn -[set_iter]. rewrite !set_iter_singleton. cbn -[set_iter].
    rewrite !set_iter_singleton. cbn -[set_iter].
    eexists. split; reflexivity.
  - unfold CircularDependencyCheck_check_project.
    replace (CircularDependencyCheck__build_dependency_graph linear_chain)
      with [("a", ["b"]); ("b", ["c"]); ("c", ["d"]); ("d", [])]
      by (vm_compute; reflexivity).
    unfold CircularDependencyCheck__find_cycles, dfs_fuel.
    cbn -[set_iter]. rewrite !set_iter_singleton. cbn -[set_iter].
    rewrite !set_iter_singleton. cbn -[set_iter].
    rewrite !set_iter_singleton. cbn -[set_iter].
    rewrite ?set_iter_empty. cbn -[set_iter].
    reflexivity.
Qed.

End CycleClaims.

(** ** The depth of the search

    Each call of [dfs] marks a node that was not visited before, and
    every node is a key of the graph or a neighbour of one: the calls
    nest no deeper than the number of nodes, so room for [dfs_fuel]
    nested calls is never used up. *)

Section DfsTotal.
Context {rt : PythonRuntime}.
Variable graph : odict pyset.

Lemma mem_In (x : string) (l : list string) : Py.mem x l = true <-> In x l.
Proof.
  unfold Py.mem. rewrite existsb_exists. split.
  - intros [y [Hy Heq]]. apply String.eqb_eq in Heq. subst. exact Hy.
  - intros Hin. exists x. split; [exact Hin | apply String.eqb_refl].
Qed.

Lemma filter_length_mono (A : Type) (p q : A -> bool) (l : list A) :
  (forall x, In x l -> p x = true -> q x = true) ->
  length (filter p l) <= length (filter q l).
Proof.
  induction l as [|x l IH]; intros Hpq; simpl; [lia|].
  assert (IH' : length (filter p l) <= length (filter q l)).
  { apply IH. intros y Hy. apply Hpq. right. exact Hy. }
  destruct (p x) eqn:Hp.
  - rewrite (Hpq x) by (auto; left; reflexivity). simpl. lia.
  - destruct (q x); simpl; lia.
Qed.

Lemma filter_length_lt (A : Type) (p q : A -> bool) (l : list A) (x0 : A) :
  (forall x, In x l -> p x = true -> q x = true) ->
  In x0 l -> p x0 = false -> q x0 = true ->
  length (filter p l) < length (filter q l).
Proof.
  induction l as [|x l IH]; intros Hpq Hin Hp0 Hq0; [destruct Hin|].
  assert (Hle : length (filter p l) <= length (filter q l)).
  { apply filter_length_mono. intros y Hy. apply Hpq. right. exact Hy. }
  simpl. destruct Hin as [->|Hin].
  - rewrite Hp0, Hq0. simpl. lia.
  - assert (IH' : length (filter p l) < length (filter q l)).
    { apply IH; auto. intros y Hy. apply Hpq. right. exact Hy. }
    destruct (p x) eqn:Hp.
    + rewrite (Hpq x) by (auto; left; reflexivity). simpl. lia.
    + destruct (q x); simpl; lia.
Qed.

Lemma unvisited_mono (seen seen' : list string) :
  incl seen seen' -> unvisited graph seen' <= unvisited graph seen.
Proof.
  intros Hincl. apply filter_length_mono. intros x _ Hx.
  apply negb_true_iff in Hx. apply negb_true_iff.
  destruct (Py.mem x seen) eqn:Hmem; [|reflexivity].
  apply mem_In in Hmem. apply Hincl in Hmem. apply mem_In in Hmem. congruence.
Qed.

Lemma unvisited_mark (node : string) (seen : list string) :
  In node (universe graph) -> Py.mem node seen = false ->
  unvisited graph (node :: seen) < unvisited graph seen.
Proof.
  intros Hin Hmem. apply filter_length_lt with (x0 := node).
  - intros x _ Hx. apply negb_true_iff in Hx. apply negb_true_iff.
    destruct (Py.mem x seen) eqn:Hs; [|reflexivity].
    apply mem_In in Hs. assert (Hc : Py.mem x (node :: seen) = true).
    { apply mem_In. right. exact Hs. }
    congruence.
  - exact Hin.
  - apply negb_false_iff. apply mem_In. left. reflexivity.
  - rewrite Hmem. reflexivity.
Qed.

Lemma unvisited_bound (seen : list string) : unvisited graph seen <= length (universe graph).
Proof. unfold unvisited. apply List.filter_length_le. Qed.

Lemma key_in_universe (node : string) : In node (od_keys graph) -> In node (universe graph).
Proof.
  intros Hin. apply nodup_In. unfold graph_nodes. apply in_or_app. left. exact Hin.
Qed.

Lemma od_get_In (V : Type) (d : odict V) (k : string) (v : V) :
  od_get d k = Some v -> In v (od_values d).
Proof.
  unfold od_values. induction d as [|[k' v'] d IH]; simpl; [discriminate|].
  destruct (String.eqb k' k); intros H.
  - injection H as ->. left. reflexivity.
  - right. apply IH. exact H.
Qed.

Lemma neighbour_in_universe (node : string) (neighbors : pyset) (nb : string) :
  od_get graph node = Some neighbors -> In nb (set_iter neighbors) -> In nb (universe graph).
Proof.
  intros Hget Hin. apply nodup_In. unfold graph_nodes. apply in_or_app. right.
  apply in_concat. exists neighbors. split; [exact (@od_get_In _ graph node neighbors Hget)|].
  apply (Permutation_in _ (set_iter_perm neighbors)) in Hin.
  apply nodup_In in Hin. exact Hin.
Qed.

Lemma visit_all_total (f : nat) :
  (forall node st,
      In node (universe graph) -> Py.mem node (visited st) = false ->
      unvisited graph (visited st) <= f ->
      exists st', dfs graph f node st = Some st' /\ incl (visited st) (visited st')) ->
  forall (nbs : list string) (st : dfs_state),
    (forall nb, In nb nbs -> In nb (universe graph)) ->
    unvisited graph (visited st) <= f ->
    exists st', fold_opt (visit_neighbor (dfs graph f)) nbs st = Some st' /\ incl (visited st) (visited st').
Proof.
  intros Hdfs. induction nbs as [|nb nbs IH]; intros st Hnbs Hfuel.
  - exists st. split; [reflexivity | apply incl_refl].
  - cbn [fold_opt]. unfold visit_neighbor at 1.
    destruct (Py.mem nb (visited st)) eqn:Hmem; cbn [negb].
    + destruct (Py.mem nb (rec_stack st)).
      * destruct (IH (mk_dfs (visited st) (rec_stack st)
                        (cycles st ++ [slice_from nb (rec_stack st)])))
          as [st' [Hrun Hincl]]; [intros x Hx; apply Hnbs; right; exact Hx | exact Hfuel |].
        exists st'. split; assumption.
      * destruct (IH st) as [st' [Hrun Hincl]];
          [intros x Hx; apply Hnbs; right; exact Hx | exact Hfuel |].
        exists st'. split; assumption.
    + destruct (Hdfs nb st) as [st1 [Hrun1 Hincl1]];
        [apply Hnbs; left; reflexivity | exact Hmem | exact Hfuel |].
      rewrite Hrun1.
      destruct (IH st1) as [st' [Hrun Hincl]].
      * intros x Hx. apply Hnbs. right. exact Hx.
      * pose proof (@unvisited_mono (visited st) (visited st1) Hincl1). lia.
      * exists st'. split; [exact Hrun|].
        intros x Hx. apply Hincl. apply Hincl1. exact Hx.
Qed.

Lemma dfs_total (fuel : nat) :
  forall node st,
    In node (universe graph) -> Py.mem node (visited st) = false ->
    unvisited graph (visited st) <= fuel ->
    exists st', dfs graph fuel node st = Some st' /\ incl (visited st) (visited st').
Proof.
  induction fuel as [|f IH]; intros node st Hin Hmem Hfuel.
  - pose proof (@unvisited_mark node (visited st) Hin Hmem). lia.
  - cbn [dfs].
    set (st1 := mk_dfs (node :: visited st) (rec_stack st ++ [node]) (cycles st)).
    assert (Hfuel1 : unvisited graph (visited st1) <= f).
    { pose proof (@unvisited_mark node (visited st) Hin Hmem). simpl. lia. }
    assert (Hincl1 : incl (visited st) (visited st1)).
    { intros x Hx. right. exact Hx. }
    destruct (od_get graph node) as [neighbors|] eqn:Hget.
    + destruct (@visit_all_total f IH (set_iter neighbors) st1) as [st2 [Hrun Hincl2]].
      * intros nb Hnb. exact (@neighbour_in_universe node neighbors nb Hget Hnb).
      * exact Hfuel1.
      * rewrite Hrun. eexists. split; [reflexivity|].
        simpl. intros x Hx. apply Hincl2. apply Hincl1. exact Hx.
    + eexists. split; [reflexivity|]. simpl. exact Hincl1.
Qed.

(** With that much room [_find_cycles] returns on every graph. *)
Theorem find_cycles_total :
  exists found, CircularDependencyCheck__find_cycles graph = Some found.
Proof.
  unfold CircularDependencyCheck__find_cycles.
  assert (Hloop : forall (nodes : list string) (st : dfs_state),
             (forall n, In n nodes -> In n (universe graph)) ->
             exists st',
               fold_opt (fun st node =>
                           if negb (Py.mem node (visited st))
                           then dfs graph (dfs_fuel graph) node st
                           else Some st)
                        nodes st = Some st').
  { induction nodes as [|node nodes IH]; intros st Hnodes.
    - exists st. reflexivity.
    - cbn [fold_opt]. destruct (Py.mem node (visited st)) eqn:Hmem; cbn [negb].
      + apply IH. intros n Hn. apply Hnodes. right. exact Hn.
      + destruct (@dfs_total (dfs_fuel graph) node st) as [st1 [Hrun _]].
        * apply Hnodes. left. reflexivity.
        * exact Hmem.
        * pose proof (unvisited_bound (visited st)). unfold dfs_fuel.
          fold (universe graph). lia.
        * rewrite Hrun. apply IH. intros n Hn. apply Hnodes. right. exact Hn. }
  destruct (Hloop (od_keys graph) (mk_dfs [] [] [])) as [st' Hrun].
  - intros n Hn. apply key_in_universe. exact Hn.
  - rewrite Hrun. exists (cycles st'). reflexivity.
Qed.

End DfsTotal.

(** With that much room [check_project] returns. *)
Corollary check_project_returns {rt : PythonRuntime} (file_contents : odict string) :
  exists findings, CircularDependencyCheck_check_project file_contents = Ok findings.
Proof.
  unfold CircularDependencyCheck_check_project.
  destruct (find_cycles_total
              (CircularDependencyCheck__build_dependency_graph file_contents))
    as [found ->].
  eexists. reflexivity.
Qed.

(** * Further properties of the code

    Properties of the checks, the validators and the reports that the
    code shows beyond the statements above. *)

(** ** The per-file validators *)

Lemma od_get_None_keys (V : Type) (d : odict V) (k : string) :
  od_get d k = None <-> ~ In k (od_keys d).
Proof.
  unfold od_keys. induction d as [|[k' v] d IH]; simpl.
  - tauto.
  - destruct (String.eqb_spec k' k) as [->|Hne].
    + split; [discriminate | intros H; exfalso; apply H; left; reflexivity].
    + rewrite IH. tauto.
Qed.

Lemma od_set_fresh (V : Type) (d : odict V) (k : string) (v : V) :
  ~ In k (od_keys d) -> od_set d k v = d ++ [(k, v)].
Proof.
  unfold od_keys. induction d as [|[k' v'] d IH]; simpl; intros Hk.
  - reflexivity.
  - destruct (String.eqb_spec k' k) as [->|Hne]; [exfalso; apply Hk; left; reflexivity|].
    rewrite IH; [reflexivity | tauto].
Qed.

Lemma files_with_findings_keys (F : Type) (validate_file : string -> string -> list F)
  (files : odict string) (k : string) :
  In k (od_keys (files_with_findings validate_file files)) -> In k (od_keys files).
Proof.
  unfold od_keys, files_with_findings. intros H.
  apply in_map_iff in H as [[k' fs] [Hk H]]. simpl in Hk. subst k'.
  apply in_flat_map in H as [[p c] [Hin H]].
  destruct (validate_file p c); [destruct H|].
  destruct H as [H|[]]. inversion H; subst.
  apply in_map_iff. exists (k, c). auto.
Qed.

Lemma record_loop (F : Type) (validate_file : string -> string -> list F) :
  forall (files : odict string) (acc : odict (list F)),
    NoDup (od_keys files) ->
    (forall k, In k (od_keys files) -> ~ In k (od_keys acc)) ->
    fold_left (fun results '(file_path, content) =>
                 record_findings results file_path (validate_file file_path content))
              files acc
    = acc ++ files_with_findings validate_file files.
Proof.
  induction files as [|[p c] files IH]; intros acc Hnd Hfresh; simpl.
  - rewrite app_nil_r. reflexivity.
  - simpl in Hnd. inversion Hnd as [|x l Hp Hnd']; subst.
    rewrite IH.
    + unfold record_findings.
      destruct (validate_file p c) as [|f fs] eqn:Hv; [reflexivity|].
      rewrite od_set_fresh by (apply Hfresh; left; reflexivity).
      rewrite <- app_assoc. reflexivity.
    + exact Hnd'.
    + intros k Hk Hin. unfold record_findings in Hin.
      destruct (validate_file p c) as [|f fs].
      * apply (Hfresh k); [right; exact Hk | exact Hin].
      * rewrite od_set_fresh in Hin by (apply Hfresh; left; reflexivity).
        unfold od_keys in Hin. rewrite map_app in Hin. apply in_app_or in Hin.
        destruct Hin as [Hin|[Hin|[]]].
        -- apply (Hfresh k); [right; exact Hk | exact Hin].
        -- simpl in Hin. subst k. apply Hp. exact Hk.
Qed.

(** X1. [SecurityValidator.validate_pr_changes] and
    [PerformanceValidator.validate_pr] return exactly the files that have
    findings, in the order of the changeset, each with the findings of
    [validate_file] on it; a file without findings gets no entry.  The
    keys of a dictionary are distinct. *)
Theorem X1_per_file_results (changed_files : odict string) :
  NoDup (od_keys changed_files) ->
  SecurityValidator_validate_pr_changes changed_files
  = files_with_findings SecurityValidator_validate_file changed_files
  /\ PerformanceValidator_validate_pr changed_files
     = files_with_findings PerformanceValidator_validate_file changed_files.
Proof.
  intros Hnd. split.
  - unfold SecurityValidator_validate_pr_changes.
    rewrite record_loop; [reflexivity | exact Hnd | intros k _ []].
  - unfold PerformanceValidator_validate_pr.
    rewrite record_loop; [reflexivity | exact Hnd | intros k _ []].
Qed.

Lemma X1_per_file_results_witness :
  NoDup (od_keys two_files)
  /\ od_keys (SecurityValidator_validate_pr_changes two_files) = ["src/security_issue.py"]
  /\ PerformanceValidator_validate_pr two_files = [].
Proof.
  assert (Hnd : NoDup (od_keys two_files)).
  { repeat constructor; simpl; intuition discriminate. }
  split; [exact Hnd|].
  destruct (X1_per_file_results two_files Hnd) as [-> ->].
  split; vm_compute; reflexivity.
Defined.

(** ** The totals of a result *)

Lemma count_where_nil (A : Type) (p : A -> bool) : count_where p [] = 0%Z.
Proof. reflexivity. Qed.

Lemma severity_partition (A : Type) (sev : A -> string) (l : list A) :
  Forall (fun f => In (sev f) SEVERITIES) l ->
  (count_where (fun f => String.eqb (sev f) "critical") l
   + count_where (fun f => String.eqb (sev f) "high") l
   + count_where (fun f => String.eqb (sev f) "medium") l
   + count_where (fun f => String.eqb (sev f) "low") l)%Z
  = Z.of_nat (length l).
Proof.
  induction 1 as [|f l Hf _ IH].
  - reflexivity.
  - rewrite !count_where_cons. cbn [length]. rewrite Nat2Z.inj_succ.
    unfold SEVERITIES in Hf. simpl in Hf.
    destruct Hf as [<-|[<-|[<-|[<-|[]]]]];
      repeat match goal with
        | |- context [String.eqb ?x ?y] =>
            let v := eval vm_compute in (String.eqb x y) in
            change (String.eqb x y) with v
        end;
      cbv beta iota; lia.
Qed.

Section Totals.
Context {rt : PythonRuntime}.

(** X2. In a result of [validate_pr], [total_issues] is the number of
    findings of the five lists, and it is the sum of the four severity
    counts: every finding is counted under exactly one level. *)
Theorem X2_total_issues
  (self_mode pr_title pr_description : string) (changed_files : odict string)
  (old_files : option (odict (option string))) (r : QualityCheckResult) :
  QualityCheckOrchestrator_validate_pr self_mode pr_title pr_description
    changed_files old_files = Ok r ->
  total_issues r = findings_total r
  /\ total_issues r
     = (critical_issues r + high_issues r + medium_issues r + low_issues r)%Z.
Proof.
  intros Hrun.
  destruct (validate_pr_returns _ _ _ _ _ Hrun)
    as (arch & test & brk & Ha & Ht & Hb & _ & Hsec & Hra & Hrt & Hrp & Hrb & _ & _
        & Htot & Hc & Hh & Hm & Hl).
  split; [exact Htot|].
  pose proof (ArchitectureValidator_validate_project_inv _ Ha) as Iarch.
  pose proof (TestCoverageValidator_validate_pr_inv _ _ _ Ht) as Itest.
  pose proof (BreakingChangesValidator_validate_pr_inv _ _ Hb) as Ibrk.
  assert (Iperf : Forall perf_inv
                    (od_flatten (PerformanceValidator_validate_pr changed_files))).
  { apply validate_files_Forall. apply PerformanceValidator_validate_file_inv. }
  assert (Sa : Forall (fun f => In (af_severity f) SEVERITIES) (od_flatten arch)).
  { eapply Forall_impl; [|exact Iarch]. intros f H. apply H. }
  assert (St : Forall (fun f => In (tf_severity f) SEVERITIES) test).
  { eapply Forall_impl; [|exact Itest]. intros f H. apply H. }
  assert (Sp : Forall (fun f => In (pf_severity f) SEVERITIES)
                 (od_flatten (PerformanceValidator_validate_pr changed_files))).
  { eapply Forall_impl; [|exact Iperf]. intros f H. apply H. }
  assert (Sb : Forall (fun f => In (bf_severity f) SEVERITIES) brk).
  { eapply Forall_impl; [|exact Ibrk]. intros f H. apply H. }
  apply severity_partition in Sa, St, Sp, Sb.
  rewrite Htot, Hc, Hh, Hm, Hl. unfold findings_total, findings_with_severity.
  rewrite Hsec, Hra, Hrt, Hrp, Hrb. cbn [Severity_value].
  rewrite !Nat2Z.inj_add, <- Sa, <- St, <- Sp, <- Sb.
  change (Z.of_nat (@length SecurityFinding [])) with 0%Z.
  rewrite !(@count_where_nil SecurityFinding). lia.
Qed.

End Totals.

Lemma X2_total_issues_witness :
  exists r,
    @QualityCheckOrchestrator_validate_pr demo_runtime "error" "feat: users" ""
      demo_changed (Some demo_old) = Ok r
    /\ total_issues r = 3%Z
    /\ total_issues r = findings_total r
    /\ total_issues r
       = (critical_issues r + high_issues r + medium_issues r + low_issues r)%Z.
Proof.
  eexists. split; [vm_compute; reflexivity|].
  split; [reflexivity|].
  apply (@X2_total_issues demo_runtime "error" "feat: users" ""
           demo_changed (Some demo_old)).
  vm_compute. reflexivity.
Defined.

(** ** When [validate_pr] returns *)

(** When the loop of [_count_severities] returns: every severity is a string. *)
Lemma count_severities_runs (findings : list any_finding) :
  Forall str_severity_ok findings -> Forall has_str_severity findings ->
  forall a b c d, exists a' b' c' d',
    for_each findings count_step (counts_of a b c d) = Ok (counts_of a' b' c' d').
Proof.
  induction findings as [|f findings IH]; intros Hok Hstr a b c d.
  - exists a, b, c, d. reflexivity.
  - inversion Hok as [|x l Hf Hok']; subst. inversion Hstr as [|x l Hs Hstr']; subst.
    cbn [for_each]. unfold count_step at 1.
    unfold str_severity_ok in Hf. unfold has_str_severity in Hs.
    destruct (getattr_severity f) as [e|s]; [contradiction|].
    unfold SEVERITIES in Hf. simpl in Hf.
    destruct Hf as [<-|[<-|[<-|[<-|[]]]]]; simpl; apply IH; assumption.
Qed.

Section OrchestratorOutcome.
Context {rt : PythonRuntime}.

(** [validate_pr] returns exactly when there is no security finding and
    the three validators that can raise return; with a security finding
    it raises the error of [_count_severities]. *)
Lemma validate_pr_returns_iff
  (self_mode pr_title pr_description : string) (changed_files : odict string)
  (old_files : option (odict (option string))) :
  let old := match old_files with Some d => d | None => [] end in
  let security := od_flatten (SecurityValidator_validate_pr_changes changed_files) in
  let others_return :=
    is_ok (ArchitectureValidator_validate_project changed_files) = true
    /\ is_ok (TestCoverageValidator_validate_pr pr_title pr_description changed_files)
       = true
    /\ is_ok (BreakingChangesValidator_validate_pr changed_files old) = true in
  (is_ok (QualityCheckOrchestrator_validate_pr self_mode pr_title pr_description
            changed_files old_files) = true
   <-> security = [] /\ others_return)
  /\ (security <> [] -> others_return ->
      QualityCheckOrchestrator_validate_pr self_mode pr_title pr_description
        changed_files old_files = Raise ATTRIBUTE_ERROR).
Proof.
  intros old security others_return. split; [split|].
  - intros Hok.
    destruct (QualityCheckOrchestrator_validate_pr self_mode pr_title pr_description
                changed_files old_files) as [r|e] eqn:Hrun; [|discriminate].
    destruct (validate_pr_returns _ _ _ _ _ Hrun)
      as (arch & test & brk & Ha & Ht & Hb & Hsec & _).
    unfold others_return, old. rewrite Ha, Ht, Hb. auto.
  - intros [Hsec [Ha [Ht Hb]]].
    unfold QualityCheckOrchestrator_validate_pr. fold old. fold security.
    destruct (ArchitectureValidator_validate_project changed_files)
      as [arch|] eqn:Harch; [|discriminate].
    destruct (TestCoverageValidator_validate_pr pr_title pr_description changed_files)
      as [test|] eqn:Htest; [|discriminate].
    destruct (BreakingChangesValidator_validate_pr changed_files old)
      as [brk|] eqn:Hbrk; [|discriminate].
    cbn [bind]. rewrite Hsec. cbn [map app].
    pose proof (ArchitectureValidator_validate_project_inv _ Harch) as Iarch.
    pose proof (TestCoverageValidator_validate_pr_inv _ _ _ Htest) as Itest.
    pose proof (BreakingChangesValidator_validate_pr_inv _ _ Hbrk) as Ibrk.
    assert (Iperf : Forall perf_inv
                      (od_flatten (PerformanceValidator_validate_pr changed_files))).
    { apply validate_files_Forall. apply PerformanceValidator_validate_file_inv. }
    pose proof (@all_findings_severities rt [] _ _ _ _ Iarch Itest Iperf Ibrk) as Hsev.
    cbn [map app] in Hsev.
    destruct (@count_severities_runs _ Hsev) with (a := 0%Z) (b := 0%Z) (c := 0%Z)
      (d := 0%Z) as (a' & b' & c' & d' & Hcount).
    { repeat (apply Forall_app; split); apply Forall_map;
        apply Forall_forall; intros f _; exact I. }
    unfold QualityCheckOrchestrator__count_severities.
    change zero_counts with (counts_of 0 0 0 0). rewrite Hcount. cbn [bind].
    rewrite determine_pass_status_counts. reflexivity.
  - intros Hsec [Ha [Ht Hb]].
    unfold QualityCheckOrchestrator_validate_pr. fold old. fold security.
    destruct (ArchitectureValidator_validate_project changed_files)
      as [arch|]; [|discriminate].
    destruct (TestCoverageValidator_validate_pr pr_title pr_description changed_files)
      as [test|]; [|discriminate].
    destruct (BreakingChangesValidator_validate_pr changed_files old)
      as [brk|]; [|discriminate].
    cbn [bind]. destruct security as [|f sec]; [contradiction|]. reflexivity.
Qed.

End OrchestratorOutcome.

Example validate_pr_returns_iff_demo :
  od_flatten (SecurityValidator_validate_pr_changes leaked_key) <> []
  /\ @QualityCheckOrchestrator_validate_pr demo_runtime "error" "feat: key" ""
       leaked_key None = Raise ATTRIBUTE_ERROR.
Proof.
  assert (Hsec : od_flatten (SecurityValidator_validate_pr_changes leaked_key) <> []).
  { vm_compute. discriminate. }
  split; [exact Hsec|].
  apply (@validate_pr_returns_iff demo_runtime "error" "feat: key" "" leaked_key None).
  - exact Hsec.
  - repeat split; vm_compute; reflexivity.
Qed.

(** ** Security findings *)

Lemma enumerate_nth (A : Type) (xs : list A) :
  forall (s n : Z) (x : A),
    In (n, x) (Py.enumerate s xs) ->
    (s <= n)%Z /\ nth_error xs (Z.to_nat (n - s)) = Some x.
Proof.
  induction xs as [|y ys IH]; intros s n x Hin; simpl in Hin.
  - contradiction.
  - destruct Hin as [Heq | Hin].
    + inversion Heq; subst. split; [lia|]. rewrite Z.sub_diag. reflexivity.
    + apply IH in Hin as [Hle Hnth]. split; [lia|].
      replace (Z.to_nat (n - s)) with (S (Z.to_nat (n - (s + 1)))) by lia.
      exact Hnth.
Qed.

Lemma enumerate_line (content : string) (n : Z) (line : string) :
  In (n, line) (Py.enumerate 1 (Py.split_lines content)) ->
  line_numbered content n = Some line.
Proof.
  intros Hin. apply enumerate_nth in Hin as [Hle Hnth].
  unfold line_numbered. destruct (Z.leb_spec 1 n); [exact Hnth | lia].
Qed.

Ltac one_finding_eqn H :=
  match type of H with
  | In _ (if ?c then _ else _) => destruct c eqn:?; one_finding_eqn H
  | In _ [] => destruct H
  | In _ [_] => destruct H as [H|[]]; subst
  | In _ (match ?x with _ => _ end) => destruct x; one_finding_eqn H
  end.

(** X3. Every finding of [SecurityValidator.validate_file] is about the
    file it was given and about one of its lines: the line number is the
    number of a line of the content, counted from one, and [line_content]
    is that line, stripped. *)
Theorem X3_security_finding_location (file_path content : string) (f : SecurityFinding) :
  In f (SecurityValidator_validate_file file_path content) ->
  sf_file_path f = file_path
  /\ exists line,
       line_numbered content (sf_line_number f) = Some line
       /\ sf_line_content f = Py.strip line.
Proof.
  unfold SecurityValidator_validate_file, SecurityValidator_checks. cbn [flat_map].
  rewrite app_nil_r. intros Hin.
  repeat (apply in_app_or in Hin; destruct Hin as [Hin|Hin]).
  - unfold HardcodedCredentialsCheck_check in Hin.
    apply in_flat_map in Hin as [[n line] [Hn Hin]].
    destruct (is_comment_line line); [destruct Hin|].
    apply in_flat_map in Hin as [[pattern cred_type] [Hp Hin]].
    unfold credential_matches in Hin.
    apply in_flat_map in Hin as [m [Hm Hin]].
    one_finding_eqn Hin. split; [reflexivity|]. exists line.
    split; [apply enumerate_line; exact Hn | reflexivity].
  - unfold SQLInjectionCheck_check in Hin.
    apply in_flat_map in Hin as [[n line] [Hn Hin]].
    apply in_flat_map in Hin as [[pattern vuln] [Hp Hin]].
    one_finding_eqn Hin. split; [reflexivity|]. exists line.
    split; [apply enumerate_line; exact Hn | reflexivity].
  - unfold SensitiveDataLoggingCheck_check in Hin.
    apply in_flat_map in Hin as [[n line] [Hn Hin]].
    apply in_flat_map in Hin as [[[pattern data_type] severity] [Hp Hin]].
    one_finding_eqn Hin. split; [reflexivity|]. exists line.
    split; [apply enumerate_line; exact Hn | reflexivity].
  - unfold UnsafeDeserializationCheck_check in Hin.
    apply in_flat_map in Hin as [[n line] [Hn Hin]].
    apply in_flat_map in Hin as [[[pattern unsafe_func] fix_] [Hp Hin]].
    one_finding_eqn Hin. split; [reflexivity|]. exists line.
    split; [apply enumerate_line; exact Hn | reflexivity].
Qed.

Lemma X3_security_finding_location_witness :
  In (credential_finding "src/security_issue.py" 1
        ("API_KEY = " +++ Py.dq +++ "sk_live_1234567890abcdef" +++ Py.dq)
        ("api[_-]?key\s*[=:]\s*" +++ QUOTED) "API key")
     (SecurityValidator_validate_file "src/security_issue.py"
        ("API_KEY = " +++ Py.dq +++ "sk_live_1234567890abcdef" +++ Py.dq))
  /\ exists line,
       line_numbered ("API_KEY = " +++ Py.dq +++ "sk_live_1234567890abcdef" +++ Py.dq) 1
       = Some line
       /\ ("API_KEY = " +++ Py.dq +++ "sk_live_1234567890abcdef" +++ Py.dq)%string
          = Py.strip line.
Proof.
  assert (Hin : In (credential_finding "src/security_issue.py" 1
                      ("API_KEY = " +++ Py.dq +++ "sk_live_1234567890abcdef" +++ Py.dq)
                      ("api[_-]?key\s*[=:]\s*" +++ QUOTED) "API key")
                   (SecurityValidator_validate_file "src/security_issue.py"
                      ("API_KEY = " +++ Py.dq +++ "sk_live_1234567890abcdef" +++ Py.dq))).
  { vm_compute. left. reflexivity. }
  split; [exact Hin|].
  exact (proj2 (X3_security_finding_location _ _ _ Hin)).
Defined.

(** X4. Every finding of [HardcodedCredentialsCheck.check] comes from a
    line of the content that is not a comment, a pattern of the credential
    table that matches in it, ignoring case, and a match that no exclusion
    pattern hits; the finding is the one built from that line and that
    pattern. *)
Theorem X4_credential_finding_sound (file_path content : string) (f : SecurityFinding) :
  In f (HardcodedCredentialsCheck_check file_path content) ->
  exists line pattern cred_type m,
    line_numbered content (sf_line_number f) = Some line
    /\ is_comment_line line = false
    /\ In (pattern, cred_type) CREDENTIAL_PATTERNS
    /\ In m (Re.finditer true pattern line)
    /\ HardcodedCredentialsCheck__is_excluded (Re.m_text m) = false
    /\ f = credential_finding file_path (sf_line_number f) line pattern cred_type.
Proof.
  intros Hin. unfold HardcodedCredentialsCheck_check in Hin.
  apply in_flat_map in Hin as [[n line] [Hn Hin]].
  destruct (is_comment_line line) eqn:Hc; [destruct Hin|].
  apply in_flat_map in Hin as [[pattern cred_type] [Hp Hin]].
  unfold credential_matches in Hin.
  apply in_flat_map in Hin as [m [Hm Hin]].
  destruct (HardcodedCredentialsCheck__is_excluded (Re.m_text m)) eqn:He; [destruct Hin|].
  destruct Hin as [<-|[]].
  exists line, pattern, cred_type, m. cbn [sf_line_number credential_finding].
  repeat split; auto. apply enumerate_line; exact Hn.
Qed.

Lemma X4_credential_finding_sound_witness :
  exists f line pattern cred_type m,
    HardcodedCredentialsCheck_check "src/security_issue.py"
      ("API_KEY = " +++ Py.dq +++ "sk_live_1234567890abcdef" +++ Py.dq) = [f]
    /\ line_numbered ("API_KEY = " +++ Py.dq +++ "sk_live_1234567890abcdef" +++ Py.dq)
         (sf_line_number f) = Some line
    /\ is_comment_line line = false
    /\ In (pattern, cred_type) CREDENTIAL_PATTERNS
    /\ In m (Re.finditer true pattern line)
    /\ HardcodedCredentialsCheck__is_excluded (Re.m_text m) = false
    /\ f = credential_finding "src/security_issue.py" (sf_line_number f) line
             pattern cred_type.
Proof.
  eexists.
  assert (Hrun : HardcodedCredentialsCheck_check "src/security_issue.py"
                   ("API_KEY = " +++ Py.dq +++ "sk_live_1234567890abcdef" +++ Py.dq)
                 = [credential_finding "src/security_issue.py" 1
                      ("API_KEY = " +++ Py.dq +++ "sk_live_1234567890abcdef" +++ Py.dq)
                      ("api[_-]?key\s*[=:]\s*" +++ QUOTED) "API key"]).
  { vm_compute. reflexivity. }
  destruct (@X4_credential_finding_sound "src/security_issue.py"
              ("API_KEY = " +++ Py.dq +++ "sk_live_1234567890abcdef" +++ Py.dq)
              (credential_finding "src/security_issue.py" 1
                 ("API_KEY = " +++ Py.dq +++ "sk_live_1234567890abcdef" +++ Py.dq)
                 ("api[_-]?key\s*[=:]\s*" +++ QUOTED) "API key"))
    as (line & pattern & cred_type & m & H).
  { rewrite Hrun. left. reflexivity. }
  exists line, pattern, cred_type, m. split; [exact Hrun | exact H].
Defined.

(** X5. The severities of the security findings are fixed by the check:
    hard-coded credentials, SQL injection and unsafe deserialization are
    always critical, and a sensitive-data-logging finding carries the
    severity of its pattern, which is never low: no security finding is
    low. *)
Theorem X5_security_severities (file_path content : string) (f : SecurityFinding) :
  In f (SecurityValidator_validate_file file_path content) ->
  (sf_check_name f = "hardcoded_credentials" /\ sf_severity f = CRITICAL)
  \/ (sf_check_name f = "sql_injection" /\ sf_severity f = CRITICAL)
  \/ (sf_check_name f = "sensitive_data_logging" /\ sf_severity f <> LOW)
  \/ (sf_check_name f = "unsafe_deserialization" /\ sf_severity f = CRITICAL).
Proof.
  unfold SecurityValidator_validate_file, SecurityValidator_checks. cbn [flat_map].
  rewrite app_nil_r. intros Hin.
  repeat (apply in_app_or in Hin; destruct Hin as [Hin|Hin]).
  - left. unfold HardcodedCredentialsCheck_check in Hin.
    apply in_flat_map in Hin as [[n line] [Hn Hin]].
    destruct (is_comment_line line); [destruct Hin|].
    apply in_flat_map in Hin as [[pattern cred_type] [Hp Hin]].
    unfold credential_matches in Hin.
    apply in_flat_map in Hin as [m [Hm Hin]].
    one_finding_eqn Hin. split; reflexivity.
  - right; left. unfold SQLInjectionCheck_check in Hin.
    apply in_flat_map in Hin as [[n line] [Hn Hin]].
    apply in_flat_map in Hin as [[pattern vuln] [Hp Hin]].
    one_finding_eqn Hin. split; reflexivity.
  - right; right; left. unfold SensitiveDataLoggingCheck_check in Hin.
    apply in_flat_map in Hin as [[n line] [Hn Hin]].
    apply in_flat_map in Hin as [[[pattern data_type] severity] [Hp Hin]].
    one_finding_eqn Hin. split; [reflexivity|]. cbn [sf_severity].
    unfold SENSITIVE_PATTERNS in Hp. simpl in Hp.
    repeat (destruct Hp as [Hp|Hp]; [inversion Hp; subst; discriminate|]).
    destruct Hp.
  - right; right; right. unfold UnsafeDeserializationCheck_check in Hin.
    apply in_flat_map in Hin as [[n line] [Hn Hin]].
    apply in_flat_map in Hin as [[[pattern unsafe_func] fix_] [Hp Hin]].
    one_finding_eqn Hin. split; reflexivity.
Qed.

Lemma X5_security_severities_witness :
  sf_check_name (credential_finding "src/security_issue.py" 1
                   ("API_KEY = " +++ Py.dq +++ "sk_live_1234567890abcdef" +++ Py.dq)
                   ("api[_-]?key\s*[=:]\s*" +++ QUOTED) "API key")
  = "hardcoded_credentials"
  /\ sf_severity (credential_finding "src/security_issue.py" 1
                    ("API_KEY = " +++ Py.dq +++ "sk_live_1234567890abcdef" +++ Py.dq)
                    ("api[_-]?key\s*[=:]\s*" +++ QUOTED) "API key")
     = CRITICAL.
Proof.
  destruct (@X5_security_severities "src/security_issue.py"
              ("API_KEY = " +++ Py.dq +++ "sk_live_1234567890abcdef" +++ Py.dq)
              (credential_finding "src/security_issue.py" 1
                 ("API_KEY = " +++ Py.dq +++ "sk_live_1234567890abcdef" +++ Py.dq)
                 ("api[_-]?key\s*[=:]\s*" +++ QUOTED) "API key"))
    as [H|[[H _]|[[H _]|[H _]]]];
    [vm_compute; left; reflexivity | exact H | discriminate H ..].
Defined.

(** ** The cycles of the dependency graph

    With room for [dfs_fuel] nested calls [_find_cycles] is sound: what
    it lists are cycles of the graph. *)

Section DfsSound.
Context {rt : PythonRuntime}.
Variable graph : odict pyset.

Lemma chain_snoc (l : list string) (x : string) :
  chain graph l -> (l = [] \/ edge graph (last l EmptyString) x) ->
  chain graph (l ++ [x]).
Proof.
  induction l as [|a l IH]; intros Hc Hlast; [exact I|].
  destruct l as [|b l].
  - simpl. split; [|exact I]. destruct Hlast as [H|H]; [discriminate | exact H].
  - destruct Hc as [Hab Hc]. change ((a :: b :: l) ++ [x]) with (a :: (b :: l) ++ [x]).
    cbn [chain app]. split; [exact Hab|]. apply IH; [exact Hc|].
    right. destruct Hlast as [H|H]; [discriminate | exact H].
Qed.

Lemma chain_suffix (pre suf : list string) :
  chain graph (pre ++ suf) -> chain graph suf.
Proof.
  induction pre as [|a pre IH]; intros Hc; [exact Hc|].
  apply IH. simpl in Hc. destruct (pre ++ suf); [exact I | apply Hc].
Qed.

Lemma slice_from_split (x : string) (stack : list string) :
  In x stack ->
  exists pre tl, stack = pre ++ x :: tl /\ slice_from x stack = x :: tl.
Proof.
  induction stack as [|y stack IH]; intros Hin; [destruct Hin|].
  simpl. destruct (String.eqb_spec y x) as [->|Hne].
  - exists [], stack. split; reflexivity.
  - destruct Hin as [Heq|Hin]; [contradiction|].
    destruct (IH Hin) as (pre & tl & Hst & Hsl).
    exists (y :: pre), tl. split; [simpl; rewrite <- Hst; reflexivity | exact Hsl].
Qed.

Lemma last_app_cons (A : Type) (pre : list A) (x : A) (tl : list A) (d : A) :
  last (pre ++ x :: tl) d = last (x :: tl) d.
Proof.
  induction pre as [|a pre IH]; [reflexivity|].
  rewrite <- IH. cbn [app last].
  destruct (pre ++ x :: tl) eqn:H; [destruct pre; discriminate | reflexivity].
Qed.

Lemma back_edge_cycle (st : dfs_state) (node nb : string) :
  dfs_inv graph st -> rec_stack st <> [] -> last (rec_stack st) EmptyString = node ->
  edge graph node nb -> In nb (rec_stack st) ->
  simple_cycle graph (slice_from nb (rec_stack st)).
Proof.
  intros (Hnd & Hch & _ & _) Hne Hlast Hedge Hin.
  destruct (slice_from_split _ _ Hin) as (pre & tl & Hst & Hsl).
  rewrite Hsl. unfold simple_cycle. rewrite Hst in Hnd, Hch, Hlast.
  split; [discriminate|]. split; [exact (NoDup_app_remove_l _ _ Hnd)|].
  split; [exact (chain_suffix _ _ Hch)|].
  rewrite last_app_cons in Hlast. rewrite Hlast. exact Hedge.
Qed.

Lemma visit_all_sound (f : nat) :
  (forall node st st',
      dfs graph f node st = Some st' ->
      dfs_inv graph st -> Py.mem node (visited st) = false ->
      (rec_stack st = [] \/ edge graph (last (rec_stack st) EmptyString) node) ->
      dfs_inv graph st' /\ rec_stack st' = rec_stack st /\ incl (visited st) (visited st')) ->
  forall (nbs : list string) (st st' : dfs_state) (node : string),
    fold_opt (visit_neighbor (dfs graph f)) nbs st = Some st' ->
    dfs_inv graph st -> rec_stack st <> [] -> last (rec_stack st) EmptyString = node ->
    (forall nb, In nb nbs -> edge graph node nb) ->
    dfs_inv graph st' /\ rec_stack st' = rec_stack st /\ incl (visited st) (visited st').
Proof.
  intros Hdfs. induction nbs as [|nb nbs IH]; intros st st' node Hrun Hinv Hne Hlast Hedges.
  - injection Hrun as <-. split; [exact Hinv|]. split; [reflexivity | apply incl_refl].
  - cbn [fold_opt] in Hrun. unfold visit_neighbor at 1 in Hrun.
    assert (Hnb : edge graph node nb) by (apply Hedges; left; reflexivity).
    assert (Hrest : forall x, In x nbs -> edge graph node x)
      by (intros x Hx; apply Hedges; right; exact Hx).
    destruct (Py.mem nb (visited st)) eqn:Hmem; cbn [negb] in Hrun.
    + destruct (Py.mem nb (rec_stack st)) eqn:Hstack.
      * apply IH with (node := node) in Hrun; cbn [rec_stack visited cycles] in *; auto.
        destruct Hinv as (Hnd & Hch & Hincl & Hcyc).
        repeat split; auto. cbn [cycles]. apply Forall_app. split; [exact Hcyc|].
        constructor; [|constructor].
        apply back_edge_cycle with (node := node); auto.
        -- repeat split; assumption.
        -- apply mem_In. exact Hstack.
      * apply IH with (node := node) in Hrun; auto.
    + destruct (dfs graph f nb st) as [st1|] eqn:Hrun1; [|discriminate].
      destruct (Hdfs _ _ _ Hrun1 Hinv Hmem) as (Hinv1 & Hrs1 & Hincl1).
      { right. rewrite Hlast. exact Hnb. }
      apply IH with (node := node) in Hrun; try rewrite Hrs1; auto.
      destruct Hrun as (Hinv' & Hrs' & Hincl').
      split; [exact Hinv'|]. split; [congruence|].
      intros x Hx. apply Hincl'. apply Hincl1. exact Hx.
Qed.

Lemma dfs_sound (fuel : nat) :
  forall node st st',
    dfs graph fuel node st = Some st' ->
    dfs_inv graph st -> Py.mem node (visited st) = false ->
    (rec_stack st = [] \/ edge graph (last (rec_stack st) EmptyString) node) ->
    dfs_inv graph st' /\ rec_stack st' = rec_stack st /\ incl (visited st) (visited st').
Proof.
  induction fuel as [|f IH]; intros node st st' Hrun Hinv Hmem Hlast; [discriminate|].
  cbn [dfs] in Hrun.
  set (st1 := mk_dfs (node :: visited st) (rec_stack st ++ [node]) (cycles st)) in *.
  assert (Hinv1 : dfs_inv graph st1).
  { destruct Hinv as (Hnd & Hch & Hincl & Hcyc). unfold dfs_inv, st1.
    cbn [rec_stack visited cycles]. repeat split.
    - apply NoDup_app; [exact Hnd | constructor; [intros [] | constructor] |].
      intros x Hx [<-|[]]. apply Hincl in Hx. apply mem_In in Hx. congruence.
    - apply chain_snoc; assumption.
    - intros x Hx. apply in_app_or in Hx. destruct Hx as [Hx|[<-|[]]].
      + right. apply Hincl. exact Hx.
      + left. reflexivity.
    - exact Hcyc. }
  assert (Hpop : forall st3,
             dfs_inv graph st3 -> rec_stack st3 = rec_stack st1 ->
             incl (visited st1) (visited st3) ->
             dfs_inv graph (mk_dfs (visited st3) (removelast (rec_stack st3)) (cycles st3))
             /\ removelast (rec_stack st3) = rec_stack st
             /\ incl (visited st) (visited st3)).
  { intros st3 (Hnd3 & Hch3 & Hincl3 & Hcyc3) Hrs3 Hv3.
    assert (Hrm : removelast (rec_stack st3) = rec_stack st).
    { rewrite Hrs3. unfold st1. cbn [rec_stack]. apply removelast_last. }
    destruct Hinv as (Hnd & Hch & Hincl & Hcyc).
    split; [|split; [exact Hrm|]].
    - unfold dfs_inv. cbn [rec_stack visited cycles]. rewrite Hrm.
      repeat split; auto.
      intros x Hx. apply Hv3. right. apply Hincl. exact Hx.
    - intros x Hx. apply Hv3. right. exact Hx. }
  destruct (od_get graph node) as [neighbors|] eqn:Hget.
  - destruct (fold_opt (visit_neighbor (dfs graph f)) (set_iter neighbors) st1)
      as [st3|] eqn:Hfold; [|discriminate].
    injection Hrun as <-. cbn [rec_stack visited].
    apply (@visit_all_sound f IH) with (node := node) in Hfold; auto.
    + destruct Hfold as (Hinv3 & Hrs3 & Hv3). apply Hpop; assumption.
    + unfold st1. cbn [rec_stack]. destruct (rec_stack st); discriminate.
    + unfold st1. cbn [rec_stack]. apply last_last.
    + intros nb Hnb. exists neighbors. split; [exact Hget|].
      apply (Permutation_in _ (set_iter_perm neighbors)) in Hnb.
      apply nodup_In in Hnb. exact Hnb.
  - injection Hrun as <-. cbn [rec_stack visited].
    apply (Hpop st1); [exact Hinv1 | reflexivity | apply incl_refl].
Qed.

(** Every list that [_find_cycles] returns is a cycle of the graph: its
    nodes are distinct, each has an edge to the next and the last one to
    the first. *)
Lemma find_cycles_sound :
  exists found,
    CircularDependencyCheck__find_cycles graph = Some found
    /\ Forall (simple_cycle graph) found.
Proof.
  destruct (find_cycles_total graph) as [found Hfound]. exists found.
  split; [exact Hfound|].
  unfold CircularDependencyCheck__find_cycles in Hfound.
  assert (Hloop : forall (nodes : list string) (st st' : dfs_state),
             fold_opt (fun st node =>
                         if negb (Py.mem node (visited st))
                         then dfs graph (dfs_fuel graph) node st
                         else Some st)
                      nodes st = Some st' ->
             dfs_inv graph st -> rec_stack st = [] -> dfs_inv graph st').
  { induction nodes as [|node nodes IH]; intros st st' Hrun Hinv Hrs.
    - injection Hrun as <-. exact Hinv.
    - cbn [fold_opt] in Hrun. destruct (Py.mem node (visited st)) eqn:Hmem;
        cbn [negb] in Hrun.
      + exact (IH _ _ Hrun Hinv Hrs).
      + destruct (dfs graph (dfs_fuel graph) node st) as [st1|] eqn:Hdfs; [|discriminate].
        destruct (@dfs_sound _ _ _ _ Hdfs Hinv Hmem) as (Hinv1 & Hrs1 & _);
          [left; exact Hrs|].
        apply (IH _ _ Hrun Hinv1). congruence. }
  destruct (fold_opt _ (od_keys graph) (mk_dfs [] [] [])) as [st'|] eqn:Hrun;
    [|discriminate].
  injection Hfound as <-.
  apply Hloop in Hrun; [apply Hrun | | reflexivity].
  unfold dfs_inv. cbn [rec_stack visited cycles].
  repeat split; [constructor | intros x [] | constructor].
Qed.

End DfsSound.

(** *** Module names with a dot *)

Lemma startswith_empty (s : string) : Py.startswith s "" = true.
Proof. destruct s; reflexivity. Qed.

Lemma has_char_In (c : ascii) (s : string) :
  has_char c s = true <-> In c (list_ascii_of_string s).
Proof.
  unfold has_char. induction s as [|a s IH]; simpl.
  - split; [discriminate | intros []].
  - rewrite startswith_empty, andb_true_r, orb_true_iff, IH.
    rewrite Ascii.eqb_eq. split; intros [H|H]; auto.
Qed.

Lemma rev_string_aux_chars (s acc : string) (c : ascii) :
  In c (list_ascii_of_string (Py.rev_string_aux s acc))
  <-> In c (list_ascii_of_string s) \/ In c (list_ascii_of_string acc).
Proof.
  revert acc. induction s as [|a s IH]; intros acc; simpl.
  - tauto.
  - rewrite IH. simpl. tauto.
Qed.

Lemma rev_string_chars (s : string) (c : ascii) :
  In c (list_ascii_of_string (Py.rev_string s)) <-> In c (list_ascii_of_string s).
Proof.
  unfold Py.rev_string. rewrite rev_string_aux_chars. simpl. tauto.
Qed.

Lemma split_head_no_sep (sep : ascii) (s cur : string) :
  ~ In sep (list_ascii_of_string cur) ->
  ~ In sep (list_ascii_of_string (hd EmptyString (Py.split_aux sep s cur))).
Proof.
  revert cur. induction s as [|a s IH]; intros cur Hcur; simpl.
  - rewrite rev_string_chars. exact Hcur.
  - destruct (Ascii.eqb_spec a sep) as [->|Hne]; simpl.
    + rewrite rev_string_chars. exact Hcur.
    + apply IH. simpl. intros [H|H]; [congruence | contradiction].
Qed.

Lemma split_head_has_no_sep (sep : ascii) (s : string) :
  has_char sep (hd EmptyString (Py.split sep s)) = false.
Proof.
  destruct (has_char sep (hd EmptyString (Py.split sep s))) eqn:H; [|reflexivity].
  apply has_char_In in H. exfalso. revert H. apply split_head_no_sep. intros [].
Qed.

Lemma od_set_values_in (V : Type) (P : V -> Prop) (d : odict V) (k : string) (v : V) :
  Forall P (od_values d) -> P v -> Forall P (od_values (od_set d k v)).
Proof. apply od_set_values. Qed.

Lemma add_import_undotted (module_name : string) (graph : odict pyset) (m : Re.rmatch) :
  Forall (Forall undotted) (od_values graph) ->
  Forall (Forall undotted) (od_values (add_import module_name graph m)).
Proof.
  intros Hg. unfold add_import.
  destruct (or_else (Re.group m 1) (Re.group m 2)) as [i|]; [|exact Hg].
  destruct (truthy (Some i)); [|exact Hg].
  apply od_set_values; [exact Hg|].
  apply Forall_app. split.
  - unfold set_of. destruct (od_get graph module_name) as [s|] eqn:Hget; [|constructor].
    exact (@od_get_values _ _ _ _ _ Hg Hget).
  - constructor; [|constructor]. apply split_head_has_no_sep.
Qed.

Lemma build_dependency_graph_undotted (file_contents : odict string) :
  Forall (Forall undotted)
         (od_values (CircularDependencyCheck__build_dependency_graph file_contents)).
Proof.
  unfold CircularDependencyCheck__build_dependency_graph.
  apply fold_left_inv; [constructor|].
  intros graph [file_path content] Hg _.
  apply fold_left_inv.
  - apply od_set_values; [exact Hg | constructor].
  - intros g m Hgm _. apply add_import_undotted. exact Hgm.
Qed.

Lemma chain_targets (graph : odict pyset) (l : list string) (a x : string) :
  chain graph (a :: l) -> In x l -> exists b, edge graph b x.
Proof.
  revert a. induction l as [|b l IH]; intros a Hc Hin; [destruct Hin|].
  destruct Hc as [Hab Hc]. destruct Hin as [<-|Hin].
  - exists a. exact Hab.
  - exact (IH b Hc Hin).
Qed.

Lemma cycle_targets (graph : odict pyset) (c : list string) (x : string) :
  simple_cycle graph c -> In x c -> exists b, edge graph b x.
Proof.
  intros (Hne & _ & Hc & Hclose) Hin. destruct c as [|a l]; [contradiction|].
  destruct Hin as [<-|Hin].
  - eexists. exact Hclose.
  - exact (@chain_targets _ _ _ _ Hc Hin).
Qed.

(** *** Completeness of the search *)

Section DfsComplete.
Context {rt : PythonRuntime}.
Variable graph : odict pyset.

Lemma walk_snoc (a b c : string) : walk graph a b -> edge graph b c -> walk graph a c.
Proof.
  induction 1 as [a b Hab|a b d Hab Hbd IH]; intros Hc.
  - exact (walk_step Hab (walk_edge Hc)).
  - exact (walk_step Hab (IH Hc)).
Qed.

Lemma finished_closed (st : dfs_state) (x y : string) :
  dfs_good graph st -> finished st x -> walk graph x y -> finished st y.
Proof.
  intros [Hclosed _] Hx Hw. induction Hw as [a b Hab|a b c Hab Hbc IH].
  - exact (Hclosed _ _ Hx Hab).
  - apply IH. exact (Hclosed _ _ Hx Hab).
Qed.

Lemma visit_all_cycles (f : nat) :
  (forall node st st', dfs graph f node st = Some st' ->
                       exists more, cycles st' = cycles st ++ more) ->
  forall nbs st st',
    fold_opt (visit_neighbor (dfs graph f)) nbs st = Some st' ->
    exists more, cycles st' = cycles st ++ more.
Proof.
  intros Hdfs. induction nbs as [|nb nbs IH]; intros st st' Hrun.
  - injection Hrun as <-. exists []. rewrite app_nil_r. reflexivity.
  - cbn [fold_opt] in Hrun. unfold visit_neighbor at 1 in Hrun.
    destruct (Py.mem nb (visited st)); cbn [negb] in Hrun.
    + destruct (Py.mem nb (rec_stack st)).
      * apply IH in Hrun as [more Hmore]. cbn [cycles] in Hmore.
        rewrite <- app_assoc in Hmore. eexists. exact Hmore.
      * exact (IH _ _ Hrun).
    + destruct (dfs graph f nb st) as [st1|] eqn:Hrun1; [|discriminate].
      apply Hdfs in Hrun1 as [more1 H1]. apply IH in Hrun as [more H].
      rewrite H1, <- app_assoc in H. eexists. exact H.
Qed.

Lemma dfs_cycles (fuel : nat) :
  forall node st st', dfs graph fuel node st = Some st' ->
                      exists more, cycles st' = cycles st ++ more.
Proof.
  induction fuel as [|f IH]; intros node st st' Hrun; [discriminate|].
  cbn [dfs] in Hrun.
  destruct (od_get graph node) as [neighbors|].
  - destruct (fold_opt _ _ _) as [st3|] eqn:Hfold; [|discriminate].
    injection Hrun as <-. cbn [cycles].
    exact (@visit_all_cycles f IH _ _ _ Hfold).
  - injection Hrun as <-. exists []. cbn [cycles]. rewrite app_nil_r. reflexivity.
Qed.

Lemma no_cycles_before (l more : list (list string)) : l ++ more = [] -> l = [].
Proof. destruct l; [reflexivity | discriminate]. Qed.

Lemma visit_all_complete (f : nat) :
  (forall node st st',
      dfs graph f node st = Some st' -> cycles st' = [] ->
      dfs_good graph st -> ~ In node (visited st) -> incl (rec_stack st) (visited st) ->
      dfs_good graph st' /\ rec_stack st' = rec_stack st /\ incl (visited st) (visited st')
      /\ In node (visited st')) ->
  forall nbs st st',
    fold_opt (visit_neighbor (dfs graph f)) nbs st = Some st' -> cycles st' = [] ->
    dfs_good graph st -> incl (rec_stack st) (visited st) ->
    dfs_good graph st' /\ rec_stack st' = rec_stack st /\ incl (visited st) (visited st')
    /\ forall nb, In nb nbs -> finished st' nb.
Proof.
  intros Hdfs. induction nbs as [|nb nbs IH]; intros st st' Hrun Hnone Hgood Hstack.
  - injection Hrun as <-. split; [exact Hgood|]. split; [reflexivity|].
    split; [apply incl_refl | intros nb []].
  - cbn [fold_opt] in Hrun. unfold visit_neighbor at 1 in Hrun.
    destruct (Py.mem nb (visited st)) eqn:Hmem; cbn [negb] in Hrun.
    + destruct (Py.mem nb (rec_stack st)) eqn:Hrs.
      * exfalso.
        destruct (@visit_all_cycles f (@dfs_cycles f) _ _ _ Hrun) as [more Hmore].
        rewrite Hnone in Hmore. cbn [cycles] in Hmore.
        symmetry in Hmore. apply no_cycles_before in Hmore.
        destruct (cycles st); discriminate.
      * destruct (IH _ _ Hrun Hnone Hgood Hstack) as (Hgood' & Hrs' & Hv' & Hnbs).
        split; [exact Hgood'|]. split; [exact Hrs'|]. split; [exact Hv'|].
        intros x [<-|Hx]; [|exact (Hnbs x Hx)].
        split.
        -- apply Hv'. apply mem_In. exact Hmem.
        -- rewrite Hrs'. intros Hin. apply mem_In in Hin. congruence.
    + destruct (dfs graph f nb st) as [st1|] eqn:Hrun1; [|discriminate].
      assert (Hnone1 : cycles st1 = []).
      { destruct (@visit_all_cycles f (@dfs_cycles f) _ _ _ Hrun) as [more Hmore].
        rewrite Hnone in Hmore. symmetry in Hmore.
        exact (no_cycles_before _ _ Hmore). }
      assert (Hfresh : ~ In nb (visited st)).
      { intros Hin. apply mem_In in Hin. congruence. }
      destruct (Hdfs _ _ _ Hrun1 Hnone1 Hgood Hfresh Hstack)
        as (Hgood1 & Hrs1 & Hv1 & Hnb1).
      assert (Hstack1 : incl (rec_stack st1) (visited st1)).
      { rewrite Hrs1. intros x Hx. apply Hv1. apply Hstack. exact Hx. }
      destruct (IH _ _ Hrun Hnone Hgood1 Hstack1) as (Hgood' & Hrs' & Hv' & Hnbs).
      split; [exact Hgood'|]. split; [congruence|].
      split; [intros x Hx; apply Hv'; apply Hv1; exact Hx|].
      intros x [<-|Hx]; [|exact (Hnbs x Hx)].
      split.
      * apply Hv'. exact Hnb1.
      * rewrite Hrs', Hrs1. intros Hin. apply Hfresh. apply Hstack. exact Hin.
Qed.

Lemma dfs_complete (fuel : nat) :
  forall node st st',
    dfs graph fuel node st = Some st' -> cycles st' = [] ->
    dfs_good graph st -> ~ In node (visited st) -> incl (rec_stack st) (visited st) ->
    dfs_good graph st' /\ rec_stack st' = rec_stack st /\ incl (visited st) (visited st')
    /\ In node (visited st').
Proof.
  induction fuel as [|f IH]; intros node st st' Hrun Hnone Hgood Hfresh Hstack;
    [discriminate|].
  cbn [dfs] in Hrun.
  set (st1 := mk_dfs (node :: visited st) (rec_stack st ++ [node]) (cycles st)) in *.
  assert (Hsame : forall x, finished st1 x <-> finished st x).
  { intros x. unfold finished, st1. cbn [visited rec_stack]. split.
    - intros [[<-|Hv] Hs].
      + exfalso. apply Hs. apply in_or_app. right. left. reflexivity.
      + split; [exact Hv|]. intros Hin. apply Hs. apply in_or_app. left. exact Hin.
    - intros [Hv Hs]. split; [right; exact Hv|].
      intros Hin. apply in_app_or in Hin. destruct Hin as [Hin|[<-|[]]]; auto. }
  assert (Hgood1 : dfs_good graph st1).
  { destruct Hgood as [Hclosed Hacyclic]. split.
    - intros x y Hx Hxy. apply Hsame. apply Hsame in Hx. exact (Hclosed _ _ Hx Hxy).
    - intros x Hx. apply Hsame in Hx. exact (Hacyclic _ Hx). }
  assert (Hstack1 : incl (rec_stack st1) (visited st1)).
  { unfold st1. cbn [visited rec_stack]. intros x Hx. apply in_app_or in Hx.
    destruct Hx as [Hx|[<-|[]]]; [right; apply Hstack; exact Hx | left; reflexivity]. }
  assert (Hpop : forall st3,
             dfs_good graph st3 -> rec_stack st3 = rec_stack st1 ->
             incl (visited st1) (visited st3) ->
             (forall y, edge graph node y -> finished st3 y) ->
             let st4 := mk_dfs (visited st3) (removelast (rec_stack st3)) (cycles st3) in
             dfs_good graph st4 /\ rec_stack st4 = rec_stack st
             /\ incl (visited st) (visited st4) /\ In node (visited st4)).
  { intros st3 Hgood3 Hrs3 Hv3 Hnbs st4.
    assert (Hrm : rec_stack st4 = rec_stack st).
    { unfold st4. cbn [rec_stack]. rewrite Hrs3. unfold st1. cbn [rec_stack].
      apply removelast_last. }
    assert (Hnode3 : In node (rec_stack st3)).
    { rewrite Hrs3. unfold st1. cbn [rec_stack]. apply in_or_app. right. left.
      reflexivity. }
    assert (Hfin : forall x, finished st4 x <-> finished st3 x \/ x = node).
    { intros x. unfold finished. rewrite Hrm. unfold st4. cbn [visited].
      rewrite Hrs3. unfold st1. cbn [rec_stack]. split.
      - intros [Hv Hs]. destruct (string_dec x node) as [->|Hne]; [right; reflexivity|].
        left. split; [exact Hv|]. intros Hin. apply in_app_or in Hin.
        destruct Hin as [Hin|[Heq|[]]]; [exact (Hs Hin) | congruence].
      - intros [[Hv Hs]| ->].
        + split; [exact Hv|]. intros Hin. apply Hs. apply in_or_app. left. exact Hin.
        + split; [apply Hv3; left; reflexivity|].
          intros Hin. apply Hfresh. apply Hstack. exact Hin. }
    split; [|split; [exact Hrm|split]].
    - split.
      + intros x y Hx Hxy. apply Hfin. left. apply Hfin in Hx. destruct Hx as [Hx| ->].
        * destruct Hgood3 as [Hclosed _]. exact (Hclosed _ _ Hx Hxy).
        * exact (Hnbs _ Hxy).
      + intros x Hx Hw. apply Hfin in Hx. destruct Hx as [Hx| ->].
        * destruct Hgood3 as [_ Hacyclic]. exact (Hacyclic _ Hx Hw).
        * assert (Hback : finished st3 node).
          { inversion Hw as [a b Hab|a b c Hab Hbc]; subst.
            - exact (Hnbs _ Hab).
            - exact (finished_closed Hgood3 (Hnbs _ Hab) Hbc). }
          destruct Hback as [_ Hnot]. exact (Hnot Hnode3).
    - unfold st4. cbn [visited]. intros x Hx. apply Hv3. right. exact Hx.
    - unfold st4. cbn [visited]. apply Hv3. left. reflexivity. }
  destruct (od_get graph node) as [neighbors|] eqn:Hget.
  - destruct (fold_opt (visit_neighbor (dfs graph f)) (set_iter neighbors) st1)
      as [st3|] eqn:Hfold; [|discriminate].
    injection Hrun as <-. cbn [cycles] in Hnone.
    destruct (@visit_all_complete f IH _ _ _ Hfold Hnone Hgood1 Hstack1)
      as (Hgood3 & Hrs3 & Hv3 & Hnbs).
    apply Hpop; auto.
    intros y [neighbors' [Hget' Hy]]. rewrite Hget in Hget'. injection Hget' as <-.
    apply Hnbs. apply (Permutation_in _ (Permutation_sym (set_iter_perm neighbors))).
    apply nodup_In. exact Hy.
  - injection Hrun as <-. apply (Hpop st1); auto using incl_refl.
    intros y [neighbors' [Hget' _]]. congruence.
Qed.

Lemma od_get_Some_key (V : Type) (d : odict V) (k : string) (v : V) :
  od_get d k = Some v -> In k (od_keys d).
Proof.
  unfold od_keys. induction d as [|[k' v'] d IH]; simpl; [discriminate|].
  destruct (String.eqb_spec k' k) as [->|Hne]; intros H; [left; reflexivity|].
  right. exact (IH H).
Qed.

Lemma walk_starts_at_key (x y : string) : walk graph x y -> In x (od_keys graph).
Proof.
  intros Hw. inversion Hw as [a b [ns [Hget _]]|a b c [ns [Hget _]] _]; subst;
    exact (od_get_Some_key _ _ Hget).
Qed.

Lemma chain_walk (l : list string) (a : string) :
  chain graph (a :: l) -> l <> [] -> walk graph a (last (a :: l) EmptyString).
Proof.
  revert a. induction l as [|b l IH]; intros a Hc Hne; [contradiction|].
  destruct Hc as [Hab Hc]. destruct l as [|c l].
  - exact (walk_edge Hab).
  - apply (walk_step Hab). apply IH; [exact Hc | discriminate].
Qed.

Lemma simple_cycle_walk (c : list string) :
  simple_cycle graph c -> walk graph (hd EmptyString c) (hd EmptyString c).
Proof.
  intros (Hne & _ & Hc & Hclose). destruct c as [|a l]; [contradiction|].
  cbn [hd] in *. destruct l as [|b l].
  - exact (walk_edge Hclose).
  - apply walk_snoc with (b := last (a :: b :: l) EmptyString); [|exact Hclose].
    apply chain_walk; [exact Hc | discriminate].
Qed.

(** [_find_cycles] reports a cycle exactly when the graph has one. *)
(** With room for [dfs_fuel] nested calls, [_find_cycles] lists a cycle
    exactly when the graph has one. *)
Lemma find_cycles_complete :
  exists found,
    CircularDependencyCheck__find_cycles graph = Some found
    /\ (has_cycle graph -> found <> [])
    /\ (found <> [] -> has_cycle graph).
Proof.
  destruct find_cycles_sound with (graph := graph) as [found [Hfound Hsound]].
  exists found. split; [exact Hfound|]. split.
  - intros [x Hx] Hnone. subst found.
    unfold CircularDependencyCheck__find_cycles in Hfound.
    assert (Hloop : forall (nodes : list string) (st st' : dfs_state),
               fold_opt (fun st node =>
                           if negb (Py.mem node (visited st))
                           then dfs graph (dfs_fuel graph) node st
                           else Some st)
                        nodes st = Some st' ->
               cycles st' = [] -> dfs_good graph st -> rec_stack st = [] ->
               dfs_good graph st' /\ rec_stack st' = []
               /\ incl (visited st) (visited st')
               /\ incl nodes (visited st')).
    { induction nodes as [|node nodes IH]; intros st st' Hrun Hnone Hgood Hrs.
      - injection Hrun as <-. split; [exact Hgood|]. split; [exact Hrs|].
        split; [apply incl_refl | intros y []].
      - cbn [fold_opt] in Hrun. destruct (Py.mem node (visited st)) eqn:Hmem;
          cbn [negb] in Hrun.
        + destruct (IH _ _ Hrun Hnone Hgood Hrs) as (Hg & Hr & Hv & Hn).
          split; [exact Hg|]. split; [exact Hr|]. split; [exact Hv|].
          intros y [<-|Hy]; [apply Hv; apply mem_In; exact Hmem | exact (Hn y Hy)].
        + destruct (dfs graph (dfs_fuel graph) node st) as [st1|] eqn:Hdfs;
            [|discriminate].
          assert (Hnone1 : cycles st1 = []).
          { assert (Hmono : forall nodes st st',
                       fold_opt (fun st node =>
                                   if negb (Py.mem node (visited st))
                                   then dfs graph (dfs_fuel graph) node st
                                   else Some st)
                                nodes st = Some st' ->
                       exists more, cycles st' = cycles st ++ more).
            { induction nodes0 as [|n ns IHn]; intros s s' Hr.
              - injection Hr as <-. exists []. rewrite app_nil_r. reflexivity.
              - cbn [fold_opt] in Hr. destruct (negb (Py.mem n (visited s))).
                + destruct (dfs graph (dfs_fuel graph) n s) as [s1|] eqn:Hd;
                    [|discriminate].
                  apply dfs_cycles in Hd as [m1 H1]. apply IHn in Hr as [m H].
                  rewrite H1, <- app_assoc in H. eexists. exact H.
                + exact (IHn _ _ Hr). }
            destruct (Hmono _ _ _ Hrun) as [more Hmore]. rewrite Hnone in Hmore.
            symmetry in Hmore. exact (no_cycles_before _ _ Hmore). }
          assert (Hfresh : ~ In node (visited st)).
          { intros Hin. apply mem_In in Hin. congruence. }
          destruct (@dfs_complete _ _ _ _ Hdfs Hnone1 Hgood Hfresh)
            as (Hg1 & Hr1 & Hv1 & Hn1); [rewrite Hrs; intros y []|].
          destruct (IH _ _ Hrun Hnone Hg1) as (Hg & Hr & Hv & Hn); [congruence|].
          split; [exact Hg|]. split; [exact Hr|].
          split; [intros y Hy; apply Hv; apply Hv1; exact Hy|].
          intros y [<-|Hy]; [apply Hv; exact Hn1 | exact (Hn y Hy)]. }
    destruct (fold_opt _ (od_keys graph) (mk_dfs [] [] [])) as [st'|] eqn:Hrun;
      [|discriminate].
    injection Hfound as Hcycles.
    destruct (Hloop _ _ _ Hrun Hcycles) as ([_ Hacyclic] & Hrs & _ & Hkeys).
    + split; [intros a b [[] _] | intros a [[] _]].
    + reflexivity.
    + apply (Hacyclic x); [|exact Hx].
      split; [apply Hkeys; exact (walk_starts_at_key Hx) | rewrite Hrs; intros []].
  - intros Hne. destruct found as [|c found]; [contradiction|].
    inversion Hsound as [|c' l Hc _]; subst.
    eexists. exact (simple_cycle_walk Hc).
Qed.

End DfsComplete.

(** *** The recursion limit

    The search with room for [limit] nested calls. *)

Section SearchDepth.
Context {rt : PythonRuntime}.
Variable graph : odict pyset.

Lemma fold_opt_mono (A S : Type) (step1 step2 : S -> A -> option S) :
  (forall st x st', step1 st x = Some st' -> step2 st x = Some st') ->
  forall xs st st', fold_opt step1 xs st = Some st' -> fold_opt step2 xs st = Some st'.
Proof.
  intros Hstep. induction xs as [|x xs IH]; intros st st' Hrun; [exact Hrun|].
  cbn [fold_opt] in *. destruct (step1 st x) as [st1|] eqn:H1; [|discriminate].
  rewrite (Hstep _ _ _ H1). exact (IH _ _ Hrun).
Qed.

(** A search that fits in [n] nested calls fits in more. *)
Lemma dfs_mono :
  forall n node st st',
    dfs graph n node st = Some st' ->
    forall m, n <= m -> dfs graph m node st = Some st'.
Proof.
  induction n as [|n IH]; intros node st st' Hrun m Hle; [discriminate|].
  destruct m as [|m]; [lia|]. cbn [dfs] in *.
  destruct (od_get graph node) as [neighbors|]; [|exact Hrun].
  destruct (fold_opt (visit_neighbor (dfs graph n)) (set_iter neighbors) _)
    as [st3|] eqn:Hfold; [|discriminate].
  rewrite (@fold_opt_mono _ _ (visit_neighbor (dfs graph n))
             (visit_neighbor (dfs graph m)) ) with (st' := st3);
    [exact Hrun | | exact Hfold].
  intros s x s' Hx. unfold visit_neighbor in *.
  destruct (negb (Py.mem x (visited s))); [|exact Hx].
  apply (IH _ _ _ Hx). lia.
Qed.

Lemma find_cycles_loop_mono (n m : nat) (nodes : list string) (st st' : dfs_state) :
  n <= m ->
  fold_opt (fun st node =>
              if negb (Py.mem node (visited st)) then dfs graph n node st else Some st)
           nodes st = Some st' ->
  fold_opt (fun st node =>
              if negb (Py.mem node (visited st)) then dfs graph m node st else Some st)
           nodes st = Some st'.
Proof.
  intros Hle. apply fold_opt_mono. intros s x s' Hx.
  destruct (negb (Py.mem x (visited s))); [|exact Hx].
  exact (@dfs_mono _ _ _ _ Hx _ Hle).
Qed.

(** The search within a limit hits the limit or finds what the search
    with enough room finds. *)
Lemma find_cycles_within_cases (limit : nat) :
  CircularDependencyCheck__find_cycles_within limit graph = None
  \/ CircularDependencyCheck__find_cycles_within limit graph
     = CircularDependencyCheck__find_cycles graph.
Proof.
  unfold CircularDependencyCheck__find_cycles_within.
  destruct (fold_opt _ (od_keys graph) (mk_dfs [] [] [])) as [st|] eqn:Hwithin;
    [right | left; reflexivity].
  destruct (find_cycles_total graph) as [found Hfound].
  unfold CircularDependencyCheck__find_cycles in *.
  destruct (fold_opt _ (od_keys graph) (mk_dfs [] [] [])) as [st2|] eqn:Hfull in Hfound |- *;
    [|discriminate].
  apply (@find_cycles_loop_mono _ (Nat.max limit (dfs_fuel graph))) in Hwithin;
    [|apply Nat.le_max_l].
  apply (@find_cycles_loop_mono _ (Nat.max limit (dfs_fuel graph))) in Hfull;
    [|apply Nat.le_max_r].
  rewrite Hwithin in Hfull. injection Hfull as ->. reflexivity.
Qed.

Lemma find_cycles_within_enough (limit : nat) :
  dfs_fuel graph <= limit ->
  CircularDependencyCheck__find_cycles_within limit graph
  = CircularDependencyCheck__find_cycles graph.
Proof.
  intros Hle. destruct (find_cycles_total graph) as [found Hfound].
  unfold CircularDependencyCheck__find_cycles_within, CircularDependencyCheck__find_cycles
    in *.
  destruct (fold_opt _ (od_keys graph) (mk_dfs [] [] [])) as [st2|] eqn:Hfull in Hfound |- *;
    [|discriminate].
  rewrite (find_cycles_loop_mono _ _ Hle Hfull). reflexivity.
Qed.

End SearchDepth.

Section CycleReports.
Context {rt : PythonRuntime}.

Lemma check_project_within_cases (limit : nat) (file_contents : odict string) :
  CircularDependencyCheck_check_project_within limit file_contents = Raise RecursionError
  \/ CircularDependencyCheck_check_project_within limit file_contents
     = CircularDependencyCheck_check_project file_contents.
Proof.
  unfold CircularDependencyCheck_check_project_within, CircularDependencyCheck_check_project.
  destruct (find_cycles_within_cases
              (CircularDependencyCheck__build_dependency_graph file_contents) limit)
    as [-> | ->]; [left | right]; reflexivity.
Qed.

Lemma check_project_within_enough (limit : nat) (file_contents : odict string) :
  dfs_fuel (CircularDependencyCheck__build_dependency_graph file_contents) <= limit ->
  CircularDependencyCheck_check_project_within limit file_contents
  = CircularDependencyCheck_check_project file_contents.
Proof.
  intros Hle.
  unfold CircularDependencyCheck_check_project_within, CircularDependencyCheck_check_project.
  rewrite (find_cycles_within_enough Hle). reflexivity.
Qed.

(** X6. [CircularDependencyCheck.check_project] raises [RecursionError],
    when the search nests deeper than the interpreter allows, or returns
    one finding per list of [_find_cycles], and each of these lists is a
    cycle of the dependency graph: distinct modules, each with an edge to
    the next and the last with an edge to the first.  It returns when the
    interpreter allows one nested call per node of the graph and one
    more. *)
Theorem X6_reported_cycles_are_cycles (limit : nat) (file_contents : odict string) :
  let graph := CircularDependencyCheck__build_dependency_graph file_contents in
  let run := CircularDependencyCheck_check_project_within limit file_contents in
  (run = Raise RecursionError
   \/ exists found,
        run = Ok (map cycle_finding found) /\ Forall (simple_cycle graph) found)
  /\ (dfs_fuel graph <= limit -> is_ok run = true).
Proof.
  intros graph run.
  destruct (find_cycles_sound graph) as [found [Hfound Hcycles]].
  assert (Hfull : CircularDependencyCheck_check_project file_contents
                  = Ok (map cycle_finding found)).
  { unfold CircularDependencyCheck_check_project. fold graph. rewrite Hfound.
    reflexivity. }
  split.
  - destruct (check_project_within_cases limit file_contents) as [Hraise|Hsame].
    + left. exact Hraise.
    + right. exists found. unfold run. rewrite Hsame. split; [exact Hfull | exact Hcycles].
  - intros Hle. unfold run. rewrite (check_project_within_enough _ Hle), Hfull.
    reflexivity.
Qed.

(** X7. No module name with a dot is part of a reported cycle:
    [_build_dependency_graph] records the first dotted component of each
    import, so the edges only lead to names without a dot.  A file whose
    module name has a dot is therefore never on a reported cycle. *)
Theorem X7_cycles_only_among_undotted_modules (limit : nat)
  (file_contents : odict string) (findings : list ArchitectureFinding) :
  CircularDependencyCheck_check_project_within limit file_contents = Ok findings ->
  exists found,
    findings = map cycle_finding found
    /\ forall cycle module_name,
         In cycle found -> In module_name cycle -> has_char "." module_name = false.
Proof.
  intros Hrun.
  destruct (find_cycles_sound
              (CircularDependencyCheck__build_dependency_graph file_contents))
    as [found [Hfound Hcycles]].
  exists found. split.
  - destruct (check_project_within_cases limit file_contents) as [Hraise|Hsame];
      [rewrite Hraise in Hrun; discriminate|].
    rewrite Hsame in Hrun. unfold CircularDependencyCheck_check_project in Hrun.
    rewrite Hfound in Hrun. injection Hrun as <-. reflexivity.
  - intros cycle x Hcycle Hx.
    rewrite Forall_forall in Hcycles.
    destruct (@cycle_targets _ _ _ (Hcycles _ Hcycle) Hx) as [b [neighbors [Hget Hin]]].
    pose proof (build_dependency_graph_undotted file_contents) as Hg.
    pose proof (@od_get_values _ _ _ _ _ Hg Hget) as Hn.
    rewrite Forall_forall in Hn. exact (Hn _ Hin).
Qed.

(** X8. When [CircularDependencyCheck.check_project] returns, it reports
    at least one finding exactly when the dependency graph has a cycle,
    that is, some module reaches itself along the recorded imports; the
    only other outcome is the [RecursionError] of a search that nests
    deeper than the interpreter allows. *)
Theorem X8_cycle_reported_iff_graph_has_cycle (limit : nat)
  (file_contents : odict string) :
  let graph := CircularDependencyCheck__build_dependency_graph file_contents in
  let run := CircularDependencyCheck_check_project_within limit file_contents in
  run = Raise RecursionError
  \/ exists findings,
       run = Ok findings
       /\ (has_cycle graph -> findings <> [])
       /\ (findings <> [] -> has_cycle graph).
Proof.
  intros graph run.
  destruct (check_project_within_cases limit file_contents) as [Hraise|Hsame];
    [left; exact Hraise | right].
  unfold run. rewrite Hsame. unfold CircularDependencyCheck_check_project. fold graph.
  destruct (find_cycles_complete graph) as [found [-> [Hsome Hnone]]].
  exists (map cycle_finding found). split; [reflexivity|]. split.
  - intros Hc Hmap. apply (Hsome Hc). destruct found; [reflexivity | discriminate].
  - intros Hne. apply Hnone. intros ->. apply Hne. reflexivity.
Qed.

End CycleReports.

Lemma X6_reported_cycles_are_cycles_witness :
  @CircularDependencyCheck_check_project_within demo_runtime 2 linear_chain
  = Raise RecursionError
  /\ is_ok (@CircularDependencyCheck_check_project_within demo_runtime 5 linear_chain)
     = true
  /\ exists found,
       @CircularDependencyCheck_check_project_within demo_runtime 5 flat_cycle
       = Ok (map cycle_finding found)
       /\ found <> []
       /\ Forall (simple_cycle (CircularDependencyCheck__build_dependency_graph flat_cycle))
            found.
Proof.
  split; [vm_compute; reflexivity|]. split.
  - apply (proj2 (@X6_reported_cycles_are_cycles demo_runtime 5 linear_chain)).
    vm_compute. lia.
  - destruct (proj1 (@X6_reported_cycles_are_cycles demo_runtime 5 flat_cycle))
      as [Hraise | (found & Hrun & Hcycles)]; [vm_compute in Hraise; discriminate|].
    exists found. split; [exact Hrun|]. split; [|exact Hcycles].
    intros ->. vm_compute in Hrun. discriminate Hrun.
Defined.

Lemma X7_cycles_only_among_undotted_modules_witness :
  exists f found,
    @CircularDependencyCheck_check_project_within demo_runtime 5 flat_cycle = Ok [f]
    /\ [f] = map cycle_finding found
    /\ forall cycle module_name,
         In cycle found -> In module_name cycle -> has_char "." module_name = false.
Proof.
  assert (Hrun : exists f,
             @CircularDependencyCheck_check_project_within demo_runtime 5 flat_cycle
             = Ok [f]).
  { eexists. vm_compute. reflexivity. }
  destruct Hrun as [f Hrun].
  destruct (@X7_cycles_only_among_undotted_modules demo_runtime 5 flat_cycle [f] Hrun)
    as (found & Hmap & Hnames).
  exists f, found. split; [exact Hrun|]. split; [exact Hmap | exact Hnames].
Defined.

(** A file inside a package can have a module name without a dot, since
    [_path_to_module] removes every [.py]; such a file can be on a
    reported cycle. *)
Example package_file_on_cycle :
  CircularDependencyCheck__path_to_module "a/pyb.py" = "ab"
  /\ exists f,
       @CircularDependencyCheck_check_project_within demo_runtime 5 pyb_cycle = Ok [f]
       /\ af_file_path f = "ab".
Proof.
  split; [vm_compute; reflexivity|].
  eexists. split; [vm_compute; reflexivity | reflexivity].
Qed.

Lemma X8_cycle_reported_iff_graph_has_cycle_witness :
  has_cycle (CircularDependencyCheck__build_dependency_graph flat_cycle)
  /\ (exists f findings,
        @CircularDependencyCheck_check_project_within demo_runtime 5 flat_cycle
        = Ok (f :: findings))
  /\ @CircularDependencyCheck_check_project_within demo_runtime 2 linear_chain
     = Raise RecursionError.
Proof.
  assert (Hcycle : has_cycle (CircularDependencyCheck__build_dependency_graph flat_cycle)).
  { exists "a". apply walk_step with (b := "b"); [|apply walk_edge].
    - exists ["b"]. split; [vm_compute; reflexivity | left; reflexivity].
    - exists ["a"]. split; [vm_compute; reflexivity | left; reflexivity]. }
  split; [exact Hcycle|]. split.
  - destruct (@X8_cycle_reported_iff_graph_has_cycle demo_runtime 5 flat_cycle)
      as [Hraise | (findings & Hrun & Hsome & _)]; [vm_compute in Hraise; discriminate|].
    destruct findings as [|f findings]; [exfalso; exact (Hsome Hcycle eq_refl)|].
    exists f, findings. exact Hrun.
  - destruct (@X8_cycle_reported_iff_graph_has_cycle demo_runtime 2 linear_chain)
      as [Hraise | (findings & Hrun & _)]; [exact Hraise|].
    vm_compute in Hrun. discriminate Hrun.
Defined.

(** ** Breaking changes

    *** A file compared with itself *)

Lemma od_set_keys_NoDup (V : Type) (d : odict V) (k : string) (v : V) :
  NoDup (od_keys d) -> NoDup (od_keys (od_set d k v)).
Proof.
  intros Hnd. destruct (in_dec string_dec k (od_keys d)) as [Hin|Hout].
  - assert (Hsame : od_keys (od_set d k v) = od_keys d).
    { clear Hnd. unfold od_keys in *. induction d as [|[k' v'] d IH]; [destruct Hin|].
      simpl. destruct (String.eqb_spec k' k) as [->|Hne]; [reflexivity|].
      simpl. f_equal. apply IH. destruct Hin as [Heq|Hin]; [contradiction | exact Hin]. }
    rewrite Hsame. exact Hnd.
  - rewrite od_set_fresh by exact Hout. unfold od_keys in *. rewrite map_app.
    apply NoDup_app; [exact Hnd | constructor; [intros [] | constructor] |].
    intros x Hx [<-|[]]. exact (Hout Hx).
Qed.

Lemma od_get_own (V : Type) (d : odict V) (k : string) (v : V) :
  NoDup (od_keys d) -> In (k, v) d -> od_get d k = Some v.
Proof.
  unfold od_keys. induction d as [|[k' v'] d IH]; intros Hnd Hin; [destruct Hin|].
  simpl in Hnd. inversion Hnd as [|x l Hk Hnd']; subst. simpl.
  destruct Hin as [Heq|Hin].
  - injection Heq as -> ->. rewrite String.eqb_refl. reflexivity.
  - destruct (String.eqb_spec k' k) as [->|Hne]; [|exact (IH Hnd' Hin)].
    exfalso. apply Hk. apply in_map_iff. exists (k, v). auto.
Qed.

Lemma signature_eqb_refl (s : signature) : signature_eqb s s = true.
Proof.
  unfold signature_eqb, list_string_eqb.
  rewrite !String.eqb_refl, Z.eqb_refl.
  destruct (list_eq_dec string_dec (sig_params s) (sig_params s)); [reflexivity|].
  contradiction.
Qed.

Lemma set_diff_self (l : list string) : set_diff l l = [].
Proof.
  unfold set_diff. apply filter_none. intros x Hx.
  apply negb_false_iff. apply mem_In. exact Hx.
Qed.

Lemma flat_map_nil (A B : Type) (f : A -> list B) (l : list A) :
  (forall x, In x l -> f x = []) -> flat_map f l = [].
Proof.
  induction l as [|x l IH]; intros H; [reflexivity|].
  simpl. rewrite (H x) by (left; reflexivity). apply IH.
  intros y Hy. apply H. right. exact Hy.
Qed.

Section UnchangedFile.
Context {rt : PythonRuntime}.

Lemma set_iter_nil : set_iter [] = [].
Proof.
  apply Permutation_nil. apply Permutation_sym. exact (set_iter_perm []).
Qed.

Lemma extract_signatures_NoDup content sigs :
  APISignatureChangeCheck__extract_signatures content = Ok sigs -> NoDup (od_keys sigs).
Proof.
  unfold APISignatureChangeCheck__extract_signatures. intros H.
  apply catch_ok in H as [H|[_ H]].
  - apply bind_ok in H as [nodes [_ H]]. apply Ok_inj in H. subst sigs.
    apply fold_left_inv; [constructor|].
    intros d node Hd _. unfold add_signature.
    destruct node; try exact Hd;
      (destruct (negb (Py.startswith name "_")); [apply od_set_keys_NoDup|]; exact Hd).
  - apply Ok_inj in H. subst sigs. constructor.
Qed.

(** X9. A file whose content did not change gets no finding from
    [APISignatureChangeCheck.check] and none from
    [RemovedPublicMethodsCheck.check], whatever its path and whichever of
    the two extraction paths (syntax tree or fallback) reads it. *)
Theorem X9_unchanged_file_is_silent (file_path content : string) :
  (forall sigs, APISignatureChangeCheck__extract_signatures content = Ok sigs ->
                APISignatureChangeCheck_check file_path (Some content) content = Ok [])
  /\ (forall elements,
         RemovedPublicMethodsCheck__extract_public_elements content = Ok elements ->
         RemovedPublicMethodsCheck_check file_path (Some content) (Some content) = Ok []).
Proof.
  split.
  - intros sigs Hsigs. unfold APISignatureChangeCheck_check.
    destruct (negb _); [reflexivity|]. rewrite Hsigs. cbn [bind].
    rewrite set_diff_self, set_iter_nil. cbn [map]. rewrite app_nil_r.
    f_equal. apply flat_map_nil. intros [name sig] Hin.
    rewrite (@od_get_own _ _ _ _ (@extract_signatures_NoDup _ _ Hsigs) Hin).
    rewrite signature_eqb_refl. reflexivity.
  - intros elements Helements. unfold RemovedPublicMethodsCheck_check.
    rewrite Helements. cbn [bind].
    rewrite !set_diff_self, set_iter_nil. reflexivity.
Qed.

End UnchangedFile.

Lemma X9_unchanged_file_is_silent_witness :
  @APISignatureChangeCheck_check demo_runtime "api/x.py" (Some "def f(a): pass")
    "def f(a): pass" = Ok []
  /\ @RemovedPublicMethodsCheck_check demo_runtime "api/x.py" (Some "def f(a): pass")
       (Some "def f(a): pass") = Ok [].
Proof.
  destruct (@X9_unchanged_file_is_silent demo_runtime "api/x.py" "def f(a): pass")
    as [Hsig Hrem].
  split.
  - eapply Hsig. vm_compute. reflexivity.
  - eapply Hrem. vm_compute. reflexivity.
Defined.

(** *** The changelog *)

(** X10. The changelog entry that [ChangelogRequirementCheck] suggests
    passes the check's own format test: for every list of breaking
    changes, [_has_proper_changelog_format] accepts the text of
    [_generate_changelog_template]. *)
Theorem X10_changelog_template_is_well_formed
  (breaking_changes : list BreakingChangeFinding) :
  ChangelogRequirementCheck__has_proper_changelog_format
    (ChangelogRequirementCheck__generate_changelog_template breaking_changes) = true.
Proof.
  unfold ChangelogRequirementCheck__generate_changelog_template,
    ChangelogRequirementCheck__has_proper_changelog_format.
  set (entries := filter _ _).
  unfold Re.search, Re.search_m.
  set (r := Re.compile _). vm_compute in r. subst r. cbv iota.
  unfold Re.search_rx.
  cbn [Py.join String.concat app Py.nl String.append list_ascii_of_string].
  destruct entries; reflexivity.
Qed.

(** The changelog findings for a changeset without a [CHANGELOG.md]: none
    for no breaking change, one critical finding otherwise. *)
Lemma changelog_missing (changed_files : odict string)
  (breaking_changes : list BreakingChangeFinding) :
  existsb is_changelog (od_keys changed_files) = false ->
  breaking_changes <> [] ->
  exists f,
    ChangelogRequirementCheck_check changed_files breaking_changes = [f]
    /\ bf_check_name f = "changelog_required" /\ bf_severity f = "critical"
    /\ bf_message f
       = "Breaking changes detected (" +++ Py.str_of_nat (length breaking_changes)
           +++ " issues) but CHANGELOG.md not updated".
Proof.
  intros Hnone Hne. unfold ChangelogRequirementCheck_check.
  destruct breaking_changes as [|b bs]; [contradiction|].
  rewrite Hnone. cbn [negb]. eexists. split; [reflexivity|]. repeat split.
Qed.

Section ChangelogRequired.
Context {rt : PythonRuntime}.

Lemma validate_pr_shape (changed_files : odict string) (old_files : odict (option string))
  (fs : list BreakingChangeFinding) :
  BreakingChangesValidator_validate_pr changed_files old_files = Ok fs ->
  exists per_file,
    fs = per_file ++ ChangelogRequirementCheck_check changed_files per_file.
Proof.
  unfold BreakingChangesValidator_validate_pr. intros H.
  apply bind_ok in H as [per_file [_ H]]. apply Ok_inj in H. exists per_file. auto.
Qed.

(** X11. When [BreakingChangesValidator.validate_pr] reports anything for
    a changeset without a [CHANGELOG.md], the last finding is the critical
    [changelog_required] one, it follows at least one finding of the
    per-file checks, and its message counts exactly those. *)
Theorem X11_breaking_change_needs_changelog
  (changed_files : odict string) (old_files : odict (option string))
  (fs : list BreakingChangeFinding) :
  BreakingChangesValidator_validate_pr changed_files old_files = Ok fs ->
  existsb is_changelog (od_keys changed_files) = false ->
  fs <> [] ->
  exists per_file f,
    fs = per_file ++ [f] /\ per_file <> []
    /\ bf_check_name f = "changelog_required" /\ bf_severity f = "critical"
    /\ bf_message f
       = "Breaking changes detected (" +++ Py.str_of_nat (length per_file)
           +++ " issues) but CHANGELOG.md not updated".
Proof.
  intros Hrun Hnone Hne.
  destruct (validate_pr_shape _ _ Hrun) as [per_file ->].
  destruct per_file as [|b bs]; [contradiction Hne; reflexivity|].
  destruct (@changelog_missing changed_files (b :: bs) Hnone) as (f & Hf & Hname & Hsev & Hmsg);
    [discriminate|].
  exists (b :: bs), f. rewrite Hf. repeat split; auto. discriminate.
Qed.

(** X12. In error mode a pull request with a breaking-change finding and
    no [CHANGELOG.md] never passes: the result of [validate_pr] has
    [passed = False] and at least one critical issue. *)
Theorem X12_breaking_change_without_changelog_blocks
  (pr_title pr_description : string) (changed_files : odict string)
  (old_files : option (odict (option string))) (r : QualityCheckResult) :
  QualityCheckOrchestrator_validate_pr "error" pr_title pr_description
    changed_files old_files = Ok r ->
  breaking_changes_findings r <> [] ->
  existsb is_changelog (od_keys changed_files) = false ->
  passed r = false /\ (1 <= critical_issues r)%Z.
Proof.
  intros Hrun Hne Hnone.
  destruct (validate_pr_returns _ _ _ _ _ Hrun)
    as (arch & test & brk & _ & _ & Hb & _ & _ & _ & _ & _ & Hrb & _ & Hp & _ & Hc & _).
  assert (Hcrit : (1 <= critical_issues r)%Z).
  { rewrite Hc. unfold findings_with_severity. rewrite Hrb in *.
    destruct (validate_pr_shape _ _ Hb) as [per_file ->].
    destruct per_file as [|b bs]; [contradiction Hne; reflexivity|].
    destruct (@changelog_missing changed_files (b :: bs) Hnone)
      as (f & Hf & _ & Hsev & _); [discriminate|].
    cbn [Severity_value]. rewrite Hf.
    assert (Hone : (1 <= count_where (fun f0 => String.eqb (bf_severity f0) "critical")
                          ((b :: bs) ++ [f]))%Z).
    { rewrite count_where_app, (@count_where_cons _ _ f []), Hsev.
      cbn [String.eqb Ascii.eqb Bool.eqb]. unfold count_where. lia. }
    unfold count_where in *. lia. }
  split; [|exact Hcrit].
  rewrite Hp. unfold gate. cbn [String.eqb Ascii.eqb Bool.eqb].
  destruct (Z.eqb_spec (critical_issues r) 0); [lia | reflexivity].
Qed.

End ChangelogRequired.

Lemma X11_breaking_change_needs_changelog_witness :
  exists fs per_file f,
    @BreakingChangesValidator_validate_pr demo_runtime demo_changed demo_old = Ok fs
    /\ fs = per_file ++ [f] /\ length per_file = 2
    /\ bf_check_name f = "changelog_required" /\ bf_severity f = "critical"
    /\ bf_message f
       = "Breaking changes detected (2 issues) but CHANGELOG.md not updated".
Proof.
  assert (Hrun : exists fs,
             @BreakingChangesValidator_validate_pr demo_runtime demo_changed demo_old
             = Ok fs /\ length fs = 3).
  { eexists. split; vm_compute; reflexivity. }
  destruct Hrun as (fs & Hrun & Hlen).
  destruct (@X11_breaking_change_needs_changelog demo_runtime demo_changed demo_old fs
              Hrun)
    as (per_file & f & Hfs & _ & Hname & Hsev & Hmsg).
  - vm_compute. reflexivity.
  - intros Hnil. rewrite Hnil in Hlen. discriminate Hlen.
  - assert (Hper : length per_file = 2).
    { rewrite Hfs, length_app in Hlen. simpl in Hlen. lia. }
    exists fs, per_file, f. rewrite Hper in Hmsg. repeat split; assumption.
Defined.

Lemma X12_breaking_change_without_changelog_blocks_witness :
  exists r,
    @QualityCheckOrchestrator_validate_pr demo_runtime "error" "feat: users" ""
      demo_changed (Some demo_old) = Ok r
    /\ breaking_changes_findings r <> []
    /\ passed r = false /\ (1 <= critical_issues r)%Z.
Proof.
  eexists. split; [vm_compute; reflexivity|].
  split; [discriminate|].
  apply (@X12_breaking_change_without_changelog_blocks demo_runtime "feat: users" ""
           demo_changed (Some demo_old)).
  - vm_compute. reflexivity.
  - discriminate.
  - vm_compute. reflexivity.
Defined.

(** *** Removed public elements *)

Lemma NoDup_count_one (l : list string) (x : string) :
  NoDup l -> In x l -> length (filter (String.eqb x) l) = 1.
Proof.
  induction 1 as [|y l Hy Hnd IH]; intros Hin; [destruct Hin|].
  simpl. destruct (String.eqb_spec x y) as [->|Hne].
  - simpl. f_equal. rewrite filter_none; [reflexivity|].
    intros z Hz. apply String.eqb_neq. intros ->. contradiction.
  - destruct Hin as [Heq|Hin]; [congruence | exact (IH Hin)].
Qed.

Lemma set_diff_In (a b : list string) (x : string) :
  In x (set_diff a b) <-> In x a /\ ~ In x b.
Proof.
  unfold set_diff. rewrite filter_In, negb_true_iff. split; intros [Ha Hb].
  - split; [exact Ha|]. intros Hin. apply mem_In in Hin. congruence.
  - split; [exact Ha|]. destruct (Py.mem x b) eqn:Hm; [|reflexivity].
    apply mem_In in Hm. contradiction.
Qed.

Section RemovedElements.
Context {rt : PythonRuntime}.

Lemma set_iter_In (l : list string) (x : string) : In x (set_iter l) <-> In x l.
Proof.
  split; intros H.
  - apply (Permutation_in _ (set_iter_perm l)) in H. apply nodup_In in H. exact H.
  - apply (Permutation_in _ (Permutation_sym (set_iter_perm l))). apply nodup_In. exact H.
Qed.

Lemma set_iter_NoDup (l : list string) : NoDup (set_iter l).
Proof.
  apply (Permutation_NoDup (Permutation_sym (set_iter_perm l))). apply NoDup_nodup.
Qed.

Lemma count_removals (g : string -> BreakingChangeFinding) (change_type : string)
  (names : list string) (name : string) :
  (forall n, bf_change_type (g n) = change_type /\ bf_element_name (g n) = n) ->
  filter (reports_removal change_type name) (map g names)
  = map g (filter (String.eqb name) names).
Proof.
  intros Hg. induction names as [|n names IH]; [reflexivity|].
  simpl. unfold reports_removal at 1. destruct (Hg n) as [-> ->].
  rewrite String.eqb_refl. cbn [andb]. rewrite (String.eqb_sym n name).
  destruct (String.eqb name n); simpl; rewrite IH; reflexivity.
Qed.

Lemma count_other_removals (g : string -> BreakingChangeFinding)
  (change_type other name : string) (names : list string) :
  (forall n, bf_change_type (g n) = other) -> other <> change_type ->
  filter (reports_removal change_type name) (map g names) = [].
Proof.
  intros Hg Hne. apply filter_none. intros f Hf.
  apply in_map_iff in Hf as [n [<- _]]. unfold reports_removal. rewrite Hg.
  apply String.eqb_neq in Hne. rewrite Hne. reflexivity.
Qed.

(** X13. When both versions of a file are read,
    [RemovedPublicMethodsCheck.check] reports each public class and each
    public function that the old version has and the new one lacks exactly
    once, as a critical finding about the file, and it reports nothing
    else. *)
Theorem X13_one_finding_per_removed_element (file_path old new : string)
  (old_elements new_elements : public_elements) :
  RemovedPublicMethodsCheck__extract_public_elements old = Ok old_elements ->
  RemovedPublicMethodsCheck__extract_public_elements new = Ok new_elements ->
  exists fs,
    RemovedPublicMethodsCheck_check file_path (Some old) (Some new) = Ok fs
    /\ (forall f, In f fs ->
          bf_severity f = "critical" /\ bf_file_path f = file_path
          /\ ((bf_change_type f = "deleted_class"
               /\ In (bf_element_name f) (classes old_elements)
               /\ ~ In (bf_element_name f) (classes new_elements))
              \/ (bf_change_type f = "deleted_function"
                  /\ In (bf_element_name f) (functions old_elements)
                  /\ ~ In (bf_element_name f) (functions new_elements))))
    /\ (forall name,
          In name (classes old_elements) -> ~ In name (classes new_elements) ->
          length (filter (reports_removal "deleted_class" name) fs) = 1)
    /\ (forall name,
          In name (functions old_elements) -> ~ In name (functions new_elements) ->
          length (filter (reports_removal "deleted_function" name) fs) = 1).
Proof.
  intros Hold Hnew. unfold RemovedPublicMethodsCheck_check.
  rewrite Hold, Hnew. cbn [bind]. eexists. split; [reflexivity|].
  split; [|split].
  - intros f Hin. apply in_app_or in Hin. destruct Hin as [Hin|Hin];
      apply in_map_iff in Hin as [name [<- Hname]];
      apply (proj1 (set_iter_In _ _)) in Hname;
      apply (proj1 (set_diff_In _ _ _)) in Hname as [Ho Hn];
      (split; [reflexivity|]); (split; [reflexivity|]); [left | right];
      (split; [reflexivity|]); split; assumption.
  - intros name Ho Hn. rewrite filter_app, length_app.
    rewrite count_removals by (intros n; split; reflexivity).
    rewrite (@count_other_removals _ "deleted_class" "deleted_function")
      by (try discriminate; intros n; reflexivity).
    rewrite length_map, NoDup_count_one; [reflexivity | apply set_iter_NoDup |].
    apply set_iter_In. apply set_diff_In. split; assumption.
  - intros name Ho Hn. rewrite filter_app, length_app.
    rewrite (@count_other_removals _ "deleted_function" "deleted_class")
      by (try discriminate; intros n; reflexivity).
    rewrite count_removals by (intros n; split; reflexivity).
    rewrite length_map, NoDup_count_one; [reflexivity | apply set_iter_NoDup |].
    apply set_iter_In. apply set_diff_In. split; assumption.
Qed.

End RemovedElements.

Lemma X13_one_finding_per_removed_element_witness :
  exists fs,
    @RemovedPublicMethodsCheck_check demo_runtime "api/users.py"
      (Some "def get_user(user_id): pass") (Some "x = 1") = Ok fs
    /\ length fs = 1
    /\ length (filter (reports_removal "deleted_function" "get_user") fs) = 1.
Proof.
  destruct (@X13_one_finding_per_removed_element demo_runtime "api/users.py"
              "def get_user(user_id): pass" "x = 1"
              (mk_elements [] ["get_user"]) (mk_elements [] []))
    as (fs & Hrun & _ & _ & Hfun); [vm_compute; reflexivity ..|].
  exists fs. split; [exact Hrun|]. split.
  - vm_compute in Hrun. injection Hrun as <-. reflexivity.
  - apply Hfun; [left; reflexivity | intros []].
Defined.

(** ** The layer check *)

Lemma identify_layer_cases (file_path layer : string) :
  LayerSeparationCheck__identify_layer file_path = Some layer ->
  In layer ["controller"; "service"; "repository"; "model"].
Proof.
  unfold LayerSeparationCheck__identify_layer, LAYERS. cbn [find].
  repeat match goal with
    | |- context [if ?c then _ else _] => destruct c
    end; cbn [option_map fst]; intros H; try discriminate;
    injection H as <-; simpl; tauto.
Qed.

Section LayerCheck.
Context {rt : PythonRuntime}.

Lemma controller_loop (file_path : string) (imports : list import_stmt) :
  forall acc,
    for_each imports
      (fun findings stmt =>
         for_each ["repository"]
           (fun findings prohibited_layer =>
              b <- LayerSeparationCheck__import_references_layer stmt prohibited_layer ;;
              Ok (if b
                  then findings ++ [layer_finding file_path "controller" prohibited_layer
                                      ["service"; "model"] stmt]
                  else findings))
           findings)
      acc
    = Ok (acc ++ map (layer_finding file_path "controller" "repository" ["service"; "model"])
                     (filter names_repository imports)).
Proof.
  induction imports as [|stmt imports IH]; intros acc.
  - cbn [for_each filter map]. rewrite app_nil_r. reflexivity.
  - cbn [for_each]. unfold LayerSeparationCheck__import_references_layer at 1.
    cbn [od_index od_get LAYERS String.eqb Ascii.eqb Bool.eqb bind paths existsb].
    change (Py.strip_chars "/" "repositories/") with "repositories".
    change (Py.strip_chars "/" "data/") with "data".
    rewrite orb_false_r. fold (names_repository stmt).
    cbn [filter]. destruct (names_repository stmt); rewrite IH.
    + rewrite <- app_assoc. reflexivity.
    + reflexivity.
Qed.

(** X14. On a file of the controller layer (a path with [api/] or
    [controllers/]) [LayerSeparationCheck.check] returns one finding for
    each import whose module name contains [repositories] or [data],
    ignoring case, in the order of the imports, and nothing else. *)
Theorem X14_layer_check_on_controllers (file_path content : string)
  (imports : list import_stmt) :
  Py.contains "api/" file_path || Py.contains "controllers/" file_path = true ->
  LayerSeparationCheck__extract_imports content = Ok imports ->
  LayerSeparationCheck_check file_path content
  = Ok (map (layer_finding file_path "controller" "repository" ["service"; "model"])
            (filter names_repository imports)).
Proof.
  intros Hpath Himports. unfold LayerSeparationCheck_check.
  assert (Hlayer : LayerSeparationCheck__identify_layer file_path = Some "controller").
  { unfold LayerSeparationCheck__identify_layer, LAYERS. cbn [find paths existsb].
    rewrite orb_false_r, Hpath. reflexivity. }
  rewrite Hlayer, Himports. cbn [bind od_index od_get LAYERS String.eqb Ascii.eqb Bool.eqb
                                  prohibited_dependencies allowed_dependencies].
  rewrite controller_loop. reflexivity.
Qed.

(** X15. On a file of the service, repository or model layer
    [LayerSeparationCheck.check] returns no finding when the file has no
    import and raises [KeyError('api')] as soon as it has one: the
    prohibited layer [api] of these layers is not a key of [LAYERS]. *)
Theorem X15_layer_check_key_error (file_path content layer : string)
  (imports : list import_stmt) :
  LayerSeparationCheck__identify_layer file_path = Some layer ->
  layer <> "controller" ->
  LayerSeparationCheck__extract_imports content = Ok imports ->
  LayerSeparationCheck_check file_path content
  = match imports with
    | [] => Ok []
    | _ :: _ => Raise (KeyError "api")
    end.
Proof.
  intros Hlayer Hne Himports. unfold LayerSeparationCheck_check.
  rewrite Hlayer, Himports.
  apply identify_layer_cases in Hlayer.
  destruct Hlayer as [<-|[<-|[<-|[<-|[]]]]]; [contradiction| | |];
    destruct imports as [|stmt imports]; reflexivity.
Qed.

End LayerCheck.

Lemma X14_layer_check_on_controllers_witness :
  @LayerSeparationCheck_check sample_runtime "api/users.py"
    "from repositories.user import UserRepository"
  = Ok [layer_finding "api/users.py" "controller" "repository" ["service"; "model"]
          (mk_import "from" "repositories.user" 1)].
Proof.
  apply (@X14_layer_check_on_controllers sample_runtime "api/users.py"
           "from repositories.user import UserRepository"
           [mk_import "from" "repositories.user" 1]);
    vm_compute; reflexivity.
Defined.

Lemma X15_layer_check_key_error_witness :
  @LayerSeparationCheck_check demo_runtime "services/user.py" "import os"
  = Raise (KeyError "api")
  /\ @LayerSeparationCheck_check demo_runtime "services/user.py" "x = 1" = Ok [].
Proof.
  split.
  - apply (@X15_layer_check_key_error demo_runtime "services/user.py" "import os"
             "service" [mk_import "import" "os" 1]);
      [vm_compute; reflexivity | discriminate | vm_compute; reflexivity].
  - apply (@X15_layer_check_key_error demo_runtime "services/user.py" "x = 1"
             "service" []);
      [vm_compute; reflexivity | discriminate | vm_compute; reflexivity].
Defined.

(** ** The outcome of [validate_pr]

    Which runs of the orchestrator return and which raise, on texts that
    [ast.parse] parses or rejects with [SyntaxError]. *)

Lemma for_each_ok (A S : Type) (step : S -> A -> result S) (xs : list A) :
  (forall acc x, In x xs -> exists acc', step acc x = Ok acc') ->
  forall acc, exists r, for_each xs step acc = Ok r.
Proof.
  induction xs as [|x xs IH]; intros Hstep acc.
  - exists acc. reflexivity.
  - cbn [for_each]. destruct (Hstep acc x) as [acc' ->]; [left; reflexivity|].
    cbn [bind]. apply IH. intros a y Hy. apply Hstep. right. exact Hy.
Qed.

Lemma od_get_key (V : Type) (d : odict V) (k : string) :
  In k (od_keys d) -> exists v, od_get d k = Some v.
Proof.
  unfold od_keys. induction d as [|[k' v'] d IH]; intros Hin; [destruct Hin|].
  simpl. destruct (String.eqb_spec k' k) as [->|Hne]; [eexists; reflexivity|].
  destruct Hin as [Heq|Hin]; [simpl in Heq; contradiction | exact (IH Hin)].
Qed.

Lemma find_test_file_key (source_path : string) (test_files : odict string) (p : string) :
  NewFunctionsHaveTestsCheck__find_test_file source_path test_files = Some p ->
  In p (od_keys test_files).
Proof.
  unfold NewFunctionsHaveTestsCheck__find_test_file. intros H.
  assert (Hin : In p (flat_map (fun pattern =>
                         filter (fun test_path => Py.contains pattern test_path)
                                (od_keys test_files))
                       [ "tests/test_" +++ Py.path_name source_path;
                         "tests/" +++ Py.path_parent_name source_path +++ "/test_"
                           +++ Py.path_name source_path;
                         "test_" +++ Py.path_name source_path;
                         Py.path_parent source_path +++ "/test_"
                           +++ Py.path_name source_path ])).
  { destruct (flat_map _ _) as [|q l]; [discriminate|].
    injection H as ->. left. reflexivity. }
  apply in_flat_map in Hin as [pattern [_ Hin]].
  apply filter_In in Hin. apply Hin.
Qed.

Lemma od_set_entries (V : Type) (P : string * V -> Prop) (d : odict V) (k : string)
  (v : V) :
  Forall P d -> P (k, v) -> Forall P (od_set d k v).
Proof.
  induction d as [|[k' v'] d IH]; intros Hd Hv; simpl.
  - constructor; [exact Hv | constructor].
  - inversion Hd as [|x l Hx Hl]; subst.
    destruct (String.eqb_spec k' k) as [->|Hne]; constructor; auto.
Qed.

Section ValidatorsReturn.
Context {rt : PythonRuntime}.

Lemma catch_total (A : Type) (content : string) (f : list ast_node -> result A)
  (handler : A) :
  parses_or_SyntaxError content ->
  (forall nodes, ast_nodes content = Ok nodes -> exists a, f nodes = Ok a) ->
  exists a, catch_SyntaxError (nodes <- ast_nodes content ;; f nodes) (Ok handler) = Ok a.
Proof.
  intros [[nodes Hn]| Hn] Hf.
  - rewrite Hn. cbn [bind]. destruct (Hf nodes Hn) as [a ->]. exists a. reflexivity.
  - rewrite Hn. exists handler. reflexivity.
Qed.

Lemma extract_imports_total (content : string) :
  parses_or_SyntaxError content ->
  exists imports, LayerSeparationCheck__extract_imports content = Ok imports.
Proof.
  intros Hparse. apply catch_total; [exact Hparse|]. intros nodes _. eexists. reflexivity.
Qed.

Lemma AsyncPatternsCheck_check_total (file_path content : string) :
  parses_or_SyntaxError content ->
  exists fs, AsyncPatternsCheck_check file_path content = Ok fs.
Proof.
  intros Hparse. unfold AsyncPatternsCheck_check.
  destruct (@catch_total _ content (fun nodes => Ok (flat_map async_of_node nodes))
              (flat_map (fun '(i, line) =>
                           if Re.match_ "async\s+def\s+(\w+)" line
                           then [(i, (i + 20)%Z, "unknown")] else [])
                        (Py.enumerate 1 (Py.split_lines content))) Hparse)
    as [async Hasync]; [intros nodes _; eexists; reflexivity|].
  unfold AsyncPatternsCheck__find_async_functions. rewrite Hasync. cbn [bind].
  destruct async; eexists; reflexivity.
Qed.

Lemma extract_functions_total (content : string) :
  parses_or_SyntaxError content ->
  exists functions, NewFunctionsHaveTestsCheck__extract_functions content = Ok functions.
Proof.
  intros Hparse. apply catch_total; [exact Hparse|]. intros nodes _. eexists. reflexivity.
Qed.

Lemma new_functions_file_total (test_files : odict string) (file_path content : string) :
  parses_or_SyntaxError content ->
  exists fs, new_functions_file test_files file_path content = Ok fs.
Proof.
  intros Hparse. unfold new_functions_file.
  destruct (NewFunctionsHaveTestsCheck__should_skip_file file_path);
    [eexists; reflexivity|].
  destruct (extract_functions_total Hparse) as [functions ->]. cbn [bind].
  destruct (NewFunctionsHaveTestsCheck__find_test_file file_path test_files)
    as [p|] eqn:Hfind.
  - destruct p as [|c p]; cbn [truthy negb].
    + destruct functions; eexists; reflexivity.
    + apply find_test_file_key in Hfind. apply od_get_key in Hfind as [v Hv].
      unfold od_index. rewrite Hv. cbn [bind]. eexists. reflexivity.
  - cbn [truthy negb]. destruct functions; eexists; reflexivity.
Qed.

(** The source files of the split are files of the changeset. *)
Lemma split_files_sources (P : string * string -> Prop) (changed_files : odict string) :
  Forall P changed_files -> Forall P (fst (split_files changed_files)).
Proof.
  intros Hall. unfold split_files.
  apply (@fold_left_inv _ _ (fun s : odict string * odict string => Forall P (fst s)));
    [constructor|].
  intros [source_files test_files] [file_path content] Hs Hin. cbn [fst] in *.
  rewrite Forall_forall in Hall.
  destruct (is_test_path file_path); [exact Hs|].
  destruct (Py.endswith file_path ".py"); [|exact Hs].
  cbn [fst]. apply od_set_entries; [exact Hs | exact (Hall _ Hin)].
Qed.

Lemma TestCoverageValidator_validate_pr_total (pr_title pr_description : string)
  (changed_files : odict string) :
  Forall (fun file => parses_or_SyntaxError (snd file)) changed_files ->
  exists fs,
    TestCoverageValidator_validate_pr pr_title pr_description changed_files = Ok fs.
Proof.
  intros Hparse. apply split_files_sources in Hparse.
  unfold TestCoverageValidator_validate_pr.
  destruct (split_files changed_files) as [source_files test_files]. cbn [fst] in Hparse.
  rewrite Forall_forall in Hparse.
  destruct (@for_each_ok _ _
              (fun findings '(file_path, content) =>
                 fs <- new_functions_file test_files file_path content ;;
                 Ok (findings ++ fs))
              source_files) with (acc := @nil TestCoverageFinding) as [fs Hfs].
  { intros acc [p c] Hin.
    destruct (@new_functions_file_total test_files p c (Hparse _ Hin)) as [fs ->].
    eexists. reflexivity. }
  unfold NewFunctionsHaveTestsCheck_check. rewrite Hfs. eexists. reflexivity.
Qed.

Lemma extract_signatures_total (content : string) :
  parses_or_SyntaxError content ->
  exists sigs, APISignatureChangeCheck__extract_signatures content = Ok sigs.
Proof.
  intros Hparse. apply catch_total; [exact Hparse|]. intros nodes _. eexists. reflexivity.
Qed.

Lemma APISignatureChangeCheck_check_total file_path old_content new_content :
  (forall old, old_content = Some old -> parses_or_SyntaxError old) ->
  parses_or_SyntaxError new_content ->
  exists fs, APISignatureChangeCheck_check file_path old_content new_content = Ok fs.
Proof.
  intros Hold Hnew. unfold APISignatureChangeCheck_check.
  destruct (negb _); [eexists; reflexivity|].
  destruct old_content as [old|]; [|eexists; reflexivity].
  destruct (extract_signatures_total (Hold old eq_refl)) as [so ->].
  destruct (extract_signatures_total Hnew) as [sn ->].
  eexists. reflexivity.
Qed.

Hypothesis Hclasses : class_names_nonempty.

Lemma extract_public_elements_total (content : string) :
  parses_or_SyntaxError content ->
  exists elements,
    RemovedPublicMethodsCheck__extract_public_elements content = Ok elements.
Proof.
  intros Hparse. apply catch_total; [exact Hparse|]. intros nodes Hnodes.
  apply for_each_ok. intros acc node Hin.
  destruct node; try (eexists; reflexivity).
  unfold add_element, is_public_class.
  destruct name as [|c name]; [exfalso; eapply Hclasses; eassumption|].
  eexists. reflexivity.
Qed.

Lemma RemovedPublicMethodsCheck_check_total file_path old_content new_content :
  (forall old, old_content = Some old -> parses_or_SyntaxError old) ->
  (forall new, new_content = Some new -> parses_or_SyntaxError new) ->
  exists fs, RemovedPublicMethodsCheck_check file_path old_content new_content = Ok fs.
Proof.
  intros Hold Hnew. unfold RemovedPublicMethodsCheck_check.
  destruct old_content as [old|]; [|eexists; reflexivity].
  destruct new_content as [new|].
  - destruct (extract_public_elements_total (Hold old eq_refl)) as [eo ->].
    destruct (extract_public_elements_total (Hnew new eq_refl)) as [en ->].
    eexists. reflexivity.
  - destruct (nonempty (Some old)); [|eexists; reflexivity].
    destruct (extract_public_elements_total (Hold old eq_refl)) as [eo ->]. cbn [bind].
    destruct (classes eo), (functions eo); eexists; reflexivity.
Qed.

Lemma BreakingChangesValidator_validate_pr_total changed_files old_files :
  texts_parse_or_SyntaxError changed_files old_files ->
  exists fs, BreakingChangesValidator_validate_pr changed_files old_files = Ok fs.
Proof.
  intros [Hnew Hold]. rewrite Forall_forall in Hnew.
  unfold BreakingChangesValidator_validate_pr.
  destruct (@for_each_ok _ _
              (fun all_findings '(file_path, new_content) =>
                 fs <- breaking_file old_files file_path new_content ;;
                 Ok (all_findings ++ fs))
              changed_files) with (acc := @nil BreakingChangeFinding) as [fs Hfs].
  { intros acc [p c] Hin. unfold breaking_file.
    destruct (@APISignatureChangeCheck_check_total p (dict_get old_files p) c)
      as [a ->]; [intros old Ho; exact (Hold _ _ Ho) | exact (Hnew _ Hin) |].
    destruct (@RemovedPublicMethodsCheck_check_total p (dict_get old_files p) (Some c))
      as [b ->];
      [intros old Ho; exact (Hold _ _ Ho)
      | intros new Hn; injection Hn as <-; exact (Hnew _ Hin) |].
    eexists. reflexivity. }
  rewrite Hfs. eexists. reflexivity.
Qed.

End ValidatorsReturn.

Section ValidatePrOutcome.
Context {rt : PythonRuntime}.

(** [LayerSeparationCheck.check] either returns or raises [KeyError('api')],
    the latter exactly on the files of [imports_below_controller]. *)
Lemma layer_check_result (file_path content : string) :
  parses_or_SyntaxError content ->
  (imports_below_controller (file_path, content)
   /\ LayerSeparationCheck_check file_path content = Raise (KeyError "api"))
  \/ (~ imports_below_controller (file_path, content)
      /\ exists fs, LayerSeparationCheck_check file_path content = Ok fs).
Proof.
  intros Hparse.
  destruct (extract_imports_total Hparse) as [imports Himports].
  unfold imports_below_controller. cbn [fst snd].
  unfold LayerSeparationCheck_check. rewrite Himports.
  destruct (LayerSeparationCheck__identify_layer file_path) as [layer|] eqn:Hlayer.
  - pose proof (identify_layer_cases _ Hlayer) as Hcases.
    destruct Hcases as [<-|Hcases].
    + right. split.
      * intros (layer & imports' & Hl & Hne & _). injection Hl as <-. contradiction.
      * cbn [bind od_index od_get LAYERS String.eqb Ascii.eqb Bool.eqb
             prohibited_dependencies allowed_dependencies].
        rewrite controller_loop. eexists. reflexivity.
    + destruct imports as [|stmt imports].
      * right. split.
        -- intros (layer' & imports' & _ & _ & Hi & Hne). injection Hi as <-.
           contradiction.
        -- destruct Hcases as [<-|[<-|[<-|[]]]]; eexists; reflexivity.
      * left. split.
        -- exists layer, (stmt :: imports). repeat split; auto; try discriminate.
           destruct Hcases as [<-|[<-|[<-|[]]]]; discriminate.
        -- destruct Hcases as [<-|[<-|[<-|[]]]]; reflexivity.
  - right. split.
    + intros (layer & imports' & Hl & _). discriminate.
    + eexists. reflexivity.
Qed.

Lemma validate_file_result (file_path content : string) :
  parses_or_SyntaxError content ->
  (imports_below_controller (file_path, content)
   /\ ArchitectureValidator_validate_file file_path content = Raise (KeyError "api"))
  \/ (~ imports_below_controller (file_path, content)
      /\ exists fs, ArchitectureValidator_validate_file file_path content = Ok fs).
Proof.
  intros Hparse.
  unfold ArchitectureValidator_validate_file, ArchitectureValidator_checks.
  cbn [for_each].
  destruct (@layer_check_result file_path content Hparse) as [[Hbad ->]|[Hgood [fs ->]]].
  - left. split; [exact Hbad | reflexivity].
  - right. split; [exact Hgood|]. cbn [bind].
    destruct (@AsyncPatternsCheck_check_total _ file_path content Hparse) as [fa ->].
    eexists. reflexivity.
Qed.

(** The loop of [validate_project] over the files. *)
Lemma validate_files_result (files : odict string) :
  Forall (fun file => parses_or_SyntaxError (snd file)) files ->
  forall acc,
    (Exists imports_below_controller files
     /\ for_each files
          (fun results '(file_path, content) =>
             findings <- ArchitectureValidator_validate_file file_path content ;;
             Ok (record_findings results file_path findings))
          acc = Raise (KeyError "api"))
    \/ (~ Exists imports_below_controller files
        /\ exists results,
             for_each files
               (fun results '(file_path, content) =>
                  findings <- ArchitectureValidator_validate_file file_path content ;;
                  Ok (record_findings results file_path findings))
               acc = Ok results).
Proof.
  induction 1 as [|[p c] files Hparse _ IH]; intros acc.
  - right. split; [intros H; inversion H | eexists; reflexivity].
  - cbn [for_each]. cbn [snd] in Hparse.
    destruct (@validate_file_result p c Hparse) as [[Hbad ->]|[Hgood [fs ->]]].
    + left. split; [left; exact Hbad | reflexivity].
    + cbn [bind]. destruct (IH (record_findings acc p fs)) as [[Hbad Hr]|[Hok Hr]].
      * left. split; [right; exact Hbad | exact Hr].
      * right. split; [|exact Hr].
        intros H. inversion H; subst; contradiction.
Qed.

(** [validate_project] raises [KeyError('api')] in its loop over the
    files, or [RecursionError] in the cycle search, or does what it does
    with enough room, which is to return. *)
Lemma validate_project_within_result (limit : nat) (file_contents : odict string) :
  Forall (fun file => parses_or_SyntaxError (snd file)) file_contents ->
  (Exists imports_below_controller file_contents
   /\ ArchitectureValidator_validate_project_within limit file_contents
      = Raise (KeyError "api"))
  \/ (~ Exists imports_below_controller file_contents
      /\ CircularDependencyCheck_check_project_within limit file_contents
         = Raise RecursionError
      /\ ArchitectureValidator_validate_project_within limit file_contents
         = Raise RecursionError)
  \/ (~ Exists imports_below_controller file_contents
      /\ is_ok (CircularDependencyCheck_check_project_within limit file_contents) = true
      /\ ArchitectureValidator_validate_project_within limit file_contents
         = ArchitectureValidator_validate_project file_contents
      /\ exists results,
           ArchitectureValidator_validate_project file_contents = Ok results).
Proof.
  intros Hparse.
  unfold ArchitectureValidator_validate_project_within,
    ArchitectureValidator_validate_project.
  destruct (@validate_files_result file_contents Hparse [])
    as [[Hbad ->]|[Hgood [results ->]]].
  - left. split; [exact Hbad | reflexivity].
  - right. cbn [bind].
    destruct (check_project_returns file_contents) as [cf Hcf].
    destruct (check_project_within_cases limit file_contents) as [Hraise|Hsame].
    + left. split; [exact Hgood|]. split; [exact Hraise|]. rewrite Hraise. reflexivity.
    + right. split; [exact Hgood|]. rewrite Hsame, Hcf.
      split; [reflexivity|]. split; [reflexivity|]. eexists. reflexivity.
Qed.

Lemma validate_pr_within_same (limit : nat)
  (self_mode pr_title pr_description : string) (changed_files : odict string)
  (old_files : option (odict (option string))) :
  ArchitectureValidator_validate_project_within limit changed_files
  = ArchitectureValidator_validate_project changed_files ->
  QualityCheckOrchestrator_validate_pr_within limit self_mode pr_title pr_description
    changed_files old_files
  = QualityCheckOrchestrator_validate_pr self_mode pr_title pr_description
      changed_files old_files.
Proof.
  intros Hsame.
  unfold QualityCheckOrchestrator_validate_pr_within, QualityCheckOrchestrator_validate_pr.
  rewrite Hsame. reflexivity.
Qed.

Hypothesis Hclasses : class_names_nonempty.

(** X16. The outcome of [QualityCheckOrchestrator.validate_pr] is decided
    by three tests on the changeset, in this order.  If some file of the
    service, repository or model layer has an import, the run raises
    [KeyError('api')].  Otherwise, if the cycle search nests deeper than
    the interpreter allows, the run raises [RecursionError]; the search
    fits when the interpreter allows one nested call per node of the
    import graph and one more.  Otherwise, if the security validator has
    a finding, the run raises [AttributeError] in [_count_severities].
    Otherwise it returns a result.  (For changesets on whose texts, old
    and new, [ast.parse] returns or raises [SyntaxError]; the name of a
    class is not empty.) *)
Theorem X16_validate_pr_outcome (limit : nat)
  (self_mode pr_title pr_description : string) (changed_files : odict string)
  (old_files : option (odict (option string))) :
  texts_parse_or_SyntaxError changed_files
    (match old_files with Some d => d | None => [] end) ->
  let run := QualityCheckOrchestrator_validate_pr_within limit self_mode pr_title
               pr_description changed_files old_files in
  let security := od_flatten (SecurityValidator_validate_pr_changes changed_files) in
  let cycle_check := CircularDependencyCheck_check_project_within limit changed_files in
  let graph := CircularDependencyCheck__build_dependency_graph changed_files in
  (Exists imports_below_controller changed_files -> run = Raise (KeyError "api"))
  /\ (~ Exists imports_below_controller changed_files ->
      cycle_check = Raise RecursionError -> run = Raise RecursionError)
  /\ (~ Exists imports_below_controller changed_files ->
      is_ok cycle_check = true -> security <> [] -> run = Raise ATTRIBUTE_ERROR)
  /\ (~ Exists imports_below_controller changed_files ->
      is_ok cycle_check = true -> security = [] -> exists r, run = Ok r)
  /\ (cycle_check = Raise RecursionError \/ is_ok cycle_check = true)
  /\ (dfs_fuel graph <= limit -> is_ok cycle_check = true).
Proof.
  intros Htexts run security cycle_check graph.
  assert (Hcases : cycle_check = Raise RecursionError \/ is_ok cycle_check = true).
  { unfold cycle_check.
    destruct (check_project_within_cases limit changed_files) as [Hraise|Hsame];
      [left; exact Hraise | right].
    rewrite Hsame. destruct (check_project_returns changed_files) as [cf ->].
    reflexivity. }
  assert (Henough : dfs_fuel graph <= limit -> is_ok cycle_check = true).
  { intros Hle. unfold cycle_check. rewrite (check_project_within_enough _ Hle).
    destruct (check_project_returns changed_files) as [cf ->]. reflexivity. }
  destruct (@validate_project_within_result limit changed_files (proj1 Htexts))
    as [[Hbad Harch]|[(Hgood & Hcycle & Harch)|(Hgood & Hcycle & Hsame & arch & Harch)]].
  - split; [|split; [|split; [|split; [|split]]]];
      try (intros Hno; contradiction); [|exact Hcases | exact Henough].
    intros _. unfold run, QualityCheckOrchestrator_validate_pr_within.
    rewrite Harch. reflexivity.
  - fold cycle_check in Hcycle.
    split; [intros Hbad; contradiction|].
    split; [|split; [|split; [|split; [exact Hcases | exact Henough]]]].
    + intros _ _. unfold run, QualityCheckOrchestrator_validate_pr_within.
      rewrite Harch. reflexivity.
    + intros _ Hok. rewrite Hcycle in Hok. discriminate Hok.
    + intros _ Hok. rewrite Hcycle in Hok. discriminate Hok.
  - fold cycle_check in Hcycle.
    split; [intros Hbad; contradiction|].
    split; [|split; [|split; [|split; [exact Hcases | exact Henough]]]].
    + intros _ Hraise. rewrite Hraise in Hcycle. discriminate Hcycle.
    + intros _ _ Hsec. unfold run. rewrite (@validate_pr_within_same limit self_mode pr_title pr_description
                             changed_files old_files Hsame).
      destruct (@TestCoverageValidator_validate_pr_total _ pr_title pr_description
                  changed_files (proj1 Htexts)) as [test Htest].
      destruct (@BreakingChangesValidator_validate_pr_total _ Hclasses changed_files
                  (match old_files with Some d => d | None => [] end) Htexts)
        as [brk Hbrk].
      destruct (validate_pr_returns_iff self_mode pr_title pr_description changed_files
                  old_files) as [_ Hraise].
      rewrite Harch, Htest, Hbrk in Hraise. cbn [is_ok] in Hraise.
      apply Hraise; [exact Hsec | repeat split].
    + intros _ _ Hsec. unfold run. rewrite (@validate_pr_within_same limit self_mode pr_title pr_description
                             changed_files old_files Hsame).
      destruct (@TestCoverageValidator_validate_pr_total _ pr_title pr_description
                  changed_files (proj1 Htexts)) as [test Htest].
      destruct (@BreakingChangesValidator_validate_pr_total _ Hclasses changed_files
                  (match old_files with Some d => d | None => [] end) Htexts)
        as [brk Hbrk].
      destruct (validate_pr_returns_iff self_mode pr_title pr_description changed_files
                  old_files) as [Hiff _].
      rewrite Harch, Htest, Hbrk in Hiff. cbn [is_ok] in Hiff.
      destruct (QualityCheckOrchestrator_validate_pr self_mode pr_title pr_description
                  changed_files old_files) as [r|e]; [exists r; reflexivity|].
      assert (Hok : is_ok (@Raise QualityCheckResult e) = true).
      { apply Hiff. repeat split. exact Hsec. }
      discriminate Hok.
Qed.

End ValidatePrOutcome.

Lemma sample_parse (content : string) : @parses_or_SyntaxError sample_runtime content.
Proof.
  unfold parses_or_SyntaxError, ast_nodes, sample_runtime.
  destruct (od_get sample_trees content) as [nodes|];
    [left; exists nodes; reflexivity | right; reflexivity].
Qed.

Lemma sample_texts (changed_files : odict string) (old_files : odict (option string)) :
  @texts_parse_or_SyntaxError sample_runtime changed_files old_files.
Proof.
  split; [apply Forall_forall; intros file _; apply sample_parse|].
  intros file_path old _. apply sample_parse.
Qed.

Lemma sample_classes : @class_names_nonempty sample_runtime.
Proof.
  intros content nodes Hnodes. unfold ast_nodes, sample_runtime in Hnodes.
  destruct (od_get sample_trees content) as [nodes'|] eqn:Hget; [|discriminate].
  injection Hnodes as ->. apply od_get_In in Hget.
  unfold sample_trees, demo_trees, od_values in Hget. simpl in Hget.
  repeat (destruct Hget as [<-|Hget];
          [simpl; intuition discriminate|]).
  destruct Hget.
Qed.

Lemma X16_validate_pr_outcome_witness :
  @QualityCheckOrchestrator_validate_pr_within sample_runtime 50 "error" "feat: users" ""
    [("services/user.py", "import os")] None = Raise (KeyError "api")
  /\ @QualityCheckOrchestrator_validate_pr_within sample_runtime 2 "error" "feat: chain" ""
       linear_chain None = Raise RecursionError
  /\ @QualityCheckOrchestrator_validate_pr_within sample_runtime 50 "error" "feat: key" ""
       leaked_key None = Raise ATTRIBUTE_ERROR
  /\ exists r,
       @QualityCheckOrchestrator_validate_pr_within sample_runtime 50 "error" "feat: users"
         "" demo_changed (Some demo_old) = Ok r.
Proof.
  assert (Hgood : forall files,
             Forall (fun file =>
                       LayerSeparationCheck__identify_layer (fst file) = None
                       \/ LayerSeparationCheck__identify_layer (fst file)
                          = Some "controller") files ->
             ~ Exists (@imports_below_controller sample_runtime) files).
  { intros files Hall Hex. apply Exists_exists in Hex as [file [Hin Hbad]].
    rewrite Forall_forall in Hall.
    destruct Hbad as (layer & imports & Hl & Hne & _).
    destruct (Hall _ Hin) as [Hnone|Hctl]; rewrite Hl in *;
      [discriminate | injection Hctl as ->; contradiction]. }
  split; [|split; [|split]].
  - apply (@X16_validate_pr_outcome sample_runtime sample_classes 50 "error" "feat: users"
             "" [("services/user.py", "import os")] None (sample_texts _ _)).
    left. exists "service", [mk_import "import" "os" 1].
    split; [vm_compute; reflexivity|]. split; [discriminate|].
    split; [vm_compute; reflexivity | discriminate].
  - apply (@X16_validate_pr_outcome sample_runtime sample_classes 2 "error" "feat: chain"
             "" linear_chain None (sample_texts _ _)).
    + apply Hgood. repeat constructor; vm_compute; reflexivity.
    + vm_compute. reflexivity.
  - apply (@X16_validate_pr_outcome sample_runtime sample_classes 50 "error" "feat: key"
             "" leaked_key None (sample_texts _ _)).
    + apply Hgood. repeat constructor; vm_compute; reflexivity.
    + vm_compute. reflexivity.
    + vm_compute. discriminate.
  - apply (@X16_validate_pr_outcome sample_runtime sample_classes 50 "error" "feat: users"
             "" demo_changed (Some demo_old) (sample_texts _ _)).
    + apply Hgood. constructor; [|constructor]. right. vm_compute. reflexivity.
    + vm_compute. reflexivity.
    + vm_compute. reflexivity.
Defined.

(** ** The exclusions of the credential check

    The patterns of [EXCLUDE_PATTERNS] are searched in the matched text,
    ignoring case, so a keyword anywhere in it excludes the match. *)

Lemma last_cons_default (A : Type) (l : list A) :
  forall (x d d' : A), last (x :: l) d = last (x :: l) d'.
Proof.
  induction l as [|y l IH]; intros x d d'; [reflexivity|].
  change (last (y :: l) d = last (y :: l) d'). apply IH.
Qed.

Lemma last_cons_some (l : list ascii) (c : ascii) (p : option ascii) :
  last (map Some (c :: l)) p = last (map Some l) (Some c).
Proof.
  destruct l as [|a l]; [reflexivity|].
  cbn [map]. change (last (Some a :: map Some l) p = last (Some a :: map Some l) (Some c)).
  apply last_cons_default.
Qed.

Lemma run_literal (R : Type) (w : list ascii) (r : Re.regex) :
  forall (w' tl : list ascii) (st : Re.mstate) (k : Re.mstate -> option R),
    map Py.lower_char w' = map Py.lower_char w ->
    Re.rest st = w' ++ tl ->
    Re.run true (literal_then w r) st k = Re.run true r (after_chars st w' tl) k.
Proof.
  induction w as [|c w IH]; intros w' tl st k Hlow Hrest.
  - destruct w'; [|discriminate]. cbn [literal_then fold_right].
    unfold after_chars. simpl. simpl in Hrest. rewrite <- Hrest. destruct st; reflexivity.
  - destruct w' as [|c' w']; [discriminate|]. injection Hlow as Hc Hlow.
    cbn [literal_then fold_right Re.run]. rewrite Hrest. cbn [app Re.atom_match].
    rewrite Hc, Ascii.eqb_refl.
    fold (literal_then w r). rewrite (IH w' tl); [|exact Hlow | reflexivity].
    f_equal. unfold after_chars, Re.step_char. cbn [Re.rest Re.prev Re.pos Re.caps].
    f_equal.
    + symmetry. apply last_cons_some.
    + cbn [length]. lia.
Qed.

(** A pattern that matches at some offset is found by [search]. *)
Lemma search_from_found (ic : bool) (r : Re.regex) (pre : list ascii) :
  forall (s : list ascii) (p : option ascii) (n : nat),
    Re.match_at ic r s (last (map Some pre) p) (length pre + n) <> None ->
    Re.search_from ic r (pre ++ s) p n <> None.
Proof.
  induction pre as [|c pre IH]; intros s p n Hm.
  - cbn [app]. destruct s; cbn [Re.search_from];
      cbn [map last length Nat.add] in Hm;
      destruct (Re.match_at ic r _ p n); try discriminate; contradiction.
  - cbn [app Re.search_from]. destruct (Re.match_at ic r (c :: pre ++ s) p n);
      [discriminate|].
    apply IH. replace (length pre + S n) with (length (c :: pre) + n) by (simpl; lia).
    rewrite <- (last_cons_some pre c p). exact Hm.
Qed.

Lemma startswith_split (w s : string) :
  Py.startswith s w = true ->
  exists tl, list_ascii_of_string s = list_ascii_of_string w ++ tl.
Proof.
  revert s. induction w as [|a w IH]; intros s H.
  - exists (list_ascii_of_string s). reflexivity.
  - destruct s as [|b s]; [discriminate|]. simpl in H.
    apply andb_true_iff in H as [Hab H]. apply Ascii.eqb_eq in Hab. subst b.
    destruct (IH s H) as [tl Htl]. exists tl. simpl. rewrite Htl. reflexivity.
Qed.

Lemma contains_split (w s : string) :
  Py.contains w s = true ->
  exists pre tl, list_ascii_of_string s = pre ++ list_ascii_of_string w ++ tl.
Proof.
  induction s as [|b s IH]; intros H.
  - change (Py.startswith "" w || false = true) in H.
    rewrite orb_false_r in H. apply startswith_split in H as [tl Htl].
    exists [], tl. exact Htl.
  - cbn [Py.contains] in H. apply orb_true_iff in H as [H|H].
    + apply startswith_split in H as [tl Htl]. exists [], tl. exact Htl.
    + destruct (IH H) as (pre & tl & Hs). exists (b :: pre), tl. simpl. rewrite Hs.
      reflexivity.
Qed.

Lemma lower_chars (s : string) :
  list_ascii_of_string (Py.lower s) = map Py.lower_char (list_ascii_of_string s).
Proof.
  unfold Py.lower. induction s as [|c s IH]; [reflexivity|].
  simpl. rewrite IH. reflexivity.
Qed.

Lemma map_app_split (A B : Type) (f : A -> B) (l : list A) (l1 l2 : list B) :
  map f l = l1 ++ l2 -> exists a b, l = a ++ b /\ map f a = l1 /\ map f b = l2.
Proof.
  revert l. induction l1 as [|x l1 IH]; intros l H.
  - exists [], l. auto.
  - destruct l as [|y l]; [discriminate|]. injection H as Hx H.
    destruct (IH l H) as (a & b & -> & Ha & Hb).
    exists (y :: a), b. simpl. rewrite Hx, Ha. auto.
Qed.

(** A keyword occurs in a text, in any letter case. *)
Lemma occurs_ignoring_case (keyword text : string) :
  Py.contains keyword (Py.lower text) = true ->
  exists pre w tl,
    list_ascii_of_string text = pre ++ w ++ tl
    /\ map Py.lower_char w = list_ascii_of_string keyword.
Proof.
  intros H. apply contains_split in H as (pre & tl & H).
  rewrite lower_chars in H.
  apply map_app_split in H as (a & b & -> & _ & Hb).
  apply map_app_split in Hb as (w & c & -> & Hw & _).
  exists a, w, c. auto.
Qed.

(** A pattern that starts with the characters of a lower-case keyword and
    then accepts whatever follows is found in every text that holds the
    keyword. *)
Lemma keyword_found (pattern keyword text : string) (r r' : Re.regex) :
  Re.compile pattern = Some r ->
  (forall st, Re.run true r st (fun st' => Some st')
              = Re.run true (literal_then (list_ascii_of_string keyword) r') st
                  (fun st' => Some st')) ->
  map Py.lower_char (list_ascii_of_string keyword) = list_ascii_of_string keyword ->
  (forall st, Re.run true r' st (fun st' => Some st') <> None) ->
  Py.contains keyword (Py.lower text) = true ->
  Re.search_i pattern text = true.
Proof.
  intros Hcompile Hshape Hlower Hrest Hocc.
  destruct (occurs_ignoring_case _ _ Hocc) as (pre & w & tl & Htext & Hw).
  unfold Re.search_i, Re.search_m. rewrite Hcompile. unfold Re.search_rx.
  rewrite Htext.
  destruct (Re.search_from true _ (pre ++ w ++ tl) None 0) eqn:Hs; [reflexivity|].
  exfalso. revert Hs. apply search_from_found.
  unfold Re.match_at. rewrite Hshape.
  rewrite (@run_literal _ (list_ascii_of_string keyword) r' w tl);
    [|rewrite Hw; symmetry; exact Hlower | reflexivity].
  destruct (Re.run true r' _ _) eqn:Hrun; [discriminate|].
  exfalso. exact (Hrest _ Hrun).
Qed.

Lemma star_continues (R : Type) (a : Re.atom) (s : list ascii) :
  forall p n cs (k : Re.mstate -> option R),
    (forall st, k st <> None) -> Re.star true a s p n cs k <> None.
Proof.
  induction s as [|c s IH]; intros p n cs k Hk; cbn [Re.star]; [apply Hk|].
  destruct (Re.atom_match true a c); [|apply Hk].
  destruct (Re.star true a s (Some c) (S n) cs k) eqn:H; [discriminate|].
  exfalso. exact (IH _ _ _ _ Hk H).
Qed.

Ltac plain_keyword word :=
  exists word; split; [simpl; tauto|];
  eapply keyword_found with (keyword := word) (r' := Re.REmpty);
  [reflexivity | intros st; reflexivity | reflexivity | discriminate | eassumption].

(** X17. A matched text that contains one of the words [test], [example],
    [sample], [demo], [fake], [mock], [placeholder] or [xxx] anywhere, in
    upper or lower case, is excluded by
    [HardcodedCredentialsCheck._is_excluded].  The matched text is the
    part of the line that the credential pattern matched, from the start
    of the pattern to the closing quote: a word before it does not
    count. *)
Theorem X17_exclusion_keywords (keyword matched_text : string) :
  In keyword EXCLUDE_KEYWORDS ->
  Py.contains keyword (Py.lower matched_text) = true ->
  HardcodedCredentialsCheck__is_excluded matched_text = true.
Proof.
  intros Hin Hocc. unfold HardcodedCredentialsCheck__is_excluded.
  apply existsb_exists. unfold EXCLUDE_KEYWORDS in Hin. simpl in Hin.
  destruct Hin as [<-|[<-|[<-|[<-|[<-|[<-|[<-|[<-|[]]]]]]]]].
  - exists "test[_-]?". split; [simpl; tauto|].
    eapply keyword_found with (keyword := "test")
      (r' := Re.ROpt (Re.ASet false [Re.ILit "_"; Re.ILit "-"]));
      [reflexivity | intros st; reflexivity | reflexivity | | exact Hocc].
    intros st. cbn [Re.run].
    destruct (Re.rest st) as [|c tl]; [discriminate|].
    destruct (Re.atom_match true _ c); discriminate.
  - plain_keyword "example".
  - plain_keyword "sample".
  - plain_keyword "demo".
  - plain_keyword "fake".
  - plain_keyword "mock".
  - plain_keyword "placeholder".
  - exists "xxx+". split; [simpl; tauto|].
    eapply keyword_found with (keyword := "xxx") (r' := Re.RStar (Re.AChar "x"));
      [reflexivity | intros st; reflexivity | reflexivity | | exact Hocc].
    intros st. cbn [Re.run]. apply star_continues. discriminate.
Qed.

Lemma X17_exclusion_keywords_witness :
  HardcodedCredentialsCheck__is_excluded
    ("api_key = " +++ Py.dq +++ "my_Example_key_1234" +++ Py.dq) = true.
Proof.
  apply (@X17_exclusion_keywords "example"); [simpl; tauto | vm_compute; reflexivity].
Defined.

(** A key whose name says [test] ahead of the pattern is reported: the
    matched text starts at [api_key]. *)
Example word_before_the_match_does_not_exclude :
  exists f,
    HardcodedCredentialsCheck_check "src/settings.py" test_named_key = [f]
    /\ sf_line_content f = test_named_key
    /\ option_map Re.m_text
         (Re.search_m true ("api[_-]?key\s*[=:]\s*" +++ QUOTED) test_named_key)
       = Some ("api_key = " +++ Py.dq +++ "sk_live_abc123" +++ Py.dq).
Proof.
  eexists. split; [vm_compute; reflexivity|]. split; vm_compute; reflexivity.
Qed.

(** ** Performance findings *)

Lemma line_numbered_nth (content : string) (i : nat) :
  line_numbered content (Z.of_nat i + 1) = nth_error (Py.split_lines content) i.
Proof.
  unfold line_numbered. destruct (Z.leb_spec 1 (Z.of_nat i + 1)); [|lia].
  f_equal. lia.
Qed.

Lemma In_firstn_nth (A : Type) (n : nat) (l : list A) (x : A) :
  In x (firstn n l) -> exists j, j < n /\ nth_error l j = Some x.
Proof.
  revert l. induction n as [|n IH]; intros l Hin; [destruct Hin|].
  destruct l as [|y l]; [destruct Hin|]. destruct Hin as [->|Hin].
  - exists 0. split; [lia | reflexivity].
  - destruct (IH l Hin) as (j & Hj & Hnth). exists (S j). split; [lia | exact Hnth].
Qed.

(** What backs a finding of the scan that starts at line [start]. *)
Lemma n_plus_one_scan_sound (file_path : string) (lines : list string) :
  forall (start : Z) (f : PerformanceFinding),
    In f (n_plus_one_scan file_path start lines) ->
    exists i line j next,
      pf_line_number f = (start + Z.of_nat i)%Z
      /\ nth_error lines i = Some line
      /\ f = n_plus_one_finding file_path (pf_line_number f) line
      /\ existsb (fun pattern => Re.search pattern line) LOOP_PATTERNS = true
      /\ j < 19 /\ nth_error lines (i + 1 + j) = Some next
      /\ existsb (fun pattern => Re.search pattern next) QUERY_PATTERNS = true.
Proof.
  induction lines as [|line lines IH]; intros start f Hin; [destruct Hin|].
  cbn [n_plus_one_scan] in Hin. apply in_app_or in Hin. destruct Hin as [Hin|Hin].
  - destruct (existsb _ LOOP_PATTERNS) eqn:Hloop; [|destruct Hin].
    destruct (existsb _ (firstn 19 lines)) eqn:Hquery; [|destruct Hin].
    destruct Hin as [<-|[]].
    apply existsb_exists in Hquery as (next & Hnext & Hq).
    apply In_firstn_nth in Hnext as (j & Hj & Hnth).
    exists 0, line, j, next. cbn [pf_line_number n_plus_one_finding].
    repeat split; auto. lia.
  - destruct (IH _ _ Hin) as (i & l & j & next & Hn & Hl & Hf & Hloop & Hj & Hnext & Hq).
    exists (S i), l, j, next. repeat split; auto. lia.
Qed.

Lemma n_plus_one_scan_sorted (file_path : string) (lines : list string) :
  forall (start : Z),
    StronglySorted Z.lt (map pf_line_number (n_plus_one_scan file_path start lines)).
Proof.
  induction lines as [|line lines IH]; intros start; [constructor|].
  cbn [n_plus_one_scan].
  assert (Hrest : Forall (fun n => (start < n)%Z)
                    (map pf_line_number (n_plus_one_scan file_path (start + 1) lines))).
  { apply Forall_forall. intros n Hn. apply in_map_iff in Hn as [f [<- Hf]].
    apply n_plus_one_scan_sound in Hf as (i & _ & _ & _ & -> & _). lia. }
  repeat match goal with
    | |- context [if ?c then _ else _] => destruct c
    end; cbn [app map]; try apply IH.
  constructor; [apply IH | exact Hrest].
Qed.

(** X18. Every finding of [NPlusOneQueryCheck.check] is on a line of the
    content that matches a loop pattern and is followed, within the next
    nineteen lines, by a line that matches a query pattern; and the
    findings come in strictly increasing line order, so a loop line is
    reported at most once however many queries follow it. *)
Theorem X18_n_plus_one_findings (file_path content : string) :
  (forall f,
      In f (NPlusOneQueryCheck_check file_path content) ->
      exists line k next,
        line_numbered content (pf_line_number f) = Some line
        /\ existsb (fun pattern => Re.search pattern line) LOOP_PATTERNS = true
        /\ (1 <= k <= 19)%Z
        /\ line_numbered content (pf_line_number f + k) = Some next
        /\ existsb (fun pattern => Re.search pattern next) QUERY_PATTERNS = true)
  /\ StronglySorted Z.lt
       (map pf_line_number (NPlusOneQueryCheck_check file_path content)).
Proof.
  unfold NPlusOneQueryCheck_check. destruct (negb _).
  - split; [intros f [] | constructor].
  - split; [|apply n_plus_one_scan_sorted].
    intros f Hin.
    apply n_plus_one_scan_sound in Hin
      as (i & line & j & next & Hn & Hl & _ & Hloop & Hj & Hnext & Hq).
    exists line, (Z.of_nat j + 1)%Z, next. rewrite Hn.
    replace (1 + Z.of_nat i)%Z with (Z.of_nat i + 1)%Z by lia.
    replace (Z.of_nat i + 1 + (Z.of_nat j + 1))%Z with (Z.of_nat (i + 1 + j) + 1)%Z by lia.
    rewrite !line_numbered_nth. repeat split; auto; lia.
Qed.

(** A loop over the numbered lines keeps an invariant that may speak of
    the lines already seen. *)
Lemma fold_lines_inv (S : Type) (I : nat -> S -> Prop)
  (step : S -> Z * string -> S) (lines : list string) (init : S) :
  I 0 init ->
  (forall i line s, nth_error lines i = Some line -> I i s ->
                    I (Datatypes.S i) (step s (Z.of_nat i + 1, line)%Z)) ->
  I (length lines) (fold_left step (Py.enumerate 1 lines) init).
Proof.
  intros Hinit Hstep.
  assert (Hgen : forall rest done s,
             lines = done ++ rest -> I (length done) s ->
             I (length lines)
               (fold_left step (Py.enumerate (Z.of_nat (length done) + 1) rest) s)).
  { induction rest as [|x rest IH]; intros done s Hlines Hs.
    - rewrite Hlines, app_nil_r. exact Hs.
    - cbn [Py.enumerate fold_left].
      replace (Z.of_nat (length done) + 1 + 1)%Z
        with (Z.of_nat (length (done ++ [x])) + 1)%Z
        by (rewrite length_app; simpl; lia).
      apply IH.
      + rewrite <- app_assoc. exact Hlines.
      + rewrite length_app. cbn [length]. rewrite Nat.add_1_r.
        apply Hstep; [|exact Hs].
        rewrite Hlines, nth_error_app2 by lia. rewrite Nat.sub_diag. reflexivity. }
  apply (Hgen lines [] init); [reflexivity | exact Hinit].
Qed.

Lemma pop_dedented_incl (indent : nat) (stack : list (Z * nat)) :
  incl (pop_dedented indent stack) stack.
Proof.
  induction stack as [|[n top] stack IH]; [apply incl_refl|].
  cbn [pop_dedented]. destruct (Nat.leb indent top).
  - intros x Hx. right. exact (IH x Hx).
  - apply incl_refl.
Qed.

Lemma pop_dedented_top (indent : nat) (stack : list (Z * nat)) (n : Z) (top : nat)
  (below : list (Z * nat)) :
  pop_dedented indent stack = (n, top) :: below -> top < indent.
Proof.
  induction stack as [|[m t] stack IH]; [discriminate|].
  cbn [pop_dedented]. destruct (Nat.leb_spec indent t) as [Hle|Hlt].
  - exact IH.
  - intros H. injection H as -> -> ->. exact Hlt.
Qed.

Lemma X18_n_plus_one_findings_witness :
  exists f line k next,
    NPlusOneQueryCheck_check "app/orders.py" query_in_loop_py = [f]
    /\ pf_line_number f = 2%Z
    /\ line_numbered query_in_loop_py (pf_line_number f) = Some line
    /\ existsb (fun pattern => Re.search pattern line) LOOP_PATTERNS = true
    /\ (1 <= k <= 19)%Z
    /\ line_numbered query_in_loop_py (pf_line_number f + k) = Some next
    /\ existsb (fun pattern => Re.search pattern next) QUERY_PATTERNS = true.
Proof.
  assert (Hrun : NPlusOneQueryCheck_check "app/orders.py" query_in_loop_py
                 = [n_plus_one_finding "app/orders.py" 2 "for user in users:"]).
  { vm_compute. reflexivity. }
  destruct (proj1 (X18_n_plus_one_findings "app/orders.py" query_in_loop_py)
              (n_plus_one_finding "app/orders.py" 2 "for user in users:"))
    as (line & k & next & H).
  { rewrite Hrun. left. reflexivity. }
  exists (n_plus_one_finding "app/orders.py" 2 "for user in users:"), line, k, next.
  split; [exact Hrun|]. split; [reflexivity | exact H].
Defined.

(** X19. Every finding of [_check_nested_loops] is on a line that starts
    a [for] loop and has, somewhere above it, a line that starts a [for]
    loop with a smaller indentation. *)
Theorem X19_nested_loop_findings (file_path : string) (lines : list string)
  (f : PerformanceFinding) :
  In f (AlgorithmComplexityCheck__check_nested_loops file_path lines) ->
  exists i j inner outer,
    j < i
    /\ nth_error lines i = Some inner /\ nth_error lines j = Some outer
    /\ pf_line_number f = (Z.of_nat i + 1)%Z
    /\ Re.match_ FOR_LOOP inner = true /\ Re.match_ FOR_LOOP outer = true
    /\ indent_of outer < indent_of inner.
Proof.
  unfold AlgorithmComplexityCheck__check_nested_loops.
  set (step := fun '(indent_stack, findings) '(line_num, line) => _).
  set (P := fun (n : nat) (f : PerformanceFinding) =>
              exists i j inner outer,
                i < n /\ j < i
                /\ nth_error lines i = Some inner /\ nth_error lines j = Some outer
                /\ pf_line_number f = (Z.of_nat i + 1)%Z
                /\ Re.match_ FOR_LOOP inner = true /\ Re.match_ FOR_LOOP outer = true
                /\ indent_of outer < indent_of inner).
  assert (Hinv : (fun n (s : list (Z * nat) * list PerformanceFinding) =>
                    (forall e, In e (fst s) ->
                               for_line lines e /\ (fst e <= Z.of_nat n)%Z)
                    /\ forall f, In f (snd s) -> P n f)
                   (length lines) (fold_left step (Py.enumerate 1 lines) ([], []))).
  { apply fold_lines_inv.
    - split; intros x [].
    - intros i line [stack findings] Hline [Hstack Hfind]. cbn [fst snd] in *.
      assert (Hold : forall f0, In f0 findings -> P (S i) f0).
      { intros f0 Hf0. destruct (Hfind f0 Hf0) as (a & b & inner & outer & Ha & Hrest).
        exists a, b, inner, outer. split; [lia | exact Hrest]. }
      unfold step. destruct (Re.match_ FOR_LOOP line) eqn:Hfor.
      + cbn [fst snd]. split.
        * intros e [<-|He].
          -- split; [|cbn [fst]; lia]. exists i, line. repeat split; auto.
          -- apply pop_dedented_incl in He. destruct (Hstack e He) as [Hfl Hle].
             split; [exact Hfl | lia].
        * destruct (pop_dedented (indent_of line) stack) as [|[n top] below] eqn:Hpop;
            [exact Hold|].
          intros f0 Hf0. apply in_app_or in Hf0. destruct Hf0 as [Hf0|[<-|[]]];
            [exact (Hold f0 Hf0)|].
          assert (Hin : In (n, top) stack).
          { apply (pop_dedented_incl (indent_of line)). rewrite Hpop. left. reflexivity. }
          destruct (Hstack _ Hin) as [(j & outer & Hj & Hn & Hm & Hind) Hle].
          cbn [fst snd] in *.
          exists i, j, line, outer. cbn [pf_line_number].
          repeat split; auto; try lia.
          rewrite Hind. exact (pop_dedented_top _ _ Hpop).
      + cbn [fst snd]. split; [|exact Hold].
        intros e He. destruct (Hstack e He) as [Hfl Hle]. split; [exact Hfl | lia]. }
  intros Hin. destruct Hinv as [_ Hfind].
  destruct (Hfind f Hin) as (i & j & inner & outer & _ & Hrest).
  exists i, j, inner, outer. exact Hrest.
Qed.

Lemma X19_nested_loop_findings_witness :
  exists f i j inner outer,
    AlgorithmComplexityCheck__check_nested_loops "app/pairs.py"
      (Py.split_lines nested_loops_py) = [f]
    /\ j < i
    /\ nth_error (Py.split_lines nested_loops_py) i = Some inner
    /\ nth_error (Py.split_lines nested_loops_py) j = Some outer
    /\ pf_line_number f = (Z.of_nat i + 1)%Z
    /\ Re.match_ FOR_LOOP inner = true /\ Re.match_ FOR_LOOP outer = true
    /\ indent_of outer < indent_of inner.
Proof.
  assert (Hrun : exists f,
             AlgorithmComplexityCheck__check_nested_loops "app/pairs.py"
               (Py.split_lines nested_loops_py) = [f]).
  { eexists. vm_compute. reflexivity. }
  destruct Hrun as [f Hrun].
  destruct (@X19_nested_loop_findings "app/pairs.py" (Py.split_lines nested_loops_py) f)
    as (i & j & inner & outer & H).
  { rewrite Hrun. left. reflexivity. }
  exists f, i, j, inner, outer. split; [exact Hrun | exact H].
Defined.

Ltac located line Hn :=
  split; [reflexivity|]; split; [simpl; tauto|];
  exists line; split; [apply enumerate_line; exact Hn | reflexivity].

Lemma fold_findings_located (S : Type) (file_path content : string)
  (step : S * list PerformanceFinding -> Z * string -> S * list PerformanceFinding)
  (init : S) :
  (forall s findings n line,
      line_numbered content n = Some line ->
      (snd (step (s, findings) (n, line)) = findings
       \/ exists f, snd (step (s, findings) (n, line)) = findings ++ [f]
                    /\ pf_file_path f = file_path
                    /\ In (pf_severity f) REPORTED_SEVERITIES
                    /\ pf_line_number f = n /\ pf_line_content f = Py.strip line)) ->
  Forall (perf_located file_path content)
         (snd (fold_left step (Py.enumerate 1 (Py.split_lines content)) (init, []))).
Proof.
  intros Hstep.
  apply (@fold_lines_inv _ (fun _ s => Forall (perf_located file_path content) (snd s))).
  - constructor.
  - intros i line [s findings] Hline Hinv. cbn [snd] in Hinv.
    assert (Hl : line_numbered content (Z.of_nat i + 1) = Some line).
    { rewrite line_numbered_nth. exact Hline. }
    destruct (Hstep s findings _ _ Hl) as [->|(f & -> & Hp & Hs & Hn & Hc)];
      [exact Hinv|].
    apply Forall_app. split; [exact Hinv|]. constructor; [|constructor].
    split; [exact Hp|]. split; [exact Hs|]. exists line. rewrite Hn. auto.
Qed.

(** Every finding of [PerformanceValidator.validate_file] is about a line
    of the file, and its severity is one the report counts. *)
Lemma PerformanceValidator_validate_file_located (file_path content : string) :
  Forall (perf_located file_path content)
         (PerformanceValidator_validate_file file_path content).
Proof.
  unfold PerformanceValidator_validate_file, PerformanceValidator_checks.
  cbn [flat_map]. rewrite app_nil_r.
  repeat (apply Forall_app; split).
  - apply Forall_forall. intros f Hin. unfold NPlusOneQueryCheck_check in Hin.
    destruct (negb _); [destruct Hin|].
    apply n_plus_one_scan_sound in Hin
      as (i & line & _ & _ & Hn & Hl & Hf & _).
    rewrite Hf. split; [reflexivity|]. split; [simpl; tauto|].
    exists line. cbn [pf_line_number pf_line_content n_plus_one_finding].
    rewrite Hn. replace (1 + Z.of_nat i)%Z with (Z.of_nat i + 1)%Z by lia.
    rewrite line_numbered_nth. auto.
  - apply Forall_forall. intros f Hin. unfold DatabaseIndexCheck_check in Hin.
    destruct (negb _); [destruct Hin|].
    apply in_flat_map in Hin as [[n line] [Hn Hin]].
    apply in_flat_map in Hin as [[[fk ix] ty] [_ Hin]].
    one_finding_eqn Hin. located line Hn.
  - unfold AlgorithmComplexityCheck_check.
    destruct (_ || _); [constructor|].
    repeat (apply Forall_app; split).
    + unfold AlgorithmComplexityCheck__check_nested_loops.
      apply fold_findings_located. intros s findings n line Hl. cbn [snd].
      destruct (Re.match_ FOR_LOOP line); [|left; reflexivity]. cbn [snd].
      destruct (pop_dedented _ s); [left; reflexivity|].
      right. eexists. split; [reflexivity|]. repeat split. simpl. tauto.
    + apply Forall_forall. intros f Hin.
      unfold AlgorithmComplexityCheck__check_inefficient_list_ops in Hin.
      apply in_flat_map in Hin as [[n line] [Hn Hin]].
      apply in_flat_map in Hin as [[pattern suggestion] [_ Hin]].
      one_finding_eqn Hin. located line Hn.
    + unfold AlgorithmComplexityCheck__check_loop_invariants.
      apply fold_findings_located. intros s findings n line Hl. cbn [snd].
      destruct (_ && _); [|left; reflexivity].
      right. eexists. split; [reflexivity|]. repeat split. simpl. tauto.
  - apply Forall_forall. intros f Hin. unfold MemoryLeakCheck_check in Hin.
    apply in_flat_map in Hin as [[n line] [Hn Hin]].
    apply in_flat_map in Hin as [[pattern issue] [_ Hin]].
    one_finding_eqn Hin. located line Hn.
Qed.

(** X20. Every finding of [PerformanceValidator.validate_file] is about
    the file it was given and about one of its lines (the line number is
    that of a line of the content, whose stripped text is [line_content]),
    and its severity is high, medium or low: the performance checks never
    report a critical finding. *)
Theorem X20_performance_finding_location (file_path content : string)
  (f : PerformanceFinding) :
  In f (PerformanceValidator_validate_file file_path content) ->
  pf_file_path f = file_path
  /\ In (pf_severity f) REPORTED_SEVERITIES
  /\ exists line,
       line_numbered content (pf_line_number f) = Some line
       /\ pf_line_content f = Py.strip line.
Proof.
  intros Hin.
  pose proof (PerformanceValidator_validate_file_located file_path content) as Hall.
  rewrite Forall_forall in Hall. exact (Hall f Hin).
Qed.

Lemma X20_performance_finding_location_witness :
  exists f line,
    PerformanceValidator_validate_file "app/pairs.py" nested_loops_py = [f]
    /\ pf_severity f = "medium"
    /\ line_numbered nested_loops_py (pf_line_number f) = Some line
    /\ pf_line_content f = Py.strip line.
Proof.
  assert (Hrun : exists f,
             PerformanceValidator_validate_file "app/pairs.py" nested_loops_py = [f]
             /\ pf_severity f = "medium").
  { eexists. split; vm_compute; reflexivity. }
  destruct Hrun as (f & Hrun & Hsev).
  destruct (@X20_performance_finding_location "app/pairs.py" nested_loops_py f)
    as (_ & _ & line & Hline & Hcontent).
  { rewrite Hrun. left. reflexivity. }
  exists f, line. repeat split; assumption.
Defined.

(** ** Reports

    *** Grouping by file *)

(** A loop over a list keeps an invariant that may speak of the elements
    already seen. *)
Lemma fold_left_prefix_inv (A S : Type) (I : list A -> S -> Prop) (f : S -> A -> S)
  (l : list A) (init : S) :
  I [] init ->
  (forall done x s, I done s -> I (done ++ [x]) (f s x)) ->
  I l (fold_left f l init).
Proof.
  intros Hinit Hstep.
  assert (Hgen : forall rest done s, I done s -> I (done ++ rest) (fold_left f rest s)).
  { induction rest as [|x rest IH]; intros done s Hs.
    - rewrite app_nil_r. exact Hs.
    - cbn [fold_left]. replace (done ++ x :: rest) with ((done ++ [x]) ++ rest)
        by (rewrite <- app_assoc; reflexivity).
      apply IH. apply Hstep. exact Hs. }
  exact (Hgen l [] init Hinit).
Qed.

Lemma od_get_set_same (V : Type) (d : odict V) (k : string) (v : V) :
  od_get (od_set d k v) k = Some v.
Proof.
  induction d as [|[k' v'] d IH]; simpl.
  - rewrite String.eqb_refl. reflexivity.
  - destruct (String.eqb_spec k' k) as [->|Hne]; simpl.
    + rewrite String.eqb_refl. reflexivity.
    + apply String.eqb_neq in Hne. rewrite Hne. exact IH.
Qed.

Lemma od_get_set_other (V : Type) (d : odict V) (k k0 : string) (v : V) :
  k0 <> k -> od_get (od_set d k v) k0 = od_get d k0.
Proof.
  intros Hne. induction d as [|[k' v'] d IH]; simpl.
  - destruct (String.eqb_spec k k0); [congruence | reflexivity].
  - destruct (String.eqb_spec k' k) as [->|Hk]; simpl.
    + destruct (String.eqb_spec k k0); [congruence | reflexivity].
    + destruct (String.eqb k' k0); [reflexivity | exact IH].
Qed.

Lemma od_set_flatten (V : Type) (d : odict (list V)) (k : string) (xs ys : list V) :
  od_get d k = Some xs ->
  Permutation (od_flatten (od_set d k (xs ++ ys))) (od_flatten d ++ ys).
Proof.
  unfold od_flatten, od_values.
  induction d as [|[k' v'] d IH]; simpl; [discriminate|].
  destruct (String.eqb k' k).
  - intros H. injection H as ->. simpl. rewrite <- !app_assoc.
    apply Permutation_app_head. apply Permutation_app_comm.
  - intros H. simpl. rewrite <- app_assoc. apply Permutation_app_head. exact (IH H).
Qed.

(** What the loop of [_group_findings_by_file] keeps. *)
Lemma group_by_file_inv (F : Type) (file_path : F -> string)
  (findings : list F) :
  let grouped := QualityCheckOrchestrator__group_findings_by_file file_path findings in
  NoDup (od_keys grouped)
  /\ (forall k, od_get grouped k
                = match findings_of file_path k findings with
                  | [] => None
                  | fs => Some fs
                  end)
  /\ Permutation (od_flatten grouped) findings.
Proof.
  unfold QualityCheckOrchestrator__group_findings_by_file.
  apply (@fold_left_prefix_inv _ _
           (fun done grouped =>
              NoDup (od_keys grouped)
              /\ (forall k, od_get grouped k
                            = match findings_of file_path k done with
                              | [] => None
                              | fs => Some fs
                              end)
              /\ Permutation (od_flatten grouped) done)).
  - split; [constructor|]. split; [reflexivity | constructor].
  - intros done x d (Hnd & Hget & Hperm). unfold dict_append.
    assert (Hfilter : forall k,
               findings_of file_path k (done ++ [x])
               = findings_of file_path k done
                 ++ (if String.eqb (file_path x) k then [x] else [])).
    { intros k. unfold findings_of. rewrite filter_app. cbn [filter].
      destruct (String.eqb (file_path x) k); reflexivity. }
    pose proof (Hget (file_path x)) as Hx.
    destruct (od_get d (file_path x)) as [xs|] eqn:Hd.
    + split; [apply od_set_keys_NoDup; exact Hnd|]. split.
      * intros k. rewrite Hfilter. destruct (String.eqb_spec (file_path x) k) as [<-|Hne].
        -- rewrite od_get_set_same.
           destruct (findings_of file_path (file_path x) done); [discriminate|].
           injection Hx as ->. reflexivity.
        -- rewrite od_get_set_other by congruence. rewrite app_nil_r. apply Hget.
      * rewrite (@od_set_flatten _ _ _ _ [x] Hd). apply Permutation_app_tail. exact Hperm.
    + assert (Hfresh : ~ In (file_path x) (od_keys d)).
      { apply od_get_None_keys. exact Hd. }
      split; [apply od_set_keys_NoDup; exact Hnd|]. split.
      * intros k. rewrite Hfilter. destruct (String.eqb_spec (file_path x) k) as [<-|Hne].
        -- rewrite od_get_set_same.
           destruct (findings_of file_path (file_path x) done); [reflexivity|discriminate].
        -- rewrite od_get_set_other by congruence. rewrite app_nil_r. apply Hget.
      * rewrite od_set_fresh by exact Hfresh. unfold od_flatten, od_values.
        rewrite map_app, concat_app. cbn [map concat snd]. rewrite app_nil_r.
        apply Permutation_app_tail. exact Hperm.
Qed.

(** X21. [_group_findings_by_file] loses and invents nothing: the
    dictionary it returns has an entry exactly for the files that have a
    finding, the entry of a file holds the findings of that file in their
    original order, every finding is filed under its own path, and the
    entries together are a rearrangement of the list. *)
Theorem X21_group_findings_by_file (F : Type) (file_path : F -> string)
  (findings : list F) :
  let grouped := QualityCheckOrchestrator__group_findings_by_file file_path findings in
  (forall k, od_get grouped k
             = match findings_of file_path k findings with
               | [] => None
               | fs => Some fs
               end)
  /\ Forall (fun entry => Forall (fun f => file_path f = fst entry) (snd entry)) grouped
  /\ Permutation (od_flatten grouped) findings.
Proof.
  intros grouped.
  destruct (group_by_file_inv file_path findings) as (Hnd & Hget & Hperm).
  fold grouped in Hnd, Hget, Hperm.
  split; [exact Hget|]. split; [|exact Hperm].
  apply Forall_forall. intros [k fs] Hin. cbn [fst snd].
  pose proof (@od_get_own _ _ _ _ Hnd Hin) as Hk. rewrite Hget in Hk.
  assert (Hfs : fs = findings_of file_path k findings).
  { destruct (findings_of file_path k findings); [discriminate | congruence]. }
  rewrite Hfs. apply Forall_forall. intros f Hf.
  unfold findings_of in Hf. apply filter_In in Hf as [_ Hf].
  apply String.eqb_eq. exact Hf.
Qed.

(** *** The report of a result *)

Lemma od_set_keys_same (V : Type) (d : odict V) (k : string) (v : V) :
  In k (od_keys d) -> od_keys (od_set d k v) = od_keys d.
Proof.
  unfold od_keys. induction d as [|[k' v'] d IH]; intros Hin; [destruct Hin|].
  simpl. destruct (String.eqb_spec k' k) as [->|Hne]; [reflexivity|].
  simpl. f_equal. apply IH. destruct Hin as [Heq|Hin]; [contradiction | exact Hin].
Qed.

Lemma count_reported_ok (findings : list PerformanceFinding) :
  Forall (fun f => In (pf_severity f) REPORTED_SEVERITIES) findings ->
  forall counts,
    od_keys counts = REPORTED_SEVERITIES ->
    exists counts', count_reported findings counts = Ok counts'
                    /\ od_keys counts' = REPORTED_SEVERITIES.
Proof.
  unfold count_reported.
  induction 1 as [|f findings Hf _ IH]; intros counts Hkeys.
  - exists counts. split; [reflexivity | exact Hkeys].
  - cbn [for_each]. rewrite <- Hkeys in Hf.
    destruct (@od_get_key _ _ _ Hf) as [n Hn].
    unfold od_index. rewrite Hn. cbn [bind]. apply IH.
    rewrite od_set_keys_same by exact Hf. exact Hkeys.
Qed.

Lemma count_reported_raises (findings : list PerformanceFinding) (f : PerformanceFinding) :
  In f findings -> ~ In (pf_severity f) REPORTED_SEVERITIES ->
  forall counts,
    od_keys counts = REPORTED_SEVERITIES ->
    exists severity, count_reported findings counts = Raise (KeyError severity)
                     /\ ~ In severity REPORTED_SEVERITIES.
Proof.
  unfold count_reported.
  induction findings as [|g findings IH]; intros Hin Hbad counts Hkeys; [destruct Hin|].
  cbn [for_each]. unfold od_index at 1.
  destruct (od_get counts (pf_severity g)) as [n|] eqn:Hg.
  - cbn [bind]. destruct Hin as [->|Hin].
    + exfalso. apply Hbad. rewrite <- Hkeys. exact (@od_get_Some_key _ _ _ _ Hg).
    + apply IH; [exact Hin | exact Hbad |].
      rewrite od_set_keys_same; [exact Hkeys | exact (@od_get_Some_key _ _ _ _ Hg)].
  - exists (pf_severity g). split; [reflexivity|].
    rewrite <- Hkeys. apply od_get_None_keys. exact Hg.
Qed.

Lemma performance_report_ok (findings : odict (list PerformanceFinding)) :
  Forall (fun f => In (pf_severity f) REPORTED_SEVERITIES) (od_flatten findings) ->
  exists text, PerformanceValidator_format_findings_report findings = Ok text.
Proof.
  intros Hsev. unfold PerformanceValidator_format_findings_report.
  destruct findings as [|entry findings]; [eexists; reflexivity|].
  destruct (@count_reported_ok _ Hsev [("high", 0%Z); ("medium", 0%Z); ("low", 0%Z)])
    as (counts & Hcounts & Hkeys); [reflexivity|].
  unfold count_reported in Hcounts. rewrite Hcounts. cbn [bind].
  assert (Hget : forall k, In k REPORTED_SEVERITIES -> exists n, od_index counts k = Ok n).
  { intros k Hk. rewrite <- Hkeys in Hk. destruct (@od_get_key _ _ _ Hk) as [n Hn].
    exists n. unfold od_index. rewrite Hn. reflexivity. }
  destruct (Hget "high") as [h ->]; [simpl; tauto|].
  destruct (Hget "medium") as [m ->]; [simpl; tauto|].
  destruct (Hget "low") as [l ->]; [simpl; tauto|].
  eexists. reflexivity.
Qed.

Lemma performance_report_raises (findings : odict (list PerformanceFinding))
  (f : PerformanceFinding) :
  In f (od_flatten findings) -> ~ In (pf_severity f) REPORTED_SEVERITIES ->
  exists severity,
    PerformanceValidator_format_findings_report findings = Raise (KeyError severity)
    /\ ~ In severity REPORTED_SEVERITIES.
Proof.
  intros Hin Hbad. unfold PerformanceValidator_format_findings_report.
  destruct findings as [|entry findings]; [destruct Hin|].
  destruct (@count_reported_raises _ _ Hin Hbad
              [("high", 0%Z); ("medium", 0%Z); ("low", 0%Z)])
    as (severity & Hraise & Hsev); [reflexivity|].
  unfold count_reported in Hraise. rewrite Hraise. exists severity. auto.
Qed.

Lemma group_preserves (F : Type) (P : F -> Prop) (file_path : F -> string)
  (findings : list F) :
  Forall P findings ->
  Forall P (od_flatten (QualityCheckOrchestrator__group_findings_by_file file_path findings)).
Proof.
  intros H. apply Forall_forall. intros f Hf.
  destruct (group_by_file_inv file_path findings) as (_ & _ & Hperm).
  rewrite Forall_forall in H. apply H. exact (Permutation_in _ Hperm Hf).
Qed.

Section GenerateReport.
Context {rt : PythonRuntime}.

(** X22. [generate_report] returns a text for every result whose
    performance findings are high, medium or low, and in particular for
    every result of [validate_pr]; on a result with a performance finding
    of another severity it raises [KeyError] with such a severity, from
    the severity counter of [PerformanceValidator.format_findings_report]. *)
Theorem X22_generate_report (r : QualityCheckResult) :
  (Forall (fun f => In (pf_severity f) REPORTED_SEVERITIES) (performance_findings r) ->
   exists text, QualityCheckOrchestrator_generate_report r = Ok text)
  /\ (forall f,
         In f (performance_findings r) -> ~ In (pf_severity f) REPORTED_SEVERITIES ->
         exists severity,
           QualityCheckOrchestrator_generate_report r = Raise (KeyError severity)
           /\ ~ In severity REPORTED_SEVERITIES)
  /\ (forall self_mode pr_title pr_description changed_files old_files,
         QualityCheckOrchestrator_validate_pr self_mode pr_title pr_description
           changed_files old_files = Ok r ->
         exists text, QualityCheckOrchestrator_generate_report r = Ok text).
Proof.
  assert (Hok : Forall (fun f => In (pf_severity f) REPORTED_SEVERITIES)
                       (performance_findings r) ->
                exists text, QualityCheckOrchestrator_generate_report r = Ok text).
  { intros Hsev. unfold QualityCheckOrchestrator_generate_report.
    destruct (performance_findings r) as [|f fs] eqn:Hperf; [eexists; reflexivity|].
    destruct (@performance_report_ok
                (QualityCheckOrchestrator__group_findings_by_file pf_file_path (f :: fs)))
      as [text ->]; [apply group_preserves; exact Hsev|].
    eexists. reflexivity. }
  split; [exact Hok|]. split.
  - intros f Hin Hbad. unfold QualityCheckOrchestrator_generate_report.
    destruct (performance_findings r) as [|g fs] eqn:Hperf; [destruct Hin|].
    destruct (@performance_report_raises
                (QualityCheckOrchestrator__group_findings_by_file pf_file_path (g :: fs)) f)
      as (severity & -> & Hsev); [|exact Hbad|exists severity; auto].
    destruct (group_by_file_inv pf_file_path (g :: fs)) as (_ & _ & Hperm).
    exact (Permutation_in _ (Permutation_sym Hperm) Hin).
  - intros self_mode pr_title pr_description changed_files old_files Hrun.
    apply Hok.
    destruct (validate_pr_returns _ _ _ _ _ Hrun)
      as (arch & test & brk & _ & _ & _ & _ & _ & _ & _ & -> & _).
    apply validate_files_Forall. intros file_path content.
    eapply Forall_impl; [|apply PerformanceValidator_validate_file_located].
    intros f (_ & Hsev & _). exact Hsev.
Qed.

End GenerateReport.

Lemma X22_generate_report_witness :
  (exists r text,
      @QualityCheckOrchestrator_validate_pr demo_runtime "error" "feat: users" ""
        demo_changed (Some demo_old) = Ok r
      /\ QualityCheckOrchestrator_generate_report r = Ok text)
  /\ exists severity,
       QualityCheckOrchestrator_generate_report critical_performance_result
       = Raise (KeyError severity)
       /\ ~ In severity REPORTED_SEVERITIES.
Proof.
  split.
  - assert (Hrun : exists r,
               @QualityCheckOrchestrator_validate_pr demo_runtime "error" "feat: users" ""
                 demo_changed (Some demo_old) = Ok r).
    { eexists. vm_compute. reflexivity. }
    destruct Hrun as [r Hrun].
    destruct (proj2 (proj2 (@X22_generate_report demo_runtime r)) _ _ _ _ _ Hrun)
      as [text Htext].
    exists r, text. split; assumption.
  - apply (proj1 (proj2 (@X22_generate_report demo_runtime critical_performance_result))
             (mkPerformanceFinding "custom" "critical" "app/x.py" 1 "x = 1"
                "custom finding" "unknown" "none")).
    + left. reflexivity.
    + simpl. intuition discriminate.
Defined.

(** ** Changed signatures *)

Lemma signature_eqb_eq (a b : signature) : signature_eqb a b = true <-> a = b.
Proof.
  split; [|intros ->; apply signature_eqb_refl].
  unfold signature_eqb, list_string_eqb. intros H.
  apply andb_true_iff in H as [H Hr]. apply andb_true_iff in H as [H Hp].
  apply andb_true_iff in H as [Hs Hl].
  apply String.eqb_eq in Hs, Hr. apply Z.eqb_eq in Hl.
  destruct (list_eq_dec string_dec (sig_params a) (sig_params b)) as [Hpe|]; [|discriminate].
  destruct a, b; simpl in *; congruence.
Qed.

Lemma od_get_In_pair (V : Type) (d : odict V) (k : string) (v : V) :
  od_get d k = Some v -> In (k, v) d.
Proof.
  induction d as [|[k' v'] d IH]; simpl; [discriminate|].
  destruct (String.eqb_spec k' k) as [->|Hne]; intros H.
  - injection H as ->. left. reflexivity.
  - right. exact (IH H).
Qed.

Section SignatureFindings.
Context {rt : PythonRuntime}.

(** X23. On a file under [api] or [controllers] whose two versions are
    read, [APISignatureChangeCheck.check] reports a function of both
    versions as modified exactly when its two stored records differ, and
    the record holds the line of the definition: a function that only
    moved to another line is reported as a changed signature.  It reports
    a function as deleted exactly when the old version has it and the new
    one does not. *)
Theorem X23_api_signature_findings (file_path old new : string)
  (old_signatures new_signatures : odict signature) :
  Py.mem "api" (Py.path_parts file_path) || Py.mem "controllers" (Py.path_parts file_path)
  = true ->
  APISignatureChangeCheck__extract_signatures old = Ok old_signatures ->
  APISignatureChangeCheck__extract_signatures new = Ok new_signatures ->
  exists fs,
    APISignatureChangeCheck_check file_path (Some old) new = Ok fs
    /\ (forall name old_sig new_sig,
           od_get old_signatures name = Some old_sig ->
           od_get new_signatures name = Some new_sig ->
           (In (api_modified_finding file_path name old_sig new_sig) fs
            <-> old_sig <> new_sig))
    /\ (forall name old_sig new_sig,
           od_get old_signatures name = Some old_sig ->
           od_get new_signatures name = Some new_sig ->
           sig_line old_sig <> sig_line new_sig ->
           In (api_modified_finding file_path name old_sig new_sig) fs)
    /\ (forall name,
           In (api_deleted_finding file_path name) fs
           <-> In name (od_keys old_signatures) /\ ~ In name (od_keys new_signatures)).
Proof.
  intros Hpath Hold Hnew. unfold APISignatureChangeCheck_check.
  rewrite Hpath, Hold, Hnew. cbn [negb bind]. eexists. split; [reflexivity|].
  pose proof (@extract_signatures_NoDup _ _ _ Hold) as Hnd.
  assert (Hmod : forall name old_sig new_sig,
             od_get old_signatures name = Some old_sig ->
             od_get new_signatures name = Some new_sig ->
             (In (api_modified_finding file_path name old_sig new_sig)
                 (flat_map (fun '(func_name, old_sig) =>
                              match od_get new_signatures func_name with
                              | Some new_sig =>
                                  if negb (signature_eqb old_sig new_sig)
                                  then [api_modified_finding file_path func_name
                                          old_sig new_sig]
                                  else []
                              | None => []
                              end)
                           old_signatures
                  ++ map (api_deleted_finding file_path)
                       (set_iter (set_diff (od_keys old_signatures)
                                           (od_keys new_signatures))))
              <-> old_sig <> new_sig)).
  { intros name o n Ho Hn. split.
    - intros Hin Heq. subst n. apply in_app_or in Hin. destruct Hin as [Hin|Hin].
      + apply in_flat_map in Hin as [[name' o'] [Hin' Hin]].
        destruct (od_get new_signatures name') as [n'|] eqn:Hn'; [|destruct Hin].
        destruct (signature_eqb o' n') eqn:He; [destruct Hin|].
        destruct Hin as [Heq|[]]. unfold api_modified_finding in Heq.
        injection Heq as Hline Hname _ Hentry. subst name'.
        rewrite (@od_get_own _ _ _ _ Hnd Hin') in Ho. injection Ho as ->.
        rewrite Hn in Hn'. injection Hn' as <-.
        rewrite signature_eqb_refl in He. discriminate.
      + apply in_map_iff in Hin as [x [Heq _]]. discriminate.
    - intros Hne. apply in_or_app. left. apply in_flat_map.
      exists (name, o). split; [exact (@od_get_In_pair _ _ _ _ Ho)|].
      rewrite Hn. destruct (signature_eqb o n) eqn:He.
      + apply signature_eqb_eq in He. contradiction.
      + left. reflexivity. }
  split; [exact Hmod|]. split.
  - intros name o n Ho Hn Hline. apply (Hmod name o n Ho Hn). congruence.
  - intros name. split.
    + intros Hin. apply in_app_or in Hin. destruct Hin as [Hin|Hin].
      * apply in_flat_map in Hin as [[name' o'] [_ Hin]].
        destruct (od_get new_signatures name') as [n'|]; [|destruct Hin].
        destruct (negb _); [|destruct Hin]. destruct Hin as [Heq|[]]. discriminate.
      * apply in_map_iff in Hin as [x [Heq Hx]].
        unfold api_deleted_finding in Heq. injection Heq as Hname _ _. subst x.
        apply (proj1 (set_iter_In _ _)) in Hx. apply set_diff_In. exact Hx.
    + intros Hname. apply in_or_app. right. apply in_map.
      apply set_iter_In. apply set_diff_In. exact Hname.
Qed.

End SignatureFindings.

Lemma X23_api_signature_findings_witness :
  exists fs,
    @APISignatureChangeCheck_check sample_runtime "api/x.py" (Some "def f(a): pass")
      moved_f_py = Ok fs
    /\ In (api_modified_finding "api/x.py" "f" (mk_signature "(a)" 1 ["a"] "")
             (mk_signature "(a)" 2 ["a"] "")) fs.
Proof.
  destruct (@X23_api_signature_findings sample_runtime "api/x.py" "def f(a): pass"
              moved_f_py [("f", mk_signature "(a)" 1 ["a"] "")]
              [("f", mk_signature "(a)" 2 ["a"] "")])
    as (fs & Hrun & _ & Hmoved & _); [vm_compute; reflexivity ..|].
  exists fs. split; [exact Hrun|].
  apply Hmoved; [reflexivity | reflexivity | discriminate].
Defined.

(** ** Test coverage and asynchronous code *)

Section TestCoverageFindings.
Context {rt : PythonRuntime}.

(** X24. [TestCoverageValidator.validate_pr] splits the changeset without
    reordering it: the test files are the files whose path contains
    [test_] or [/tests/], the source files are the other files that end
    in [.py], and every other file is in neither part. *)
Theorem X24_split_of_changed_files (changed_files : odict string) :
  NoDup (od_keys changed_files) ->
  split_files changed_files
  = (filter (fun '(file_path, _) => is_source_path file_path) changed_files,
     filter (fun '(file_path, _) => is_test_path file_path) changed_files).
Proof.
  intros Hnd. unfold split_files.
  apply (@fold_left_prefix_inv _ _
           (fun done (s : odict string * odict string) =>
              NoDup (od_keys done) ->
              s = (filter (fun '(file_path, _) => is_source_path file_path) done,
                   filter (fun '(file_path, _) => is_test_path file_path) done)));
    [reflexivity | | exact Hnd].
  intros done [p c] [src tst] IH Hnd'.
  assert (Hdone : NoDup (od_keys done) /\ ~ In p (od_keys done)).
  { unfold od_keys in *. rewrite map_app in Hnd'. split.
    - exact (NoDup_app_remove_r _ _ Hnd').
    - intros Hin. apply NoDup_remove_2 in Hnd'. rewrite app_nil_r in Hnd'.
      exact (Hnd' Hin). }
  destruct Hdone as [Hnd0 Hfresh]. specialize (IH Hnd0). injection IH as -> ->.
  assert (Hkeys : forall (q : string * string -> bool),
             ~ In p (od_keys (filter q done))).
  { intros q Hin. apply Hfresh. unfold od_keys in *.
    apply in_map_iff in Hin as [[k v] [Hk Hin]]. apply filter_In in Hin as [Hin _].
    apply in_map_iff. exists (k, v). auto. }
  rewrite !filter_app. cbn [filter].
  replace (is_source_path p) with (negb (is_test_path p) && Py.endswith p ".py")
    by reflexivity.
  destruct (is_test_path p); cbn [negb andb].
  - rewrite od_set_fresh by apply Hkeys. rewrite ?app_nil_r. reflexivity.
  - destruct (Py.endswith p ".py").
    + rewrite od_set_fresh by apply Hkeys. rewrite ?app_nil_r. reflexivity.
    + rewrite ?app_nil_r. reflexivity.
Qed.

Lemma function_of_node_public (node : ast_node) (name : string) (line : Z) :
  In (name, line) (function_of_node node) -> Py.startswith name "_" = false.
Proof.
  destruct node; cbn [function_of_node]; intros Hin; try (destruct Hin; fail).
  all: match type of Hin with
       | context [Py.startswith ?n "_"] => destruct (Py.startswith n "_") eqn:Hs
       end; cbn [negb] in Hin; [destruct Hin|];
    destruct Hin as [Heq|[]]; injection Heq as <- _; exact Hs.
Qed.

Lemma extract_functions_public (content : string) (functions : list (string * Z))
  (name : string) (line : Z) :
  NewFunctionsHaveTestsCheck__extract_functions content = Ok functions ->
  In (name, line) functions -> Py.startswith name "_" = false.
Proof.
  unfold NewFunctionsHaveTestsCheck__extract_functions. intros H Hin.
  apply catch_ok in H as [H|[_ H]].
  - apply bind_ok in H as [nodes [_ H]]. apply Ok_inj in H. subst functions.
    apply in_flat_map in Hin as [node [_ Hin]].
    exact (function_of_node_public _ _ _ Hin).
  - apply Ok_inj in H. subst functions. unfold functions_by_regex in Hin.
    apply in_flat_map in Hin as [[n l] [_ Hin]].
    destruct (Re.match_m _ _) as [m|]; [|destruct Hin].
    destruct (Re.group m 1) as [g|]; [|destruct Hin].
    destruct (Py.startswith g "_") eqn:Hs; cbn [negb] in Hin; [destruct Hin|].
    destruct Hin as [Heq|[]]. injection Heq as <- _. exact Hs.
Qed.

(** X25. A finding of [NewFunctionsHaveTestsCheck.check] for a file is
    either the single finding for a file with functions and no test file,
    or it names a public function of the file, with its line, for which
    the test file that was found has no [def test_<name>(]; a function
    whose name starts with an underscore and a file that is skipped are
    never reported. *)
Theorem X25_new_function_findings (test_files : odict string) (file_path content : string)
  (fs : list TestCoverageFinding) (f : TestCoverageFinding) :
  new_functions_file test_files file_path content = Ok fs ->
  In f fs ->
  tf_file_path f = file_path
  /\ NewFunctionsHaveTestsCheck__should_skip_file file_path = false
  /\ Py.startswith (tf_function_name f) "_" = false
  /\ exists functions,
       NewFunctionsHaveTestsCheck__extract_functions content = Ok functions
       /\ ((tf_function_name f = "(all functions)" /\ fs = [f] /\ functions <> []
            /\ truthy (NewFunctionsHaveTestsCheck__find_test_file file_path test_files)
               = false)
           \/ (exists test_path test_content,
                  NewFunctionsHaveTestsCheck__find_test_file file_path test_files
                  = Some test_path
                  /\ od_get test_files test_path = Some test_content
                  /\ In (tf_function_name f, tf_line_number f) functions
                  /\ NewFunctionsHaveTestsCheck__has_test_for_function
                       (tf_function_name f) test_content = false)).
Proof.
  unfold new_functions_file. intros Hrun Hin.
  destruct (NewFunctionsHaveTestsCheck__should_skip_file file_path) eqn:Hskip.
  { apply Ok_inj in Hrun. subst fs. destruct Hin. }
  apply bind_ok in Hrun as [functions [Hfun Hrun]].
  destruct (truthy (NewFunctionsHaveTestsCheck__find_test_file file_path test_files))
    eqn:Htruthy; cbn [negb] in Hrun.
  - destruct (NewFunctionsHaveTestsCheck__find_test_file file_path test_files)
      as [test_path|] eqn:Hfind; [|discriminate].
    apply bind_ok in Hrun as [test_content [Hidx Hrun]]. apply Ok_inj in Hrun. subst fs.
    apply in_flat_map in Hin as [[name line] [Hname Hin]].
    destruct (NewFunctionsHaveTestsCheck__has_test_for_function name test_content)
      eqn:Htest; cbn [negb] in Hin; [destruct Hin|].
    destruct Hin as [<-|[]]. cbn [tf_file_path tf_function_name tf_line_number].
    split; [reflexivity|]. split; [reflexivity|].
    split; [exact (@extract_functions_public _ _ _ _ Hfun Hname)|].
    exists functions. split; [exact Hfun|]. right.
    exists test_path, test_content. repeat split; auto.
    unfold od_index in Hidx. destruct (od_get test_files test_path); [|discriminate].
    apply Ok_inj in Hidx. subst. reflexivity.
  - destruct functions as [|fn functions]; apply Ok_inj in Hrun; subst fs;
      [destruct Hin|].
    destruct Hin as [<-|[]]. cbn [tf_file_path tf_function_name].
    split; [reflexivity|]. split; [reflexivity|]. split; [reflexivity|].
    eexists. split; [exact Hfun|]. left. repeat split. discriminate.
Qed.

(** X26. Every finding of [AsyncPatternsCheck.check] comes from a match of
    the pattern of a synchronous library in the content, on a line inside
    one of the spans of [_find_async_functions].  When the content
    parses, the span is that of an [async def] of the syntax tree, from
    its [lineno] to its [end_lineno].  When the content does not parse,
    the span is a guess: the twenty-one lines from a line that begins
    with [async def] and a name, whatever the function's real extent, so
    the finding can lie in code that follows the function.  A file
    without such a span gets no finding. *)
Theorem X26_async_finding_inside_async_span (file_path content : string)
  (fs : list ArchitectureFinding) (f : ArchitectureFinding) :
  AsyncPatternsCheck_check file_path content = Ok fs ->
  In f fs ->
  (exists lib_name lib m,
      In (lib_name, lib) SYNC_LIBRARIES
      /\ In m (Re.finditer false (lib_pattern lib) content)
      /\ af_line_number f = line_of_offset content (Re.m_start m)
      /\ af_message f = lib_message lib)
  /\ ((exists nodes name args returns lineno end_lineno,
          ast_nodes content = Ok nodes
          /\ In (AsyncFunctionDef name args returns lineno end_lineno) nodes
          /\ (lineno <= af_line_number f <= end_or_start end_lineno lineno)%Z)
      \/ (ast_nodes content = Raise SyntaxError
          /\ exists i line,
               In (i, line) (Py.enumerate 1 (Py.split_lines content))
               /\ Re.match_ "async\s+def\s+(\w+)" line = true
               /\ (i <= af_line_number f <= i + 20)%Z)).
Proof.
  unfold AsyncPatternsCheck_check. intros Hrun Hin.
  apply bind_ok in Hrun as [async [Hasync Hrun]].
  destruct async as [|a async]; apply Ok_inj in Hrun; subst fs; [destruct Hin|].
  apply in_flat_map in Hin as [[lib_name lib] [Hlib Hin]].
  apply in_flat_map in Hin as [m [Hm Hin]].
  destruct (AsyncPatternsCheck__is_in_async_function _ _) eqn:Hinside; [|destruct Hin].
  destruct Hin as [<-|[]]. cbn [af_line_number af_message].
  split; [exists lib_name, lib, m; repeat split; auto|].
  unfold AsyncPatternsCheck__is_in_async_function in Hinside.
  apply existsb_exists in Hinside as [[[start end_] name] [Hfn Hrange]].
  apply andb_true_iff in Hrange as [Hs He].
  apply Z.leb_le in Hs, He.
  unfold AsyncPatternsCheck__find_async_functions in Hasync.
  apply catch_ok in Hasync as [Hparsed|[Hraise Hguess]].
  - left. apply bind_ok in Hparsed as [nodes [Hnodes Hspans]].
    apply Ok_inj in Hspans. rewrite <- Hspans in Hfn.
    apply in_flat_map in Hfn as [node [Hnode Hspan]].
    destruct node; cbn [async_of_node] in Hspan; try (destruct Hspan; fail).
    destruct Hspan as [Hspan|[]]. injection Hspan as <- <- <-.
    exists nodes, name0, args, returns, lineno, end_lineno. repeat split; auto.
  - right. split.
    + destruct (ast_nodes content) as [nodes|e]; [discriminate Hraise|].
      cbn [bind] in Hraise. injection Hraise as ->. reflexivity.
    + apply Ok_inj in Hguess. rewrite <- Hguess in Hfn.
      apply in_flat_map in Hfn as [[i line] [Hline Hspan]].
      destruct (Re.match_ "async\s+def\s+(\w+)" line) eqn:Hmatch; [|destruct Hspan].
      destruct Hspan as [Hspan|[]]. injection Hspan as <- <- _.
      exists i, line. repeat split; auto.
Qed.

End TestCoverageFindings.

Lemma X24_split_of_changed_files_witness :
  split_files mixed_changeset
  = ([("src/users.py", "def get_user(user_id): pass")],
     [("tests/test_users.py", "def test_other(): pass")]).
Proof.
  rewrite X24_split_of_changed_files; [vm_compute; reflexivity|].
  repeat constructor; simpl; intuition discriminate.
Defined.

Lemma X25_new_function_findings_witness :
  exists f,
    @new_functions_file demo_runtime [("tests/test_users.py", "def test_other(): pass")]
      "src/users.py" "def get_user(user_id): pass" = Ok [f]
    /\ tf_function_name f = "get_user" /\ tf_line_number f = 1%Z
    /\ Py.startswith (tf_function_name f) "_" = false.
Proof.
  assert (Hrun : exists f,
             @new_functions_file demo_runtime
               [("tests/test_users.py", "def test_other(): pass")]
               "src/users.py" "def get_user(user_id): pass" = Ok [f]
             /\ tf_function_name f = "get_user" /\ tf_line_number f = 1%Z).
  { eexists. split; [vm_compute; reflexivity|]. split; reflexivity. }
  destruct Hrun as (f & Hrun & Hname & Hline).
  destruct (@X25_new_function_findings demo_runtime _ _ _ _ f Hrun) as (_ & _ & Hpublic & _);
    [left; reflexivity|].
  exists f. repeat split; assumption.
Defined.

Lemma X26_async_finding_inside_async_span_witness :
  (exists f,
      @AsyncPatternsCheck_check sample_runtime "app/client.py" async_fetch_py = Ok [f]
      /\ af_line_number f = 2%Z
      /\ exists nodes name args returns lineno end_lineno,
           @ast_nodes sample_runtime async_fetch_py = Ok nodes
           /\ In (AsyncFunctionDef name args returns lineno end_lineno) nodes
           /\ (lineno <= af_line_number f <= end_or_start end_lineno lineno)%Z)
  /\ (exists f,
        @AsyncPatternsCheck_check sample_runtime "app/client.py" broken_async_py = Ok [f]
        /\ af_line_number f = 4%Z
        /\ line_numbered broken_async_py 3 = Some "def b():"
        /\ exists i line,
             In (i, line) (Py.enumerate 1 (Py.split_lines broken_async_py))
             /\ Re.match_ "async\s+def\s+(\w+)" line = true
             /\ (i <= af_line_number f <= i + 20)%Z).
Proof.
  split.
  - assert (Hrun : exists f,
               @AsyncPatternsCheck_check sample_runtime "app/client.py" async_fetch_py
               = Ok [f] /\ af_line_number f = 2%Z).
    { eexists. split; vm_compute; reflexivity. }
    destruct Hrun as (f & Hrun & Hline).
    destruct (@X26_async_finding_inside_async_span sample_runtime _ _ _ f Hrun)
      as [_ [Hparsed | [Hraise _]]]; [left; reflexivity | | vm_compute in Hraise; discriminate].
    exists f. split; [exact Hrun|]. split; [exact Hline | exact Hparsed].
  - assert (Hrun : exists f,
               @AsyncPatternsCheck_check sample_runtime "app/client.py" broken_async_py
               = Ok [f] /\ af_line_number f = 4%Z).
    { eexists. split; vm_compute; reflexivity. }
    destruct Hrun as (f & Hrun & Hline).
    destruct (@X26_async_finding_inside_async_span sample_runtime _ _ _ f Hrun)
      as [_ [(nodes & name & args & returns & lineno & end_lineno & Hparsed & _)
            | [_ Hguess]]];
      [left; reflexivity | vm_compute in Hparsed; discriminate |].
    exists f. split; [exact Hrun|]. split; [exact Hline|].
    split; [vm_compute; reflexivity | exact Hguess].
Defined.
